(* ===== verification/_CoqProject ===== *)
-Q . S2P
Prelude.v
JsNumber.v
JsString.v
JsValue.v
Collections.v
ArraySort.v
Calendar.v
RefHost.v
Base64.v
Json.v
Api.v
Legacy.v
View.v
Leads.v
Filters.v
Dates.v
Facets.v
Grouping.v
Chats.v
Dashboard.v
Wire.v
Conversation.v
Middleware.v
Token.v
Routes.v
FilterPanel.v
Login.v
Shell.v
ConversationView.v
FilterView.v
ChatsPage.v
ChatsApp.v
DashboardView.v
Polling.v
Session.v
