(* ===== verification/Prelude.v ===== *)
(** * crm-bot operator console: a verification development

    ** The program

    The repository is the Next.js front end of a console for lead outreach.
    It keeps a snapshot of leads fetched from a backend, filters and groups
    them, and sends WhatsApp messages to one lead or to a selection.  Its
    logic is in these TypeScript modules:

    - [src/frontend/src/types/leads.ts]: the record shapes.
    - [src/frontend/src/lib/leads.ts]: [deriveFilterOptions] (the options of
      the filter panel), [applyLeadFilters] (the composite filter),
      [groupByDateAdded] and [groupByLastOutreach] (the grouped views).
    - [src/frontend/src/lib/dates.ts], lines 1-59: [formatDayHeader] and the
      other labels.  The same file carries, from line 79, [DashboardPage]:
      the selection and the pending set, the single and the bulk send.
    - [src/frontend/src/lib/api.ts]: [BASE_URL], [request] and the seven
      endpoints.  [src/unnamed/part_000] is an earlier copy of it.
    - [src/frontend/src/pages/chats.tsx]: the conversation list.
    - [src/frontend/src/pages/login.tsx]: [LoginPage] (lines 7-98) and,
      from line 104, [ConversationPanel], the message stream of one lead
      with its reply box.  [src/unnamed/part_001] is an earlier copy of
      the login page.
    - [src/unnamed/part_002] and [src/unnamed/part_003]: the components
      [PageShell], the frame of every page with the navigation and the
      log-out button, and [InlineNotice].
    - [src/frontend/src/components/LeadFilters.tsx]: the form that edits
      the filters.
    - [src/frontend/middleware.ts]: the guard that sends a request without
      a live token to the login page, and the matcher of the requests
      that reach it.
    - [src/frontend/next.config.mjs]: the rewrite of [/api] to the
      backend.  [lib/dates.ts], lines 65-78: the history page, a
      redirection.

    The filter and the facets read the open payload [crm_raw] of a lead; the
    groups read dates; the pages apply the filter to the snapshot, group or
    sort the result, and call the endpoints from their handlers.  The form
    hands the filters to its page through two callbacks; the panel asks
    its page to refresh the leads through a third.  The guard reads the
    token cookie that the backend sets at login and that the log-out
    button removes.

    ** The files

    Supporting definitions, for what the code calls from the runtime:

    - [Prelude] (this file): [result E A], the type of a computation that
      may throw, with stdpp's monad notation; the hint databases [crm] and
      [crm_bool]; facts on lists that several files use.
    - [JsNumber]: numbers as [NaN], the two infinities, or an exact
      rational; comparison, subtraction, truthiness, and how a sort reads a
      comparator's result.  [num_equiv] is equality of values, with
      [Proper] instances for the operations.
    - [JsString]: [trim], [includes], [startsWith], truthiness.
    - [JsValue]: JSON values with objects as [gmap string value], the
      exceptions [exn], the coercions, and the class [Host]: string to
      number, number to string, collation (with its order laws), case
      mapping, [parseISO], [Date.parse] and the offset of the local clock.
      Every function of the console is defined and proved over an arbitrary
      [Host].
    - [Collections]: [Set] and [Map] as lists in insertion order over the
      class [KeyEq]; buckets ([map_push]) and what they hold ([members]).
    - [ArraySort]: [Array.prototype.sort] as a stable insertion sort
      [js_sort], characterised for a [Consistent] comparator as the one
      stable sorted permutation.
    - [Calendar]: civil dates from day numbers and back, with round trips.
    - [RefHost]: an executable [Host] with a fixed offset from UTC, used by
      the examples and the witnesses.
    - [Base64]: [atob], the forgiving base64 decoder, with the encoder it
      inverts and the base64url form a token carries.
    - [Json]: [JSON.parse] as a parser on fuel and [JSON.stringify], with
      the round trip between them.
    - [View]: what a component renders, as a tree of elements whose
      handlers are events of the page ([node E]); [clicks], [changes],
      [picks] and [submits] are the handlers a user can reach, as the
      browser decides (a disabled control, the options of a select, the
      constraints of a form); [offered] gathers them, and is computed
      part by part ([offered_Elem], the tactic [offers]); [holds] is the
      summary of a part of a form; [same_shape] is equality up to class
      names, with [Proper] instances.

    The console, one file per part, definitions named as in the source:

    - [Leads]: the records of [types/leads.ts] and of [lib/leads.ts],
      [toNumber], [getFromRaw], [extractLabel].
    - [Filters]: [applyLeadFilters] and its callback [leadMatches], one
      definition per clause in the order of the source.
    - [Dates]: [ensureDate], [formatDayHeader], [formatFullDateTime],
      [formatMessageTimestamp] over a model of the date-fns calls.
    - [Api]: [BASE_URL], [request] and the endpoints.  The transport is a
      parameter that takes the URL and the options ([fetch_init]) and
      acts on a world; a body is the text [JSON_stringify] prints.
    - [Legacy]: the earlier copy of the wrapper ([legacy_request] and its
      endpoints over [legacy_BASE_URL]).
    - [Facets]: [deriveFilterOptions]; the state of its pass is
      [FacetState], the body of its [forEach] is [scan_lead].
    - [Grouping]: the two grouping functions; the [for] loop is
      [bucket_loop] with the [Map] as its state.
    - [Chats]: the helpers and the three lists of [ChatsPage].
    - [Dashboard]: [DashboardPage].  [PageState] is the state of its
      hooks and [Swr] what the snapshot hook returns; an effect or a
      handler is a function on [PageState]; an asynchronous handler is cut
      at its [await]s into phases.  [handleSingleSend] and
      [handleBulkSend] run the phases in order against a backend that
      passes a world along; [step] is the transition system in which
      handlers in flight ([Task]), effects, snapshot changes and the
      log-out of the frame interleave.
    - [Wire]: the handlers of [Dashboard] over the endpoints of [Api] on
      a transport that records its calls; [swr_mutate] is the refresh of
      the hook, its fetcher run again.  [alike] is the simulation
      between two backends.
    - [Conversation]: [ConversationPanel].  [PanelState] is its draft and
      its error; [handleSend] and the mark-read effect run against a
      backend that records its calls; [pstep] is the panel under a page
      that renders again and again.
    - [Middleware]: [isJwtExpired] and [middleware].  [atob] and
      [JSON.parse] are the class [Decoder]; [follow] is the browser that
      requests the target of a redirection.
    - [Token]: the class [Decoder] filled with [Base64.atob] and
      [Json.JSON_parse]; [token_of] writes a token as its issuer does.
    - [Routes]: [matcher], the pattern of [config]; [guard], the guard
      behind it; [rewrites] and [proxied], the rewrite of the build
      configuration; [getServerSideProps] of the history page.
    - [FilterPanel]: [LeadFiltersPanel].  [FiltersForm] is its state,
      [edit] the [onChange] of each input, [form_step] the form under its
      page.
    - [Login]: [LoginPage]: its state, its effect on the cookie string,
      [handleSubmit], the tree it renders and, as [legacy_LoginPage], the
      tree its earlier copy renders.  [login_step] is the page in time:
      events come through the tree, and a login in flight settles later.
    - [Shell]: [PageShell] and [InlineNotice] as trees; [handleLogout],
      the handler of the log-out button, on a [Browser] (cookie jar and
      location).
    - [ConversationView]: the element [ConversationPanel] returns, with
      the row of each message; its handlers are parameters, and
      [panel_event] is what they do to the state of [Conversation].
    - [FilterView]: the form [LeadFiltersPanel] returns, one definition
      per fieldset; [form_event] is what its handlers do to the state of
      [FilterPanel].
    - [ChatsPage]: the page of [chats.tsx]: its state, the effect on a
      401, [getInitials], the tree it renders inside [PageShell] with
      the row of each lead ([chats_tree]), and the page in time
      ([chats_step]).  The two panels are components the page is given,
      functions from their props to what they render; [Panels] is what
      the page needs of them, and they may differ from one step to the
      next, as their own state does.
    - [ChatsApp]: the page of [chats.tsx] with [LeadFiltersPanel] and
      [ConversationPanel] in its tree.  [AppState] is the state of the
      three components and of the two hooks; [app_after] runs the handler
      of an event in the component that owns it, mounts and unmounts, and
      runs the effects of the render that follows; [app_step] is the
      assembled page in time.
    - [DashboardView]: the element [DashboardPage] returns, with the card
      of each lead, the form and the panel in their states; [queue_after]
      is what each handler of the tree does to the page of [Dashboard].
    - [Polling]: the options the three calls of [useSWR] pass, translated
      from the code, and the hook they configure, written from sections
      4.4, 4.6 and 5 of the specification: [Hook] holds the snapshot, the
      error and the requests in flight by their number of issue,
      [trigger] and [settle] are its transitions.  [polled_step] is the
      page of [Dashboard] over such a hook and [panel_polled_step] the
      panel of [Conversation] over the hook of its messages.
    - [Session]: the guard, the effect and [handleSubmit] of the login
      page, the 401 effect of the two pages and the log-out button on one
      browser: [navigate] follows the redirections of [Routes.guard],
      [session_after] is what each event does to the jar and to the page
      in the browser, [document_cookie] the text a script reads of the
      jar.

    ** What is proved

    - [Filters]: a lead passes exactly when each of the seven clauses
      accepts it ([leadMatches_iff], each clause with its own
      specification); the result is the input without the leads that a
      clause refuses, each other lead in its place
      ([applyLeadFilters_keeps]); the boundaries of rooms and budget; two
      behaviours the specification does not expect: an identifier 0
      never matches, and a date without a time is read at UTC midnight
      while the bounds of the range are read on the local clock, so that
      for every day and every zone the lead of the first day is dropped
      west of Greenwich ([date_filter_depends_on_zone], over
      [RefHost.read_iso_midnight]).
    - [Facets]: a lookup among the options finds the first label seen for
      an identifier; options are sorted by label and have distinct
      identifiers; the catalogue is offered only when no lead carries a
      property type.
    - [Grouping]: when every date is empty or parses, the result is
      [groups_of]: one group per label in order of first occurrence among
      the sorted leads.  The groups partition the leads.  When every date
      parses, the leads of a group stand newest first and so do the first
      leads of the groups.  One date that is not empty and does not parse
      makes both functions throw.  A date that does not parse compares
      equal to every date.
    - [Dates]: the label of a valid date depends on its local day only.
    - [Json], [Base64]: parsing the text of a value gives the value back
      ([JSON_parse_stringify], for values whose numbers are integers a
      double holds); what [JSON_parse] returns is a value of JSON;
      [atob] inverts [encode] and rejects what is not ASCII.
    - [Api]: when [request] resolves and with what ([request_resolves]),
      and what it rejects with; a 401 reaches every caller as such; each
      posting endpoint sends one request whose
      body parses back to what it was given ([post_bodies_round_trip]);
      the headers of a caller replace the merged ones.
    - [Legacy]: the two copies of the wrapper are the same endpoints
      exactly when the variable of the build is set.
    - [Chats]: the list is the stable sort by last activity of the leads
      that pass filter and search; the comparator never sees [NaN].
    - [Dashboard]: from every state the page can come to rest: the
      requests in flight settle and a poll ends, after which nothing is
      pending ([page_can_rest]).  A bulk run sends in the order of the selection, counts
      what settles, refreshes once if a send resolved, and leaves pending
      set and selection empty; a single send always removes its pending
      mark.  In every reachable state the selection and the pending set
      have no duplicate and the selection is within the leads on display
      ([reachable_page_wf], by induction on [step]).  A poll that ends
      while a send is in flight clears the pending set, and a second send
      to the same lead is reachable ([reentrant_send_reachable]).  A bulk
      run is a path of [step] ([handleBulkSend_is_path]), so what holds
      of every reachable state holds of the state a run leaves.
    - [Wire]: two backends that settle alike leave the same page
      ([handleBulkSend_alike], [handleSingleSend_alike]); the endpoints
      on a recording transport are alike the backend that records sends
      and refreshes, so a bulk run on the wire is the run of [Dashboard]
      and its requests are the calls proved there
      ([handleBulkSend_on_the_wire]).
    - [Conversation]: a reply that resolves sends the trimmed draft, then
      refreshes the messages, then the leads, and empties the draft; a
      reply that is rejected keeps the draft and shows the error.  Marking
      read is requested once for every render of the page while the panel
      is open ([mark_read_every_render], by induction on [pstep]).
    - [Middleware]: a page other than the login page is served only to a
      token that is not empty and not expired; a chain of redirections
      has at most two links; a token without a truthy [exp] never
      expires; an expired token stays expired.
    - [Token]: on the decoder of the runtime the guard reads the claims a
      token carries ([isJwtExpired_try_token]); a token issued with an
      expiry counts as expired exactly when the expiry lies before the
      clock ([isJwtExpired_issued]).
    - [Routes]: behind its matcher the guard lets through unread only
      paths that end in a dot and a name ([guard_unfold]); a request that
      the proxy takes never reaches the guard; in a build without the
      variable, the browser and the server reach the same URL of the
      backend ([browser_reaches_backend]).
    - [FilterPanel]: in every reachable state of the form the selected
      property types are distinct values of the catalogue
      ([form_reachable_ok], by induction on [form_step]); a toggle flips
      the membership of its value and of no other.
    - [Login]: what [handleSubmit] leaves when the password is accepted
      and when it is rejected; when the effect leaves the page; what the
      page offers ([LoginPage_offers]: a submit needs an enabled button
      and a password of six code units); in every reachable state at
      most one login is in flight and the route is replaced at most once
      ([login_reachable_ok], by induction on [login_step]); a run of
      [handleSubmit] is a path of [login_step]; the earlier page has the
      shape of the present one.
    - [Shell]: exactly one item of the navigation is marked on each page;
      the frame adds the log-out button to what a page offers; after
      logging out the guard sends every guarded request to the login
      page ([logout_guarded]), unless the cookie is HttpOnly, in which
      case nothing changes ([logout_http_only]).
    - [ConversationView]: the rows of the messages offer nothing; the
      panel renders exactly when the time of every message can be shown;
      it lets the user close, type, and send when the trimmed draft is
      not empty and no send is in flight ([ConversationPanel_offers]);
      what it offers is a step of [pstep].
    - [FilterView]: the handlers of each fieldset ([holds]); what the
      form lets a user do ([LeadFiltersPanel_offers]): a region or a
      zone is picked among the options on display, and the form is
      submitted only when the bounds of the budget are whole numbers
      from 0; what the form offers is a step of [form_step].
    - [ChatsPage]: what a render offers, handler by handler
      ([ChatsPage_offers]); the page renders exactly when the time of
      every lead on display can be shown, the notice of the error
      renders and the panels on display render ([ChatsPage_is_ok]); a
      lead is opened from the list on
      display and the filters change through their open panel
      ([opened_from_display], [filters_change_through_panel], for panels
      that keep [Panels]); the open conversation keeps the lead as it
      was when opened; the branch of [getInitials] for an empty list of
      words is never taken.

    - [ChatsApp]: the components keep the contract of the page, so that
      every step of the assembled page is a step of [chats_step] or
      leaves the page ([app_step_page]), and for the
      form a step of
      [form_step] ([app_refines_form]); a component has a state exactly
      while it is in the tree and the filters in force stay well formed
      ([app_filters_ok]); what the assembled page offers and when it
      renders ([app_view_offers], [app_view_is_ok]); marking read is
      requested at every render of the panel whichever lead is open;
      opening another lead keeps the draft of the panel
      ([open_lead_keeps_draft]), and a reply typed under one lead is sent
      to another ([reply_reaches_other_lead]).
    - [DashboardView]: what the card of a lead, a section and the page
      offer ([DashboardPage_offers]); every event the tree offers is a
      transition of [Dashboard.step] or an event of a control of a panel
      ([queue_offered_is_step]); the page renders exactly when every card
      and every message can be written ([DashboardPage_is_ok]).
    - [Polling]: the requests in flight of a hook were issued, each once
      ([hook_reachable_ok]); a hook whose triggers collapse has one
      request in flight at most and a burst of triggers issues one
      ([one_request_in_flight], [refresh_deduplicated]); a result issued
      before the one on display is discarded, a failure keeps the
      snapshot ([stale_result_discarded], [snapshot_retained]); what is in
      flight can settle ([hook_can_rest]).  The dashboard over its hook
      reaches only states of [Dashboard.step] and shows what the hook
      holds ([polled_over_hook]), and the send to a lead can be started
      twice with no more than a poll in between
      ([polled_reentrant_send]); the refresh after a reply is a second
      request and its result stays on display ([reply_refresh_wins],
      [reply_during_poll]).
    - [Session]: a navigation ends after one redirection at most, on a
      page that the guard serves ([navigate_landing], [landing_served]);
      in every state of a session the page in the browser is one the
      guard does not read the cookie for, the login page, or a page
      served to a token that had not expired ([session_guarded]); a 401
      with such a token in the jar ends on the dashboard, not on the
      login page ([unauthorized_bounces]); logging out deletes the
      cookie and lands on the login page when scripts can write the
      cookie, and changes nothing when they cannot
      ([logout_signs_out], [http_only_session_sticks]); the text of
      [document.cookie], split again, gives the cookies back, and the
      effect of the login page leaves exactly when the jar holds a token
      cookie that scripts can read, whatever its value
      ([split_join_cookies], [login_effect_iff]).

    ** Conventions and limits

    - Numbers are exact: a [Fin q] is the rational [q].  Rounding of
      floating point is not modelled; the console compares and subtracts
      identifiers, prices, room counts and millisecond instants, which are
      exact in a double below 2^53.  There is one zero.
    - Strings are sequences of bytes, read as UTF-8.  The length in
      UTF-16 code units, which [minLength] counts, is [utf16_length]; the
      code units a [slice] or an index takes are [utf16_take], where the
      half of a surrogate pair is written in three bytes.
    - [None] stands for both [undefined] and [null] in an optional field;
      the code tells them apart nowhere.
    - The local clock is a fixed offset from UTC ([tzOffsetMs]); daylight
      saving changes are not modelled.
    - The sort is a stable insertion sort.  For a consistent comparator
      every stable sort returns the same list.  [by_date_added] is not
      consistent when a date is empty or does not parse: the comparator
      returns [NaN], which the sort reads as equal, and the order an
      engine gives is then its own; the model fixes the order of the
      stable insertion sort.  [groupByDateAdded_groups] admits empty
      dates and is about that order; theorems that say which lead stands
      first assume that every date parses.
    - [format_fields] takes the length of the pattern as fuel; every round
      consumes a byte, and [format_fields_fuel] shows that more fuel
      changes nothing.  [trimStart] is fuelled by the length of the string
      in the same way.  The calendar checks by computation range over the
      400 years of one era, the 366 days of a year and the 12 x 31 pairs of
      month and day.
    - The SWR hook and React are not code of the repository.  In
      [Dashboard], [Chats] and [ChatsApp] the snapshot hook is an input:
      [step_snapshot] lets it return any new state, [step_filters] lets
      the form hand over any filters, and a step of [chats_step] ranges
      over every pair of panels that keeps [Panels].  These relations
      admit more than the console does: what is proved of all their
      states and steps holds of the console, and the one state that is
      shown to be reachable, the send started twice, is reached again in
      [Polling] with the snapshots that polls of the hook produce
      ([polled_reentrant_send]).  [Wire.swr_mutate] takes
      [mutate()] as the specification describes [refresh()]: the fetcher
      issued again, its outcome returned.  [Polling] restricts
      it to what the specification says of the hook.  There time is not
      modelled: that an interval has elapsed is an event, and a request
      settles at any moment with any result.  The promise of a [mutate]
      is not tied to the request it issued: the handler that awaits it
      resumes at any moment, as in [Dashboard.step].
      Effects run after the change they depend on; the two effects that
      are idempotent are run at every render.  The page is assumed to
      render, that is, [groupByDateAdded] is assumed not to throw.
    - [atob] and [JSON.parse] are parameters ([Decoder]) in [Middleware]
      and the functions of [Base64] and [Json] in [Token].  [atob]
      rejects a string that is not ASCII, so that the length of a payload
      in bytes is its length in code units wherever the padding matters.
    - [Json.parse_value] recurses on fuel; [JSON_parse] gives it the
      length of the text plus one.  [need] bounds the fuel that the text
      of a value takes by the length of the text ([plain_printed]), so
      the fuel is enough for every text that [JSON_stringify] prints.
      [JSON_stringify] prints the members of an object in the order of
      the map, the runtime in the order of insertion; a parser does not
      see the difference.  Escapes of lone surrogates are outside the
      model.
    - In [Session] a navigation of the router passes the guard as a
      request of the address bar does, the clock does not move within a
      navigation, and a name or a value of a cookie holds no semicolon
      ([jar_ok]).  The three requests that [navigate_from] has as fuel
      are one more than a navigation takes.
    - A cookie jar maps a name to a value and the HttpOnly flag.
      Assigning [document.cookie] removes a cookie when the text carries
      the expiry of the epoch, the only expiry the sources write.
    - [task_weight] bounds the steps a handler in flight is from its end;
      [page_can_rest] follows the requests in the order they wait.
    - The matcher is read as a regular expression against the whole path;
      a rewrite pattern is matched only in the form the configuration
      uses, a prefix followed by [/:path*].
    - A value that React is given as a child is modelled by
      [child_nodes]: an object is refused with [invalid_child].
    - A select raises its [onChange] on the values of its options and on
      nothing else; an input of type number is valid when its value is
      empty or a whole number of steps of 1 from its minimum
      ([in_steps]); a form with an input that is not valid is not
      submitted.
    - What a tree offers does not depend on what is on top of what on the
      screen: a button under the overlay of the conversation panel is
      still within reach of the keyboard.
    - In [ChatsApp] an event that sets the state of the page counts as a
      render of the page, also when the state it sets is the one in
      force; the requests of a panel that was taken away are dropped.
    - Not modelled: the scroll effect of the panel and the clipboard,
      which act on the DOM only; the cache that the SWR library shares
      between the hooks of one key, since each key of the console has one
      hook. *)

From Stdlib Require Import ZArith Lia.
From stdpp Require Import base tactics option list strings.

(** ** Computations that may throw *)

Inductive result (E A : Type) : Type :=
| Ok (a : A)
| Throw (e : E).
Arguments Ok {E A} a.
Arguments Throw {E A} e.

#[export] Instance result_ret {E} : MRet (result E) := fun _ a => Ok a.
#[export] Instance result_bind {E} : MBind (result E) :=
  fun _ _ f m => match m with Ok a => f a | Throw e => Throw e end.
#[export] Instance result_fmap {E} : FMap (result E) :=
  fun _ _ f m => match m with Ok a => Ok (f a) | Throw e => Throw e end.

Definition is_ok {E A} (r : result E A) : bool :=
  match r with Ok _ => true | Throw _ => false end.

Definition result_to_option {E A} (r : result E A) : option A :=
  match r with Ok a => Some a | Throw _ => None end.

(** [try { body } catch { handler }] *)
Definition try_catch {E A} (body : result E A) (handler : E -> result E A) : result E A :=
  match body with Ok a => Ok a | Throw e => handler e end.

(** [mapM] over a list, left to right, stopping at the first exception. *)
Fixpoint result_mapM {E A B} (f : A -> result E B) (l : list A) : result E (list B) :=
  match l with
  | [] => Ok []
  | x :: l' => y ← f x; ys ← result_mapM f l'; mret (y :: ys)
  end.

(** ** Tactics *)

(** Turn boolean connectives in hypotheses and goal into propositions. *)
Ltac bool_prop :=
  repeat match goal with
  | H : _ && _ = true |- _ => apply andb_true_iff in H; destruct H
  | H : _ || _ = false |- _ => apply orb_false_iff in H; destruct H
  | H : negb _ = true |- _ => apply negb_true_iff in H
  | H : negb _ = false |- _ => apply negb_false_iff in H
  | |- _ && _ = true => apply andb_true_iff; split
  | |- _ || _ = false => apply orb_false_iff; split
  end.

(** Picks the disjunct that the hypotheses give. *)
Ltac disj :=
  solve [ assumption | reflexivity | eexists; disj | split; [|reflexivity]; disj
        | split; [assumption|]; disj | left; disj | right; disj ].

(** Proves an equivalence between two case lists: each case of one side
    is a case of the other.  A witness that the case does not fix is any
    value of its type. *)
Ltac cases_iff :=
  split; intros ?;
  repeat (destruct_or?; destruct_and?; try match goal with H : ex _ |- _ => destruct H end);
  simplify_eq; try done; try (unshelve disj; exact inhabitant).

Create HintDb crm discriminated.
Create Rewrite HintDb crm_bool.

(** ** Generic facts *)

Lemma result_bind_ok {E A B} (f : A -> result E B) (m : result E A) (b : B) :
  m ≫= f = Ok b <-> exists a, m = Ok a /\ f a = Ok b.
Proof.
  destruct m as [a|e]; simpl; split.
  - intros H; exists a; auto.
  - intros (a' & Ha & H); congruence.
  - discriminate.
  - intros (a' & Ha & _); discriminate.
Qed.

Lemma result_mapM_ok_length {E A B} (f : A -> result E B) l ys :
  result_mapM f l = Ok ys -> length ys = length l.
Proof.
  revert ys; induction l as [|x l IH]; intros ys; simpl.
  - intros [= <-]; reflexivity.
  - destruct (f x) as [y|e]; simpl; [|discriminate].
    destruct (result_mapM f l) as [ys'|e]; simpl; [|discriminate].
    intros [= <-]; simpl; f_equal; auto.
Qed.

Lemma is_ok_bind {E A B} (f : A -> result E B) (m : result E A) :
  is_ok (m ≫= f) = true <-> exists a, m = Ok a /\ is_ok (f a) = true.
Proof.
  destruct m as [a|e]; simpl; split; [eauto | intros (? & [= <-] & H); exact H | | ].
  - discriminate.
  - intros (? & [=] & _).
Qed.

Lemma result_mapM_Forall2 {E A B} (f : A -> result E B) l ys :
  result_mapM f l = Ok ys <-> Forall2 (fun x y => f x = Ok y) l ys.
Proof.
  revert ys; induction l as [|x l IH]; intros ys; simpl.
  - split; [intros [= <-]; constructor | intros Hnil; inversion Hnil; reflexivity].
  - rewrite result_bind_ok; split.
    + intros (y & Hy & (ys' & Hys & [= <-])%result_bind_ok); constructor; [exact Hy|].
      apply IH, Hys.
    + intros Hcons; inversion Hcons as [|? y ? ys' Hy Hys]; subst.
      exists y; split; [exact Hy|]; apply result_bind_ok; exists ys'; split; [|reflexivity].
      apply IH, Hys.
Qed.

Lemma result_mapM_is_ok {E A B} (f : A -> result E B) l :
  is_ok (result_mapM f l) = true <-> Forall (fun x => is_ok (f x) = true) l.
Proof.
  induction l as [|x l IH]; simpl; [split; [constructor | reflexivity]|].
  rewrite Forall_cons, <- IH; destruct (f x) as [y|e]; simpl.
  - destruct (result_mapM f l); simpl; intuition.
  - intuition discriminate.
Qed.

Lemma result_mapM_all_ok {E A B} (f : A -> result E B) (g : A -> B) l :
  Forall (fun x => f x = Ok (g x)) l -> result_mapM f l = Ok (map g l).
Proof.
  induction 1 as [|x l Hx _ IH]; simpl; [reflexivity|].
  rewrite Hx; simpl; rewrite IH; reflexivity.
Qed.

(** [Array.prototype.filter] keeps the order of the array. *)
(** Rounding a length up to a multiple of four adds at most three. *)
Lemma pad_to_four (n : nat) :
  ((Nat.max n (n + (4 - n mod 4) mod 4)) mod 4 = 0 /\
   n <= Nat.max n (n + (4 - n mod 4) mod 4) < n + 4)%nat.
Proof.
  rewrite Nat.max_r by lia.
  pose proof (Nat.mod_upper_bound n 4 ltac:(lia)) as Hr.
  pose proof (Nat.div_mod_eq n 4) as Hn.
  pose proof (Nat.mod_upper_bound (4 - n mod 4) 4 ltac:(lia)).
  split; [|lia].
  set (r := (n mod 4)%nat) in *.
  rewrite Hn at 1; rewrite <- Nat.add_assoc, Nat.add_comm, Nat.mul_comm, Nat.Div0.mod_add.
  clearbody r; clear -Hr.
  do 4 (destruct r as [|r]; [reflexivity|]); lia.
Qed.

Lemma omap_sublist_mono {A B} (f : A -> option B) (l1 l2 : list A) :
  sublist l1 l2 -> sublist (omap f l1) (omap f l2).
Proof.
  induction 1 as [|x l1 l2 _ IH|x l1 l2 _ IH]; simpl; [constructor| |];
    destruct (f x); try constructor; exact IH.
Qed.

Lemma filter_sublist {A} (f : A -> bool) (l : list A) : sublist (List.filter f l) l.
Proof.
  induction l as [|x l IH]; simpl; [constructor|].
  destruct (f x); [apply sublist_skip | apply sublist_cons]; exact IH.
Qed.

Lemma filter_none {A} (f : A -> bool) (l : list A) :
  (forall x, In x l -> f x = false) -> List.filter f l = [].
Proof.
  induction l as [|x l IH]; simpl; intros Hf; [reflexivity|].
  rewrite (Hf x) by (left; reflexivity); apply IH; intros y Hy; apply Hf; right; exact Hy.
Qed.

Lemma filter_all {A} (f : A -> bool) (l : list A) :
  (forall x, In x l -> f x = true) -> List.filter f l = l.
Proof.
  induction l as [|x l IH]; simpl; intros Hf; [reflexivity|].
  rewrite (Hf x) by (left; reflexivity); f_equal; apply IH; intros y Hy; apply Hf; right; exact Hy.
Qed.

#[export] Hint Rewrite andb_true_iff orb_true_iff negb_true_iff negb_false_iff
  andb_false_iff orb_false_iff : crm_bool.
