(* ===== verification/JsNumber.v ===== *)
(** * JsNumber: the JavaScript number type

    A JavaScript number is modelled as an exact rational, or one of the three
    special values [NaN], [+Infinity], [-Infinity].  The operations are the
    ones the console applies to numbers: [Number.isFinite], the comparisons
    [<], [>], [===], the SameValueZero test of [Array.prototype.includes],
    [Set] and [Map], subtraction (sort comparators) and the truthiness test
    behind [!x].

    Rounding to binary64 is not modelled: the model agrees with the engine on
    every value that binary64 represents exactly (identifiers, room counts,
    millisecond timestamps, prices of up to 15 significant digits).  Negative
    zero is identified with zero; no operation of the console tells them
    apart.

    [num_equiv] is the equality of number values (rationals up to [Qeq]); it
    is coarser than Leibniz equality, and every operation is [Proper] for
    it. *)

From Stdlib Require Import QArith Lqa ZArith Lia.
From stdpp Require Import base tactics.
From S2P Require Import Prelude.
Close Scope Q_scope.

(** ** Data *)

Inductive number : Type :=
| NaN
| PInf
| NInf
| Fin (q : Q).

Definition of_Z (z : Z) : number := Fin (inject_Z z).

(** ** Operations *)

(** [Number.isFinite(n)] *)
Definition isFinite (n : number) : bool :=
  match n with Fin _ => true | _ => false end.

(** [Number.isNaN(n)] *)
Definition isNaN (n : number) : bool :=
  match n with NaN => true | _ => false end.

(** Equality of number values; [NaN] is related to itself. *)
Definition num_equiv (a b : number) : Prop :=
  match a, b with
  | NaN, NaN | PInf, PInf | NInf, NInf => True
  | Fin p, Fin q => (p == q)%Q
  | _, _ => False
  end.

(** SameValueZero, the test of [includes], [Set.has] and [Map.get]. *)
Definition same_value_zero (a b : number) : bool :=
  match a, b with
  | NaN, NaN | PInf, PInf | NInf, NInf => true
  | Fin p, Fin q => Qeq_bool p q
  | _, _ => false
  end.

(** [a === b] on numbers: a [NaN] operand makes it false. *)
Definition strict_eq (a b : number) : bool :=
  negb (isNaN a) && same_value_zero a b.

(** [a !== b] *)
Definition strict_neq (a b : number) : bool := negb (strict_eq a b).

(** [a < b]; false when an operand is [NaN]. *)
Definition ltb (a b : number) : bool :=
  match a, b with
  | NaN, _ | _, NaN => false
  | _, NInf => false
  | NInf, _ => true
  | PInf, _ => false
  | Fin _, PInf => true
  | Fin p, Fin q => negb (Qle_bool q p)
  end.

(** [a > b] *)
Definition gtb (a b : number) : bool := ltb b a.

(** [a <= b]; false when an operand is [NaN]. *)
Definition leb (a b : number) : bool := ltb a b || strict_eq a b.

(** [a >= b] *)
Definition geb (a b : number) : bool := leb b a.

(** [a - b] *)
Definition sub (a b : number) : number :=
  match a, b with
  | NaN, _ | _, NaN => NaN
  | PInf, PInf | NInf, NInf => NaN
  | PInf, _ | _, NInf => PInf
  | NInf, _ | _, PInf => NInf
  | Fin p, Fin q => Fin (p - q)
  end.

(** [a * b]: zero times an infinity is [NaN]. *)
Definition mul (a b : number) : number :=
  let signed (inf : bool) (q : Q) : number :=
    if Qeq_bool q 0 then NaN
    else if Bool.eqb inf (Qle_bool 0 q) then PInf else NInf in
  match a, b with
  | NaN, _ | _, NaN => NaN
  | Fin p, Fin q => Fin (p * q)
  | PInf, Fin q | Fin q, PInf => signed true q
  | NInf, Fin q | Fin q, NInf => signed false q
  | PInf, PInf | NInf, NInf => PInf
  | PInf, NInf | NInf, PInf => NInf
  end.

(** ToBoolean on a number: false for zero and [NaN]. *)
Definition num_truthy (n : number) : bool :=
  match n with
  | NaN => false
  | Fin q => negb (Qeq_bool q 0)
  | _ => true
  end.

(** The sign a sort comparator's result is read for: [Lt] for a negative
    result, [Gt] for a positive one, [Eq] for zero and for [NaN]. *)
Definition comparator_sign (n : number) : comparison :=
  if ltb n (Fin 0) then Lt else if ltb (Fin 0) n then Gt else Eq.

(** ** Equality of values is an equivalence, and the operations respect it *)

#[export] Instance num_equiv_equivalence : Equivalence num_equiv.
Proof.
  split.
  - intros []; simpl; auto; reflexivity.
  - intros [] []; simpl; auto; intros; symmetry; auto.
  - intros [] [] []; simpl; try tauto; intros; etransitivity; eauto.
Qed.

Lemma same_value_zero_spec a b : same_value_zero a b = true <-> num_equiv a b.
Proof.
  destruct a, b; simpl; try (split; [discriminate|tauto]); try tauto.
  apply Qeq_bool_iff.
Qed.

Lemma same_value_zero_refl a : same_value_zero a a = true.
Proof. apply same_value_zero_spec; reflexivity. Qed.

Lemma strict_eq_spec a b : strict_eq a b = true <-> num_equiv a b /\ a <> NaN.
Proof.
  unfold strict_eq; rewrite andb_true_iff, same_value_zero_spec, negb_true_iff.
  destruct a; simpl; intuition congruence.
Qed.

Lemma strict_eq_NaN_l b : strict_eq NaN b = false.
Proof. reflexivity. Qed.

Lemma strict_eq_finite a b :
  isFinite a = true -> strict_eq a b = same_value_zero a b.
Proof. destruct a; simpl; try discriminate; reflexivity. Qed.

#[export] Instance same_value_zero_proper :
  Proper (num_equiv ==> num_equiv ==> eq) same_value_zero.
Proof.
  intros a a' Ha b b' Hb.
  destruct (same_value_zero a' b') eqn:E.
  - apply same_value_zero_spec in E; apply same_value_zero_spec.
    rewrite Ha, Hb; exact E.
  - destruct (same_value_zero a b) eqn:E'; [|reflexivity].
    apply same_value_zero_spec in E'; rewrite Ha, Hb in E'.
    apply same_value_zero_spec in E'; congruence.
Qed.

#[export] Instance isNaN_proper : Proper (num_equiv ==> eq) isNaN.
Proof. intros [] []; simpl; tauto. Qed.

#[export] Instance isFinite_proper : Proper (num_equiv ==> eq) isFinite.
Proof. intros [] []; simpl; tauto. Qed.

#[export] Instance strict_eq_proper :
  Proper (num_equiv ==> num_equiv ==> eq) strict_eq.
Proof. intros a a' Ha b b' Hb; unfold strict_eq; rewrite Ha, Hb; reflexivity. Qed.

#[export] Instance ltb_proper : Proper (num_equiv ==> num_equiv ==> eq) ltb.
Proof.
  intros [] [] Ha [] [] Hb; simpl in *; try tauto.
  f_equal; apply Qleb_comp; assumption.
Qed.

#[export] Instance sub_proper : Proper (num_equiv ==> num_equiv ==> num_equiv) sub.
Proof.
  intros [] [] Ha [] [] Hb; simpl in *; try tauto.
  rewrite Ha, Hb; reflexivity.
Qed.

#[export] Instance num_truthy_proper : Proper (num_equiv ==> eq) num_truthy.
Proof.
  intros [] [] Ha; simpl in *; try tauto.
  f_equal; apply Qeqb_comp; [assumption|reflexivity].
Qed.

(** ** Order facts *)

Lemma ltb_Fin p q : ltb (Fin p) (Fin q) = true <-> (p < q)%Q.
Proof.
  simpl; rewrite negb_true_iff, <- not_true_iff_false, Qle_bool_iff.
  split; [apply Qnot_le_lt | apply Qlt_not_le].
Qed.

Lemma ltb_Fin_false p q : ltb (Fin p) (Fin q) = false <-> (q <= p)%Q.
Proof. simpl; rewrite negb_false_iff; apply Qle_bool_iff. Qed.

Lemma ltb_of_Z a b : ltb (of_Z a) (of_Z b) = (a <? b)%Z.
Proof.
  apply eq_true_iff_eq; unfold of_Z; rewrite ltb_Fin, Z.ltb_lt, <- Zlt_Qlt; reflexivity.
Qed.

(** A number below an instant is below every later instant. *)
Lemma ltb_of_Z_mono x a b : (a <= b)%Z -> ltb x (of_Z a) = true -> ltb x (of_Z b) = true.
Proof.
  intros Hab; destruct x as [| | |q]; try (simpl; tauto); unfold of_Z.
  rewrite !ltb_Fin; intros Hq; eapply Qlt_le_trans; [exact Hq | rewrite <- Zle_Qle; exact Hab].
Qed.

Lemma mul_of_Z a b : mul (of_Z a) (of_Z b) = of_Z (a * b).
Proof. reflexivity. Qed.

Lemma mul_comm a b : num_equiv (mul a b) (mul b a).
Proof. destruct a, b; simpl; try reflexivity; apply Qmult_comm. Qed.

Lemma ltb_irrefl a : ltb a a = false.
Proof. destruct a; simpl; auto. apply negb_false_iff, Qle_bool_iff, Qle_refl. Qed.

Lemma ltb_asym a b : ltb a b = true -> ltb b a = false.
Proof.
  destruct a, b; simpl; try congruence.
  rewrite negb_true_iff, negb_false_iff, <- not_true_iff_false, !Qle_bool_iff.
  intros H; apply Qnot_le_lt in H; apply Qlt_le_weak; exact H.
Qed.

Lemma ltb_trans a b c : ltb a b = true -> ltb b c = true -> ltb a c = true.
Proof.
  destruct a, b, c; try (simpl; congruence).
  rewrite !ltb_Fin; apply Qlt_trans.
Qed.

Lemma leb_Fin p q : leb (Fin p) (Fin q) = true <-> (p <= q)%Q.
Proof.
  unfold leb; rewrite orb_true_iff, ltb_Fin, strict_eq_spec; simpl.
  split.
  - intros [H|[H _]]; [apply Qlt_le_weak; exact H | rewrite H; apply Qle_refl].
  - intros H; destruct (Qlt_le_dec p q) as [Hlt|Hge]; [left; exact Hlt|].
    right; split; [apply Qle_antisym; assumption | discriminate].
Qed.

(** On finite operands the sign of [a - b] is the order of [a] and [b]. *)
Lemma sub_negative p q : ltb (sub (Fin p) (Fin q)) (Fin 0) = true <-> (p < q)%Q.
Proof. simpl sub; rewrite ltb_Fin; split; intros; lra. Qed.

Lemma sub_positive p q : ltb (Fin 0) (sub (Fin p) (Fin q)) = true <-> (q < p)%Q.
Proof. simpl sub; rewrite ltb_Fin; split; intros; lra. Qed.

Lemma comparator_sign_sub p q :
  comparator_sign (sub (Fin p) (Fin q)) = (p ?= q)%Q.
Proof.
  unfold comparator_sign.
  destruct (ltb (sub (Fin p) (Fin q)) (Fin 0)) eqn:E1.
  - apply sub_negative in E1; symmetry; apply Qlt_alt; exact E1.
  - destruct (ltb (Fin 0) (sub (Fin p) (Fin q))) eqn:E2.
    + apply sub_positive in E2; symmetry; apply Qgt_alt; exact E2.
    + simpl sub in *; apply ltb_Fin_false in E1, E2.
      symmetry; apply Qeq_alt; lra.
Qed.

Lemma comparator_sign_sub_of_Z a b :
  comparator_sign (sub (of_Z a) (of_Z b)) = (a ?= b)%Z.
Proof.
  unfold of_Z; rewrite comparator_sign_sub; unfold Qcompare; simpl.
  rewrite !Z.mul_1_r; reflexivity.
Qed.

Lemma num_truthy_of_Z a : num_truthy (of_Z a) = negb (a =? 0)%Z.
Proof.
  unfold num_truthy, of_Z; f_equal.
  destruct (Z.eqb_spec a 0) as [->|Hne]; [reflexivity|].
  apply not_true_iff_false; intros H%Qeq_bool_iff; unfold Qeq in H; simpl in H; lia.
Qed.

(** A [NaN] operand makes the comparator's result read as "equal". *)
Lemma comparator_sign_NaN : comparator_sign NaN = Eq.
Proof. reflexivity. Qed.

Lemma sub_NaN_l b : sub NaN b = NaN.
Proof. reflexivity. Qed.

Lemma sub_NaN_r a : sub a NaN = NaN.
Proof. destruct a; reflexivity. Qed.

Lemma num_truthy_false_iff n :
  num_truthy n = false <-> n = NaN \/ num_equiv n (Fin 0).
Proof.
  destruct n; simpl; try (split; [discriminate | intros [?|?]; [discriminate|tauto]]).
  - tauto.
  - rewrite negb_false_iff, Qeq_bool_iff; split; [tauto|].
    intros [?|?]; [discriminate|assumption].
Qed.

Lemma strict_eq_of_Z a b : strict_eq (of_Z a) (of_Z b) = (a =? b)%Z.
Proof.
  unfold strict_eq, of_Z; simpl.
  destruct (Z.eqb_spec a b) as [->|Hne].
  - apply Qeq_bool_refl.
  - apply not_true_iff_false; intros H%Qeq_bool_iff; apply Hne.
    unfold Qeq in H; simpl in H; lia.
Qed.

#[export] Hint Resolve same_value_zero_refl ltb_irrefl : crm.
#[export] Hint Rewrite same_value_zero_refl ltb_irrefl : crm_bool.
