(* ===== verification/JsString.v ===== *)
(** * JsString: the string operations of the JavaScript runtime

    Strings are byte sequences in UTF-8.  This file holds the runtime
    functions of [String.prototype] that the console calls and that do not
    depend on the locale: [trim] (with the full ECMAScript white-space set,
    matched on its UTF-8 encodings), [includes], [startsWith] and the
    truthiness of a string.  Case mapping and collation depend on Unicode
    tables and on the locale; they belong to the host interface of
    [JsValue]. *)

From Stdlib Require Import ZArith Lia Ascii.
From stdpp Require Import base tactics option list strings.
From S2P Require Import Prelude.
Open Scope string_scope.

(** ** Definitions *)

(** The ECMAScript white-space and line-terminator characters are
    U+0009-U+000D, U+0020, U+00A0, U+1680, U+2000-U+200A, U+2028, U+2029,
    U+202F, U+205F, U+3000 and U+FEFF; they take one, two or three bytes. *)
Definition is_ws1 (c1 : ascii) : bool :=
  let n1 := N_of_ascii c1 in
  ((9 <=? n1) && (n1 <=? 13) || (n1 =? 32))%N.

Definition is_ws2 (c1 c2 : ascii) : bool :=
  ((N_of_ascii c1 =? 194) && (N_of_ascii c2 =? 160))%N.

Definition is_ws3 (c1 c2 c3 : ascii) : bool :=
  let n1 := N_of_ascii c1 in
  let n2 := N_of_ascii c2 in
  let n3 := N_of_ascii c3 in
  ((n1 =? 225) && (n2 =? 154) && (n3 =? 128)
   || (n1 =? 226) && (n2 =? 128) &&
      ((128 <=? n3) && (n3 <=? 138) || (n3 =? 168) || (n3 =? 169) || (n3 =? 175))
   || (n1 =? 226) && (n2 =? 129) && (n3 =? 159)
   || (n1 =? 227) && (n2 =? 128) && (n3 =? 128)
   || (n1 =? 239) && (n2 =? 187) && (n3 =? 191))%N.

(** Number of bytes of the white-space character that starts [s], or [0]
    when [s] starts with none. *)
Definition ws_len (s : string) : nat :=
  match s with
  | String c1 r1 =>
      if is_ws1 c1 then 1
      else match r1 with
      | String c2 r2 =>
          if is_ws2 c1 c2 then 2
          else match r2 with
          | String c3 _ => if is_ws3 c1 c2 c3 then 3 else 0
          | EmptyString => 0
          end
      | EmptyString => 0
      end
  | EmptyString => 0
  end%nat.
Arguments is_ws1 : simpl never.
Arguments is_ws2 : simpl never.
Arguments is_ws3 : simpl never.

Fixpoint drop_bytes (n : nat) (s : string) : string :=
  match n, s with
  | S n', String _ r => drop_bytes n' r
  | _, _ => s
  end.

(** [trimStart], with the length of the string as fuel: every round removes
    at least one byte. *)
Fixpoint trimStart_fuel (fuel : nat) (s : string) : string :=
  match fuel with
  | O => s
  | S fuel' =>
      match ws_len s with
      | O => s
      | n => trimStart_fuel fuel' (drop_bytes n s)
      end
  end.

Definition trimStart (s : string) : string := trimStart_fuel (String.length s) s.

(** [s] is made of white-space characters only, read from the left with
    the length of the string as fuel. *)
Fixpoint all_ws_fuel (fuel : nat) (s : string) : bool :=
  match s with
  | EmptyString => true
  | _ =>
      match fuel with
      | O => false
      | S fuel' =>
          match ws_len s with
          | O => false
          | n => all_ws_fuel fuel' (drop_bytes n s)
          end
      end
  end.

Definition all_ws (s : string) : bool := all_ws_fuel (String.length s) s.

Fixpoint trimEnd (s : string) : string :=
  match s with
  | EmptyString => EmptyString
  | String c r => if all_ws s then EmptyString else String c (trimEnd r)
  end.

(** [s.trim()] *)
Definition trim (s : string) : string := trimEnd (trimStart s).

(** ToBoolean on a string: only the empty string is falsy. *)
Definition str_truthy (s : string) : bool := negb (String.eqb s "").

(** [s.startsWith(p)] *)
Definition startsWith (s p : string) : bool := String.prefix p s.

(** [s.includes(p)] *)
Fixpoint includes (s p : string) : bool :=
  String.prefix p s ||
  match s with
  | EmptyString => false
  | String _ r => includes r p
  end.

(** [s.split(sep)] for a separator of one character. *)
Fixpoint split_on (sep : ascii) (s : string) : list string :=
  match s with
  | EmptyString => [EmptyString]
  | String c r =>
      if Ascii.eqb c sep then EmptyString :: split_on sep r
      else match split_on sep r with
           | [] => [String c EmptyString]
           | h :: t => String c h :: t
           end
  end.

(** [s.replace(/a/g, b)] for characters [a] and [b]. *)
Fixpoint replace_all (a b : ascii) (s : string) : string :=
  match s with
  | EmptyString => EmptyString
  | String c r => String (if Ascii.eqb c a then b else c) (replace_all a b r)
  end.

(** [n] copies of [c]. *)
Fixpoint repeat_char (c : ascii) (n : nat) : string :=
  match n with
  | O => EmptyString
  | S n => String c (repeat_char c n)
  end.

(** [s.padEnd(n, c)] for a fill string of one character. *)
Definition padEnd (s : string) (n : nat) (c : ascii) : string :=
  s +:+ repeat_char c (n - String.length s).

(** Every byte of [s] is below 128: the string is ASCII, and its length in
    bytes is its length in UTF-16 code units. *)
Fixpoint is_ascii (s : string) : bool :=
  match s with
  | EmptyString => true
  | String c r => (nat_of_ascii c <? 128)%nat && is_ascii r
  end.

(** [s.split(/\s+/)], with the length of the string as fuel: every round
    consumes a byte.  A run of white space separates two words; at the
    start or at the end of the string it leaves an empty word. *)
Fixpoint split_ws_fuel (fuel : nat) (s : string) : list string :=
  match fuel with
  | O => [s]
  | S fuel' =>
      match s with
      | EmptyString => [EmptyString]
      | String c r =>
          match ws_len s with
          | O =>
              match split_ws_fuel fuel' r with
              | word :: words => String c word :: words
              | [] => [String c EmptyString]
              end
          | n => EmptyString :: split_ws_fuel fuel' (trimStart (drop_bytes n s))
          end
      end
  end.

Definition split_ws (s : string) : list string := split_ws_fuel (String.length s) s.

(** The number of bytes of the UTF-8 sequence that [c] starts. *)
Definition utf8_len (c : ascii) : nat :=
  let n := nat_of_ascii c in
  (if n <? 192 then 1 else if n <? 224 then 2 else if n <? 240 then 3 else 4)%nat.

(** The first code unit of a character of four bytes, a high surrogate,
    written in three bytes as the code points below 65536 are. *)
Definition high_surrogate (s : string) : string :=
  match s with
  | String b0 (String b1 (String b2 (String b3 _))) =>
      let cp := ((N_of_ascii b0 mod 8) * 262144 + (N_of_ascii b1 mod 64) * 4096
                 + (N_of_ascii b2 mod 64) * 64 + N_of_ascii b3 mod 64)%N in
      let unit := (55296 + (cp - 65536) / 1024)%N in
      String (ascii_of_N (224 + unit / 4096))
        (String (ascii_of_N (128 + (unit / 64) mod 64))
           (String (ascii_of_N (128 + unit mod 64)) EmptyString))
  | _ => s
  end.

(** [s.slice(0, n)]: the first [n] UTF-16 code units of [s]. *)
Fixpoint utf16_take (n : nat) (s : string) : string :=
  match n, s with
  | O, _ | _, EmptyString => EmptyString
  | S n', String c _ =>
      let k := utf8_len c in
      if (k =? 4)%nat then
        match n' with
        | O => high_surrogate s
        | S n'' => String.substring 0 4 s +:+ utf16_take n'' (drop_bytes 4 s)
        end
      else String.substring 0 k s +:+ utf16_take n' (drop_bytes k s)
  end.

(** The length of [s] in UTF-16 code units, for [s] in UTF-8: a
    continuation byte counts for nothing, the first byte of a sequence of
    four for two. *)
Fixpoint utf16_length (s : string) : nat :=
  match s with
  | EmptyString => 0
  | String c r =>
      let n := nat_of_ascii c in
      (if n <? 128 then 1 else if n <? 192 then 0 else if n <? 240 then 1 else 2)%nat
      + utf16_length r
  end.

(** [s.join(sep)] on the parts of a split. *)
Fixpoint join_on (sep : ascii) (parts : list string) : string :=
  match parts with
  | [] => EmptyString
  | [p] => p
  | p :: rest => p +:+ String sep (join_on sep rest)
  end.

(** ** Facts *)

Lemma split_on_nonempty sep s : split_on sep s <> [].
Proof. destruct s as [|c r]; simpl; [discriminate|]; repeat case_match; discriminate. Qed.

Lemma join_split_on sep s : join_on sep (split_on sep s) = s.
Proof.
  induction s as [|c r IH]; [reflexivity|]; simpl.
  destruct (Ascii.eqb_spec c sep) as [->|Hne].
  - destruct (split_on sep r) eqn:E; [destruct (split_on_nonempty _ _ E)|].
    exact (f_equal (String sep) IH).
  - destruct (split_on sep r) as [|h [|h' t]] eqn:E; [destruct (split_on_nonempty _ _ E)| |];
      exact (f_equal (String c) IH).
Qed.

Lemma append_assoc (s t u : string) : (s +:+ t) +:+ u = s +:+ (t +:+ u).
Proof. induction s as [|c s IH]; [reflexivity|]; exact (f_equal (String c) IH). Qed.

Lemma join_on_cons sep p parts :
  parts <> [] -> join_on sep (p :: parts) = p +:+ String sep (join_on sep parts).
Proof. destruct parts; [congruence | reflexivity]. Qed.

Lemma utf16_length_ascii s : is_ascii s = true -> utf16_length s = String.length s.
Proof.
  induction s as [|c s IH]; [reflexivity|]; simpl; intros [Hc Hs]%andb_true_iff.
  rewrite Hc, (IH Hs); reflexivity.
Qed.

Lemma length_append (s t : string) :
  String.length (s +:+ t) = (String.length s + String.length t)%nat.
Proof. induction s as [|c s IH]; [reflexivity|]; simpl; f_equal; exact IH. Qed.

Lemma replace_all_length a b s : String.length (replace_all a b s) = String.length s.
Proof. induction s as [|c r IH]; simpl; congruence. Qed.

Lemma repeat_char_length c n : String.length (repeat_char c n) = n.
Proof. induction n; simpl; congruence. Qed.

Lemma is_ascii_append s t : is_ascii (s +:+ t) = is_ascii s && is_ascii t.
Proof.
  induction s as [|c s IH]; [reflexivity|].
  change (is_ascii (String c s +:+ t)) with ((nat_of_ascii c <? 128)%nat && is_ascii (s +:+ t)).
  rewrite IH; apply andb_assoc.
Qed.

Lemma is_ascii_repeat_char c n : (nat_of_ascii c < 128)%nat -> is_ascii (repeat_char c n) = true.
Proof.
  intros Hc; induction n as [|n IH]; [reflexivity|]; simpl is_ascii.
  rewrite IH, andb_true_r; apply Nat.ltb_lt, Hc.
Qed.

(** Replacing an ASCII character by an ASCII character keeps the other
    bytes. *)
Lemma is_ascii_replace_all a b s :
  (nat_of_ascii a < 128)%nat -> (nat_of_ascii b < 128)%nat ->
  is_ascii (replace_all a b s) = is_ascii s.
Proof.
  intros Ha Hb; induction s as [|c r IH]; [reflexivity|]; simpl; rewrite IH; f_equal.
  destruct (Ascii.eqb_spec c a) as [->|_]; [|reflexivity].
  apply eq_true_iff_eq; rewrite !Nat.ltb_lt; tauto.
Qed.

Lemma padEnd_length s n c : String.length (padEnd s n c) = Nat.max (String.length s) n.
Proof. unfold padEnd; rewrite length_append, repeat_char_length; lia. Qed.


Lemma drop_bytes_length n s : String.length (drop_bytes n s) = (String.length s - n)%nat.
Proof.
  revert s; induction n as [|n IH]; intros [|c r]; simpl; auto.
Qed.

Lemma ws_len_le s : (ws_len s <= String.length s)%nat.
Proof.
  destruct s as [|c1 [|c2 [|c3 r]]]; unfold ws_len; repeat case_match;
    cbn [String.length]; lia.
Qed.

Lemma ws_len_empty : ws_len "" = 0%nat.
Proof. reflexivity. Qed.

(** The fuel of [trimStart] is enough: the result starts with no white
    space. *)
Lemma trimStart_fuel_done fuel s :
  (String.length s <= fuel)%nat -> ws_len (trimStart_fuel fuel s) = 0%nat.
Proof.
  revert s; induction fuel as [|fuel IH]; intros s Hlen.
  - destruct s; [reflexivity | simpl in Hlen; lia].
  - cbn [trimStart_fuel]. destruct (ws_len s) as [|n] eqn:E; [exact E|].
    apply IH. rewrite drop_bytes_length. lia.
Qed.

Lemma trimStart_no_ws s : ws_len (trimStart s) = 0%nat.
Proof. apply trimStart_fuel_done; reflexivity. Qed.

Lemma trimStart_fuel_id fuel s : ws_len s = 0%nat -> trimStart_fuel fuel s = s.
Proof. destruct fuel; simpl; [reflexivity|]. intros ->; reflexivity. Qed.

Lemma trimStart_idem s : trimStart (trimStart s) = trimStart s.
Proof. apply trimStart_fuel_id, trimStart_no_ws. Qed.

Lemma all_ws_empty : all_ws "" = true.
Proof. reflexivity. Qed.

Lemma trimEnd_all_ws s : all_ws s = true -> trimEnd s = "".
Proof. destruct s; simpl; [reflexivity|]. intros ->; reflexivity. Qed.

Lemma trimEnd_empty_iff s : trimEnd s = "" <-> all_ws s = true.
Proof.
  split; [|apply trimEnd_all_ws].
  destruct s as [|c r]; simpl; [reflexivity|].
  destruct (all_ws (String c r)); [reflexivity | discriminate].
Qed.

Lemma append_empty_r s : s +:+ "" = s.
Proof. induction s as [|c s IH]; [reflexivity | exact (f_equal (String c) IH)]. Qed.

Lemma includes_empty s : includes s "" = true.
Proof. destruct s; reflexivity. Qed.

Lemma prefix_refl s : String.prefix s s = true.
Proof.
  induction s as [|c s IH]; simpl; [reflexivity|].
  destruct (ascii_dec c c); [exact IH | congruence].
Qed.

Lemma includes_refl s : includes s s = true.
Proof. destruct s; simpl; [reflexivity|]. rewrite prefix_refl; destruct (ascii_dec a a); [reflexivity | congruence].
Qed.

Lemma str_truthy_false_iff s : str_truthy s = false <-> s = "".
Proof.
  unfold str_truthy; rewrite negb_false_iff; apply String.eqb_eq.
Qed.

(** ** Words and code units *)

Lemma split_ws_nonempty s : split_ws s <> [].
Proof.
  unfold split_ws; destruct (String.length s) as [|fuel]; [discriminate|]; cbn [split_ws_fuel].
  destruct s as [|c r]; [discriminate|].
  destruct (ws_len (String c r)); [destruct (split_ws_fuel fuel r)|]; discriminate.
Qed.

Example split_ws_examples :
  split_ws "Ana  Maria Pop" = ["Ana"; "Maria"; "Pop"] /\
  split_ws "Ana" = ["Ana"] /\ split_ws "" = [""] /\
  split_ws " Ana" = [""; "Ana"] /\ split_ws "Ana " = ["Ana"; ""] /\
  split_ws (String "A" (String "009" (String "010" "B"))) = ["A"; "B"].
Proof. vm_compute; repeat split; reflexivity. Qed.

Example utf16_take_examples :
  utf16_take 2 "Ana" = "An" /\ utf16_take 2 "A" = "A" /\ utf16_take 1 "" = "" /\
  utf16_take 2 "Étienne" = "Ét" /\ utf16_take 1 "Șt" = "Ș" /\
  utf16_take 2 "😀x" = "😀" /\
  utf16_take 1 "😀x" = String "237" (String "160" (String "189" "")) /\
  utf16_length "😀x" = 3%nat.
Proof. vm_compute; repeat split; reflexivity. Qed.
