(* ===== verification/JsValue.v ===== *)
(** * JsValue: JavaScript values, their coercions, and the host interface

    [value] is the type of the values a JSON payload holds once parsed, plus
    [undefined]: the content of the open-ended [crm_raw] record of a lead.
    Objects are finite maps from property names to values.

    The coercions are those of ECMAScript: [Number(v)] ([ToNumber]),
    [Boolean(v)] ([ToBoolean]), string conversion ([ToString]) and
    [typeof v === "string"].

    [Host] is the interface to the parts of the runtime and of the date-fns
    library whose result depends on Unicode tables, on the locale or on the
    time zone of the machine: string-to-number conversion, number printing,
    collation, case mapping, date parsing.  The console's functions are
    defined and proved over an arbitrary [Host]; [RefHost] gives an
    executable instance. *)

From Stdlib Require Import QArith ZArith Lia.
From stdpp Require Import base tactics option list strings gmap.
From S2P Require Import Prelude JsNumber JsString.
Close Scope Q_scope.
Open Scope string_scope.
Set Warnings "-register-all".

(** ** Data *)

Inductive value : Type :=
| VUndefined
| VNull
| VBool (b : bool)
| VNum (n : number)
| VStr (s : string)
| VArr (items : list value)
| VObj (fields : gmap string value).

(** A [Date] object: its time value in milliseconds since the epoch (UTC),
    or [None] for an Invalid Date. *)
Definition jsdate : Type := option Z.

(** What a [throw] carries: the built-in errors by name, the error of the
    HTTP wrapper with its [status] and [payload], or any other value. *)
Inductive exn : Type :=
| RangeError (message : string)
| TypeError (message : string)
| SyntaxError (message : string)
| ApiError (message : string) (status : Z) (payload : value)
| Thrown (v : value).

(** [err instanceof Error ? err.message : fallback] *)
Definition error_message_or (fallback : string) (e : exn) : string :=
  match e with
  | RangeError m | TypeError m | SyntaxError m | ApiError m _ _ => m
  | Thrown _ => fallback
  end.

(** [(err as { status?: number }).status]: the [status] of the error of the
    HTTP wrapper, the property of that name of a thrown object, else
    [undefined]. *)
Definition exn_status (e : exn) : value :=
  match e with
  | ApiError _ s _ => VNum (of_Z s)
  | Thrown (VObj fields) => default VUndefined (fields !! "status")
  | _ => VUndefined
  end.

(** [err.status === 401] *)
Definition is_unauthorized (e : exn) : bool :=
  match exn_status e with
  | VNum n => strict_eq n (of_Z 401)
  | _ => false
  end.

(** ** The host interface *)

Class Host : Type := {
  (** [Number(s)] on a string: the StringToNumber grammar *)
  StringToNumber : string -> number;
  (** [String(n)] on a number *)
  NumberToString : number -> string;
  (** [a.localeCompare(b)]: negative, zero or positive *)
  localeCompare : string -> string -> Z;
  (** [s.toLowerCase()] *)
  toLowerCase : string -> string;
  (** [s.toUpperCase()] *)
  toUpperCase : string -> string;
  (** date-fns [parseISO(s)] *)
  parseISO : string -> jsdate;
  (** [new Date(s)] *)
  DateParse : string -> jsdate;
  (** what the local clock is ahead of UTC, in milliseconds *)
  tzOffsetMs : Z;
  (** collation is a total preorder *)
  localeCompare_refl : forall s, localeCompare s s = 0%Z;
  localeCompare_antisym :
    forall a b, Z.sgn (localeCompare a b) = (- Z.sgn (localeCompare b a))%Z;
  localeCompare_trans :
    forall a b c, (localeCompare a b <= 0)%Z -> (localeCompare b c <= 0)%Z ->
                  (localeCompare a c <= 0)%Z;
}.

(** ** Coercions *)

(** [v === undefined || v === null] *)
Definition nullish (v : value) : bool :=
  match v with VUndefined | VNull => true | _ => false end.

(** [typeof v === "string"] *)
Definition is_string (v : value) : bool :=
  match v with VStr _ => true | _ => false end.

(** [raw[key]]: the value of a property, [undefined] when it is absent. *)
Definition get_prop (raw : gmap string value) (key : string) : value :=
  default VUndefined (raw !! key).

(** [d.getTime()] *)
Definition getTime (d : jsdate) : number :=
  match d with Some t => of_Z t | None => NaN end.

(** [Boolean(v)] *)
Definition ToBoolean (v : value) : bool :=
  match v with
  | VUndefined | VNull => false
  | VBool b => b
  | VNum n => num_truthy n
  | VStr s => str_truthy s
  | VArr _ | VObj _ => true
  end.

(** An error as a condition: what was thrown is an error, or a value
    that is not falsy. *)
Definition exn_truthy (e : exn) : bool :=
  match e with Thrown v => ToBoolean v | _ => true end.

Section WithHost.
Context {host : Host}.

(** [String(v)].  An array prints its items separated by commas, an absent
    or null item as the empty string; a plain object prints as
    [[object Object]]. *)
Fixpoint ToString (v : value) : string :=
  match v with
  | VUndefined => "undefined"
  | VNull => "null"
  | VBool true => "true"
  | VBool false => "false"
  | VNum n => NumberToString n
  | VStr s => s
  | VArr items =>
      String.concat ","
        (map (fun x => if nullish x then "" else ToString x) items)
  | VObj _ => "[object Object]"
  end.

(** [Number(v)] *)
Definition ToNumber (v : value) : number :=
  match v with
  | VUndefined => NaN
  | VNull => of_Z 0
  | VBool true => of_Z 1
  | VBool false => of_Z 0
  | VNum n => n
  | VStr s => StringToNumber s
  | VArr _ | VObj _ => StringToNumber (ToString v)
  end.

(** ** Facts *)

Lemma get_prop_Some raw key v : raw !! key = Some v -> get_prop raw key = v.
Proof. unfold get_prop; intros ->; reflexivity. Qed.

Lemma get_prop_None raw key : raw !! key = None -> get_prop raw key = VUndefined.
Proof. unfold get_prop; intros ->; reflexivity. Qed.

Lemma get_prop_insert raw key v : get_prop (<[key := v]> raw) key = v.
Proof. unfold get_prop; rewrite lookup_insert_eq; reflexivity. Qed.

Lemma get_prop_insert_ne raw key key' v :
  key <> key' -> get_prop (<[key := v]> raw) key' = get_prop raw key'.
Proof. intros Hne; unfold get_prop; rewrite lookup_insert_ne by exact Hne; reflexivity. Qed.

Lemma get_prop_empty key : get_prop ∅ key = VUndefined.
Proof. unfold get_prop; rewrite lookup_empty; reflexivity. Qed.

Lemma ToNumber_num n : ToNumber (VNum n) = n.
Proof. reflexivity. Qed.

Lemma ToBoolean_nullish v : nullish v = true -> ToBoolean v = false.
Proof. destruct v; simpl; congruence. Qed.

Lemma getTime_finite d : isFinite (getTime d) = true <-> is_Some d.
Proof.
  destruct d; simpl; split; intros H; eauto.
  - discriminate.
  - destruct H; discriminate.
Qed.

Lemma getTime_NaN d : getTime d = NaN <-> d = None.
Proof. destruct d; simpl; split; intros; [discriminate|discriminate| |]; reflexivity. Qed.

(** Collation read as an order: [a] sorts before or with [b]. *)
Lemma localeCompare_total a b :
  (localeCompare a b <= 0)%Z \/ (localeCompare b a <= 0)%Z.
Proof. pose proof (localeCompare_antisym a b); lia. Qed.

End WithHost.

#[export] Hint Rewrite @get_prop_insert @get_prop_empty : crm_bool.
