(* ===== verification/Collections.v ===== *)
(** * Collections: JavaScript [Set] and [Map]

    Both collections iterate in insertion order, and the console relies on
    it: [Array.from(selectedIds)] fixes the order of a bulk send, and
    [Array.from(map.entries())] the order of the groups of a view.  A [Set]
    is therefore a list without repetition in insertion order, a [Map] an
    association list in insertion order.

    Keys are compared by SameValueZero.  [KeyEq] is the interface a key type
    offers: a boolean test that is an equivalence.  Strings compare by
    content, numbers by [same_value_zero]. *)

From Stdlib Require Import ZArith Lia.
From stdpp Require Import base tactics option list strings.
From S2P Require Import Prelude JsNumber.

(** ** The key interface *)

Class KeyEq (K : Type) : Type := {
  key_eqb : K -> K -> bool;
  key_eqb_refl : forall k, key_eqb k k = true;
  key_eqb_sym : forall a b, key_eqb a b = key_eqb b a;
  key_eqb_trans : forall a b c, key_eqb a b = true -> key_eqb b c = true -> key_eqb a c = true;
}.

(** Keys whose test decides Leibniz equality (strings). *)
Class KeyEqLeibniz (K : Type) `{KeyEq K} : Prop :=
  key_eqb_eq : forall a b : K, key_eqb a b = true <-> a = b.

(** ** Definitions *)

Section JsSet.
Context {K : Type} `{KeyEq K}.

(** [s.has(k)] *)
Definition set_has (k : K) (s : list K) : bool := existsb (key_eqb k) s.

(** [s.add(k)]: a key already present keeps its place. *)
Definition set_add (k : K) (s : list K) : list K :=
  if set_has k s then s else s ++ [k].

(** [s.delete(k)] *)
Definition set_delete (k : K) (s : list K) : list K :=
  List.filter (fun x => negb (key_eqb k x)) s.

(** [new Set(items)] *)
Definition set_from_list (items : list K) : list K :=
  fold_left (fun s k => set_add k s) items [].

(** No two members are the same key. *)
Fixpoint set_wf (s : list K) : Prop :=
  match s with
  | [] => True
  | k :: s' => set_has k s' = false /\ set_wf s'
  end.

End JsSet.

Section JsMap.
Context {K V : Type} `{KeyEq K}.

(** [m.get(k)] *)
Fixpoint map_get (k : K) (m : list (K * V)) : option V :=
  match m with
  | [] => None
  | (k', v) :: m' => if key_eqb k k' then Some v else map_get k m'
  end.

(** [m.has(k)] *)
Definition map_has (k : K) (m : list (K * V)) : bool :=
  existsb (fun e => key_eqb k e.1) m.

(** [m.set(k, v)]: a key already present keeps its place and its first
    spelling, and takes the new value; a new key goes last. *)
Fixpoint map_set (k : K) (v : V) (m : list (K * V)) : list (K * V) :=
  match m with
  | [] => [(k, v)]
  | (k', v') :: m' =>
      if key_eqb k k' then (k', v) :: m' else (k', v') :: map_set k v m'
  end.

(** The keys of a map, in insertion order. *)
Definition map_keys (m : list (K * V)) : list K := map fst m.

(** [if (!m.has(k)) m.set(k, v)] *)
Definition map_set_absent (k : K) (v : V) (m : list (K * V)) : list (K * V) :=
  if map_has k m then m else map_set k v m.

(** The map built from a sequence of entries, the first entry of a key
    winning. *)
Definition map_collect (m : list (K * V)) (es : list (K * V)) : list (K * V) :=
  foldl (fun m e => map_set_absent e.1 e.2 m) m es.

End JsMap.

Section JsBuckets.
Context {K A : Type} `{KeyEq K}.

(** [const bucket = m.get(k); if (bucket) bucket.push(x); else m.set(k, [x])]:
    an array is truthy, so the test asks whether the key is present; the
    push changes the bucket in place, which is the map with the longer
    bucket at the same key. *)
Definition map_push (k : K) (x : A) (m : list (K * list A)) : list (K * list A) :=
  match map_get k m with
  | Some bucket => map_set k (bucket ++ [x]) m
  | None => map_set k [x] m
  end.

(** The items filed under [k] in a sequence of keyed items, in order. *)
Definition members (k : K) (es : list (K * A)) : list A :=
  map snd (List.filter (fun e => key_eqb k e.1) es).

(** What a lookup finds once the items [l] are pushed on [bucket]. *)
Definition pushed (bucket : option (list A)) (l : list A) : option (list A) :=
  match bucket, l with
  | None, [] => None
  | None, _ => Some l
  | Some b, _ => Some (b ++ l)
  end.

End JsBuckets.

(** ** Instances *)

#[export] Program Instance string_KeyEq : KeyEq string := {| key_eqb := String.eqb |}.
Next Obligation. intros k; apply String.eqb_refl. Qed.
Next Obligation. intros a b; apply String.eqb_sym. Qed.
Next Obligation.
  intros a b c Hab Hbc; apply String.eqb_eq in Hab, Hbc; subst; apply String.eqb_refl.
Qed.

#[export] Instance string_KeyEqLeibniz : KeyEqLeibniz string.
Proof. intros a b; apply String.eqb_eq. Qed.

#[export] Program Instance number_KeyEq : KeyEq number := {| key_eqb := same_value_zero |}.
Next Obligation. intros k; apply same_value_zero_refl. Qed.
Next Obligation.
  intros a b. destruct (same_value_zero b a) eqn:E.
  - apply same_value_zero_spec; symmetry; apply same_value_zero_spec; exact E.
  - apply not_true_iff_false; intros E'; apply same_value_zero_spec in E'.
    symmetry in E'; apply same_value_zero_spec in E'; congruence.
Qed.
Next Obligation.
  intros a b c Hab Hbc; apply same_value_zero_spec in Hab, Hbc.
  apply same_value_zero_spec; etransitivity; eauto.
Qed.

Lemma same_value_zero_sym a b : same_value_zero a b = same_value_zero b a.
Proof. exact (key_eqb_sym (KeyEq := number_KeyEq) a b). Qed.

Lemma same_value_zero_trans a b c :
  same_value_zero a b = true -> same_value_zero b c = true -> same_value_zero a c = true.
Proof. exact (key_eqb_trans (KeyEq := number_KeyEq) a b c). Qed.

(** ** Facts about sets *)

Section JsSetFacts.
Context {K : Type} `{KeyEq K}.
Implicit Types (k : K) (s : list K).

Lemma key_eqb_trans_false a b c :
  key_eqb a b = true -> key_eqb a c = false -> key_eqb b c = false.
Proof.
  intros Hab Hac. apply not_true_iff_false; intros Hbc.
  rewrite (key_eqb_trans a b c Hab Hbc) in Hac; discriminate.
Qed.

Lemma set_has_congr a b s : key_eqb a b = true -> set_has a s = set_has b s.
Proof.
  intros Hab; unfold set_has; induction s as [|x s IH]; simpl; [reflexivity|].
  rewrite IH; f_equal.
  destruct (key_eqb b x) eqn:E.
  - eapply key_eqb_trans; eauto.
  - rewrite key_eqb_sym in Hab. apply not_true_iff_false; intros E'.
    rewrite (key_eqb_trans b a x Hab E') in E; discriminate.
Qed.

Lemma set_has_app k s1 s2 : set_has k (s1 ++ s2) = set_has k s1 || set_has k s2.
Proof. apply existsb_app. Qed.

Lemma set_has_add k k' s : set_has k (set_add k' s) = key_eqb k k' || set_has k s.
Proof.
  unfold set_add. destruct (set_has k' s) eqn:E.
  - destruct (key_eqb k k') eqn:E'; [|reflexivity].
    rewrite (set_has_congr k k' s E'), E; reflexivity.
  - rewrite set_has_app; simpl. rewrite orb_false_r, orb_comm; reflexivity.
Qed.

Lemma set_add_has k s : set_has k (set_add k s) = true.
Proof. rewrite set_has_add, key_eqb_refl; reflexivity. Qed.

Lemma set_has_delete k k' s :
  set_has k (set_delete k' s) = negb (key_eqb k' k) && set_has k s.
Proof.
  unfold set_delete, set_has; induction s as [|x s IH]; simpl.
  - rewrite andb_false_r; reflexivity.
  - destruct (key_eqb k' x) eqn:E; simpl; rewrite IH.
    + destruct (key_eqb k x) eqn:E'; simpl; [|reflexivity].
      rewrite key_eqb_sym in E'. rewrite (key_eqb_trans k' x k E E'); reflexivity.
    + destruct (key_eqb k x) eqn:E'; simpl; [|reflexivity].
      destruct (key_eqb k' k) eqn:E2; [|reflexivity].
      rewrite (key_eqb_trans k' k x E2 E') in E; discriminate.
Qed.

Lemma set_delete_not_has k s : set_has k (set_delete k s) = false.
Proof. rewrite set_has_delete, key_eqb_refl; reflexivity. Qed.

Lemma set_wf_app s1 s2 :
  set_wf (s1 ++ s2) <->
  set_wf s1 /\ set_wf s2 /\ forall k, In k s1 -> set_has k s2 = false.
Proof.
  induction s1 as [|x s1 IH]; simpl.
  - split; [intros ?; repeat split; auto; intros ? [] | tauto].
  - rewrite set_has_app, orb_false_iff, IH. split.
    + intros [[? ?] (? & ? & Hd)]; repeat split; auto.
      intros k [<-|Hin]; auto.
    + intros ([? ?] & ? & Hd); repeat split; auto.
Qed.

Lemma set_has_false_In k s x : set_has k s = false -> In x s -> key_eqb k x = false.
Proof.
  unfold set_has; intros Hk Hin.
  destruct (key_eqb k x) eqn:E; [|reflexivity].
  assert (existsb (key_eqb k) s = true) by (apply existsb_exists; eauto).
  congruence.
Qed.

Lemma set_add_wf k s : set_wf s -> set_wf (set_add k s).
Proof.
  intros Hwf; unfold set_add; destruct (set_has k s) eqn:E; [exact Hwf|].
  apply set_wf_app; repeat split; simpl; auto.
  intros x Hin. rewrite orb_false_r, key_eqb_sym.
  eapply set_has_false_In; eauto.
Qed.

Lemma set_wf_filter (f : K -> bool) s : set_wf s -> set_wf (List.filter f s).
Proof.
  induction s as [|x s IH]; simpl; [auto|]. intros [Hx Hs].
  destruct (f x); simpl; [split|]; auto.
  apply not_true_iff_false; intros (y & [Hy _]%List.filter_In & He)%existsb_exists.
  apply not_true_iff_false in Hx; apply Hx, existsb_exists; eauto.
Qed.

Lemma set_delete_wf k s : set_wf s -> set_wf (set_delete k s).
Proof.
  induction s as [|x s IH]; simpl; [auto|].
  intros [Hx Hwf]. destruct (key_eqb k x); simpl; [auto|].
  split; [|auto]. change (set_has x (set_delete k s) = false).
  rewrite set_has_delete, Hx, andb_false_r; reflexivity.
Qed.

Lemma set_from_list_acc_wf items s :
  set_wf s -> set_wf (fold_left (fun s k => set_add k s) items s).
Proof. revert s; induction items as [|k items IH]; simpl; auto using set_add_wf. Qed.

Lemma set_from_list_wf items : set_wf (set_from_list items).
Proof. apply set_from_list_acc_wf; exact I. Qed.

Lemma set_has_fold_add k items s :
  set_has k (fold_left (fun s k => set_add k s) items s) =
  set_has k s || set_has k items.
Proof.
  revert s; induction items as [|x items IH]; intros s; simpl.
  - rewrite orb_false_r; reflexivity.
  - rewrite IH, set_has_add. unfold set_has; simpl.
    destruct (key_eqb k x), (existsb (key_eqb k) s); reflexivity.
Qed.

Lemma set_has_from_list k items : set_has k (set_from_list items) = set_has k items.
Proof. unfold set_from_list; rewrite set_has_fold_add; reflexivity. Qed.

Lemma set_has_filter_false (f : K -> bool) k s :
  set_has k s = false -> set_has k (List.filter f s) = false.
Proof.
  intros Hk; apply not_true_iff_false; intros (x & [Hx _]%List.filter_In & He)%existsb_exists.
  apply not_true_iff_false in Hk; apply Hk, existsb_exists; eauto.
Qed.

Lemma set_has_filter_new k acc s :
  set_has k acc = false ->
  set_has k (List.filter (fun x => negb (set_has x acc)) s) = set_has k s.
Proof.
  intros Hk; unfold set_has at 1 3; induction s as [|x s IH]; simpl; [reflexivity|].
  destruct (key_eqb k x) eqn:E.
  - rewrite <- (set_has_congr k x acc E), Hk; simpl; rewrite E; reflexivity.
  - destruct (set_has x acc); simpl; rewrite ?E; exact IH.
Qed.

(** Adding a sequence of keys to a set appends the new ones, in the order
    of their first occurrence. *)
Lemma fold_add_new items acc :
  fold_left (fun s k => set_add k s) items acc
  = acc ++ List.filter (fun k => negb (set_has k acc)) (set_from_list items).
Proof.
  induction items as [|k items IH] using rev_ind; [simpl; rewrite app_nil_r; reflexivity|].
  unfold set_from_list; rewrite !fold_left_app; simpl; fold (set_from_list items).
  rewrite IH; unfold set_add at 1 2; rewrite set_has_app.
  destruct (set_has k (set_from_list items)) eqn:Es.
  - destruct (set_has k acc) eqn:Ea; simpl; [reflexivity|].
    rewrite set_has_filter_new, Es by exact Ea; reflexivity.
  - rewrite (set_has_filter_false _ k _ Es), orb_false_r, List.filter_app; simpl.
    destruct (set_has k acc); simpl; rewrite ?app_nil_r, ?app_assoc; reflexivity.
Qed.

Lemma set_from_list_cons k items :
  set_from_list (k :: items)
  = k :: List.filter (fun x => negb (key_eqb x k)) (set_from_list items).
Proof.
  unfold set_from_list at 1; simpl. change (set_add k []) with [k].
  rewrite fold_add_new; simpl; f_equal; apply List.filter_ext; intros x.
  unfold set_has; simpl; rewrite orb_false_r; reflexivity.
Qed.

Lemma set_add_length k s :
  length (set_add k s) = if set_has k s then length s else S (length s).
Proof.
  unfold set_add; destruct (set_has k s); [reflexivity|].
  rewrite length_app; simpl; lia.
Qed.

Lemma set_delete_add_fresh k s :
  set_has k s = false -> set_delete k (set_add k s) = s.
Proof.
  intros Hk; unfold set_add; rewrite Hk; unfold set_delete.
  rewrite List.filter_app; simpl; rewrite key_eqb_refl; simpl; rewrite app_nil_r.
  clear -Hk; induction s as [|x s IH]; simpl in *; [reflexivity|].
  apply orb_false_iff in Hk as [-> Hk]; simpl; f_equal; auto.
Qed.

Lemma set_has_Permutation k s s' : s ≡ₚ s' -> set_has k s = set_has k s'.
Proof.
  unfold set_has; induction 1 as [|x l l' _ IH|x y l|l1 l2 l3 _ IH1 _ IH2]; simpl;
    [reflexivity | rewrite IH; reflexivity | | congruence].
  destruct (key_eqb k x), (key_eqb k y); reflexivity.
Qed.

Lemma set_wf_Permutation s s' : s ≡ₚ s' -> set_wf s -> set_wf s'.
Proof.
  induction 1 as [|x l l' Hp IH|x y l|l1 l2 l3 _ IH1 _ IH2]; simpl; auto.
  - intros [Hx Hwf]; rewrite <- (set_has_Permutation x l l' Hp); auto.
  - unfold set_has; simpl; intros [Hy [Hx Hwf]].
    apply orb_false_iff in Hy as [Hyx Hy]. rewrite key_eqb_sym, Hyx; auto.
Qed.

End JsSetFacts.

(** With Leibniz keys, a well-formed set is a duplicate-free list and
    membership is list membership. *)
Section JsSetLeibniz.
Context {K : Type} `{KeyEqLeibniz K}.

Lemma set_has_In (k : K) s : set_has k s = true <-> In k s.
Proof.
  unfold set_has; rewrite existsb_exists; split.
  - intros (x & Hin & Hx); apply key_eqb_eq in Hx; subst; exact Hin.
  - intros Hin; exists k; split; [exact Hin | apply key_eqb_refl].
Qed.

Lemma set_wf_NoDup (s : list K) : set_wf s <-> List.NoDup s.
Proof.
  induction s as [|x s IH]; simpl.
  - split; [constructor | auto].
  - rewrite IH, List.NoDup_cons_iff, <- set_has_In, not_true_iff_false; tauto.
Qed.

End JsSetLeibniz.

(** ** Facts about maps *)

Section JsMapFacts.
Context {K V : Type} `{KeyEq K}.
Implicit Types (k : K) (v : V) (m : list (K * V)).

Lemma map_has_get k m : map_has k m = bool_decide (is_Some (map_get k m)).
Proof.
  unfold map_has; induction m as [|[k' v'] m IH]; simpl.
  - reflexivity.
  - destruct (key_eqb k k'); simpl; [reflexivity | exact IH].
Qed.

Lemma map_has_keys k m : map_has k m = set_has k (map_keys m).
Proof.
  unfold map_has, set_has, map_keys; induction m as [|e m IH]; simpl; congruence.
Qed.

Lemma map_get_congr a b m : key_eqb a b = true -> map_get a m = map_get b m.
Proof.
  intros Hab; induction m as [|[k' v'] m IH]; simpl; [reflexivity|].
  rewrite IH. destruct (key_eqb b k') eqn:E.
  - rewrite (key_eqb_trans a b k' Hab E); reflexivity.
  - rewrite key_eqb_sym in Hab.
    rewrite (key_eqb_trans_false b a k' Hab E); reflexivity.
Qed.

Lemma map_get_set k k' v m :
  map_get k (map_set k' v m) = if key_eqb k k' then Some v else map_get k m.
Proof.
  induction m as [|[k0 v0] m IH]; simpl.
  - destruct (key_eqb k k'); reflexivity.
  - destruct (key_eqb k' k0) eqn:E0; simpl.
    + destruct (key_eqb k k') eqn:E.
      * rewrite (key_eqb_trans k k' k0 E E0); reflexivity.
      * rewrite (key_eqb_sym k k0), (key_eqb_trans_false k' k0 k E0); [reflexivity|].
        rewrite key_eqb_sym; exact E.
    + destruct (key_eqb k k0) eqn:E1.
      * destruct (key_eqb k k') eqn:E; [|reflexivity].
        rewrite key_eqb_sym in E.
        rewrite (key_eqb_trans k' k k0 E E1) in E0; discriminate.
      * exact IH.
Qed.

Lemma map_get_set_eq k v m : map_get k (map_set k v m) = Some v.
Proof. rewrite map_get_set, key_eqb_refl; reflexivity. Qed.

Lemma map_set_keys_has k v m :
  map_has k m = true -> map_keys (map_set k v m) = map_keys m.
Proof.
  unfold map_has, map_keys; induction m as [|[k0 v0] m IH]; simpl; [discriminate|].
  destruct (key_eqb k k0); simpl; [reflexivity|].
  intros Hm; f_equal; auto.
Qed.

Lemma map_set_keys_fresh k v m :
  map_has k m = false -> map_keys (map_set k v m) = map_keys m ++ [k].
Proof.
  unfold map_has, map_keys; induction m as [|[k0 v0] m IH]; simpl; [reflexivity|].
  destruct (key_eqb k k0); simpl; [discriminate|].
  intros Hm; f_equal; auto.
Qed.

(** The keys of a map behave as a set under [map_set]. *)
Lemma map_set_keys k v m : map_keys (map_set k v m) = set_add k (map_keys m).
Proof.
  unfold set_add; rewrite <- map_has_keys.
  destruct (map_has k m) eqn:E; [apply map_set_keys_has | apply map_set_keys_fresh]; exact E.
Qed.

Lemma map_set_wf k v m : set_wf (map_keys m) -> set_wf (map_keys (map_set k v m)).
Proof. rewrite map_set_keys; apply set_add_wf. Qed.

Lemma map_set_length k v m :
  length (map_set k v m) = if map_has k m then length m else S (length m).
Proof.
  rewrite <- !(length_map fst). change (map fst) with (@map_keys K V).
  rewrite map_set_keys, set_add_length, map_has_keys; reflexivity.
Qed.

Lemma map_get_None_has k m : map_get k m = None <-> map_has k m = false.
Proof.
  rewrite map_has_get, bool_decide_eq_false, <- eq_None_not_Some; reflexivity.
Qed.

Lemma map_get_app k m1 m2 :
  map_get k (m1 ++ m2) = match map_get k m1 with Some v => Some v | None => map_get k m2 end.
Proof.
  induction m1 as [|[k' v'] m1 IH]; simpl; [reflexivity|].
  destruct (key_eqb k k'); [reflexivity | exact IH].
Qed.

Lemma map_set_fresh k v m : map_has k m = false -> map_set k v m = m ++ [(k, v)].
Proof.
  unfold map_has; induction m as [|[k' v'] m IH]; simpl; [reflexivity|].
  destruct (key_eqb k k'); simpl; [discriminate|]. intros Hm; f_equal; auto.
Qed.

Lemma map_get_set_absent k k' v m :
  map_get k (map_set_absent k' v m) = map_get k (m ++ [(k', v)]).
Proof.
  unfold map_set_absent; destruct (map_has k' m) eqn:E.
  - rewrite map_get_app; simpl. destruct (map_get k m) eqn:Eg; [reflexivity|].
    destruct (key_eqb k k') eqn:Ek; [|reflexivity].
    apply map_get_None_has in Eg. rewrite !map_has_keys in *.
    rewrite (set_has_congr k k') in Eg by exact Ek. congruence.
  - rewrite map_set_fresh by exact E; reflexivity.
Qed.

Lemma map_set_absent_keys k v m : map_keys (map_set_absent k v m) = set_add k (map_keys m).
Proof.
  unfold map_set_absent; destruct (map_has k m) eqn:E; [|apply map_set_keys].
  unfold set_add; rewrite <- map_has_keys, E; reflexivity.
Qed.

(** Looking a key up in a collected map finds the first entry of the key. *)
Lemma map_get_collect k m es : map_get k (map_collect m es) = map_get k (m ++ es).
Proof.
  unfold map_collect; revert m; induction es as [|[k' v'] es IH]; intros m; simpl.
  - rewrite app_nil_r; reflexivity.
  - rewrite IH, !map_get_app, map_get_set_absent, map_get_app; simpl.
    destruct (map_get k m), (key_eqb k k'); reflexivity.
Qed.

Lemma map_collect_keys m es :
  map_keys (map_collect m es) = fold_left (fun s k => set_add k s) (map fst es) (map_keys m).
Proof.
  unfold map_collect; revert m; induction es as [|[k' v'] es IH]; intros m; simpl; [reflexivity|].
  rewrite IH, map_set_absent_keys; reflexivity.
Qed.

Lemma map_collect_In e m es : In e (map_collect m es) -> In e m \/ In e es.
Proof.
  unfold map_collect; revert m; induction es as [|[k v] es IH]; intros m; simpl; [auto|].
  intros [Hm|He]%IH; [|auto]. unfold map_set_absent in Hm; simpl in Hm.
  destruct (map_has k m) eqn:E; [auto|].
  rewrite map_set_fresh in Hm by exact E.
  apply in_app_or in Hm as [?|[<-|[]]]; auto.
Qed.

Lemma set_from_list_nil (items : list K) : set_from_list items = [] <-> items = [].
Proof.
  split; [|intros ->; reflexivity]. destruct items as [|k items]; [reflexivity|].
  intros Hs; pose proof (set_has_from_list k (k :: items)) as Hh.
  rewrite Hs in Hh; simpl in Hh; rewrite key_eqb_refl in Hh; discriminate.
Qed.

Lemma map_collect_wf m es : set_wf (map_keys m) -> set_wf (map_keys (map_collect m es)).
Proof. rewrite map_collect_keys; apply set_from_list_acc_wf. Qed.

(** A lookup does not depend on the order of the entries of a map. *)
Lemma map_get_Permutation k m m' :
  set_wf (map_keys m) -> m ≡ₚ m' -> map_get k m = map_get k m'.
Proof.
  intros Hwf Hp; induction Hp as [|[k' v'] l l' Hp IH|[kx vx] [ky vy] l|l1 l2 l3 Hp1 IH1 _ IH2].
  - reflexivity.
  - simpl in *; destruct (key_eqb k k'); [reflexivity | apply IH, Hwf].
  - simpl in *; destruct Hwf as [Hy _]; unfold set_has in Hy; simpl in Hy.
    apply orb_false_iff in Hy as [Hyx _].
    destruct (key_eqb k ky) eqn:Ey, (key_eqb k kx) eqn:Ex; try reflexivity.
    rewrite key_eqb_sym in Ey; rewrite (key_eqb_trans ky k kx Ey Ex) in Hyx; discriminate.
  - rewrite IH1 by exact Hwf; apply IH2.
    apply (set_wf_Permutation (map_keys l1)); [apply fmap_Permutation, Hp1 | exact Hwf].
Qed.

(** A map is determined by its keys in order and by what a lookup finds. *)
Lemma map_get_ext m1 m2 :
  set_wf (map_keys m1) -> map_keys m1 = map_keys m2 ->
  (forall k, map_get k m1 = map_get k m2) -> m1 = m2.
Proof.
  revert m2; induction m1 as [|[k1 v1] m1 IH]; intros [|[k2 v2] m2]; simpl;
    intros Hwf Hk Hg; try discriminate; [reflexivity|].
  destruct Hwf as [Hf Hwf]; injection Hk as <- Hk.
  pose proof (Hg k1) as H1; rewrite key_eqb_refl in H1; injection H1 as <-.
  f_equal; apply IH; auto. intros k; specialize (Hg k).
  destruct (key_eqb k k1) eqn:E; [|exact Hg].
  assert (map_has k m1 = false) as Hn
    by (rewrite map_has_keys, (set_has_congr k k1) by exact E; exact Hf).
  pose proof Hn as Hn2; rewrite map_has_keys, Hk, <- map_has_keys in Hn2.
  apply map_get_None_has in Hn, Hn2; congruence.
Qed.

End JsMapFacts.

(** ** Facts about buckets *)

Section JsBucketFacts.
Context {K A : Type} `{KeyEq K}.
Implicit Types (k : K) (x : A) (m : list (K * list A)) (es : list (K * A)).

Lemma map_push_keys k x m : map_keys (map_push k x m) = set_add k (map_keys m).
Proof. unfold map_push; destruct (map_get k m); apply map_set_keys. Qed.

Lemma map_get_push k k' x m :
  map_get k (map_push k' x m) =
  if key_eqb k k' then Some (default [] (map_get k m) ++ [x]) else map_get k m.
Proof.
  unfold map_push; destruct (map_get k' m) eqn:E; rewrite map_get_set;
    destruct (key_eqb k k') eqn:Ek; try reflexivity;
    rewrite (map_get_congr k k') by exact Ek; rewrite E; reflexivity.
Qed.

Lemma members_cons k e es :
  members k (e :: es) = if key_eqb k e.1 then e.2 :: members k es else members k es.
Proof. unfold members; simpl; destruct (key_eqb k e.1); reflexivity. Qed.

Lemma map_get_pushes k m es :
  map_get k (foldl (fun m e => map_push e.1 e.2 m) m es) = pushed (map_get k m) (members k es).
Proof.
  revert m; induction es as [|[k' x] es IH]; intros m.
  - simpl; destruct (map_get k m); simpl; [rewrite app_nil_r|]; reflexivity.
  - cbn [foldl]; rewrite IH, map_get_push, members_cons; simpl.
    destruct (key_eqb k k'); [|reflexivity].
    destruct (map_get k m); simpl; [rewrite <- app_assoc|]; reflexivity.
Qed.

Lemma map_pushes_keys m es :
  map_keys (foldl (fun m e => map_push e.1 e.2 m) m es)
  = fold_left (fun s k => set_add k s) (map fst es) (map_keys m).
Proof.
  revert m; induction es as [|[k' x] es IH]; intros m; simpl; [reflexivity|].
  rewrite IH, map_push_keys; reflexivity.
Qed.

Lemma members_congr k k' es : key_eqb k k' = true -> members k es = members k' es.
Proof.
  intros Hk; unfold members; f_equal; apply filter_ext; intros e.
  destruct (key_eqb k' e.1) eqn:E.
  - apply (key_eqb_trans k k' _ Hk E).
  - rewrite key_eqb_sym in Hk; apply (key_eqb_trans_false k' k); assumption.
Qed.

(** A lookup in a map tabulated from its keys. *)
Lemma map_get_tabulate {V} (f : K -> V) k s :
  (forall k', key_eqb k k' = true -> f k' = f k) ->
  map_get k (map (fun k' => (k', f k')) s) = if set_has k s then Some (f k) else None.
Proof.
  intros Hf; induction s as [|k' s IH]; simpl; [reflexivity|].
  destruct (key_eqb k k') eqn:E; simpl; [rewrite (Hf k' E); reflexivity | exact IH].
Qed.

Lemma members_nil_has k es : members k es = [] <-> set_has k (map fst es) = false.
Proof.
  induction es as [|[k' x] es IH]; [split; reflexivity|].
  rewrite members_cons; simpl. destruct (key_eqb k k'); simpl; [split; discriminate | exact IH].
Qed.

(** The buckets built from nothing: one per key in the order the keys
    first occur, each holding the items of its key in order. *)
Theorem map_pushes_spec es :
  foldl (fun m e => map_push e.1 e.2 m) [] es
  = map (fun k => (k, members k es)) (set_from_list (map fst es)).
Proof.
  apply map_get_ext.
  - rewrite map_pushes_keys; apply set_from_list_wf.
  - rewrite map_pushes_keys; unfold map_keys; rewrite map_map, map_id; reflexivity.
  - intros k; rewrite map_get_pushes; simpl.
    rewrite (map_get_tabulate (fun k => members k es)), set_has_from_list
      by (intros k' Hk; symmetry; apply members_congr, Hk).
    destruct (set_has k (map fst es)) eqn:E.
    + destruct (members k es) eqn:Em; [|reflexivity].
      apply members_nil_has in Em; congruence.
    + apply members_nil_has in E; rewrite E; reflexivity.
Qed.

Lemma members_map (key : A -> K) k (l : list A) :
  members k (map (fun x => (key x, x)) l) = List.filter (fun x => key_eqb k (key x)) l.
Proof.
  induction l as [|x l IH]; [reflexivity|].
  cbn [map]; rewrite members_cons; simpl; rewrite IH; reflexivity.
Qed.

Lemma members_insert e es ks :
  set_wf ks ->
  concat (map (fun k => members k (e :: es)) ks)
  ≡ₚ (if set_has e.1 ks then [e.2] else []) ++ concat (map (fun k => members k es) ks).
Proof.
  induction ks as [|k ks IH]; [reflexivity|]. intros [Hk Hwf].
  cbn [map concat set_has existsb]; rewrite members_cons, (IH Hwf), (key_eqb_sym e.1 k).
  destruct (key_eqb k e.1) eqn:E; simpl.
  - rewrite key_eqb_sym in E; fold (set_has e.1 ks).
    rewrite (set_has_congr e.1 k) by exact E; rewrite Hk; reflexivity.
  - fold (set_has e.1 ks); destruct (set_has e.1 ks); simpl;
      [symmetry; apply Permutation_middle | reflexivity].
Qed.

(** The buckets of distinct keys hold, together, the items whose key is
    among them. *)
Lemma members_partition es ks :
  set_wf ks ->
  concat (map (fun k => members k es) ks)
  ≡ₚ map snd (List.filter (fun e => set_has e.1 ks) es).
Proof.
  intros Hwf; induction es as [|e es IH].
  - induction ks as [|k ks IHk]; [reflexivity | destruct Hwf; simpl; auto].
  - rewrite members_insert by exact Hwf; simpl.
    destruct (set_has e.1 ks); simpl; rewrite IH; reflexivity.
Qed.

(** Nothing is lost and nothing is added by filing items in buckets. *)
Lemma members_all es :
  concat (map (fun k => members k es) (set_from_list (map fst es))) ≡ₚ map snd es.
Proof.
  rewrite members_partition by apply set_from_list_wf.
  rewrite (filter_all _ es); [reflexivity|].
  intros e He; rewrite set_has_from_list; unfold set_has; apply existsb_exists.
  exists e.1; split; [apply in_map, He | apply key_eqb_refl].
Qed.

End JsBucketFacts.

#[export] Hint Resolve @set_add_wf @set_delete_wf @set_from_list_wf @map_set_wf : crm.
#[export] Hint Rewrite @set_has_add @set_has_delete @set_has_from_list @map_get_set : crm_bool.
