(* ===== verification/ArraySort.v ===== *)
(** * ArraySort: [Array.prototype.sort] with a comparator

    The engine reads a comparator's result for its sign only ([Lt] negative,
    [Gt] positive, [Eq] zero or [NaN]) and sorts stably.  [js_sort] is the
    stable insertion sort.  For a consistent comparator the language fixes
    the result completely: it is the one stable sorted permutation of the
    input, and [sorted_stable_unique] shows that [js_sort] computes it.  For
    an inconsistent comparator the language leaves the order to the engine;
    [js_sort] then still returns a permutation of its input. *)

From Stdlib Require Import ZArith Lia Sorted Permutation.
From stdpp Require Import base tactics option list.
From S2P Require Import Prelude.

(** ** Definitions *)

Section Sort.
Context {A : Type} (cmp : A -> A -> comparison).

(** Insert [x] before the first element it does not sort after. *)
Fixpoint sort_insert (x : A) (l : list A) : list A :=
  match l with
  | [] => [x]
  | y :: l' =>
      match cmp x y with
      | Gt => y :: sort_insert x l'
      | _ => x :: l
      end
  end.

Definition js_sort (l : list A) : list A := foldr sort_insert [] l.

(** [a] sorts before [b], or with it. *)
Definition cmp_le (a b : A) : Prop := cmp a b <> Gt.

(** [x] and [a] sort together. *)
Definition cmp_eqb (a x : A) : bool :=
  match cmp a x with Eq => true | _ => false end.

(** A consistent comparator, as the language defines it. *)
Class Consistent : Prop := {
  cmp_refl : forall a, cmp a a = Eq;
  cmp_antisym : forall a b, cmp a b = CompOpp (cmp b a);
  cmp_le_trans : forall a b c, cmp_le a b -> cmp_le b c -> cmp_le a c;
}.

End Sort.

(** A comparator that orders by a key. *)
Definition by_key {A B : Type} (key : A -> B) (cmpB : B -> B -> comparison)
  (a b : A) : comparison := cmpB (key a) (key b).

(** ** Facts that hold for every comparator *)

Section SortAny.
Context {A : Type} (cmp : A -> A -> comparison).

Lemma sort_insert_Permutation x l : sort_insert cmp x l ≡ₚ x :: l.
Proof.
  induction l as [|y l IH]; simpl; [reflexivity|].
  destruct (cmp x y); try reflexivity.
  rewrite IH; apply perm_swap.
Qed.

Lemma js_sort_Permutation l : js_sort cmp l ≡ₚ l.
Proof.
  induction l as [|x l IH]; simpl; [reflexivity|].
  rewrite sort_insert_Permutation, IH; reflexivity.
Qed.

Lemma js_sort_length l : length (js_sort cmp l) = length l.
Proof. apply Permutation_length, js_sort_Permutation. Qed.

Lemma js_sort_In x l : In x (js_sort cmp l) <-> In x l.
Proof.
  split; apply Permutation_in; [|symmetry]; apply js_sort_Permutation.
Qed.

Lemma js_sort_nil : js_sort cmp [] = [].
Proof. reflexivity. Qed.

Lemma js_sort_filter_Permutation (f : A -> bool) l :
  List.filter f (js_sort cmp l) ≡ₚ List.filter f l.
Proof.
  assert (Hp : forall l1 l2 : list A, l1 ≡ₚ l2 -> List.filter f l1 ≡ₚ List.filter f l2).
  { induction 1; simpl; repeat case_match; eauto using Permutation. }
  apply Hp, js_sort_Permutation.
Qed.

End SortAny.

(** Sortedness survives a weaker order and a filter. *)
Lemma StronglySorted_weaken {A} (R1 R2 : A -> A -> Prop) l :
  (forall x y, R1 x y -> R2 x y) -> StronglySorted R1 l -> StronglySorted R2 l.
Proof.
  intros HR; induction 1 as [|x l _ IH Hx]; constructor; [exact IH|].
  eapply List.Forall_impl; [apply HR | exact Hx].
Qed.

Lemma StronglySorted_sublist {A} (R : A -> A -> Prop) l1 l2 :
  sublist l1 l2 -> StronglySorted R l2 -> StronglySorted R l1.
Proof.
  induction 1 as [|x l1 l2 Hs IH|x l1 l2 Hs IH]; intros Hl; [constructor| |].
  - apply StronglySorted_inv in Hl as [Hl Hx]; constructor; [auto|].
    rewrite List.Forall_forall in *; intros y Hy; apply Hx.
    apply list_elem_of_In; eapply elem_of_sublist; [apply list_elem_of_In, Hy | exact Hs].
  - apply StronglySorted_inv in Hl as [Hl _]; auto.
Qed.

Lemma StronglySorted_filter {A} (R : A -> A -> Prop) (f : A -> bool) l :
  StronglySorted R l -> StronglySorted R (List.filter f l).
Proof.
  induction 1 as [|z l Hs IH Hz]; simpl; [constructor|].
  destruct (f z); [|exact IH]. constructor; [exact IH|].
  rewrite List.Forall_forall in *; intros w Hw; apply Hz.
  apply List.filter_In in Hw; tauto.
Qed.

(** Two comparators that agree on the elements of a list sort it alike. *)
Lemma sort_insert_ext_in {A} (cmp cmp' : A -> A -> comparison) x l :
  (forall y, In y l -> cmp x y = cmp' x y) ->
  sort_insert cmp x l = sort_insert cmp' x l.
Proof.
  induction l as [|y l IH]; simpl; intros Hext; [reflexivity|].
  rewrite <- (Hext y) by auto. rewrite IH by auto. reflexivity.
Qed.

Lemma js_sort_ext_in {A} (cmp cmp' : A -> A -> comparison) l :
  (forall x y, In x l -> In y l -> cmp x y = cmp' x y) ->
  js_sort cmp l = js_sort cmp' l.
Proof.
  induction l as [|x l IH]; simpl; intros Hext; [reflexivity|].
  rewrite IH by auto.
  apply sort_insert_ext_in; intros y Hy; apply Hext; auto.
  right; eapply js_sort_In; exact Hy.
Qed.

(** ** Facts that hold for a consistent comparator *)

Section SortConsistent.
Context {A : Type} (cmp : A -> A -> comparison) `{!Consistent cmp}.

Lemma cmp_Gt_le x y : cmp x y = Gt -> cmp_le cmp y x.
Proof. unfold cmp_le; rewrite (cmp_antisym cmp y x); intros ->; discriminate. Qed.

Lemma cmp_le_total x y : cmp_le cmp x y \/ cmp_le cmp y x.
Proof.
  destruct (cmp x y) eqn:E; [left|left|right]; unfold cmp_le; try congruence.
  apply cmp_Gt_le; exact E.
Qed.

Lemma cmp_eqb_refl a : cmp_eqb cmp a a = true.
Proof. unfold cmp_eqb; rewrite (cmp_refl cmp); reflexivity. Qed.

Lemma cmp_eqb_iff a x : cmp_eqb cmp a x = true <-> cmp_le cmp a x /\ cmp_le cmp x a.
Proof.
  unfold cmp_eqb, cmp_le; rewrite (cmp_antisym cmp x a).
  destruct (cmp a x); simpl; split; try discriminate; try tauto;
    intros; split; discriminate.
Qed.

Lemma cmp_eqb_sym a x : cmp_eqb cmp a x = cmp_eqb cmp x a.
Proof. unfold cmp_eqb; rewrite (cmp_antisym cmp x a); destruct (cmp a x); reflexivity. Qed.

Lemma cmp_eqb_trans a b c :
  cmp_eqb cmp a b = true -> cmp_eqb cmp b c = true -> cmp_eqb cmp a c = true.
Proof.
  rewrite !cmp_eqb_iff; intros [? ?] [? ?]; split; eapply cmp_le_trans; eauto.
Qed.

(** Members of one class are not separated by the order. *)
Lemma cmp_eqb_not_Gt a x y :
  cmp_eqb cmp a x = true -> cmp_eqb cmp a y = true -> cmp x y <> Gt.
Proof.
  intros Hx Hy. rewrite cmp_eqb_sym in Hx.
  apply (cmp_eqb_iff x y), (cmp_eqb_trans x a y); assumption.
Qed.

Lemma sort_insert_sorted x l :
  StronglySorted (cmp_le cmp) l -> StronglySorted (cmp_le cmp) (sort_insert cmp x l).
Proof.
  induction 1 as [|y l Hs IH Hy]; simpl; [repeat constructor|].
  destruct (cmp x y) eqn:E.
  1,2: constructor; [constructor; assumption|];
    assert (Hxy : cmp_le cmp x y) by (unfold cmp_le; congruence);
    constructor; [exact Hxy|];
    eapply Forall_impl; [exact Hy|]; intros z Hz; simpl; eapply cmp_le_trans; eauto.
  constructor; [exact IH|].
  rewrite (sort_insert_Permutation cmp x l).
  constructor; [apply cmp_Gt_le; exact E | exact Hy].
Qed.

Lemma js_sort_sorted l : StronglySorted (cmp_le cmp) (js_sort cmp l).
Proof.
  induction l as [|x l IH]; simpl; [constructor | apply sort_insert_sorted, IH].
Qed.

(** Inserting before a list it already precedes puts the element first. *)
Lemma sort_insert_head x l : Forall (cmp_le cmp x) l -> sort_insert cmp x l = x :: l.
Proof.
  destruct 1 as [|y l Hy _]; simpl; [reflexivity|].
  destruct (cmp x y) eqn:E; try reflexivity. contradiction.
Qed.

Lemma js_sort_sorted_id l : StronglySorted (cmp_le cmp) l -> js_sort cmp l = l.
Proof.
  induction 1 as [|x l Hs IH Hx]; simpl; [reflexivity|].
  rewrite IH; apply sort_insert_head; exact Hx.
Qed.

Lemma js_sort_idempotent l : js_sort cmp (js_sort cmp l) = js_sort cmp l.
Proof. apply js_sort_sorted_id, js_sort_sorted. Qed.

(** Stability: the members of one class keep their order. *)
Lemma sort_insert_filter_class a x l :
  List.filter (cmp_eqb cmp a) (sort_insert cmp x l) =
  List.filter (cmp_eqb cmp a) (x :: l).
Proof.
  induction l as [|y l IH]; simpl; [reflexivity|].
  destruct (cmp x y) eqn:E; try reflexivity.
  simpl in *; rewrite IH.
  destruct (cmp_eqb cmp a x) eqn:Ex, (cmp_eqb cmp a y) eqn:Ey; try reflexivity.
  exfalso; exact (cmp_eqb_not_Gt a x y Ex Ey E).
Qed.

Lemma js_sort_stable a l :
  List.filter (cmp_eqb cmp a) (js_sort cmp l) = List.filter (cmp_eqb cmp a) l.
Proof.
  induction l as [|x l IH]; simpl; [reflexivity|].
  rewrite sort_insert_filter_class; simpl; rewrite IH; reflexivity.
Qed.

(** A stable sorted permutation is unique. *)
Lemma sorted_stable_unique l1 l2 :
  l1 ≡ₚ l2 ->
  StronglySorted (cmp_le cmp) l1 -> StronglySorted (cmp_le cmp) l2 ->
  (forall a, List.filter (cmp_eqb cmp a) l1 = List.filter (cmp_eqb cmp a) l2) ->
  l1 = l2.
Proof.
  revert l2; induction l1 as [|x l1 IH]; intros l2 Hp Hs1 Hs2 Hst.
  - apply Permutation_nil in Hp; congruence.
  - destruct l2 as [|y l2]; [symmetry in Hp; apply Permutation_nil in Hp; discriminate|].
    apply StronglySorted_inv in Hs1 as [Hs1 Hx], Hs2 as [Hs2 Hy].
    assert (Hxy : cmp_eqb cmp x y = true).
    { apply cmp_eqb_iff; split.
      - assert (In y (x :: l1)) as [->|Hin] by (eapply Permutation_in; [symmetry; exact Hp | left; reflexivity]).
        + unfold cmp_le; rewrite (cmp_refl cmp); discriminate.
        + rewrite List.Forall_forall in Hx; auto.
      - assert (In x (y :: l2)) as [->|Hin] by (eapply Permutation_in; [exact Hp | left; reflexivity]).
        + unfold cmp_le; rewrite (cmp_refl cmp); discriminate.
        + rewrite List.Forall_forall in Hy; auto. }
    pose proof (Hst x) as Hfx; simpl in Hfx; rewrite cmp_eqb_refl, Hxy in Hfx.
    injection Hfx as <- _.
    f_equal; apply IH; auto.
    + eapply Permutation_cons_inv; exact Hp.
    + intros a; specialize (Hst a); simpl in Hst.
      destruct (cmp_eqb cmp a x); [injection Hst; auto | exact Hst].
Qed.

(** [js_sort] is the stable sorted permutation of its input. *)
Theorem js_sort_characterised l l' :
  l' = js_sort cmp l <->
  l' ≡ₚ l /\ StronglySorted (cmp_le cmp) l' /\
  (forall a, List.filter (cmp_eqb cmp a) l' = List.filter (cmp_eqb cmp a) l).
Proof.
  split.
  - intros ->; split; [|split];
      [apply js_sort_Permutation | apply js_sort_sorted | intros a; apply js_sort_stable].
  - intros (Hp & Hs & Hst). apply sorted_stable_unique.
    + rewrite Hp; symmetry; apply js_sort_Permutation.
    + exact Hs.
    + apply js_sort_sorted.
    + intros a; rewrite Hst, js_sort_stable; reflexivity.
Qed.

(** Filtering commutes with sorting. *)
Lemma js_sort_filter (f : A -> bool) l :
  js_sort cmp (List.filter f l) = List.filter f (js_sort cmp l).
Proof.
  symmetry; apply js_sort_characterised; split; [|split].
  - rewrite js_sort_filter_Permutation; reflexivity.
  - apply StronglySorted_filter, js_sort_sorted.
  - intros a.
    assert (Hc : forall l0, List.filter (cmp_eqb cmp a) (List.filter f l0) =
                            List.filter f (List.filter (cmp_eqb cmp a) l0)).
    { induction l0 as [|z l0 IH]; simpl; [reflexivity|].
      destruct (f z) eqn:Ef, (cmp_eqb cmp a z) eqn:Ea; simpl;
        rewrite ?Ef, ?Ea, IH; reflexivity. }
    rewrite !Hc, js_sort_stable; reflexivity.
Qed.

End SortConsistent.

(** Ordering by a key with a consistent comparator is consistent. *)
#[export] Instance by_key_consistent {A B} (key : A -> B) (cmpB : B -> B -> comparison)
  `{!Consistent cmpB} : Consistent (by_key key cmpB).
Proof.
  split; unfold by_key, cmp_le.
  - intros a; apply (cmp_refl cmpB).
  - intros a b; apply (cmp_antisym cmpB).
  - intros a b c; apply (cmp_le_trans cmpB).
Qed.

(** Integers in descending order. *)
#[export] Instance Z_desc_consistent : Consistent (fun a b : Z => Z.compare b a).
Proof.
  split; unfold cmp_le.
  - intros a; apply Z.compare_refl.
  - intros a b; apply Z.compare_antisym.
  - intros a b c; rewrite !Z.compare_gt_iff; lia.
Qed.

#[export] Hint Resolve @js_sort_Permutation @js_sort_sorted : crm.
