(* ===== verification/Calendar.v ===== *)
(** * Calendar: the proleptic Gregorian calendar of the [Date] object

    A time value is a number of milliseconds since 1970-01-01T00:00:00Z.
    [days_from_civil] and [civil_from_days] convert between a day number
    (days since the epoch) and a civil date; they are inverse to each other
    on every day number and on every valid date.  The proof checks one
    400-year era by computation and extends it to all eras by arithmetic.

    [fields_of_ms] and [ms_of_fields] split a millisecond count into date
    and time-of-day fields and back. *)

From Stdlib Require Import ZArith Lia.
From stdpp Require Import base tactics.
From S2P Require Import Prelude.
Open Scope Z_scope.

(** ** Definitions *)

Definition MS_PER_SECOND : Z := 1000.
Definition MS_PER_MINUTE : Z := 60000.
Definition MS_PER_HOUR : Z := 3600000.
Definition MS_PER_DAY : Z := 86400000.
Definition DAYS_PER_ERA : Z := 146097.
Definition EPOCH_SHIFT : Z := 719468.

Definition is_leap (y : Z) : bool :=
  (y mod 4 =? 0) && negb (y mod 100 =? 0) || (y mod 400 =? 0).

Definition days_in_month (y m : Z) : Z :=
  if m =? 2 then (if is_leap y then 29 else 28)
  else if (m =? 4) || (m =? 6) || (m =? 9) || (m =? 11) then 30
  else 31.

Definition valid_civil (y m d : Z) : bool :=
  (1 <=? m) && (m <=? 12) && (1 <=? d) && (d <=? days_in_month y m).

(** March-based month index: March is 0, February is 11. *)
Definition month_index (m : Z) : Z := (m + 9) mod 12.

(** Days of the era before the March-based year [yoe] starts. *)
Definition year_start (yoe : Z) : Z := 365 * yoe + yoe / 4 - yoe / 100.

(** Day of the March-based year, from 0, of a month and day. *)
Definition doy_of_month_day (m d : Z) : Z := (153 * month_index m + 2) / 5 + d - 1.

(** Day of the era from the year of the era, the month and the day. *)
Definition doe_of_civil (yoe m d : Z) : Z := year_start yoe + doy_of_month_day m d.

(** Before division by 365: the day of the era with the leap days of the
    years before it taken out. *)
Definition leapless (doe : Z) : Z := doe - doe / 1460 + doe / 36524 - doe / 146096.

Definition year_of_doe (doe : Z) : Z := leapless doe / 365.

Definition month_day_of_doy (doy : Z) : Z * Z :=
  let mp := (5 * doy + 2) / 153 in
  (if mp <? 10 then mp + 3 else mp - 9, doy - (153 * mp + 2) / 5 + 1).

(** Year of the era (March-based), month and day from the day of the era. *)
Definition civil_of_doe (doe : Z) : Z * Z * Z :=
  let yoe := year_of_doe doe in
  let '(m, d) := month_day_of_doy (doe - year_start yoe) in
  (yoe, m, d).

(** One for January and February, which belong to the previous March-based
    year. *)
Definition year_shift (m : Z) : Z := if m <=? 2 then 1 else 0.

Definition days_from_civil (y m d : Z) : Z :=
  let y' := y - year_shift m in
  (y' / 400) * DAYS_PER_ERA + doe_of_civil (y' mod 400) m d - EPOCH_SHIFT.

Definition civil_from_days (z : Z) : Z * Z * Z :=
  let z' := z + EPOCH_SHIFT in
  let '(yoe, m, d) := civil_of_doe (z' mod DAYS_PER_ERA) in
  (yoe + (z' / DAYS_PER_ERA) * 400 + year_shift m, m, d).

Record date_fields : Type := {
  year : Z; month : Z; day : Z;
  hours : Z; minutes : Z; seconds : Z; milliseconds : Z;
}.

(** The fields of a millisecond count read on the clock it counts for. *)
Definition fields_of_ms (t : Z) : date_fields :=
  let '(y, m, d) := civil_from_days (t / MS_PER_DAY) in
  let r := t mod MS_PER_DAY in
  {| year := y; month := m; day := d;
     hours := r / MS_PER_HOUR;
     minutes := (r mod MS_PER_HOUR) / MS_PER_MINUTE;
     seconds := (r mod MS_PER_MINUTE) / MS_PER_SECOND;
     milliseconds := r mod MS_PER_SECOND |}.

Definition ms_of_fields (f : date_fields) : Z :=
  days_from_civil (year f) (month f) (day f) * MS_PER_DAY
  + hours f * MS_PER_HOUR + minutes f * MS_PER_MINUTE
  + seconds f * MS_PER_SECOND + milliseconds f.

Definition valid_fields (f : date_fields) : bool :=
  valid_civil (year f) (month f) (day f)
  && (0 <=? hours f) && (hours f <? 24)
  && (0 <=? minutes f) && (minutes f <? 60)
  && (0 <=? seconds f) && (seconds f <? 60)
  && (0 <=? milliseconds f) && (milliseconds f <? 1000).

(** ** Checks by computation

    The year structure is checked on the first and last day of each of the
    400 years of an era, the month structure on the 366 days of a year and
    on the 372 month-day pairs. *)

(** [check] holds on [0 .. n-1]. *)
Definition holds_below (check : Z -> bool) (n : N) : bool :=
  snd (N.iter n (fun '(z, ok) => (z + 1, ok && check z)) (0, true)).

(** Last day of the era in the March-based year [yoe]. *)
Definition year_end (yoe : Z) : Z :=
  if yoe =? 399 then DAYS_PER_ERA - 1 else year_start (yoe + 1) - 1.

Definition check_year (yoe : Z) : bool :=
  (year_of_doe (year_start yoe) =? yoe) && (year_of_doe (year_end yoe) =? yoe)
  && (year_end yoe - year_start yoe =? if is_leap (yoe + 1) then 365 else 364).

(** Longest length of a month: the length in a leap year. *)
Definition month_cap (m : Z) : Z := days_in_month 4 m.

Definition check_doy (doy : Z) : bool :=
  let '(m, d) := month_day_of_doy doy in
  (1 <=? m) && (m <=? 12) && (1 <=? d) && (d <=? month_cap m)
  && (doy_of_month_day m d =? doy)
  && ((doy =? 365) || negb ((m =? 2) && (d =? 29))).

(** The month-day pairs, numbered [0 .. 12 * 31 - 1]. *)
Definition check_month_day (n : Z) : bool :=
  let m := n / 31 + 1 in
  let d := n mod 31 + 1 in
  negb (d <=? month_cap m)
  || let doy := doy_of_month_day m d in
     (0 <=? doy) && (doy <=? 365)
     && ((doy <? 365) || ((m =? 2) && (d =? 29)))
     && match month_day_of_doy doy with (m', d') => (m' =? m) && (d' =? d) end.

(** ** Facts *)

Lemma holds_below_iter check n :
  N.iter n (fun '(z, ok) => (z + 1, ok && check z)) (0, true) =
  (Z.of_N n, holds_below check n).
Proof.
  unfold holds_below; induction n as [|n IH] using N.peano_ind; [reflexivity|].
  rewrite N.iter_succ, IH; simpl. f_equal; lia.
Qed.

Lemma holds_below_spec check n :
  holds_below check n = true -> forall z, 0 <= z < Z.of_N n -> check z = true.
Proof.
  induction n as [|n IH] using N.peano_ind; [intros _ z; lia|].
  unfold holds_below; rewrite N.iter_succ, holds_below_iter; simpl.
  intros [Hn Hc]%andb_true_iff z Hz.
  destruct (decide (z = Z.of_N n)) as [->|Hne]; [exact Hc|].
  apply IH; [exact Hn | lia].
Qed.

Lemma years_checked : holds_below check_year 400 = true.
Proof. vm_compute; reflexivity. Qed.

Lemma doys_checked : holds_below check_doy 366 = true.
Proof. vm_compute; reflexivity. Qed.

Lemma month_days_checked : holds_below check_month_day 372 = true.
Proof. vm_compute; reflexivity. Qed.

Lemma leapless_step d : 0 <= d -> leapless d <= leapless (d + 1).
Proof. intros; unfold leapless; Z.div_mod_to_equations; lia. Qed.

Lemma leapless_mono a b : 0 <= a <= b -> leapless a <= leapless b.
Proof.
  intros [Ha Hab].
  replace b with (a + Z.of_nat (Z.to_nat (b - a))) by lia.
  induction (Z.to_nat (b - a)) as [|n IH]; [replace (a + Z.of_nat 0) with a by lia; lia|].
  pose proof (leapless_step (a + Z.of_nat n) ltac:(lia)).
  replace (a + Z.of_nat (S n)) with (a + Z.of_nat n + 1) by lia. lia.
Qed.

Lemma year_of_doe_mono a b : 0 <= a <= b -> year_of_doe a <= year_of_doe b.
Proof. intros H; apply Z.div_le_mono; [lia | apply leapless_mono; exact H]. Qed.

Lemma check_year_spec yoe :
  0 <= yoe < 400 ->
  year_of_doe (year_start yoe) = yoe /\ year_of_doe (year_end yoe) = yoe /\
  year_end yoe - year_start yoe = (if is_leap (yoe + 1) then 365 else 364).
Proof.
  intros Hy. pose proof (holds_below_spec _ _ years_checked yoe Hy) as Hc.
  unfold check_year in Hc. repeat (apply andb_true_iff in Hc as [Hc ?]). lia.
Qed.

Lemma year_start_nonneg yoe : 0 <= yoe -> 0 <= year_start yoe.
Proof. intros; unfold year_start; Z.div_mod_to_equations; lia. Qed.

Lemma year_end_next yoe : 0 <= yoe < 399 -> year_end yoe + 1 = year_start (yoe + 1).
Proof. intros; unfold year_end. destruct (Z.eqb_spec yoe 399); lia. Qed.

(** A day of the era lies in the year the formula gives. *)
Lemma year_of_doe_spec doe :
  0 <= doe < DAYS_PER_ERA ->
  0 <= year_of_doe doe < 400 /\
  year_start (year_of_doe doe) <= doe <= year_end (year_of_doe doe).
Proof.
  intros Hdoe. unfold DAYS_PER_ERA in Hdoe.
  assert (Hy : 0 <= year_of_doe doe < 400).
  { pose proof (year_of_doe_mono 0 doe ltac:(lia)).
    pose proof (year_of_doe_mono doe 146096 ltac:(lia)).
    change (year_of_doe 0) with 0 in *. change (year_of_doe 146096) with 399 in *. lia. }
  split; [exact Hy|]. set (y := year_of_doe doe) in *. split.
  - destruct (Z_le_gt_dec (year_start y) doe) as [?|Hgt]; [assumption|exfalso].
    assert (0 < y) by (destruct (Z.eq_dec y 0) as [E|]; [rewrite E in Hgt; change (year_start 0) with 0 in Hgt|]; lia).
    destruct (check_year_spec (y - 1) ltac:(lia)) as (_ & He & _).
    pose proof (year_end_next (y - 1) ltac:(lia)) as Hn.
    replace (y - 1 + 1) with y in Hn by lia.
    pose proof (year_of_doe_mono doe (year_end (y - 1)) ltac:(lia)). fold y in H0. lia.
  - destruct (Z_le_gt_dec doe (year_end y)) as [?|Hgt]; [assumption|exfalso].
    assert (y < 399) by (destruct (Z.eq_dec y 399) as [E|]; [rewrite E in Hgt; change (year_end 399) with 146096 in Hgt|]; lia).
    destruct (check_year_spec (y + 1) ltac:(lia)) as (Hs & _ & _).
    pose proof (year_end_next y ltac:(lia)) as Hn.
    pose proof (year_start_nonneg (y + 1) ltac:(lia)).
    pose proof (year_of_doe_mono (year_start (y + 1)) doe ltac:(lia)). fold y in H1. lia.
Qed.

(** Conversely, every day between the bounds of a year lies in it. *)
Lemma year_of_doe_within yoe doe :
  0 <= yoe < 400 -> year_start yoe <= doe <= year_end yoe -> year_of_doe doe = yoe.
Proof.
  intros Hy Hd. destruct (check_year_spec yoe Hy) as (Hs & He & _).
  pose proof (year_start_nonneg yoe ltac:(lia)).
  pose proof (year_of_doe_mono (year_start yoe) doe ltac:(lia)).
  pose proof (year_of_doe_mono doe (year_end yoe) ltac:(lia)). lia.
Qed.

Lemma month_cap_spec y m : days_in_month y m = if (m =? 2) && negb (is_leap y) then 28 else month_cap m.
Proof.
  unfold month_cap, days_in_month. change (is_leap 4) with true.
  destruct (m =? 2), (is_leap y); reflexivity.
Qed.

Lemma is_leap_era y k : is_leap (y + 400 * k) = is_leap y.
Proof.
  unfold is_leap.
  replace ((y + 400 * k) mod 4) with (y mod 4)
    by (rewrite <- (Z.mod_add y (100 * k) 4) by lia; f_equal; lia).
  replace ((y + 400 * k) mod 100) with (y mod 100)
    by (rewrite <- (Z.mod_add y (4 * k) 100) by lia; f_equal; lia).
  replace ((y + 400 * k) mod 400) with (y mod 400)
    by (rewrite <- (Z.mod_add y k 400) by lia; f_equal; lia).
  reflexivity.
Qed.

Lemma days_in_month_era y k m : days_in_month (y + 400 * k) m = days_in_month y m.
Proof. unfold days_in_month; rewrite is_leap_era; reflexivity. Qed.

Lemma civil_of_doe_spec doe :
  0 <= doe < DAYS_PER_ERA ->
  let '(yoe, m, d) := civil_of_doe doe in
  0 <= yoe < 400 /\ 1 <= m <= 12 /\
  1 <= d <= days_in_month (yoe + year_shift m) m /\
  doe_of_civil yoe m d = doe.
Proof.
  intros Hdoe. destruct (year_of_doe_spec doe Hdoe) as (Hy & Hlo & Hhi).
  unfold civil_of_doe, doe_of_civil. set (y := year_of_doe doe) in *.
  destruct (check_year_spec y Hy) as (_ & _ & Hlen).
  assert (Hdoy : 0 <= doe - year_start y < Z.of_N 366) by (destruct (is_leap (y + 1)); lia).
  pose proof (holds_below_spec _ _ doys_checked _ Hdoy) as Hc. unfold check_doy in Hc.
  destruct (month_day_of_doy (doe - year_start y)) as [m d].
  repeat (apply andb_true_iff in Hc as [Hc ?]).
  repeat split; try lia.
  rewrite month_cap_spec. unfold year_shift.
  destruct (Z.eqb_spec m 2) as [->|]; simpl; [|lia].
  destruct (is_leap (y + 1)) eqn:El; simpl; [lia|].
  destruct (Z.eqb_spec d 29) as [->|]; [|change (month_cap 2) with 29 in *; lia].
  destruct (Z.eqb_spec (doe - year_start y) 365); simpl in *; [lia | discriminate].
Qed.

Lemma doe_of_civil_spec yoe m d :
  0 <= yoe < 400 -> 1 <= m <= 12 ->
  1 <= d <= days_in_month (yoe + year_shift m) m ->
  0 <= doe_of_civil yoe m d < DAYS_PER_ERA /\
  civil_of_doe (doe_of_civil yoe m d) = (yoe, m, d).
Proof.
  intros Hy Hm Hd. rewrite month_cap_spec in Hd.
  assert (Hcap : d <= month_cap m) by (destruct ((m =? 2) && _); [change (month_cap m) with (days_in_month 4 m); unfold days_in_month; repeat case_match|]; lia).
  assert (Hd31 : d <= 31) by (unfold month_cap, days_in_month in Hcap; repeat case_match; lia).
  set (n := (m - 1) * 31 + (d - 1)).
  assert (Hn : 0 <= n < Z.of_N 372) by (unfold n; lia).
  pose proof (holds_below_spec _ _ month_days_checked n Hn) as Hc.
  unfold check_month_day in Hc.
  assert (E1 : n / 31 + 1 = m) by (unfold n; Z.div_mod_to_equations; lia).
  assert (E2 : n mod 31 + 1 = d) by (unfold n; Z.div_mod_to_equations; lia).
  rewrite E1, E2 in Hc.
  apply orb_true_iff in Hc as [Hc|Hc]; [apply negb_true_iff in Hc; lia|].
  destruct (month_day_of_doy (doy_of_month_day m d)) as [m' d'] eqn:Emd.
  apply andb_true_iff in Hc as [Hc HD]. apply andb_true_iff in Hc as [Hc HC].
  apply andb_true_iff in Hc as [HA HB]. apply andb_true_iff in HD as [HD1 HD2].
  destruct (check_year_spec yoe Hy) as (_ & _ & Hlen).
  pose proof (year_start_nonneg yoe ltac:(lia)).
  assert (Hin : year_start yoe <= doe_of_civil yoe m d <= year_end yoe).
  { unfold doe_of_civil. split; [lia|].
    destruct (Z.ltb_spec (doy_of_month_day m d) 365) as [?|Hge].
    - destruct (is_leap (yoe + 1)); lia.
    - apply orb_true_iff in HC as [HC|HC]; [lia|].
      apply andb_true_iff in HC as [->%Z.eqb_eq ->%Z.eqb_eq].
      unfold year_shift in Hd; simpl in Hd.
      destruct (is_leap (yoe + 1)); simpl in Hd; lia. }
  split.
  - assert (year_end yoe < DAYS_PER_ERA); [|lia].
    unfold year_end, DAYS_PER_ERA. destruct (Z.eqb_spec yoe 399); [lia|].
    pose proof (year_of_doe_within (yoe + 1) (year_start (yoe + 1)) ltac:(lia)) as _.
    unfold year_start; Z.div_mod_to_equations; lia.
  - unfold civil_of_doe. rewrite (year_of_doe_within yoe _ Hy Hin).
    unfold doe_of_civil at 1.
    replace (year_start yoe + doy_of_month_day m d - year_start yoe)
      with (doy_of_month_day m d) by lia.
    rewrite Emd. repeat f_equal; lia.
Qed.

Lemma days_from_civil_from_days z :
  let '(y, m, d) := civil_from_days z in days_from_civil y m d = z.
Proof.
  unfold civil_from_days, days_from_civil.
  pose proof (Z.mod_pos_bound (z + EPOCH_SHIFT) DAYS_PER_ERA eq_refl) as Hb.
  pose proof (civil_of_doe_spec _ Hb) as Hs.
  destruct (civil_of_doe ((z + EPOCH_SHIFT) mod DAYS_PER_ERA)) as [[yoe m] d].
  destruct Hs as (Hy & Hm & Hd & Hdoe).
  replace (yoe + (z + EPOCH_SHIFT) / DAYS_PER_ERA * 400 + year_shift m - year_shift m)
    with (yoe + (z + EPOCH_SHIFT) / DAYS_PER_ERA * 400) by lia.
  rewrite Z.div_add, Z.mod_add, Z.div_small, Z.mod_small, Hdoe by lia.
  pose proof (Z.div_mod (z + EPOCH_SHIFT) DAYS_PER_ERA); lia.
Qed.

Lemma civil_from_days_from_civil y m d :
  valid_civil y m d = true -> civil_from_days (days_from_civil y m d) = (y, m, d).
Proof.
  unfold valid_civil; intros Hv; repeat (apply andb_true_iff in Hv as [Hv ?]).
  unfold civil_from_days, days_from_civil.
  set (y' := y - year_shift m).
  pose proof (Z.mod_pos_bound y' 400 eq_refl) as Hyoe.
  assert (Hd : 1 <= d <= days_in_month (y' mod 400 + year_shift m) m).
  { replace (y' mod 400 + year_shift m) with (y + 400 * (- (y' / 400)))
      by (pose proof (Z.div_mod y' 400); unfold y' in *; lia).
    rewrite days_in_month_era; lia. }
  destruct (doe_of_civil_spec (y' mod 400) m d Hyoe ltac:(lia) Hd) as [Hb Hc].
  replace (y' / 400 * DAYS_PER_ERA + doe_of_civil (y' mod 400) m d - EPOCH_SHIFT + EPOCH_SHIFT)
    with (doe_of_civil (y' mod 400) m d + y' / 400 * DAYS_PER_ERA) by lia.
  unfold DAYS_PER_ERA in *.
  rewrite Z.mod_add, Z.div_add, Z.mod_small, Z.div_small by lia. rewrite Hc.
  do 2 f_equal.
  pose proof (Z.div_mod y' 400); unfold y' in *; lia.
Qed.

Lemma civil_from_days_valid z :
  let '(y, m, d) := civil_from_days z in valid_civil y m d = true.
Proof.
  unfold civil_from_days.
  pose proof (Z.mod_pos_bound (z + EPOCH_SHIFT) DAYS_PER_ERA eq_refl) as Hb.
  pose proof (civil_of_doe_spec _ Hb) as Hs.
  destruct (civil_of_doe ((z + EPOCH_SHIFT) mod DAYS_PER_ERA)) as [[yoe m] d].
  destruct Hs as (Hy & Hm & Hd & _).
  unfold valid_civil.
  replace (yoe + (z + EPOCH_SHIFT) / DAYS_PER_ERA * 400 + year_shift m)
    with (yoe + year_shift m + 400 * ((z + EPOCH_SHIFT) / DAYS_PER_ERA)) by lia.
  rewrite days_in_month_era.
  repeat (apply andb_true_iff; split); lia.
Qed.

(** Day numbers and civil dates correspond one to one. *)
Lemma civil_from_days_inj z1 z2 : civil_from_days z1 = civil_from_days z2 -> z1 = z2.
Proof.
  intros Heq.
  pose proof (days_from_civil_from_days z1) as H1.
  pose proof (days_from_civil_from_days z2) as H2.
  rewrite Heq in H1. destruct (civil_from_days z2) as [[y m] d]; congruence.
Qed.

Lemma epoch_is_1970 : civil_from_days 0 = (1970, 1, 1).
Proof. reflexivity. Qed.

(** Splitting a time value into fields and back. *)
Lemma ms_of_fields_of_ms t : ms_of_fields (fields_of_ms t) = t.
Proof.
  unfold ms_of_fields, fields_of_ms.
  pose proof (days_from_civil_from_days (t / MS_PER_DAY)) as Hd.
  destruct (civil_from_days (t / MS_PER_DAY)) as [[y m] d]; simpl.
  rewrite Hd. unfold MS_PER_DAY, MS_PER_HOUR, MS_PER_MINUTE, MS_PER_SECOND.
  Z.div_mod_to_equations; lia.
Qed.
