(* ===== verification/RefHost.v ===== *)
(** * RefHost: an executable instance of the host interface

    [ref_host tz] is a [Host] for a machine whose local clock is [tz]
    milliseconds ahead of UTC all year round.  It makes every definition of
    the development run, so that the examples evaluate.

    - [StringToNumber] follows the StringNumericLiteral grammar: optional
      white space, an optional sign, then [Infinity] or a decimal literal
      with optional fraction and exponent; the empty string is 0; anything
      else is [NaN].  Hexadecimal, octal and binary literals are read as
      [NaN] here.
    - [NumberToString] prints integers in decimal and other rationals with
      up to 20 fraction digits.
    - [localeCompare] orders strings by their bytes; case mapping touches
      the ASCII letters only.
    - [parseISO] and [DateParse] read [YYYY-MM-DD], optionally followed by
      [THH:MM], [:SS], [.sss] and [Z] or a [+HH:MM] / [-HH:MM] offset.  A
      date without time is local midnight for [parseISO] and UTC midnight
      for [DateParse]; a date and time without offset is local for both. *)

From Stdlib Require Import QArith ZArith Lia Ascii.
From stdpp Require Import base tactics option list strings pretty.
From S2P Require Import Prelude JsNumber JsString JsValue Calendar.
Close Scope Q_scope.
Open Scope string_scope.

(** ** Reading digits *)

Definition digit_val (c : ascii) : option Z :=
  let n := Z.of_N (N_of_ascii c) in
  if (48 <=? n)%Z && (n <=? 57)%Z then Some (n - 48)%Z else None.

(** The longest run of digits that starts [s]: its value, its length and the
    rest of the string. *)
Fixpoint read_digits (acc : Z) (len : nat) (s : string) : Z * nat * string :=
  match s with
  | String c r =>
      match digit_val c with
      | Some d => read_digits (acc * 10 + d)%Z (S len) r
      | None => (acc, len, s)
      end
  | EmptyString => (acc, len, s)
  end.

(** Exactly [n] digits. *)
Fixpoint read_fixed (n : nat) (acc : Z) (s : string) : option (Z * string) :=
  match n with
  | O => Some (acc, s)
  | S n' =>
      match s with
      | String c r => d ← digit_val c; read_fixed n' (acc * 10 + d)%Z r
      | EmptyString => None
      end
  end.

(** The character [c] next, if any. *)
Definition expect (c : ascii) (s : string) : option string :=
  match s with
  | String c' r => if Ascii.eqb c c' then Some r else None
  | EmptyString => None
  end.

(** ** Numbers *)

Definition read_sign (s : string) : bool * string :=
  match s with
  | String "-" r => (true, r)
  | String "+" r => (false, r)
  | _ => (false, s)
  end.

Definition read_exponent (s : string) : option Z :=
  match s with
  | EmptyString => Some 0%Z
  | String c r =>
      if Ascii.eqb c "e" || Ascii.eqb c "E" then
        let '(neg, r1) := read_sign r in
        let '(e, len, r2) := read_digits 0 0 r1 in
        if (0 <? len)%nat && String.eqb r2 "" then Some (if neg then - e else e)%Z
        else None
      else None
  end.

Definition read_decimal (s : string) : option Q :=
  let '(ip, ilen, r1) := read_digits 0 0 s in
  let '(fp, flen, r2) :=
    match r1 with
    | String "." r => read_digits 0 0 r
    | _ => (0%Z, 0%nat, r1)
    end in
  if (0 <? ilen + flen)%nat then
    e ← read_exponent r2;
    Some (Qred ((inject_Z ip + inject_Z fp / inject_Z (10 ^ Z.of_nat flen))
                * Qpower (inject_Z 10) e))
  else None.

Definition ref_StringToNumber (s : string) : number :=
  let t := trim s in
  if String.eqb t "" then of_Z 0
  else
    let '(neg, r) := read_sign t in
    if String.eqb r "Infinity" then (if neg then NInf else PInf)
    else match read_decimal r with
         | Some q => Fin (if neg then Qred (- q) else q)
         | None => NaN
         end.

(** Fraction digits of [num / den], at most [fuel] of them. *)
Fixpoint fraction_digits (fuel : nat) (num den : Z) : string :=
  match fuel with
  | O => ""
  | S fuel' =>
      if (num =? 0)%Z then ""
      else pretty (num * 10 / den)%Z +:+ fraction_digits fuel' (num * 10 mod den)%Z den
  end.

Definition ref_NumberToString (n : number) : string :=
  match n with
  | NaN => "NaN"
  | PInf => "Infinity"
  | NInf => "-Infinity"
  | Fin q =>
      let q := Qred q in
      let num := Qnum q in
      let den := Z.pos (Qden q) in
      let ip := (Z.abs num / den)%Z in
      let fr := fraction_digits 20 (Z.abs num mod den)%Z den in
      (if (num <? 0)%Z then "-" else "") +:+ pretty ip +:+
      (if String.eqb fr "" then "" else "." +:+ fr)
  end.

(** ** Strings *)

Definition ref_localeCompare (a b : string) : Z :=
  match String.compare a b with Lt => (-1)%Z | Eq => 0%Z | Gt => 1%Z end.

Definition lower_ascii (c : ascii) : ascii :=
  let n := N_of_ascii c in
  if (65 <=? n)%N && (n <=? 90)%N then ascii_of_N (n + 32) else c.

Definition upper_ascii (c : ascii) : ascii :=
  let n := N_of_ascii c in
  if (97 <=? n)%N && (n <=? 122)%N then ascii_of_N (n - 32) else c.

Fixpoint map_string (f : ascii -> ascii) (s : string) : string :=
  match s with
  | EmptyString => EmptyString
  | String c r => String (f c) (map_string f r)
  end.

(** ** Dates *)

(** The time zone suffix: [None] when absent, else the offset of the named
    zone from UTC in milliseconds. *)
Definition read_zone (s : string) : option (option Z) :=
  match s with
  | EmptyString => Some None
  | String "Z" EmptyString => Some (Some 0%Z)
  | String c r =>
      if Ascii.eqb c "+" || Ascii.eqb c "-" then
        '(h, r1) ← read_fixed 2 0 r;
        r2 ← expect ":" r1;
        '(m, r3) ← read_fixed 2 0 r2;
        if String.eqb r3 "" && (h <? 24)%Z && (m <? 60)%Z then
          let off := (h * MS_PER_HOUR + m * MS_PER_MINUTE)%Z in
          Some (Some (if Ascii.eqb c "-" then - off else off)%Z)
        else None
      else None
  end.

(** Optional [.sss] fraction of a second. *)
Definition read_millis (s : string) : option (Z * string) :=
  match s with
  | String "." r => read_fixed 3 0 r
  | _ => Some (0%Z, s)
  end.

(** Optional [:SS] with its optional fraction. *)
Definition read_seconds (s : string) : option (Z * Z * string) :=
  match s with
  | String ":" r =>
      '(sec, r1) ← read_fixed 2 0 r;
      '(ms, r2) ← read_millis r1;
      Some (sec, ms, r2)
  | _ => Some (0%Z, 0%Z, s)
  end.

(** The time of day after the [T]: milliseconds since midnight, and the
    zone when one is named. *)
Definition read_time (s : string) : option (Z * option Z) :=
  '(hh, r1) ← read_fixed 2 0 s;
  r2 ← expect ":" r1;
  '(mm, r3) ← read_fixed 2 0 r2;
  '(ss, ms, r4) ← read_seconds r3;
  zone ← read_zone r4;
  if (hh <? 24)%Z && (mm <? 60)%Z && (ss <? 60)%Z
  then Some (hh * MS_PER_HOUR + mm * MS_PER_MINUTE + ss * MS_PER_SECOND + ms, zone)%Z
  else None.

(** The time value of an ISO string; [date_only_utc] makes a date without
    time count from UTC midnight. *)
Definition read_iso (tz : Z) (date_only_utc : bool) (s : string) : jsdate :=
  '(y, r1) ← read_fixed 4 0 s;
  r2 ← expect "-" r1;
  '(m, r3) ← read_fixed 2 0 r2;
  r4 ← expect "-" r3;
  '(d, r5) ← read_fixed 2 0 r4;
  if valid_civil y m d then
    let day_ms := (days_from_civil y m d * MS_PER_DAY)%Z in
    match r5 with
    | EmptyString => Some (if date_only_utc then day_ms else day_ms - tz)%Z
    | String c r6 =>
        if Ascii.eqb c "T" then
          '(time, zone) ← read_time r6;
          Some (day_ms + time - default tz zone)%Z
        else None
    end
  else None.

(** ** The instance *)

Lemma ref_localeCompare_le a b : (ref_localeCompare a b <= 0)%Z <-> String.le a b.
Proof.
  unfold ref_localeCompare, String.le, String.leb.
  destruct (String.compare a b); simpl; intuition lia.
Qed.

Lemma ref_localeCompare_refl s : ref_localeCompare s s = 0%Z.
Proof.
  unfold ref_localeCompare.
  assert (String.compare s s = Eq) as ->; [|reflexivity].
  pose proof (String.compare_antisym s s) as Ha.
  destruct (String.compare s s); simpl in Ha; congruence.
Qed.

Lemma ref_localeCompare_antisym a b :
  Z.sgn (ref_localeCompare a b) = (- Z.sgn (ref_localeCompare b a))%Z.
Proof.
  unfold ref_localeCompare; rewrite (String.compare_antisym b a).
  destruct (String.compare a b); reflexivity.
Qed.

Lemma ref_localeCompare_trans a b c :
  (ref_localeCompare a b <= 0)%Z -> (ref_localeCompare b c <= 0)%Z ->
  (ref_localeCompare a c <= 0)%Z.
Proof. rewrite !ref_localeCompare_le; intros; etrans; eauto. Qed.

Definition ref_host (tz : Z) : Host := {|
  StringToNumber := ref_StringToNumber;
  NumberToString := ref_NumberToString;
  localeCompare := ref_localeCompare;
  toLowerCase := map_string lower_ascii;
  toUpperCase := map_string upper_ascii;
  parseISO := read_iso tz false;
  DateParse := read_iso tz true;
  tzOffsetMs := tz;
  localeCompare_refl := ref_localeCompare_refl;
  localeCompare_antisym := ref_localeCompare_antisym;
  localeCompare_trans := ref_localeCompare_trans;
|}.

(** Bucharest in winter: two hours ahead of UTC. *)
Definition host_bucharest : Host := ref_host (2 * MS_PER_HOUR).

(** New York in winter: five hours behind UTC. *)
Definition host_new_york : Host := ref_host (-5 * MS_PER_HOUR).


(** ** A date without a time, and the same day at a time of the local clock *)

Lemma read_fixed_append n acc s suffix v r :
  read_fixed n acc s = Some (v, r) ->
  read_fixed n acc (s +:+ suffix) = Some (v, r +:+ suffix)
  /\ String.length s = (n + String.length r)%nat.
Proof.
  revert acc s; induction n as [|n IH]; intros acc s; cbn; [intros [= <- <-]; by split|].
  destruct s as [|c s]; [discriminate|].
  change (String c s +:+ suffix) with (String c (s +:+ suffix)); cbn.
  destruct (digit_val c) as [d|]; [|discriminate]; cbn [mbind option_bind].
  intros [-> ->]%IH; by split.
Qed.

Lemma expect_append c s suffix r :
  expect c s = Some r ->
  expect c (s +:+ suffix) = Some (r +:+ suffix) /\ String.length s = S (String.length r).
Proof.
  destruct s as [|c' s]; [discriminate|].
  change (String c' s +:+ suffix) with (String c' (s +:+ suffix)); cbn.
  destruct (Ascii.eqb c c'); [intros [= <-]; by split | discriminate].
Qed.

(** A text of ten characters that reads as a date is a date without a
    time and counts from UTC midnight; the same day at midnight of the
    local clock is earlier by the offset of the zone. *)
Lemma read_iso_midnight tz day t :
  String.length day = 10%nat -> read_iso tz true day = Some t ->
  read_iso tz true (day +:+ "T00:00:00") = Some (t - tz)%Z.
Proof.
  unfold read_iso; intros Hlen.
  destruct (read_fixed 4 0 day) as [[y r1]|] eqn:Hy; [|discriminate]; cbn [mbind option_bind].
  destruct (expect "-" r1) as [r2|] eqn:H1; [|discriminate]; cbn [mbind option_bind].
  destruct (read_fixed 2 0 r2) as [[m r3]|] eqn:Hm; [|discriminate]; cbn [mbind option_bind].
  destruct (expect "-" r3) as [r4|] eqn:H2; [|discriminate]; cbn [mbind option_bind].
  destruct (read_fixed 2 0 r4) as [[d r5]|] eqn:Hd; [|discriminate]; cbn [mbind option_bind].
  apply (read_fixed_append _ _ _ "T00:00:00") in Hy as [Hy Hly], Hm as [Hm Hlm], Hd as [Hd Hld].
  apply (expect_append _ _ "T00:00:00") in H1 as [H1 Hl1], H2 as [H2 Hl2].
  rewrite Hy; cbn [mbind option_bind]; rewrite H1; cbn [mbind option_bind].
  rewrite Hm; cbn [mbind option_bind]; rewrite H2; cbn [mbind option_bind].
  rewrite Hd; cbn [mbind option_bind].
  destruct r5; [|cbn in *; lia].
  destruct (valid_civil y m d); [|discriminate].
  intros [= <-]; change ("" +:+ "T00:00:00") with "T00:00:00"; cbn [Ascii.eqb Bool.eqb].
  change (read_time "00:00:00") with (Some (0%Z, @None Z)); cbn; f_equal; lia.
Qed.

(** ** Examples *)

Example StringToNumber_examples :
  ref_StringToNumber "42" = of_Z 42 /\
  ref_StringToNumber " 12.5 " = Fin (25 # 2) /\
  ref_StringToNumber "-3" = Fin (-3 # 1) /\
  ref_StringToNumber "1e3" = of_Z 1000 /\
  ref_StringToNumber "" = of_Z 0 /\
  ref_StringToNumber "   " = of_Z 0 /\
  ref_StringToNumber "abc" = NaN /\
  ref_StringToNumber "12px" = NaN /\
  ref_StringToNumber "Infinity" = PInf.
Proof. vm_compute; repeat split; reflexivity. Qed.

Example NumberToString_examples :
  ref_NumberToString (of_Z 7) = "7" /\
  ref_NumberToString (Fin (25 # 2)) = "12.5" /\
  ref_NumberToString (Fin (-3 # 4)) = "-0.75" /\
  ref_NumberToString NaN = "NaN".
Proof. vm_compute; repeat split; reflexivity. Qed.

Example read_iso_examples :
  read_iso 0 true "1970-01-01" = Some 0%Z /\
  read_iso 0 true "2024-01-01" = Some 1704067200000%Z /\
  read_iso 7200000 false "2024-01-01" = Some 1704060000000%Z /\
  read_iso 7200000 true "2024-01-01T00:00:00" = Some 1704060000000%Z /\
  read_iso 7200000 true "2024-01-01T10:30:00Z" = Some 1704105000000%Z /\
  read_iso 7200000 true "2024-01-01T10:30:00.250+02:00" = Some 1704097800250%Z /\
  read_iso 0 true "2024-02-30" = None /\
  read_iso 0 true "yesterday" = None /\
  read_iso 0 true "" = None.
Proof. vm_compute; repeat split; reflexivity. Qed.
