(* ===== verification/Base64.v ===== *)
(** * Base64: [atob]

    The forgiving base64 decoder that [atob] runs, with the encoder it
    inverts.  A byte is a number below 256.  The string [atob] returns
    holds one code point per byte; in UTF-8 a byte of 128 or more takes
    two bytes ([latin1_string]).

    [encode] is the reference: three bytes to four characters, padded
    with [=].  [base64url] is the form a token carries: [-] and [_] for
    [+] and [/], no padding. *)

From Stdlib Require Import NArith ZArith Lia Ascii.
From stdpp Require Import base tactics option list strings.
From S2P Require Import Prelude JsString JsValue.
Open Scope string_scope.

(** ** Definitions *)

Definition b64_char (n : N) : ascii :=
  ascii_of_N (if n <? 26 then 65 + n else if n <? 52 then 71 + n
              else if n <? 62 then n - 4 else if n =? 62 then 43 else 47)%N.

Definition b64_index (c : ascii) : option N :=
  let n := N_of_ascii c in
  if (65 <=? n)%N && (n <=? 90)%N then Some (n - 65)%N
  else if (97 <=? n)%N && (n <=? 122)%N then Some (n - 71)%N
  else if (48 <=? n)%N && (n <=? 57)%N then Some (n + 4)%N
  else if (n =? 43)%N then Some 62%N
  else if (n =? 47)%N then Some 63%N
  else None.
Arguments b64_index : simpl never.

(** The four sextets of three bytes, and back. *)
Definition quad (a b c : N) : list N :=
  [a / 4; (a mod 4) * 16 + b / 16; (b mod 16) * 4 + c / 64; c mod 64]%N.

Definition triple (a b c d : N) : list N :=
  [a * 4 + b / 16; (b mod 16) * 16 + c / 4; (c mod 4) * 64 + d]%N.

Fixpoint sextets (bytes : list N) : list N :=
  match bytes with
  | a :: b :: c :: rest => quad a b c ++ sextets rest
  | [a; b] => take 3 (quad a b 0)
  | [a] => take 2 (quad a 0 0)
  | [] => []
  end.

Fixpoint unsextets (sx : list N) : list N :=
  match sx with
  | a :: b :: c :: d :: rest => triple a b c d ++ unsextets rest
  | [a; b; c] => take 2 (triple a b c 0)
  | [a; b] => take 1 (triple a b 0 0)
  | _ => []
  end.

Definition string_of_chars (cs : list ascii) : string := foldr String EmptyString cs.

Fixpoint chars_of_string (s : string) : list ascii :=
  match s with
  | EmptyString => []
  | String c r => c :: chars_of_string r
  end.

(** How many [=] follow the sextets of [n] bytes. *)
Definition padding (n : nat) : nat := (3 - n mod 3) mod 3.

Definition encode (bytes : list N) : string :=
  string_of_chars (map b64_char (sextets bytes)) +:+ repeat_char "=" (padding (length bytes)).

Definition base64url (bytes : list N) : string :=
  replace_all "/" "_" (replace_all "+" "-" (string_of_chars (map b64_char (sextets bytes)))).

(** ASCII whitespace: tab, line feed, form feed, carriage return, space. *)
Definition is_b64_ws (c : ascii) : bool :=
  let n := N_of_ascii c in
  (n =? 9)%N || (n =? 10)%N || (n =? 12)%N || (n =? 13)%N || (n =? 32)%N.

(** One or two [=] at the end, removed. *)
Fixpoint strip_equals (cs : list ascii) : list ascii :=
  match cs with
  | [] => []
  | c :: r =>
      match r with
      | [] => if Ascii.eqb c "=" then [] else [c]
      | [c'] => if Ascii.eqb c "=" && Ascii.eqb c' "=" then [] else c :: strip_equals r
      | _ => c :: strip_equals r
      end
  end.

Definition strip_padding (cs : list ascii) : list ascii :=
  if (length cs mod 4 =? 0)%nat then strip_equals cs else cs.

(** The string of a byte sequence: one code point per byte. *)
Fixpoint latin1_string (bytes : list N) : string :=
  match bytes with
  | [] => EmptyString
  | b :: rest =>
      if (b <? 128)%N then String (ascii_of_N b) (latin1_string rest)
      else String (ascii_of_N (192 + b / 64)) (String (ascii_of_N (128 + b mod 64))
             (latin1_string rest))
  end.

Definition string_bytes (s : string) : list N := map N_of_ascii (chars_of_string s).

Definition invalid_character : exn := Thrown (VStr "InvalidCharacterError").

(** [atob(s)] *)
Definition atob (s : string) : result exn string :=
  let cs := strip_padding (List.filter (fun c => negb (is_b64_ws c)) (chars_of_string s)) in
  if (length cs mod 4 =? 1)%nat then Throw invalid_character
  else match mapM b64_index cs with
       | Some sx => Ok (latin1_string (unsextets sx))
       | None => Throw invalid_character
       end.

Example atob_examples :
  atob "bnVsbA==" = Ok "null" /\ atob "bnVsbA" = Ok "null" /\ atob " bn VsbA= =" = Ok "null" /\
  atob "YQ" = Ok "a" /\ atob "YWI=" = Ok "ab" /\ atob "YWJj" = Ok "abc" /\
  atob "" = Ok "" /\ atob "a" = Throw invalid_character /\
  atob "bnVsbA=" = Throw invalid_character /\ atob "bn-sbA==" = Throw invalid_character /\
  atob "/w==" = Ok (String "195" (String "191" "")) /\
  encode [110; 117; 108; 108]%N = "bnVsbA==" /\ base64url [255; 239]%N = "_-8".
Proof. vm_compute; repeat split; reflexivity. Qed.

(** ** Facts *)

(** Induction three elements at a time. *)
Lemma list_ind3 {A} (P : list A -> Prop) :
  P [] -> (forall a, P [a]) -> (forall a b, P [a; b]) ->
  (forall a b c l, P l -> P (a :: b :: c :: l)) -> forall l, P l.
Proof.
  intros H0 H1 H2 H3 l; cut (P l /\ (forall a, P (a :: l)) /\ forall a b, P (a :: b :: l)); [tauto|].
  induction l as [|x l (IH0 & IH1 & IH2)]; auto.
Qed.

(** Arithmetic on [N] with division by constants. *)
Ltac n_lia := zify; Z.to_euclidean_division_equations; lia.

(** Case analysis on the comparisons of the goal. *)
Ltac n_cases :=
  repeat match goal with
         | |- context [(?a <? ?b)%N] => destruct (N.ltb_spec a b)
         | |- context [(?a <=? ?b)%N] => destruct (N.leb_spec a b)
         | |- context [(?a =? ?b)%N] => destruct (N.eqb_spec a b)
         end; cbn [andb orb negb].

Lemma b64_char_code n :
  (n < 64)%N ->
  N_of_ascii (b64_char n)
  = (if n <? 26 then 65 + n else if n <? 52 then 71 + n
     else if n <? 62 then n - 4 else if n =? 62 then 43 else 47)%N.
Proof. intros Hn; unfold b64_char; apply N_ascii_embedding; n_cases; lia. Qed.

Lemma b64_index_char n : (n < 64)%N -> b64_index (b64_char n) = Some n.
Proof.
  intros Hn; unfold b64_index; rewrite (b64_char_code n Hn).
  n_cases; try (f_equal; lia); exfalso; lia.
Qed.

Lemma b64_index_lt c n : b64_index c = Some n -> (n < 64)%N /\ (N_of_ascii c < 128)%N.
Proof. unfold b64_index; n_cases; intros [= <-]; lia. Qed.

Lemma quad_lt a b c :
  (a < 256)%N -> (b < 256)%N -> (c < 256)%N -> Forall (fun n => n < 64)%N (quad a b c).
Proof.
  intros; unfold quad.
  repeat (apply List.Forall_cons; [n_lia|]); apply List.Forall_nil.
Qed.

Lemma triple_quad a b c :
  (a < 256)%N -> (b < 256)%N -> (c < 256)%N ->
  triple (a / 4) ((a mod 4) * 16 + b / 16) ((b mod 16) * 4 + c / 64) (c mod 64) = [a; b; c].
Proof.
  intros; unfold triple; repeat f_equal; n_lia.
Qed.

Lemma sextets_lt bytes :
  Forall (fun b => b < 256)%N bytes -> Forall (fun n => n < 64)%N (sextets bytes).
Proof.
  induction bytes as [|a|a b|a b c l IH] using list_ind3; intros Hb; cbn [sextets].
  - constructor.
  - apply Forall_cons in Hb as [Ha _]; apply Forall_take, quad_lt; [exact Ha | lia | lia].
  - apply Forall_cons in Hb as [Ha [Hb _]%Forall_cons]; apply Forall_take, quad_lt; [assumption.. | lia].
  - apply Forall_cons in Hb as [Ha [Hb [Hc Hl]%Forall_cons]%Forall_cons].
    apply Forall_app; split; [apply quad_lt; assumption | apply IH, Hl].
Qed.

(** The sextets of a byte sequence decode to it. *)
Lemma unsextets_sextets bytes :
  Forall (fun b => b < 256)%N bytes -> unsextets (sextets bytes) = bytes.
Proof.
  induction bytes as [|a|a b|a b c l IH] using list_ind3; intros Hb.
  - reflexivity.
  - apply Forall_cons in Hb as [Ha _]; cbn; f_equal; n_lia.
  - apply Forall_cons in Hb as [Ha [Hb _]%Forall_cons]; cbn.
    repeat f_equal; n_lia.
  - apply Forall_cons in Hb as [Ha [Hb [Hc Hl]%Forall_cons]%Forall_cons].
    cbn [sextets quad app unsextets]; rewrite (triple_quad a b c), (IH Hl) by assumption.
    reflexivity.
Qed.

Lemma sextets_length bytes :
  ((length (sextets bytes) + padding (length bytes)) mod 4 = 0 /\
   length (sextets bytes) mod 4 <> 1 /\ padding (length bytes) <= 2)%nat.
Proof.
  induction bytes as [|a|a b|a b c l (IH1 & IH2 & IH3)] using list_ind3;
    try (vm_compute; repeat split; lia).
  cbn [sextets quad app length]; unfold padding in *.
  change (S (S (S (length l)))) with (1 * 3 + length l)%nat.
  rewrite (Nat.add_comm (1 * 3)), Nat.Div0.mod_add.
  replace (S (S (S (S (length (sextets l))))) + _)%nat
    with (length (sextets l) + (3 - length l mod 3) mod 3 + 1 * 4)%nat by lia.
  replace (S (S (S (S (length (sextets l))))))%nat with (length (sextets l) + 1 * 4)%nat by lia.
  rewrite !Nat.Div0.mod_add; auto.
Qed.

Lemma mapM_b64_index sx :
  Forall (fun n => n < 64)%N sx -> mapM b64_index (map b64_char sx) = Some sx.
Proof.
  induction 1 as [|n sx Hn _ IH]; [reflexivity|].
  cbn [map mapM]; rewrite (b64_index_char n Hn), IH; reflexivity.
Qed.

Lemma chars_of_string_app s t : chars_of_string (s +:+ t) = (chars_of_string s ++ chars_of_string t)%list.
Proof. induction s as [|c s IH]; [reflexivity|]; exact (f_equal (cons c) IH). Qed.

Lemma chars_of_string_of_chars cs : chars_of_string (string_of_chars cs) = cs.
Proof. induction cs as [|c cs IH]; simpl; congruence. Qed.

Lemma string_of_chars_of_string s : string_of_chars (chars_of_string s) = s.
Proof. induction s as [|c s IH]; simpl; congruence. Qed.

Lemma chars_of_repeat_char c n : chars_of_string (repeat_char c n) = replicate n c.
Proof. induction n as [|n IH]; simpl; congruence. Qed.

Lemma strip_equals_app cs p :
  Forall (fun c => c <> "="%char) cs -> (p <= 2)%nat ->
  strip_equals (cs ++ replicate p "="%char)%list = cs.
Proof.
  intros Hcs Hp; induction Hcs as [|c cs Hc _ IH].
  - destruct p as [|[|[|p]]]; [reflexivity.. | lia].
  - cbn [app strip_equals]; rewrite IH.
    apply Ascii.eqb_neq in Hc; rewrite Hc.
    destruct (cs ++ replicate p "="%char)%list as [|c1 [|c2 r]] eqn:E; [|reflexivity..].
    apply app_eq_nil in E as [-> _]; reflexivity.
Qed.

Lemma b64_char_range n :
  (n < 64)%N ->
  let k := N_of_ascii (b64_char n) in
  (65 <= k <= 90 \/ 97 <= k <= 122 \/ 48 <= k <= 57 \/ k = 43 \/ k = 47)%N.
Proof. intros Hn; cbv zeta; rewrite (b64_char_code n Hn); n_cases; lia. Qed.

Lemma b64_char_plain n : (n < 64)%N -> b64_char n <> "="%char /\ is_b64_ws (b64_char n) = false.
Proof.
  intros Hn; pose proof (b64_char_range n Hn) as Hc; cbv zeta in Hc; split.
  - intros E; rewrite E in Hc; change (N_of_ascii "=") with 61%N in Hc; lia.
  - unfold is_b64_ws; generalize dependent (N_of_ascii (b64_char n)); intros k Hk.
    n_cases; first [reflexivity | exfalso; lia].
Qed.

Lemma encode_chars bytes :
  chars_of_string (encode bytes)
  = (map b64_char (sextets bytes) ++ replicate (padding (length bytes)) "="%char)%list.
Proof.
  unfold encode; rewrite chars_of_string_app, chars_of_string_of_chars, chars_of_repeat_char.
  reflexivity.
Qed.

(** The characters of an encoding, as [atob] reads them once the padding
    is gone. *)
Lemma encode_stripped bytes :
  Forall (fun b => b < 256)%N bytes ->
  strip_padding (List.filter (fun c => negb (is_b64_ws c)) (chars_of_string (encode bytes)))
  = map b64_char (sextets bytes).
Proof.
  intros Hb%sextets_lt; destruct (sextets_length bytes) as (Hlen & _ & Hpad).
  rewrite encode_chars, filter_all.
  - unfold strip_padding; rewrite length_app, length_map, length_replicate, Hlen; simpl.
    apply strip_equals_app; [|exact Hpad].
    apply Forall_map; eapply Forall_impl; [exact Hb|]; intros n Hn; apply b64_char_plain, Hn.
  - intros c [Hc|Hc]%in_app_iff.
    + apply in_map_iff in Hc as (n & <- & Hn); rewrite List.Forall_forall in Hb.
      rewrite (proj2 (b64_char_plain n (Hb n Hn))); reflexivity.
    + apply list_elem_of_In, elem_of_replicate in Hc as [-> _]; reflexivity.
Qed.

(** ** Theorems *)

(** [atob] inverts [encode]. *)
Theorem atob_encode bytes :
  Forall (fun b => b < 256)%N bytes -> atob (encode bytes) = Ok (latin1_string bytes).
Proof.
  intros Hb; unfold atob; rewrite (encode_stripped bytes Hb), length_map.
  destruct (sextets_length bytes) as (_ & Hne%Nat.eqb_neq & _); rewrite Hne.
  rewrite (mapM_b64_index _ (sextets_lt bytes Hb)), (unsextets_sextets bytes Hb); reflexivity.
Qed.

Lemma strip_equals_In c cs : In c cs -> c <> "="%char -> In c (strip_equals cs).
Proof.
  intros Hin Hc; induction cs as [|c1 cs IH]; [destruct Hin|].
  cbn [strip_equals]; destruct Hin as [->|Hin].
  - apply Ascii.eqb_neq in Hc; destruct cs as [|c2 [|c3 r]]; rewrite ?Hc; left; reflexivity.
  - specialize (IH Hin); destruct cs as [|c2 [|c3 r]]; [destruct Hin | | right; exact IH].
    destruct Hin as [->|[]]; apply Ascii.eqb_neq in Hc; rewrite Hc, andb_false_r.
    right; exact IH.
Qed.

Lemma is_ascii_chars s :
  is_ascii s = true <-> forall c, In c (chars_of_string s) -> (N_of_ascii c < 128)%N.
Proof.
  induction s as [|c s IH]; simpl; [split; [intros _ ? [] | reflexivity]|].
  rewrite andb_true_iff, IH, Nat.ltb_lt; unfold nat_of_ascii; split.
  - intros [Hc Hs] x [<-|Hx]; [lia | exact (Hs x Hx)].
  - intros H; split; [specialize (H c (or_introl eq_refl)); lia | intros x Hx; apply H; right; exact Hx].
Qed.

(** [atob] accepts ASCII only. *)
Theorem atob_is_ascii s t : atob s = Ok t -> is_ascii s = true.
Proof.
  unfold atob; set (cs := strip_padding _); destruct (length cs mod 4 =? 1)%nat; [discriminate|].
  destruct (mapM b64_index cs) as [sx|] eqn:E; [intros _ | discriminate].
  assert (Hcs : Forall (is_Some ∘ b64_index) cs) by (apply mapM_is_Some; eauto).
  rewrite List.Forall_forall in Hcs; apply is_ascii_chars; intros c Hc.
  destruct (is_b64_ws c) eqn:Hws; [revert Hws; unfold is_b64_ws; n_cases; (discriminate || lia)|].
  destruct (Ascii.eqb_spec c "=") as [->|Hne]; [vm_compute; reflexivity|].
  destruct (Hcs c) as [n Hn]; [|apply b64_index_lt in Hn as [_ Hn]; exact Hn].
  unfold cs, strip_padding; assert (In c (List.filter (fun c => negb (is_b64_ws c)) (chars_of_string s)))
    by (apply List.filter_In; rewrite Hws; auto).
  destruct (_ =? 0)%nat; [apply strip_equals_In|]; assumption.
Qed.

Lemma string_bytes_lt s : Forall (fun b => b < 256)%N (string_bytes s).
Proof.
  unfold string_bytes; apply Forall_map, List.Forall_forall; intros c _; simpl.
  apply N_ascii_bounded.
Qed.

(** The bytes of an ASCII string are its code points. *)
Lemma latin1_string_bytes s : is_ascii s = true -> latin1_string (string_bytes s) = s.
Proof.
  induction s as [|c s IH]; [reflexivity|]; simpl; intros [Hc Hs]%andb_true_iff.
  apply Nat.ltb_lt in Hc; unfold nat_of_ascii in Hc.
  destruct (N.ltb_spec (N_of_ascii c) 128); [|lia].
  rewrite ascii_N_embedding; f_equal; exact (IH Hs).
Qed.

(** [atob] returns the text whose bytes were encoded, when it is ASCII. *)
Corollary atob_encode_ascii text :
  is_ascii text = true -> atob (encode (string_bytes text)) = Ok text.
Proof. intros H; rewrite atob_encode, (latin1_string_bytes text H); auto using string_bytes_lt. Qed.

(** ** The form a token carries *)

(** The characters before the padding. *)
Definition encode_body (bytes : list N) : string :=
  string_of_chars (map b64_char (sextets bytes)).

Lemma encode_body_padding bytes :
  encode bytes = encode_body bytes +:+ repeat_char "=" (padding (length bytes)).
Proof. reflexivity. Qed.

Lemma string_of_chars_length cs : String.length (string_of_chars cs) = length cs.
Proof. induction cs as [|c cs IH]; simpl; congruence. Qed.

(** The padding that brings the body to a multiple of four. *)
Lemma padding_of_body bytes :
  let n := String.length (encode_body bytes) in
  ((4 - n mod 4) mod 4 = padding (length bytes))%nat.
Proof.
  cbv zeta; unfold encode_body; rewrite string_of_chars_length, length_map.
  destruct (sextets_length bytes) as (H0 & H1 & H2); revert H0 H1 H2.
  generalize (padding (length bytes)) (length (sextets bytes)); intros p n H0 H1 H2.
  rewrite <- Nat.Div0.add_mod_idemp_l in H0.
  pose proof (Nat.mod_upper_bound n 4 ltac:(lia)) as Hr; revert H0 H1 Hr.
  generalize (n mod 4)%nat; intros r H0 H1 Hr.
  do 4 (destruct r as [|r]; [do 3 (destruct p as [|p]; [first [reflexivity | discriminate H0 | congruence]|]); lia|]); lia.
Qed.

(** Undoing the two replacements of [base64url], in the order of the
    two [replace] calls of a reader. *)
Lemma replace_all_base64url cs :
  Forall (fun c => c <> "-"%char /\ c <> "_"%char) cs ->
  replace_all "_" "/" (replace_all "-" "+"
    (replace_all "/" "_" (replace_all "+" "-" (string_of_chars cs))))
  = string_of_chars cs.
Proof.
  induction 1 as [|c cs [H1 H2] _ IH]; [reflexivity|]; simpl; rewrite IH; f_equal.
  apply Ascii.eqb_neq in H1, H2.
  destruct (Ascii.eqb_spec c "+") as [->|_]; [reflexivity|].
  destruct (Ascii.eqb_spec c "/") as [->|_]; [reflexivity|].
  rewrite H1, H2; reflexivity.
Qed.

Lemma b64_char_not n (c : ascii) :
  (n < 64)%N -> In c ["-"; "_"; "."]%char -> b64_char n <> c.
Proof.
  intros Hn Hc E; pose proof (b64_char_range n Hn) as Hk; cbv zeta in Hk; rewrite E in Hk.
  destruct Hc as [<-|[<-|[<-|[]]]]; cbn in Hk; lia.
Qed.

Lemma base64url_decoded bytes :
  Forall (fun b => b < 256)%N bytes ->
  replace_all "_" "/" (replace_all "-" "+" (base64url bytes)) = encode_body bytes.
Proof.
  intros Hb%sextets_lt; apply replace_all_base64url, Forall_map.
  eapply Forall_impl; [exact Hb|]; intros n Hn; simpl.
  split; apply b64_char_not; simpl; auto.
Qed.

Lemma replace_all_chars a b s :
  chars_of_string (replace_all a b s)
  = map (fun c => if Ascii.eqb c a then b else c) (chars_of_string s).
Proof. induction s as [|c s IH]; simpl; congruence. Qed.

(** A token segment in this form holds no dot. *)
Lemma base64url_no_dot bytes :
  Forall (fun b => b < 256)%N bytes ->
  Forall (fun c => c <> "."%char) (chars_of_string (base64url bytes)).
Proof.
  intros Hb%sextets_lt; unfold base64url.
  rewrite !replace_all_chars, chars_of_string_of_chars, !Forall_map.
  eapply Forall_impl; [exact Hb|]; intros n Hn; simpl.
  pose proof (b64_char_not n "." Hn ltac:(simpl; auto)).
  repeat case_match; congruence.
Qed.

Lemma base64url_nonempty bytes : bytes <> [] -> base64url bytes <> "".
Proof. destruct bytes as [|a [|b [|c l]]]; [congruence | discriminate..]. Qed.
