(* ===== verification/Json.v ===== *)
(** * Json: [JSON.parse] and [JSON.stringify]

    A JSON text is a string; a parsed text is a [value].  Numbers are
    exact: a number literal is read as the rational it denotes.  A string
    literal is read byte by byte; an escape [\uXXXX] is written out in
    UTF-8, a surrogate pair as one code point.

    [JSON_stringify] prints the members of an object in the order in
    which the map holds them; the runtime prints them in the order of
    insertion.  The two agree on an object of one member, which is all
    the console sends; a parser does not see the difference.

    The parser recurses on fuel; [JSON_parse] gives it the length of the
    text.  [plain_printed] shows that this is enough for every text that
    [JSON_stringify] prints. *)

From Stdlib Require Import QArith NArith ZArith Lia Ascii.
From stdpp Require Import base tactics option list strings gmap pretty.
From S2P Require Import Prelude JsNumber JsString JsValue RefHost.
Close Scope Q_scope.
Open Scope string_scope.

(** ** Strings *)

Definition hex_digit (n : N) : ascii :=
  ascii_of_N (if n <? 10 then 48 + n else 87 + n)%N.

Definition hex_val (c : ascii) : option N :=
  let n := N_of_ascii c in
  if (48 <=? n)%N && (n <=? 57)%N then Some (n - 48)%N
  else if (97 <=? n)%N && (n <=? 102)%N then Some (n - 87)%N
  else if (65 <=? n)%N && (n <=? 70)%N then Some (n - 55)%N
  else None.

Definition hex4 (a b c d : ascii) : option N :=
  x ← hex_val a; y ← hex_val b; z ← hex_val c; w ← hex_val d;
  Some (((x * 16 + y) * 16 + z) * 16 + w)%N.

(** A code point in UTF-8. *)
Definition utf8_encode (cp : N) : string :=
  let byte (n : N) := ascii_of_N n in
  if (cp <? 128)%N then String (byte cp) ""
  else if (cp <? 2048)%N then
    String (byte (192 + cp / 64)%N) (String (byte (128 + cp mod 64)%N) "")
  else if (cp <? 65536)%N then
    String (byte (224 + cp / 4096)%N)
      (String (byte (128 + (cp / 64) mod 64)%N) (String (byte (128 + cp mod 64)%N) ""))
  else
    String (byte (240 + cp / 262144)%N)
      (String (byte (128 + (cp / 4096) mod 64)%N)
         (String (byte (128 + (cp / 64) mod 64)%N) (String (byte (128 + cp mod 64)%N) ""))).

(** The character an escape of one letter stands for. *)
Definition simple_escape (e : ascii) : option ascii :=
  if Ascii.eqb e "034" then Some "034"%char
  else if Ascii.eqb e "\" then Some "\"%char
  else if Ascii.eqb e "/" then Some "/"%char
  else if Ascii.eqb e "b" then Some "008"%char
  else if Ascii.eqb e "f" then Some "012"%char
  else if Ascii.eqb e "n" then Some "010"%char
  else if Ascii.eqb e "r" then Some "013"%char
  else if Ascii.eqb e "t" then Some "009"%char
  else None.

(** After the escape of a high surrogate [n]: the code point of the pair,
    when the escape of a low surrogate follows. *)
Definition low_after (n : N) (s : string) : option N :=
  if (55296 <=? n)%N && (n <? 56320)%N then
    match s with
    | String "\" (String "u" (String l1 (String l2 (String l3 (String l4 _))))) =>
        m ← hex4 l1 l2 l3 l4;
        if (56320 <=? m)%N && (m <? 57344)%N
        then Some (65536 + (n - 55296) * 1024 + (m - 56320))%N
        else None
    | _ => None
    end
  else None.

(** The characters of a string literal after its opening quote, and what
    follows its closing quote. *)
Fixpoint parse_chars (s : string) : option (string * string) :=
  match s with
  | EmptyString => None
  | String c r =>
      if Ascii.eqb c "034" then Some (EmptyString, r)
      else if Ascii.eqb c "\" then
        match r with
        | String e r1 =>
            match simple_escape e with
            | Some c' => p ← parse_chars r1; Some (String c' p.1, p.2)
            | None =>
                if Ascii.eqb e "u" then
                  match r1 with
                  | String h1 (String h2 (String h3 (String h4 r5))) =>
                      n ← hex4 h1 h2 h3 h4;
                      match low_after n r5 with
                      | Some cp =>
                          match r5 with
                          | String _ (String _ (String _ (String _ (String _ (String _ r11))))) =>
                              p ← parse_chars r11; Some (utf8_encode cp +:+ p.1, p.2)
                          | _ => None
                          end
                      | None => p ← parse_chars r5; Some (utf8_encode n +:+ p.1, p.2)
                      end
                  | _ => None
                  end
                else None
            end
        | EmptyString => None
        end
      else if (N_of_ascii c <? 32)%N then None
      else p ← parse_chars r; Some (String c p.1, p.2)
  end.

(** How [JSON.stringify] writes a character of a string. *)
Definition quote_char (c : ascii) : string :=
  let n := N_of_ascii c in
  if (n =? 34)%N then String "\" (String "034" "")
  else if (n =? 92)%N then "\\"
  else if (n =? 8)%N then "\b"
  else if (n =? 12)%N then "\f"
  else if (n =? 10)%N then "\n"
  else if (n =? 13)%N then "\r"
  else if (n =? 9)%N then "\t"
  else if (n <? 32)%N then "\u00" +:+ String (hex_digit (n / 16)%N) (String (hex_digit (n mod 16)%N) "")
  else String c "".

Fixpoint quote_body (s : string) : string :=
  match s with
  | EmptyString => EmptyString
  | String c r => quote_char c +:+ quote_body r
  end.

Definition quote (s : string) : string := String "034" (quote_body s +:+ String "034" "").

(** ** Numbers *)

(** The integer part of a number literal: a zero, or digits that do not
    start with a zero. *)
Definition parse_int (s : string) : option (Z * string) :=
  match s with
  | String c r =>
      if Ascii.eqb c "0" then Some (0%Z, r)
      else let '(ip, ilen, r') := read_digits 0 0 s in
           if (ilen =? 0)%nat then None else Some (ip, r')
  | EmptyString => None
  end.

(** The fraction: its digits as an integer, how many they are, the rest. *)
Definition parse_frac (s : string) : option (Z * nat * string) :=
  match s with
  | String "." r =>
      let '(fp, flen, r2) := read_digits 0 0 r in
      if (flen =? 0)%nat then None else Some (fp, flen, r2)
  | _ => Some (0%Z, 0%nat, s)
  end.

Definition parse_exp (s : string) : option (Z * string) :=
  match s with
  | String c r =>
      if Ascii.eqb c "e" || Ascii.eqb c "E" then
        let '(neg, r1) := read_sign r in
        let '(e, len, r2) := read_digits 0 0 r1 in
        if (len =? 0)%nat then None else Some (if neg then (- e)%Z else e, r2)
      else Some (0%Z, s)
  | EmptyString => Some (0%Z, s)
  end.

Definition minus_sign (s : string) : bool * string :=
  match s with
  | String c r => if Ascii.eqb c "-" then (true, r) else (false, s)
  | EmptyString => (false, s)
  end.

Definition parse_number (s : string) : option (number * string) :=
  let '(neg, r0) := minus_sign s in
  '(ip, r1) ← parse_int r0;
  '(fp, flen, r2) ← parse_frac r1;
  '(e, r3) ← parse_exp r2;
  let n :=
    if (flen =? 0)%nat && (e =? 0)%Z then of_Z (if neg then - ip else ip)
    else
      let q := ((inject_Z ip + inject_Z fp / inject_Z (10 ^ Z.of_nat flen))
                * Qpower (inject_Z 10) e)%Q in
      Fin (Qred (if neg then - q else q)) in
  Some (n, r3).

(** ** Values *)

Definition is_json_ws (c : ascii) : bool :=
  let n := N_of_ascii c in (n =? 32)%N || (n =? 9)%N || (n =? 10)%N || (n =? 13)%N.

Fixpoint skip_ws (s : string) : string :=
  match s with
  | String c r => if is_json_ws c then skip_ws r else s
  | EmptyString => EmptyString
  end.

(** [s] without the prefix [p]. *)
Fixpoint expect_str (p s : string) : option string :=
  match p, s with
  | EmptyString, _ => Some s
  | String a p', String b s' => if Ascii.eqb a b then expect_str p' s' else None
  | _, _ => None
  end.

(** Members in the order of the text: a later one replaces an earlier one
    of the same key. *)
Definition object_of (members : list (string * value)) : value :=
  VObj (list_to_map (reverse members)).

(** The rest after the character [c], when [c] comes next after
    whitespace. *)
Definition next_is (c : ascii) (s : string) : option string :=
  match skip_ws s with
  | String c' r => if Ascii.eqb c c' then Some r else None
  | EmptyString => None
  end.

Fixpoint parse_value (fuel : nat) (s : string) : option (value * string) :=
  match fuel with
  | O => None
  | S fuel' =>
      match skip_ws s with
      | EmptyString => None
      | String c r =>
          if Ascii.eqb c "n" then r' ← expect_str "ull" r; Some (VNull, r')
          else if Ascii.eqb c "t" then r' ← expect_str "rue" r; Some (VBool true, r')
          else if Ascii.eqb c "f" then r' ← expect_str "alse" r; Some (VBool false, r')
          else if Ascii.eqb c "034" then p ← parse_chars r; Some (VStr p.1, p.2)
          else if Ascii.eqb c "[" then
            match next_is "]" r with
            | Some r' => Some (VArr [], r')
            | None => p ← parse_elements fuel' r; Some (VArr p.1, p.2)
            end
          else if Ascii.eqb c "{" then
            match next_is "}" r with
            | Some r' => Some (VObj ∅, r')
            | None => p ← parse_members fuel' r; Some (object_of p.1, p.2)
            end
          else p ← parse_number (String c r); Some (VNum p.1, p.2)
      end
  end
with parse_elements (fuel : nat) (s : string) : option (list value * string) :=
  match fuel with
  | O => None
  | S fuel' =>
      p ← parse_value fuel' s;
      match next_is "," p.2 with
      | Some r => q ← parse_elements fuel' r; Some (p.1 :: q.1, q.2)
      | None => r ← next_is "]" p.2; Some ([p.1], r)
      end
  end
with parse_members (fuel : nat) (s : string) : option (list (string * value) * string) :=
  match fuel with
  | O => None
  | S fuel' =>
      r ← next_is "034" s;
      k ← parse_chars r;
      r1 ← next_is ":" k.2;
      p ← parse_value fuel' r1;
      match next_is "," p.2 with
      | Some r2 => q ← parse_members fuel' r2; Some ((k.1, p.1) :: q.1, q.2)
      | None => r2 ← next_is "}" p.2; Some ([(k.1, p.1)], r2)
      end
  end.

Definition unexpected : exn := SyntaxError "Unexpected token in JSON".

(** [JSON.parse(text)] *)
Definition JSON_parse (text : string) : result exn value :=
  match parse_value (S (String.length text)) text with
  | Some (v, rest) => if String.eqb (skip_ws rest) "" then Ok v else Throw unexpected
  | None => Throw unexpected
  end.

Section WithHost.
Context `{host : Host}.

(** [JSON.stringify(v)]; [None] is [undefined]. *)
Fixpoint JSON_stringify (v : value) : option string :=
  match v with
  | VUndefined => None
  | VNull => Some "null"
  | VBool b => Some (if b then "true" else "false")
  | VNum n => Some (if isFinite n then NumberToString n else "null")
  | VStr s => Some (quote s)
  | VArr items =>
      Some ("[" +:+ join_on "," (map (fun x => default "null" (JSON_stringify x)) items) +:+ "]")
  | VObj fields =>
      Some ("{" +:+ join_on ","
              (map_fold (fun k x acc =>
                           match JSON_stringify x with
                           | Some t => (quote k +:+ ":" +:+ t) :: acc
                           | None => acc
                           end) [] fields) +:+ "}")
  end.

End WithHost.

(** The text of one double quote. *)
Definition dq : string := String "034" "".

Example JSON_parse_examples :
  JSON_parse ("{" +:+ dq +:+ "exp" +:+ dq +:+ ":1710500000}")
    = Ok (VObj {["exp" := VNum (of_Z 1710500000)]}) /\
  JSON_parse " [1, -2.5e1 ,true,null, []] "
    = Ok (VArr [VNum (of_Z 1); VNum (of_Z (-25)); VBool true; VNull; VArr []]) /\
  JSON_parse (dq +:+ "a\nAé😀" +:+ dq)
    = Ok (VStr (String "a" (String "010" (String "A"
           (String "195" (String "169" (String "240" (String "159" (String "152" (String "128" "")))))))))) /\
  JSON_parse "01" = Throw unexpected /\ JSON_parse "[1,]" = Throw unexpected /\
  JSON_parse "" = Throw unexpected /\ JSON_parse "nul" = Throw unexpected /\
  JSON_parse "1.5" = Ok (VNum (Fin (3 # 2))) /\
  JSON_parse ("{" +:+ dq +:+ "a" +:+ dq +:+ ":1," +:+ dq +:+ "a" +:+ dq +:+ ":2}")
    = Ok (VObj {["a" := VNum (of_Z 2)]}).
Proof. vm_compute; repeat split; reflexivity. Qed.

Example JSON_stringify_examples :
  JSON_stringify (host := host_bucharest) (VObj {["property_id" := VStr "p1"]})
    = Some ("{" +:+ dq +:+ "property_id" +:+ dq +:+ ":" +:+ dq +:+ "p1" +:+ dq +:+ "}") /\
  JSON_stringify (host := host_bucharest) (VArr [VNum (of_Z 3); VUndefined; VNum NaN; VStr (String "009" "x")])
    = Some ("[3,null,null," +:+ dq +:+ "\tx" +:+ dq +:+ "]") /\
  JSON_stringify (host := host_bucharest) VUndefined = None.
Proof. vm_compute; repeat split; reflexivity. Qed.

(** ** Facts about strings *)

(** Reading what [quote_char] wrote gives the character back. *)
Lemma parse_chars_quote_char c r :
  parse_chars (quote_char c +:+ r) = (p ← parse_chars r; Some (String c p.1, p.2)).
Proof. destruct c as [[] [] [] [] [] [] [] []]; reflexivity. Qed.

Lemma parse_chars_quote_body s rest :
  parse_chars (quote_body s +:+ String "034" rest) = Some (s, rest).
Proof.
  induction s as [|c s IH]; [reflexivity|].
  cbn [quote_body]; rewrite append_assoc, parse_chars_quote_char, IH; reflexivity.
Qed.

(** ** Facts about numbers *)

Lemma digit_val_pretty_N_char d : (d < 10)%N -> digit_val (pretty_N_char d) = Some (Z.of_N d).
Proof.
  intros Hd; do 10 (destruct d as [|d] using N.peano_ind; [reflexivity|]; try lia).
Qed.

(** Reading the digits that [pretty] wrote: [k] digits, of value [x]. *)
Lemma read_digits_pretty_N_go x :
  forall s, exists k : nat,
    ((0 < x)%N -> (0 < k)%nat) /\
    forall acc len,
      read_digits acc len (pretty_N_go x s)
      = read_digits (acc * 10 ^ Z.of_nat k + Z.of_N x) (len + k) s.
Proof.
  induction x as [x IH] using (well_founded_induction N.lt_wf_0); intros s.
  destruct (N.eq_dec x 0%N) as [->|Hx].
  - exists 0%nat; split; [lia|]; intros acc len.
    rewrite pretty_N_go_0, Nat.add_0_r; f_equal; lia.
  - assert (Hpos : (0 < x)%N) by lia.
    destruct (IH (x / 10)%N (N.div_lt x 10 Hpos eq_refl)
                (String (pretty_N_char (x mod 10)%N) s)) as (k & _ & Hk).
    exists (S k); split; [lia|]; intros acc len.
    rewrite (pretty_N_go_step x s Hpos), Hk; cbn [read_digits].
    rewrite digit_val_pretty_N_char by (apply N.mod_lt; lia).
    f_equal; [|lia].
    rewrite Nat2Z.inj_succ, Z.pow_succ_r by lia.
    pose proof (N.div_mod x 10 ltac:(lia)); lia.
Qed.

(** A positive number is written with a digit in front that is not a
    zero. *)
Lemma pretty_N_go_head x :
  forall s, (0 < x)%N ->
    exists c r, pretty_N_go x s = String c r /\ c <> "0"%char /\ is_Some (digit_val c).
Proof.
  induction x as [x IH] using (well_founded_induction N.lt_wf_0); intros s Hpos.
  rewrite (pretty_N_go_step x s Hpos).
  destruct (N.eq_dec (x / 10)%N 0%N) as [E|E].
  - rewrite E, pretty_N_go_0; eexists _, _; split; [reflexivity|].
    assert (x mod 10 = x /\ x < 10)%N as [-> Hlt]
      by (pose proof (N.div_mod x 10 ltac:(lia)); pose proof (N.mod_lt x 10 ltac:(lia)); lia).
    split; [intros E'; apply (pretty_N_char_inj x 0) in E'; lia|].
    rewrite digit_val_pretty_N_char by exact Hlt; eauto.
  - apply IH; [apply N.div_lt; lia | apply N.neq_0_lt_0; exact E].
Qed.

Lemma pretty_N_go_app x : forall s t, pretty_N_go x (s +:+ t) = pretty_N_go x s +:+ t.
Proof.
  induction x as [x IH] using (well_founded_induction N.lt_wf_0); intros s t.
  destruct (N.eq_dec x 0%N) as [->|Hx]; [reflexivity|].
  rewrite !(pretty_N_go_step x) by lia.
  apply (IH (x / 10)%N (N.div_lt x 10 ltac:(lia) eq_refl) (String _ s) t).
Qed.

(** What ends a number: the end of the text, or a character that is no
    digit, dot or exponent mark. *)
Definition stops (rest : string) : bool :=
  match rest with
  | EmptyString => true
  | String c _ => Ascii.eqb c "," || Ascii.eqb c "]" || Ascii.eqb c "}"
  end.

Lemma read_digits_stops acc len rest :
  stops rest = true -> read_digits acc len rest = (acc, len, rest).
Proof.
  destruct rest as [|c r]; [reflexivity|]; cbn [stops read_digits].
  intros [[->%Ascii.eqb_eq| ->%Ascii.eqb_eq]%orb_true_iff| ->%Ascii.eqb_eq]%orb_true_iff;
    reflexivity.
Qed.

(** The integer part of the decimal writing of a natural number. *)
Lemma parse_int_pretty_N (x : N) rest :
  stops rest = true -> parse_int (pretty x +:+ rest) = Some (Z.of_N x, rest).
Proof.
  intros Hrest; unfold pretty, pretty_N; destruct (decide (x = 0)%N) as [->|Hx]; [reflexivity|].
  rewrite <- (pretty_N_go_app x "" rest); change ("" +:+ rest) with rest.
  destruct (pretty_N_go_head x rest ltac:(lia)) as (c & r & E & Hc & _).
  destruct (read_digits_pretty_N_go x rest) as (k & Hk & Hread).
  unfold parse_int; rewrite E, (proj2 (Ascii.eqb_neq c "0") Hc), <- E, Hread.
  rewrite (read_digits_stops _ _ _ Hrest).
  replace (0 + k =? 0)%nat with false by (symmetry; apply Nat.eqb_neq; lia).
  f_equal; f_equal; lia.
Qed.

Lemma minus_sign_pretty_N (x : N) rest : minus_sign (pretty x +:+ rest) = (false, pretty x +:+ rest).
Proof.
  unfold pretty, pretty_N; destruct (decide (x = 0)%N) as [->|Hx]; [reflexivity|].
  rewrite <- (pretty_N_go_app x "" rest); change ("" +:+ rest) with rest.
  destruct (pretty_N_go_head x rest ltac:(lia)) as (c & r & E & _ & Hc).
  rewrite E; unfold minus_sign; destruct (Ascii.eqb_spec c "-") as [->|_]; [|reflexivity].
  destruct Hc as [? [=]].
Qed.

Lemma number_tail rest :
  stops rest = true -> parse_frac rest = Some (0%Z, 0%nat, rest) /\ parse_exp rest = Some (0%Z, rest).
Proof.
  destruct rest as [|c r]; [split; reflexivity|]; cbn [stops].
  intros [[->%Ascii.eqb_eq| ->%Ascii.eqb_eq]%orb_true_iff| ->%Ascii.eqb_eq]%orb_true_iff;
    split; reflexivity.
Qed.

(** Reading the decimal writing of an integer gives the integer. *)
Lemma parse_number_pretty (z : Z) rest :
  stops rest = true -> parse_number (pretty z +:+ rest) = Some (of_Z z, rest).
Proof.
  intros Hrest; destruct (number_tail rest Hrest) as [Hf He].
  assert (Hnat : forall x : N, parse_number (pretty x +:+ rest) = Some (of_Z (Z.of_N x), rest)).
  { intros x; unfold parse_number; rewrite minus_sign_pretty_N, (parse_int_pretty_N x rest Hrest).
    simpl; rewrite Hf; simpl; rewrite He; reflexivity. }
  destruct z as [|p|p]; [exact (Hnat 0%N) | exact (Hnat (Npos p)) |].
  change (pretty (Z.neg p)) with ("-" +:+ pretty (Npos p)); rewrite append_assoc.
  unfold parse_number; change (minus_sign ("-" +:+ ?t)) with (true, t); cbv iota beta.
  rewrite (parse_int_pretty_N (Npos p) rest Hrest); simpl; rewrite Hf; simpl; rewrite He.
  reflexivity.
Qed.

(** ** Values that print and parse *)

(** An integer that a double holds exactly. *)
Definition safe_integer (n : number) : bool :=
  match n with
  | Fin q => (Qden q =? 1)%positive && (Z.abs (Qnum q) <? 2 ^ 53)%Z
  | _ => false
  end.

(** A value of JSON: no [undefined], numbers finite. *)
Fixpoint is_json (v : value) : bool :=
  match v with
  | VUndefined => false
  | VNum n => isFinite n
  | VArr items => forallb is_json items
  | VObj fields => map_fold (fun _ x b => is_json x && b) true fields
  | _ => true
  end.

(** A value of JSON whose numbers are safe integers. *)
Fixpoint is_plain (v : value) : bool :=
  match v with
  | VUndefined => false
  | VNum n => safe_integer n
  | VArr items => forallb is_plain items
  | VObj fields => map_fold (fun _ x b => is_plain x && b) true fields
  | _ => true
  end.

(** The fuel that parsing the text of a value takes. *)
Fixpoint need (v : value) : nat :=
  match v with
  | VArr items => S (foldr (fun x n => S (need x + n)) 0%nat items)
  | VObj fields => S (map_fold (fun _ x n => S (need x + n)) 0%nat fields)
  | _ => 1
  end.

(** A host that writes a safe integer in decimal digits. *)
Class DecimalHost (host : Host) : Prop :=
  number_to_string_integer :
    forall z, (Z.abs z < 2 ^ 53)%Z -> NumberToString (of_Z z) = pretty z.

Lemma safe_integer_of_Z n :
  safe_integer n = true -> exists z, n = of_Z z /\ (Z.abs z < 2 ^ 53)%Z.
Proof.
  destruct n as [| | |[num den]]; try discriminate; cbn [safe_integer Qden Qnum].
  intros [->%Pos.eqb_eq Hz%Z.ltb_lt]%andb_true_iff; exists num; split; [reflexivity | exact Hz].
Qed.

Lemma map_fold_and (f : value -> bool) (fields : gmap string value) :
  map_fold (fun _ x b => f x && b) true fields = true <->
  forall kx, In kx (map_to_list fields) -> f kx.2 = true.
Proof.
  rewrite map_fold_foldr; induction (map_to_list fields) as [|[k x] l IH]; simpl.
  - split; [intros _ ? [] | reflexivity].
  - rewrite andb_true_iff, IH; split.
    + intros [Hx Hl] kx [<-|Hin]; auto.
    + intros H; split; [exact (H (k, x) (or_introl eq_refl)) | intros kx Hin; apply H; right; exact Hin].
Qed.

Lemma need_VObj fields :
  need (VObj fields) = S (foldr (fun kx n => S (need kx.2 + n)) 0%nat (map_to_list fields)).
Proof.
  simpl; rewrite map_fold_foldr; f_equal.
  induction (map_to_list fields) as [|[k x] l IH]; simpl; congruence.
Qed.

Lemma need_In_items x items :
  In x items -> (need x < S (foldr (fun x n => S (need x + n)) 0 items))%nat.
Proof.
  induction items as [|y items IH]; [intros []|]; simpl; intros [->|Hin]; [lia|].
  specialize (IH Hin); lia.
Qed.

Lemma need_In_fields (kx : string * value) (l : list (string * value)) :
  In kx l -> (need kx.2 < S (foldr (fun kx n => S (need kx.2 + n)) 0 l))%nat.
Proof.
  induction l as [|y l IH]; [intros []|]; simpl; intros [->|Hin]; [lia|].
  specialize (IH Hin); lia.
Qed.

(** Induction on values: the items of an array and the members of an
    object come with the property. *)
Lemma value_ind_nested (P : value -> Prop) :
  P VUndefined -> P VNull -> (forall b, P (VBool b)) -> (forall n, P (VNum n)) ->
  (forall s, P (VStr s)) ->
  (forall items, Forall P items -> P (VArr items)) ->
  (forall fields, Forall (fun kx => P kx.2) (map_to_list fields) -> P (VObj fields)) ->
  forall v, P v.
Proof.
  intros Hu Hn Hb Hnum Hs Ha Ho v.
  induction v as [v IH] using (induction_ltof1 _ need); unfold ltof in IH.
  destruct v as [| | | | |items|fields]; auto.
  - apply Ha, List.Forall_forall; intros x Hx; apply IH, need_In_items, Hx.
  - apply Ho, List.Forall_forall; intros kx Hx; apply IH.
    rewrite need_VObj; apply need_In_fields, Hx.
Qed.

(** ** Reading what was printed *)

(** The characters a value starts with. *)
Definition value_start (c : ascii) : bool :=
  Ascii.eqb c "n" || Ascii.eqb c "t" || Ascii.eqb c "f" || Ascii.eqb c "034"
  || Ascii.eqb c "[" || Ascii.eqb c "{" || Ascii.eqb c "-"
  || match digit_val c with Some _ => true | None => false end.

Definition starts (text : string) : bool :=
  match text with String c _ => value_start c | EmptyString => false end.

Lemma starts_app text rest : starts text = true -> starts (text +:+ rest) = true.
Proof. destruct text; [discriminate | exact id]. Qed.

Lemma starts_length text : starts text = true -> (1 <= String.length text)%nat.
Proof. destruct text; [discriminate | simpl; lia]. Qed.

(** No closing bracket where a value starts. *)
Lemma next_is_starts c text rest :
  starts text = true -> c = "]"%char \/ c = "}"%char -> next_is c (text +:+ rest) = None.
Proof.
  destruct text as [|a r]; [discriminate|]; change (String a r +:+ rest) with (String a (r +:+ rest));
    cbn [starts]; intros Ha [-> | ->];
    destruct a as [[] [] [] [] [] [] [] []];
    first [reflexivity | vm_compute in Ha; discriminate].
Qed.

Lemma next_is_here c r : is_json_ws c = false -> next_is c (String c r) = Some r.
Proof. intros Hc; unfold next_is; cbn [skip_ws]; rewrite Hc, Ascii.eqb_refl; reflexivity. Qed.

Lemma wrap_app (o c : ascii) body rest :
  String o (body +:+ String c "") +:+ rest = String o (body +:+ String c rest).
Proof. exact (f_equal (String o) (append_assoc body (String c "") rest)). Qed.

Lemma parse_value_number fuel c r :
  (Ascii.eqb c "-" || match digit_val c with Some _ => true | None => false end) = true ->
  parse_value (S fuel) (String c r) = (p ← parse_number (String c r); Some (VNum p.1, p.2)).
Proof.
  intros Hc; destruct c as [[] [] [] [] [] [] [] []];
    first [reflexivity | vm_compute in Hc; discriminate].
Qed.

Lemma pretty_Z_starts (z : Z) :
  exists c r, pretty z = String c r /\
    (Ascii.eqb c "-" || match digit_val c with Some _ => true | None => false end) = true.
Proof.
  assert (Hnat : forall x : N, exists c r, pretty x = String c r /\
            match digit_val c with Some _ => true | None => false end = true).
  { intros x; unfold pretty, pretty_N; destruct (decide (x = 0)%N) as [->|Hx]; [eauto|].
    destruct (pretty_N_go_head x "" ltac:(lia)) as (c & r & E & _ & d & Hd).
    exists c, r; rewrite Hd; auto. }
  destruct z as [|p|p]; [| |exists "-"%char, (pretty (Npos p)); split; reflexivity].
  - destruct (Hnat 0%N) as (c & r & E & Hc); exists c, r; rewrite Hc, orb_true_r; auto.
  - destruct (Hnat (Npos p)) as (c & r & E & Hc); exists c, r; rewrite Hc, orb_true_r; auto.
Qed.

Lemma parse_value_pretty fuel (z : Z) rest :
  stops rest = true -> parse_value (S fuel) (pretty z +:+ rest) = Some (VNum (of_Z z), rest).
Proof.
  intros Hrest; pose proof (parse_number_pretty z rest Hrest) as Hn.
  destruct (pretty_Z_starts z) as (c & r & E & Hc); rewrite E in *; change (String c r +:+ rest) with (String c (r +:+ rest)) in *.
  rewrite (parse_value_number fuel c _ Hc), Hn; reflexivity.
Qed.

Lemma starts_pretty (z : Z) : starts (pretty z) = true.
Proof.
  destruct (pretty_Z_starts z) as (c & r & -> & Hc); unfold starts, value_start.
  apply orb_true_iff in Hc as [-> | ->]; rewrite ?orb_true_r; reflexivity.
Qed.

(** [text] is the text of [v]: it starts as a value does, and the parser
    reads [v] from it, whatever follows, with fuel [need v]. *)
Definition reads (v : value) (text : string) : Prop :=
  starts text = true /\ (need v <= String.length text)%nat /\
  forall fuel rest, (need v <= fuel)%nat -> stops rest = true ->
    parse_value fuel (text +:+ rest) = Some (v, rest).

Section Printed.
Context `{host : Host}.

Definition item_text (x : value) : string := default "null" (JSON_stringify x).

Definition member_text (kx : string * value) : string :=
  quote kx.1 +:+ ":" +:+ item_text kx.2.

Definition printed (v : value) : Prop :=
  exists text, JSON_stringify v = Some text /\ reads v text.

Lemma printed_item x : printed x -> reads x (item_text x).
Proof. intros (t & Ht & Hr); unfold item_text; rewrite Ht; exact Hr. Qed.

(** The items of an array, up to the closing bracket. *)
Lemma elements_read items :
  Forall printed items -> items <> [] ->
  let body := join_on "," (map item_text items) in
  starts body = true /\
  (foldr (fun x n => S (need x + n)) 0 items <= S (String.length body))%nat /\
  forall fuel rest, (foldr (fun x n => S (need x + n)) 0 items <= fuel)%nat ->
    parse_elements fuel (body +:+ String "]" rest) = Some (items, rest).
Proof.
  induction 1 as [|x items (Hs & Hlen & Hp)%printed_item Hall IH]; [congruence|intros _].
  destruct items as [|y l].
  - simpl; repeat split; [exact Hs | lia |]; intros [|fuel] rest Hf; [lia|].
    cbn [parse_elements]; rewrite Hp by (reflexivity || lia); reflexivity.
  - destruct (IH ltac:(discriminate)) as (Hs' & Hlen' & Hp'); clear IH; cbv zeta in *.
    cbn [map] in *; rewrite join_on_cons by discriminate.
    remember (join_on "," (item_text y :: map item_text l)) as body' eqn:E in *; clear E.
    cbn [foldr] in *; rewrite length_append; cbn [String.length].
    repeat split; [apply starts_app, Hs | lia |]; intros [|fuel] rest Hf; [lia|].
    rewrite append_assoc; change (String "," body' +:+ ?t) with (String "," (body' +:+ t)).
    cbn [parse_elements]; rewrite Hp by (reflexivity || lia); cbn [mbind option_bind fst snd].
    rewrite next_is_here by reflexivity.
    rewrite Hp' by lia; reflexivity.
Qed.

(** The members of an object, up to the closing brace. *)
Lemma members_read (l : list (string * value)) :
  Forall (fun kx => printed kx.2) l -> l <> [] ->
  let body := join_on "," (map member_text l) in
  starts body = true /\
  (foldr (fun kx n => S (need kx.2 + n)) 0 l <= S (String.length body))%nat /\
  forall fuel rest, (foldr (fun kx n => S (need kx.2 + n)) 0 l <= fuel)%nat ->
    parse_members fuel (body +:+ String "}" rest) = Some (l, rest).
Proof.
  assert (Hone : forall k x fuel tail, reads x (item_text x) -> (need x <= fuel)%nat ->
            stops tail = true ->
            parse_members (S fuel) (member_text (k, x) +:+ tail)
            = (match next_is "," tail with
               | Some r2 => q ← parse_members fuel r2; Some ((k, x) :: q.1, q.2)
               | None => r2 ← next_is "}" tail; Some ([(k, x)], r2)
               end)).
  { intros k x fuel tail (_ & _ & Hp) Hf Htail; unfold member_text, quote; cbn [fst snd].
    rewrite !append_assoc, wrap_app.
    change (String ":" "" +:+ ?t) with (String ":" t).
    cbn [parse_members]; rewrite next_is_here by reflexivity.
    cbn [mbind option_bind]; rewrite parse_chars_quote_body; cbn [mbind option_bind fst snd].
    rewrite next_is_here by reflexivity; cbn [mbind option_bind].
    rewrite (Hp _ _ Hf Htail); reflexivity. }
  induction 1 as [|[k x] l Hx%printed_item Hall IH]; [congruence|intros _]; cbn [snd] in Hx.
  assert (Hlen : (need x <= String.length (member_text (k, x)))%nat).
  { unfold member_text; rewrite !length_append; destruct Hx as (_ & Hl & _); simpl; lia. }
  destruct l as [|y l].
  - cbn [map join_on foldr snd]; split; [reflexivity|split; [lia|]].
    intros [|fuel] rest Hf; [lia|].
    rewrite Hone by (assumption || reflexivity || lia); reflexivity.
  - destruct (IH ltac:(discriminate)) as (Hs' & Hlen' & Hp'); clear IH; cbv zeta in *.
    cbn [map] in *; rewrite join_on_cons by discriminate.
    remember (join_on "," (member_text y :: map member_text l)) as body' eqn:E in *; clear E.
    cbn [foldr snd] in *; rewrite length_append; cbn [String.length].
    split; [reflexivity|split; [lia|]]; intros [|fuel] rest Hf; [lia|].
    rewrite append_assoc; change (String "," body' +:+ ?t) with (String "," (body' +:+ t)).
    rewrite Hone by (assumption || reflexivity || lia).
    rewrite next_is_here, Hp' by (reflexivity || lia); reflexivity.
Qed.

End Printed.

Lemma parse_value_string fuel r :
  parse_value (S fuel) (String "034" r) = (p ← parse_chars r; Some (VStr p.1, p.2)).
Proof. reflexivity. Qed.

Lemma parse_value_array fuel r :
  parse_value (S fuel) (String "[" r)
  = match next_is "]" r with
    | Some r' => Some (VArr [], r')
    | None => p ← parse_elements fuel r; Some (VArr p.1, p.2)
    end.
Proof. reflexivity. Qed.

Lemma parse_value_object fuel r :
  parse_value (S fuel) (String "{" r)
  = match next_is "}" r with
    | Some r' => Some (VObj ∅, r')
    | None => p ← parse_members fuel r; Some (object_of p.1, p.2)
    end.
Proof. reflexivity. Qed.

(** The members of an object, read back in their order, make the object. *)
Lemma object_of_map_to_list (fields : gmap string value) :
  object_of (map_to_list fields) = VObj fields.
Proof.
  unfold object_of; f_equal.
  rewrite <- (list_to_map_proper (map_to_list fields) (reverse (map_to_list fields))).
  - apply list_to_map_to_list.
  - apply NoDup_fst_map_to_list.
  - symmetry; apply reverse_Permutation.
Qed.

Lemma Forall_forallb_impl (f : value -> bool) (P : value -> Prop) items :
  Forall (fun x => f x = true -> P x) items -> forallb f items = true -> Forall P items.
Proof.
  induction 1 as [|x l Hx _ IH]; [constructor|]; simpl.
  intros [Hfx Hl]%andb_true_iff; constructor; auto.
Qed.

Section RoundTrip.
Context `{host : Host} `{!DecimalHost host}.

Lemma printed_atom v text :
  JSON_stringify v = Some text -> need v = 1%nat -> starts text = true ->
  (forall fuel rest, stops rest = true -> parse_value (S fuel) (text +:+ rest) = Some (v, rest)) ->
  printed v.
Proof.
  intros Ht Hn Hs Hp; exists text; split; [exact Ht|]; unfold reads; rewrite Hn.
  split; [exact Hs|split; [apply starts_length, Hs|]].
  intros [|fuel] rest Hf Hr; [lia | apply Hp, Hr].
Qed.

Lemma printed_array items : Forall printed items -> printed (VArr items).
Proof.
  intros Hall; exists ("[" +:+ join_on "," (map item_text items) +:+ "]"); split; [reflexivity|].
  destruct (decide (items = [])) as [->|Hne].
  { repeat split; [simpl; lia|]; intros [|fuel] rest Hf _; [simpl in Hf; lia | reflexivity]. }
  destruct (elements_read items Hall Hne) as (Hs & Hlen & Hp).
  set (body := join_on "," (map item_text items)) in *.
  change ("[" +:+ body +:+ "]") with (String "[" (body +:+ String "]" "")).
  repeat split; [cbn [need String.length]; rewrite length_append; cbn [String.length]; lia|].
  intros [|fuel] rest Hf _; [simpl in Hf; lia|].
  rewrite wrap_app, parse_value_array, (next_is_starts _ _ _ Hs) by auto.
  rewrite Hp by (simpl in Hf; lia); reflexivity.
Qed.

Lemma stringify_object fields :
  Forall (fun kx => printed kx.2) (map_to_list fields) ->
  JSON_stringify (VObj fields)
  = Some ("{" +:+ join_on "," (map member_text (map_to_list fields)) +:+ "}").
Proof.
  intros Hall; cbn [JSON_stringify]; rewrite map_fold_foldr; do 4 f_equal.
  induction Hall as [|[k x] l (t & Ht & _) _ IH]; [reflexivity|]; cbn [foldr map snd] in *.
  rewrite IH; unfold uncurry, member_text, item_text; cbn [fst snd]; rewrite Ht; reflexivity.
Qed.

Lemma printed_object fields :
  Forall (fun kx => printed kx.2) (map_to_list fields) -> printed (VObj fields).
Proof.
  intros Hall; eexists; split; [apply stringify_object, Hall|]; unfold reads; rewrite need_VObj.
  destruct (decide (map_to_list fields = [])) as [E|Hne].
  { rewrite E; apply map_to_list_empty_iff in E as ->.
    repeat split; [simpl; lia|]; intros [|fuel] rest Hf _; [simpl in Hf; lia | reflexivity]. }
  destruct (members_read _ Hall Hne) as (Hs & Hlen & Hp).
  set (body := join_on "," (map member_text (map_to_list fields))) in *.
  change ("{" +:+ body +:+ "}") with (String "{" (body +:+ String "}" "")).
  repeat split; [cbn [String.length]; rewrite length_append; cbn [String.length]; lia|].
  intros [|fuel] rest Hf _; [lia|].
  rewrite wrap_app, parse_value_object, (next_is_starts _ _ _ Hs) by auto.
  rewrite Hp by lia; cbn [mbind option_bind fst snd]; rewrite object_of_map_to_list; reflexivity.
Qed.

(** A plain value has a text, and the parser reads the value from it. *)
Lemma plain_printed v : is_plain v = true -> printed v.
Proof.
  induction v as [| |b|n|s|items IH|fields IH] using value_ind_nested; intros Hv;
    [discriminate| | | | | |].
  - apply (printed_atom VNull "null"); auto.
  - apply (printed_atom (VBool b) (if b then "true" else "false")); auto; destruct b; auto.
  - apply safe_integer_of_Z in Hv as (z & -> & Hz); apply (printed_atom _ (pretty z)).
    + cbn; rewrite number_to_string_integer by exact Hz; reflexivity.
    + reflexivity.
    + apply starts_pretty.
    + intros; apply parse_value_pretty; assumption.
  - apply (printed_atom (VStr s) (quote s)); auto; intros fuel rest _.
    unfold quote; rewrite wrap_app, parse_value_string, parse_chars_quote_body; reflexivity.
  - apply printed_array, (Forall_forallb_impl is_plain); assumption.
  - apply printed_object, List.Forall_forall; intros kx Hin.
    apply (proj1 (List.Forall_forall _ _) IH kx Hin), (proj1 (map_fold_and is_plain fields) Hv kx Hin).
Qed.

(** Parsing the text of a plain value gives the value back. *)
Theorem JSON_parse_stringify v :
  is_plain v = true -> exists text, JSON_stringify v = Some text /\ JSON_parse text = Ok v.
Proof.
  intros (text & Ht & _ & Hlen & Hp)%plain_printed; exists text; split; [exact Ht|].
  specialize (Hp (S (String.length text)) "" ltac:(lia) eq_refl).
  rewrite append_empty_r in Hp; unfold JSON_parse; rewrite Hp; reflexivity.
Qed.

End RoundTrip.

(** ** What the parser returns *)

Lemma parse_number_finite s n r : parse_number s = Some (n, r) -> isFinite n = true.
Proof.
  unfold parse_number; destruct (minus_sign s) as [neg r0].
  destruct (parse_int r0) as [[ip r1]|]; [cbn|discriminate].
  destruct (parse_frac r1) as [[[fp flen] r2]|]; [cbn|discriminate].
  destruct (parse_exp r2) as [[e r3]|]; [cbn|discriminate].
  intros [= <- _]; destruct (_ && _); reflexivity.
Qed.

Lemma is_json_object_of l :
  Forall (fun kx => is_json kx.2 = true) l -> is_json (object_of l) = true.
Proof.
  intros Hall; apply map_fold_and; intros [k x] Hin%list_elem_of_In%elem_of_map_to_list.
  apply elem_of_list_to_map_2 in Hin; rewrite elem_of_reverse, list_elem_of_In in Hin.
  exact (proj1 (List.Forall_forall _ _) Hall _ Hin).
Qed.

Lemma parse_is_json fuel :
  (forall s v r, parse_value fuel s = Some (v, r) -> is_json v = true) /\
  (forall s l r, parse_elements fuel s = Some (l, r) -> forallb is_json l = true) /\
  (forall s l r, parse_members fuel s = Some (l, r) -> Forall (fun kx => is_json kx.2 = true) l).
Proof.
  induction fuel as [|fuel (IHv & IHe & IHm)]; [repeat split; discriminate|].
  split; [|split]; intros s v r.
  - cbn [parse_value]; destruct (skip_ws s) as [|c t]; [discriminate|].
    intros Hparse; repeat case_match; simplify_option_eq; try reflexivity;
      repeat match goal with p : (_ * string)%type |- _ => destruct p end; cbn [fst snd] in *.
    + exact (IHe _ _ _ ltac:(eassumption)).
    + apply (is_json_object_of _ (IHm _ _ _ ltac:(eassumption))).
    + eapply parse_number_finite; eassumption.
  - cbn [parse_elements]; intros Hparse; simplify_option_eq.
    repeat match goal with p : (_ * string)%type |- _ => destruct p end.
    repeat case_match; simplify_option_eq;
      repeat match goal with p : (_ * string)%type |- _ => destruct p end;
      cbn [forallb fst]; apply andb_true_iff; eauto.
  - cbn [parse_members]; intros Hparse; simplify_option_eq.
    repeat match goal with p : (_ * string)%type |- _ => destruct p end.
    repeat case_match; simplify_option_eq;
      repeat match goal with p : (_ * string)%type |- _ => destruct p end;
      constructor; eauto.
Qed.

(** What [JSON.parse] returns is a value of JSON. *)
Theorem JSON_parse_is_json text v : JSON_parse text = Ok v -> is_json v = true.
Proof.
  unfold JSON_parse; destruct (parse_value _ text) as [[v' r]|] eqn:E; [|discriminate].
  destruct (String.eqb _ _); intros [= <-].
  exact (proj1 (parse_is_json _) _ _ _ E).
Qed.

(** ** The reference host *)

#[export] Instance ref_host_decimal tz : DecimalHost (ref_host tz).
Proof.
  intros z _; cbn [NumberToString ref_host]; unfold ref_NumberToString, of_Z.
  rewrite inject_Z_Qred; cbn [Qnum Qden inject_Z]; rewrite Z.div_1_r, Z.mod_1_r.
  destruct z as [|p|p];
    [reflexivity | exact (append_empty_r _) | exact (f_equal (String "-") (append_empty_r _))].
Qed.
