(* ===== verification/Api.v ===== *)
(** * Api: the HTTP wrapper and its endpoints

    [src/frontend/src/lib/api.ts]: [BASE_URL] (lines 7-10), [request]
    (lines 17-52) and the seven endpoint functions (lines 54-99).

    The transport is a parameter: [fetch] takes the URL and the options
    that [request] builds, acts on a world, and settles as the promise of
    the browser's [fetch] does, with a [Response] or with the error it
    rejects with.  A [Response] carries its status, its status text, and
    what [response.json()] settles with.  An endpoint returns the [result]
    its promise settles with, and the world after its one call.

    The body of a request is the text that [JSON.stringify] prints
    ([Json.JSON_stringify]).  A response body is cast to its TypeScript
    type without a check, so the endpoints return a [value]. *)

From Stdlib Require Import QArith ZArith Lia.
From stdpp Require Import base tactics option list strings gmap.
From S2P Require Import Prelude JsNumber JsString JsValue Calendar RefHost Json.
Close Scope Q_scope.
Open Scope string_scope.

(** ** Definitions *)

(** Where the module is loaded: in a browser or on the server, and the
    variable of the build. *)
Record Env : Type := {
  has_window : bool;
  NEXT_PUBLIC_BACKEND_URL : option string;
}.

(** Lines 7-10. *)
Definition BASE_URL (env : Env) : string :=
  if negb (has_window env)
  then default "https://crmrebs-backend-746815019501.europe-west1.run.app"
               (NEXT_PUBLIC_BACKEND_URL env)
  else default "" (NEXT_PUBLIC_BACKEND_URL env).

(** The options a caller passes to [request]: the fields of [RequestInit]
    that the sources set, each present or not. *)
Record RequestInit : Type := {
  init_method : option string;
  init_headers : option (gmap string string);
  init_body : option string;
}.

(** [init = {}] *)
Definition no_init : RequestInit :=
  {| init_method := None; init_headers := None; init_body := None |}.

(** [{ method: "POST", body }] *)
Definition post (body : option string) : RequestInit :=
  {| init_method := Some "POST"; init_headers := None; init_body := body |}.

(** The second argument of [fetch]. *)
Record FetchInit : Type := {
  credentials : string;
  headers : gmap string string;
  method : option string;
  body : option string;
}.

(** Lines 21-28: the object literal.  The headers are merged first, the
    headers of [init] over the content type; then [...init] is spread
    over the whole, so that a [headers] of [init] replaces the merged
    ones. *)
Definition fetch_init (init : RequestInit) : FetchInit :=
  let merged := default ∅ (init_headers init) ∪ {["Content-Type" := "application/json"]} in
  {| credentials := "include";
     headers := default merged (init_headers init);
     method := init_method init;
     body := init_body init |}.

Record Response : Type := {
  status : Z;
  statusText : string;
  json : result exn value;
}.

(** [response.ok] *)
Definition response_ok (response : Response) : bool :=
  (200 <=? status response)%Z && (status response <=? 299)%Z.

(** [(payload as { error?: string })?.error] *)
Definition payload_error (payload : value) : value :=
  match payload with
  | VObj fields => get_prop fields "error"
  | _ => VUndefined
  end.

(** The object literal [{ key: v }]. *)
Definition json_object (key : string) (v : value) : value := VObj (<[ key := v ]> ∅).

Section WithHost.
Context {host : Host}.

(** Lines 37-41: the message of the error.  [statusText] is a string, so
    the last alternative of the source is never taken. *)
Definition error_message (payload : value) (response : Response) : string :=
  let e := payload_error payload in
  if nullish e then statusText response else ToString e.

(** Lines 30-51: what [request] does with the settled response. *)
Definition handle_response (response : Response) : result exn value :=
  if negb (response_ok response) then
    let payload := match json response with Ok v => v | Throw _ => VUndefined end in
    Throw (ApiError (error_message payload response) (status response) payload)
  else if (status response =? 204)%Z then Ok VUndefined
  else json response.

Section WithFetch.
Context {World : Type}.
Variable env : Env.
Variable fetch : string -> FetchInit -> World -> result exn Response * World.

(** Lines 17-52. *)
Definition request (path : string) (init : RequestInit) (w : World)
    : result exn value * World :=
  let '(settled, w1) := fetch (BASE_URL env +:+ path) (fetch_init init) w in
  (response ← settled; handle_response response, w1).

(** [await request(...)] in a function that returns nothing. *)
Definition discard (settled : result exn value * World) : result exn unit * World :=
  (_ ← settled.1; mret tt, settled.2).

(** Lines 54-56. *)
Definition fetchNewLeads : World -> result exn value * World :=
  request "/api/leads/new" no_init.

(** Lines 58-60. *)
Definition fetchHistoryLeads : World -> result exn value * World :=
  request "/api/leads/history" no_init.

(** Lines 62-67. *)
Definition sendWhatsApp (propertyId : string) (w : World) : result exn unit * World :=
  discard (request "/api/send-whatsapp"
             (post (JSON_stringify (json_object "property_id" (VStr propertyId)))) w).

(** Lines 69-74. *)
Definition login (password : string) (w : World) : result exn unit * World :=
  discard (request "/api/login"
             (post (JSON_stringify (json_object "password" (VStr password)))) w).

(** Lines 76-80. *)
Definition fetchLeadMessages (propertyId : string) : World -> result exn value * World :=
  request ("/api/leads/" +:+ propertyId +:+ "/messages") no_init.

(** Lines 82-90. *)
Definition sendLeadReply (propertyId message : string) (w : World)
    : result exn unit * World :=
  discard (request ("/api/leads/" +:+ propertyId +:+ "/reply")
             (post (JSON_stringify (json_object "message" (VStr message)))) w).

(** Lines 92-99. *)
Definition markConversationRead (propertyId : string) (w : World)
    : result exn unit * World :=
  discard (request ("/api/leads/" +:+ propertyId +:+ "/mark-read")
             (post (JSON_stringify (json_object "read" (VBool true)))) w).

End WithFetch.

(** A transport that records the calls it receives and answers as [answer]
    says. *)
Record FetchCall : Type := {
  call_url : string;
  call_init : FetchInit;
}.

Definition recording (answer : string -> FetchInit -> result exn Response)
    (url : string) (init : FetchInit) (log : list FetchCall)
    : result exn Response * list FetchCall :=
  (answer url init, (log ++ [{| call_url := url; call_init := init |}])%list).

(** ** Facts *)

Lemma handle_response_ok response v :
  handle_response response = Ok v <->
  response_ok response = true /\
  (if (status response =? 204)%Z then v = VUndefined else json response = Ok v).
Proof.
  unfold handle_response; destruct (response_ok response); simpl.
  - destruct (status response =? 204)%Z; split; [intros [= <-]| intros [_ ->] | |]; intuition.
  - split; [discriminate | intros [? _]; discriminate].
Qed.

Lemma handle_response_error response :
  response_ok response = false ->
  exists message payload,
    handle_response response = Throw (ApiError message (status response) payload) /\
    message = error_message payload response /\
    (payload = VUndefined \/ json response = Ok payload).
Proof.
  unfold handle_response; intros ->; simpl.
  destruct (json response) as [v|e]; eexists _, _; split; eauto.
Qed.

Lemma response_ok_401 response : status response = 401%Z -> response_ok response = false.
Proof. unfold response_ok; intros ->; reflexivity. Qed.

Lemma is_unauthorized_ApiError m s p : is_unauthorized (ApiError m s p) = (s =? 401)%Z.
Proof. apply strict_eq_of_Z. Qed.

Section FetchFacts.
Context {World : Type}.
Variable env : Env.
Variable fetch : string -> FetchInit -> World -> result exn Response * World.

(** A request is one call of the transport, and the world after it is the
    world after that call. *)
Lemma request_unfold path init w :
  request env fetch path init w
  = ((fetch (BASE_URL env +:+ path) (fetch_init init) w).1 ≫= handle_response,
     (fetch (BASE_URL env +:+ path) (fetch_init init) w).2).
Proof. unfold request; destruct (fetch _ _ w); reflexivity. Qed.

Lemma request_rejects_eq path init w response :
  (fetch (BASE_URL env +:+ path) (fetch_init init) w).1 = Ok response ->
  response_ok response = false ->
  (request env fetch path init w).1
  = Throw (ApiError
             (error_message (match json response with Ok v => v | Throw _ => VUndefined end)
                            response)
             (status response)
             (match json response with Ok v => v | Throw _ => VUndefined end)).
Proof.
  rewrite request_unfold; intros -> Hok; simpl; unfold handle_response; rewrite Hok; reflexivity.
Qed.

(** ** Theorems *)

(** C27.  [request] resolves exactly when the transport resolves with a
    status between 200 and 299; it resolves with [undefined] on 204 and
    with the parsed body otherwise. *)
Theorem request_resolves path init w v :
  (request env fetch path init w).1 = Ok v <->
  exists response,
    (fetch (BASE_URL env +:+ path) (fetch_init init) w).1 = Ok response /\
    response_ok response = true /\
    (if (status response =? 204)%Z then v = VUndefined else json response = Ok v).
Proof.
  rewrite request_unfold; cbn [fst]; rewrite result_bind_ok.
  split; intros (response & Hf & Hh); exists response; (split; [exact Hf|]);
    apply handle_response_ok; exact Hh.
Qed.

(** On a status outside 200-299 [request] rejects with an error that
    carries the status and the parsed body, [undefined] when the body does
    not parse; the message is the [error] property of the body when there
    is one, else the status text. *)
Theorem request_rejects path init w response :
  (fetch (BASE_URL env +:+ path) (fetch_init init) w).1 = Ok response ->
  response_ok response = false ->
  let payload := match json response with Ok v => v | Throw _ => VUndefined end in
  (request env fetch path init w).1
  = Throw (ApiError (if nullish (payload_error payload) then statusText response
                     else ToString (payload_error payload))
                    (status response) payload).
Proof. intros Hf Hok; apply request_rejects_eq; assumption. Qed.

(** A 401 from the transport reaches the caller of every endpoint as
    an error that [is_unauthorized] recognises. *)
Theorem endpoints_unauthorized response :
  (forall url init w, (fetch url init w).1 = Ok response) -> status response = 401%Z ->
  forall propertyId message w,
    Forall (fun r => exists e, r = Throw e /\ is_unauthorized e = true)
      [ (fetchNewLeads env fetch w).1 ≫= (fun _ => Ok tt);
        (fetchHistoryLeads env fetch w).1 ≫= (fun _ => Ok tt);
        (fetchLeadMessages env fetch propertyId w).1 ≫= (fun _ => Ok tt);
        (sendWhatsApp env fetch propertyId w).1; (login env fetch message w).1;
        (sendLeadReply env fetch propertyId message w).1;
        (markConversationRead env fetch propertyId w).1 ].
Proof.
  intros Hf Hs propertyId message w.
  unfold fetchNewLeads, fetchHistoryLeads, fetchLeadMessages, sendWhatsApp, login,
    sendLeadReply, markConversationRead, discard.
  rewrite !request_unfold; cbn [fst]; rewrite !Hf; simpl.
  unfold handle_response; rewrite (response_ok_401 response Hs); simpl.
  repeat constructor; eexists; (split; [reflexivity|]);
    rewrite is_unauthorized_ApiError, Hs; reflexivity.
Qed.

(** The message of the rejection is the status text whenever the body
    has no [error]: with an empty status text the message is empty, and
    the text "Request failed" of the source is never used. *)
Theorem request_message_status_text path init w response :
  (fetch (BASE_URL env +:+ path) (fetch_init init) w).1 = Ok response ->
  response_ok response = false ->
  (forall v, json response = Ok v -> nullish (payload_error v) = true) ->
  exists payload,
    (request env fetch path init w).1
    = Throw (ApiError (statusText response) (status response) payload).
Proof.
  intros Hf Hok Hne; rewrite (request_rejects_eq path init w response Hf Hok).
  unfold error_message.
  destruct (json response) as [v|e]; simpl; [rewrite (Hne v eq_refl)|]; eauto.
Qed.

End FetchFacts.

(** ** What reaches the transport *)

Lemma fetch_init_post text :
  fetch_init (post text)
  = {| credentials := "include"; headers := {["Content-Type" := "application/json"]};
       method := Some "POST"; body := text |}.
Proof. unfold fetch_init, post; cbn; rewrite (left_id_L ∅ (∪)); reflexivity. Qed.

(** The headers of the caller replace the merged headers: the content
    type is sent only if the caller has none or names it. *)
Theorem fetch_init_headers init :
  headers (fetch_init init) !! "Content-Type"
  = match init_headers init with
    | Some given => given !! "Content-Type"
    | None => Some "application/json"
    end.
Proof.
  unfold fetch_init; destruct (init_headers init) as [given|]; cbn; [reflexivity|].
  rewrite (left_id_L ∅ (∪)); apply lookup_singleton_eq.
Qed.

Lemma is_plain_json_object key v : is_plain v = true -> is_plain (json_object key v) = true.
Proof.
  intros Hv; apply map_fold_and; unfold json_object; rewrite insert_empty, map_to_list_singleton.
  intros kx [<-|[]]; exact Hv.
Qed.

Section Bodies.
Context `{!DecimalHost host}.
Variable env : Env.
Variable answer : string -> FetchInit -> result exn Response.

(** A call with a body: the one record the transport receives. *)
Definition posted (path text : string) : FetchCall :=
  {| call_url := BASE_URL env +:+ path;
     call_init := {| credentials := "include";
                     headers := {["Content-Type" := "application/json"]};
                     method := Some "POST"; body := Some text |} |}.

Lemma post_recorded path v log :
  is_plain v = true ->
  exists text,
    JSON_parse text = Ok v /\
    (request env (recording answer) path (post (JSON_stringify v)) log).2
    = (log ++ [posted path text])%list.
Proof.
  intros (text & Htext & Hparse)%JSON_parse_stringify; exists text; split; [exact Hparse|].
  rewrite request_unfold, Htext, fetch_init_post; reflexivity.
Qed.

(** C20.  Each endpoint that posts sends one request, to its path under
    [BASE_URL], with the credentials, as JSON, and with a body that parses
    back to the object the endpoint was given: the property, the
    password, the message, the flag. *)
Theorem post_bodies_round_trip propertyId text log :
  let sent (run : list FetchCall -> result exn unit * list FetchCall) path v :=
    exists body, JSON_parse body = Ok v /\ (run log).2 = (log ++ [posted path body])%list in
  sent (sendWhatsApp env (recording answer) propertyId) "/api/send-whatsapp"
       (json_object "property_id" (VStr propertyId)) /\
  sent (login env (recording answer) text) "/api/login" (json_object "password" (VStr text)) /\
  sent (sendLeadReply env (recording answer) propertyId text)
       ("/api/leads/" +:+ propertyId +:+ "/reply") (json_object "message" (VStr text)) /\
  sent (markConversationRead env (recording answer) propertyId)
       ("/api/leads/" +:+ propertyId +:+ "/mark-read") (json_object "read" (VBool true)).
Proof.
  cbv zeta; unfold sendWhatsApp, login, sendLeadReply, markConversationRead, discard; cbn [snd].
  repeat split; apply post_recorded, is_plain_json_object; reflexivity.
Qed.

End Bodies.

End WithHost.

(** ** Examples on the reference host *)

(** A transport that answers every request alike. *)
Definition respond (response : Response)
    : string -> FetchInit -> list FetchCall -> result exn Response * list FetchCall :=
  recording (fun _ _ => Ok response).

(** A response whose body is [text]. *)
Definition response_of (code : Z) (reason text : string) : Response :=
  {| status := code; statusText := reason; json := JSON_parse text |}.

Definition in_browser : Env := {| has_window := true; NEXT_PUBLIC_BACKEND_URL := None |}.

Definition session_expired : Response :=
  response_of 401 "Unauthorized" ("{" +:+ dq +:+ "error" +:+ dq +:+ ":" +:+ dq
                                  +:+ "Session expired" +:+ dq +:+ "}").

(** A gateway error over HTTP/2: no status text, a body that is not JSON. *)
Definition bad_gateway : Response := response_of 502 "" "<html>Bad gateway</html>".

Example request_examples :
  let run response :=
    (request (host := host_bucharest) in_browser (respond response) "/x" no_init []).1 in
  run (response_of 200 "OK" (dq +:+ "body" +:+ dq)) = Ok (VStr "body") /\
  run (response_of 204 "" "") = Ok VUndefined /\
  run (response_of 200 "OK" "") = Throw unexpected /\
  (request (host := host_bucharest) in_browser
     (recording (fun _ _ => Throw (TypeError "Failed to fetch"))) "/x" no_init []).1
  = Throw (TypeError "Failed to fetch") /\
  run (response_of 400 "Bad Request" ("{" +:+ dq +:+ "error" +:+ dq +:+ ":7}"))
  = Throw (ApiError "7" 400 (json_object "error" (VNum (of_Z 7)))).
Proof. vm_compute; repeat split; reflexivity. Qed.

(** What reaches the transport: the URL, the options and the body text. *)
Example sendWhatsApp_example :
  sendWhatsApp (host := host_bucharest) in_browser (respond (response_of 204 "" "")) "p1" []
  = (Ok tt,
     [{| call_url := "/api/send-whatsapp";
         call_init := {| credentials := "include";
                         headers := {["Content-Type" := "application/json"]};
                         method := Some "POST";
                         body := Some ("{" +:+ dq +:+ "property_id" +:+ dq +:+ ":"
                                       +:+ dq +:+ "p1" +:+ dq +:+ "}") |} |}]).
Proof. vm_compute; reflexivity. Qed.

Example BASE_URL_examples :
  BASE_URL {| has_window := true; NEXT_PUBLIC_BACKEND_URL := None |} = "" /\
  BASE_URL {| has_window := false; NEXT_PUBLIC_BACKEND_URL := None |}
  = "https://crmrebs-backend-746815019501.europe-west1.run.app" /\
  BASE_URL {| has_window := true; NEXT_PUBLIC_BACKEND_URL := Some "http://api" |} = "http://api" /\
  BASE_URL {| has_window := false; NEXT_PUBLIC_BACKEND_URL := Some "" |} = "".
Proof. repeat split; reflexivity. Qed.

Lemma post_bodies_round_trip_witness :
  exists body,
    JSON_parse body = Ok (json_object "property_id" (VStr "p1")) /\
    (sendWhatsApp (host := ref_host 7200000) in_browser
       (recording (fun _ _ => Ok (response_of 204 "" ""))) "p1" []).2
    = [posted in_browser "/api/send-whatsapp" body].
Proof.
  exact (proj1 (post_bodies_round_trip (host := ref_host 7200000) in_browser
                  (fun _ _ => Ok (response_of 204 "" "")) "p1" "hello" [])).
Defined.

Lemma request_rejects_witness :
  (request (host := host_bucharest) in_browser (respond session_expired)
     "/api/leads/new" no_init []).1
  = Throw (ApiError "Session expired" 401 (json_object "error" (VStr "Session expired"))).
Proof.
  exact (request_rejects (host := host_bucharest) in_browser (respond session_expired)
           "/api/leads/new" no_init [] session_expired eq_refl eq_refl).
Defined.

Lemma endpoints_unauthorized_witness :
  exists e, (sendWhatsApp (host := host_bucharest) in_browser (respond session_expired) "p1" []).1
            = Throw e /\ is_unauthorized e = true.
Proof.
  pose proof (endpoints_unauthorized (host := host_bucharest) in_browser
                (respond session_expired) session_expired (fun _ _ _ => eq_refl) eq_refl
                "p1" "hello" []) as H.
  exact (List.Forall_inv (List.Forall_inv_tail (List.Forall_inv_tail (List.Forall_inv_tail H)))).
Defined.

Lemma request_message_status_text_witness :
  exists payload,
    (request (host := host_bucharest) in_browser (respond bad_gateway)
       "/api/send-whatsapp" (post None) []).1
    = Throw (ApiError "" 502 payload).
Proof.
  apply (request_message_status_text (host := host_bucharest) in_browser (respond bad_gateway)
           "/api/send-whatsapp" (post None) [] bad_gateway eq_refl eq_refl).
  intros v Hv; discriminate.
Defined.
