(* ===== verification/Legacy.v ===== *)
(** * Legacy: the earlier copy of the HTTP wrapper

    [src/unnamed/part_000] is [lib/api.ts] as it stood before the base
    URL was made to depend on where the module runs: [BASE_URL] is the
    variable of the build or, without it, the backend on the local
    machine (lines 6-7).  The rest of the file is the text of [api.ts]:
    [request] (lines 14-49) and the seven endpoints (lines 51-96), over
    the same response handling and the same options.

    The theorems say when a page cannot tell the two copies apart. *)

From Stdlib Require Import QArith ZArith Lia.
From stdpp Require Import base tactics option list strings gmap.
From S2P Require Import Prelude JsNumber JsString JsValue RefHost Json Api.
Close Scope Q_scope.
Open Scope string_scope.

(** ** Definitions *)

(** Lines 6-7. *)
Definition legacy_BASE_URL (env : Env) : string :=
  default "http://localhost:8000" (NEXT_PUBLIC_BACKEND_URL env).

Section WithFetch.
Context {host : Host} {World : Type}.
Variable env : Env.
Variable fetch : string -> FetchInit -> World -> result exn Response * World.

(** Lines 14-49. *)
Definition legacy_request (path : string) (init : RequestInit) (w : World)
    : result exn value * World :=
  let '(settled, w1) := fetch (legacy_BASE_URL env +:+ path) (fetch_init init) w in
  (response ← settled; handle_response response, w1).

(** Lines 51-53. *)
Definition legacy_fetchNewLeads : World -> result exn value * World :=
  legacy_request "/api/leads/new" no_init.

(** Lines 55-57. *)
Definition legacy_fetchHistoryLeads : World -> result exn value * World :=
  legacy_request "/api/leads/history" no_init.

(** Lines 59-64. *)
Definition legacy_sendWhatsApp (propertyId : string) (w : World) : result exn unit * World :=
  discard (legacy_request "/api/send-whatsapp"
             (post (JSON_stringify (json_object "property_id" (VStr propertyId)))) w).

(** Lines 66-71. *)
Definition legacy_login (password : string) (w : World) : result exn unit * World :=
  discard (legacy_request "/api/login"
             (post (JSON_stringify (json_object "password" (VStr password)))) w).

(** Lines 73-77. *)
Definition legacy_fetchLeadMessages (propertyId : string)
    : World -> result exn value * World :=
  legacy_request ("/api/leads/" +:+ propertyId +:+ "/messages") no_init.

(** Lines 79-87. *)
Definition legacy_sendLeadReply (propertyId message : string) (w : World)
    : result exn unit * World :=
  discard (legacy_request ("/api/leads/" +:+ propertyId +:+ "/reply")
             (post (JSON_stringify (json_object "message" (VStr message)))) w).

(** Lines 89-96. *)
Definition legacy_markConversationRead (propertyId : string) (w : World)
    : result exn unit * World :=
  discard (legacy_request ("/api/leads/" +:+ propertyId +:+ "/mark-read")
             (post (JSON_stringify (json_object "read" (VBool true)))) w).

End WithFetch.

(** The two wrappers as the pages import them: the seven endpoints. *)
Record Endpoints (World : Type) : Type := {
  ep_fetchNewLeads : World -> result exn value * World;
  ep_fetchHistoryLeads : World -> result exn value * World;
  ep_sendWhatsApp : string -> World -> result exn unit * World;
  ep_login : string -> World -> result exn unit * World;
  ep_fetchLeadMessages : string -> World -> result exn value * World;
  ep_sendLeadReply : string -> string -> World -> result exn unit * World;
  ep_markConversationRead : string -> World -> result exn unit * World;
}.

Section Wrappers.
Context {host : Host} {World : Type}.
Variable env : Env.
Variable fetch : string -> FetchInit -> World -> result exn Response * World.

Definition current_endpoints : Endpoints World := {|
  ep_fetchNewLeads := fetchNewLeads env fetch;
  ep_fetchHistoryLeads := fetchHistoryLeads env fetch;
  ep_sendWhatsApp := sendWhatsApp env fetch;
  ep_login := login env fetch;
  ep_fetchLeadMessages := fetchLeadMessages env fetch;
  ep_sendLeadReply := sendLeadReply env fetch;
  ep_markConversationRead := markConversationRead env fetch;
|}.

Definition legacy_endpoints : Endpoints World := {|
  ep_fetchNewLeads := legacy_fetchNewLeads env fetch;
  ep_fetchHistoryLeads := legacy_fetchHistoryLeads env fetch;
  ep_sendWhatsApp := legacy_sendWhatsApp env fetch;
  ep_login := legacy_login env fetch;
  ep_fetchLeadMessages := legacy_fetchLeadMessages env fetch;
  ep_sendLeadReply := legacy_sendLeadReply env fetch;
  ep_markConversationRead := legacy_markConversationRead env fetch;
|}.

End Wrappers.

(** ** Facts *)

Lemma BASE_URL_set env url :
  NEXT_PUBLIC_BACKEND_URL env = Some url -> BASE_URL env = url /\ legacy_BASE_URL env = url.
Proof. unfold BASE_URL, legacy_BASE_URL; intros ->; destruct (has_window env); auto. Qed.

(** Without the variable the two copies call different hosts. *)
Lemma BASE_URL_unset env :
  NEXT_PUBLIC_BACKEND_URL env = None -> BASE_URL env <> legacy_BASE_URL env.
Proof. unfold BASE_URL, legacy_BASE_URL; intros ->; destruct (has_window env); discriminate. Qed.

Lemma legacy_request_base {host : Host} {World : Type} env
    (fetch : string -> FetchInit -> World -> result exn Response * World) :
  BASE_URL env = legacy_BASE_URL env -> legacy_request env fetch = request env fetch.
Proof. unfold legacy_request, request; intros ->; reflexivity. Qed.

(** ** Theorems *)

(** C26.  The earlier wrapper and the present one are the same endpoints,
    on every transport, exactly when the variable of the build names the
    backend; without it the two call different hosts. *)
Theorem legacy_endpoints_equiv {host : Host} env :
  (forall (World : Type) (fetch : string -> FetchInit -> World -> result exn Response * World),
      legacy_endpoints env fetch = current_endpoints env fetch)
  <-> is_Some (NEXT_PUBLIC_BACKEND_URL env).
Proof.
  split.
  - intros Heq; destruct env as [window [url|]]; [eauto|exfalso].
    pose proof (f_equal (fun eps => (ep_fetchNewLeads _ eps []).2)
                  (Heq _ (recording (fun _ _ => Throw (TypeError ""))))) as Hlog.
    destruct window; vm_compute in Hlog; discriminate.
  - intros [url Hurl] World fetch; destruct (BASE_URL_set env url Hurl) as [Hb Hl].
    unfold legacy_endpoints, current_endpoints, legacy_fetchNewLeads, legacy_fetchHistoryLeads,
      legacy_sendWhatsApp, legacy_login, legacy_fetchLeadMessages, legacy_sendLeadReply,
      legacy_markConversationRead.
    rewrite (legacy_request_base env fetch) by congruence; reflexivity.
Qed.

(** ** Examples *)

(** A build without the variable: the page in the browser calls its own
    origin, the earlier copy the local machine. *)
Example legacy_sendWhatsApp_example :
  let sent run := map call_url (run (respond (response_of 204 "" "")) "p1" []).2 in
  sent (sendWhatsApp (host := host_bucharest) in_browser) = ["/api/send-whatsapp"] /\
  sent (legacy_sendWhatsApp (host := host_bucharest) in_browser)
  = ["http://localhost:8000/api/send-whatsapp"].
Proof. vm_compute; split; reflexivity. Qed.
