(* ===== verification/View.v ===== *)
(** * View: what a component renders

    A React component is a function from its props and state to a tree of
    elements.  An element is a tag with its props and children ([Elem]);
    a string child is [Text].  A prop is a string, a number, a flag or a
    handler; a handler is the event of the page that it raises, of a type
    [E] that the page chooses.  [null] among the children renders
    nothing ([when]).

    The browser decides which handlers a user can reach: a disabled
    control raises nothing, and a form is submitted only through a submit
    button that is enabled, and only when the constraints of its inputs
    hold ([required], [minLength]).  [clicks], [changes] and [submits]
    list the handlers within reach.

    [same_shape] relates two trees that differ in their class names only:
    restyling a page changes nothing of what it offers. *)

From Stdlib Require Import QArith ZArith Lia Ascii.
From stdpp Require Import base tactics option list strings.
From S2P Require Import Prelude JsNumber JsString.
Close Scope Q_scope.
Open Scope string_scope.

(** ** Trees *)

Section Nodes.
Context {E : Type}.

Inductive prop : Type :=
| Str (name value : string)
| Num (name : string) (n : Z)
| Flag (name : string) (on : bool)
| Handler (name : string) (e : E)
| ValueHandler (name : string) (e : string -> E)
| Number (name : string) (n : number).

Inductive node : Type :=
| Text (s : string)
| Elem (tag : string) (props : list prop) (children : list node).

(** [cond ? element : null] among the children. *)
Definition when (cond : bool) (element : node) : list node :=
  if cond then [element] else [].

(** ** Props *)

Definition str_prop (name : string) (props : list prop) : option string :=
  head (omap (fun p => match p with
                    | Str n v => if String.eqb n name then Some v else None
                    | _ => None
                    end) props).

Definition num_prop (name : string) (props : list prop) : option Z :=
  head (omap (fun p => match p with
                    | Num n v => if String.eqb n name then Some v else None
                    | _ => None
                    end) props).

Definition number_prop (name : string) (props : list prop) : option number :=
  head (omap (fun p => match p with
                    | Number n v => if String.eqb n name then Some v else None
                    | _ => None
                    end) props).

Definition flag (name : string) (props : list prop) : bool :=
  existsb (fun p => match p with Flag n on => String.eqb n name && on | _ => false end) props.

Definition handlers (name : string) (props : list prop) : list E :=
  omap (fun p => match p with
                 | Handler n e => if String.eqb n name then Some e else None
                 | _ => None
                 end) props.

Definition value_handlers (name : string) (props : list prop) : list (string -> E) :=
  omap (fun p => match p with
                 | ValueHandler n e => if String.eqb n name then Some e else None
                 | _ => None
                 end) props.

(** ** Reading a tree *)

(** The element and everything under it, in document order. *)
Fixpoint flatten (n : node) : list node :=
  match n with
  | Text _ => [n]
  | Elem _ _ children => n :: flat_map flatten children
  end.

(** [textContent] *)
Fixpoint text_content (n : node) : string :=
  match n with
  | Text s => s
  | Elem _ _ children => foldr (fun c acc => text_content c +:+ acc) "" children
  end.

(** The [onClick] handlers of the controls that are not disabled. *)
Fixpoint clicks (n : node) : list E :=
  match n with
  | Text _ => []
  | Elem _ props children =>
      (if flag "disabled" props then [] else handlers "onClick" props)
      ++ flat_map clicks children
  end.

(** The [onChange] handlers of the controls that take a text and are not
    disabled. *)
Fixpoint changes (n : node) : list (string -> E) :=
  match n with
  | Text _ => []
  | Elem tag props children =>
      (if flag "disabled" props || String.eqb tag "select" then []
       else value_handlers "onChange" props ++ map (fun e _ => e) (handlers "onChange" props))
      ++ flat_map changes children
  end.

(** The values of the options of a select. *)
Definition option_values (children : list node) : list string :=
  omap (fun c => match c with
                 | Elem tag props _ =>
                     if String.eqb tag "option" then str_prop "value" props else None
                 | Text _ => None
                 end) children.

(** What the selects that are not disabled raise: their [onChange] on
    the value of each of their options. *)
Fixpoint picks (n : node) : list E :=
  match n with
  | Text _ => []
  | Elem tag props children =>
      (if String.eqb tag "select" && negb (flag "disabled" props)
       then flat_map (fun f => map f (option_values children)) (value_handlers "onChange" props)
            ++ handlers "onChange" props
       else [])
      ++ flat_map picks children
  end.

(** A button that submits its form: [type] is [submit] or absent, and the
    button is not disabled. *)
Definition submit_button (n : node) : bool :=
  match n with
  | Elem tag props _ =>
      String.eqb tag "button" && negb (flag "disabled" props)
      && match str_prop "type" props with
         | Some t => String.eqb t "submit"
         | None => true
         end
  | Text _ => false
  end.

(** The constraints of a number input on a value that is a finite
    number: not below [min], and a whole number of steps of 1 from [min],
    or from 0 without one. *)
Definition in_steps (least : option Z) (n : number) : bool :=
  match n with
  | Fin q =>
      match least with Some m => Qle_bool (inject_Z m) q | None => true end
      && (Z.pos (Qden (Qred (q - inject_Z (default 0%Z least)))) =? 1)%Z
  | _ => true
  end.

(** The constraints of an input on its value: [required] wants a value,
    [minLength] a value of that many UTF-16 code units unless it is
    empty, and the type [number] a value within [min] and on a step. *)
Definition input_valid (n : node) : bool :=
  match n with
  | Elem tag props _ =>
      if String.eqb tag "input" then
        let value := default "" (str_prop "value" props) in
        negb (flag "required" props && String.eqb value "")
        && match num_prop "minLength" props with
           | Some least => String.eqb value "" || (least <=? Z.of_nat (utf16_length value))%Z
           | None => true
           end
        && match str_prop "type" props, number_prop "value" props with
           | Some type, Some n =>
               if String.eqb type "number" then in_steps (num_prop "min" props) n else true
           | _, _ => true
           end
      else true
  | Text _ => true
  end.

(** The [onSubmit] handlers of the forms that can be submitted. *)
Fixpoint submits (n : node) : list E :=
  match n with
  | Text _ => []
  | Elem tag props children =>
      (if String.eqb tag "form" && existsb submit_button (flatten n)
          && forallb input_valid (flatten n)
       then handlers "onSubmit" props else [])
      ++ flat_map submits children
  end.

(** A submit button under the element, and the validity of every input
    under it. *)
Definition has_submit (n : node) : bool := existsb submit_button (flatten n).
Definition all_valid (n : node) : bool := forallb input_valid (flatten n).

(** What a part of a form holds: its handlers by kind, none of them a
    submit handler, whether a submit button is in it, and whether its
    inputs are valid. *)
Definition holds (n : node) (cs : list E) (chs : list (string -> E)) (ps : list E)
    (submit valid : bool) : Prop :=
  clicks n = cs /\ changes n = chs /\ picks n = ps /\ submits n = []
  /\ has_submit n = submit /\ all_valid n = valid.

(** The events within reach of the user. *)
Definition offered (n : node) (e : E) : Prop :=
  In e (clicks n) \/ In e (submits n) \/ In e (picks n)
  \/ exists f v, In f (changes n) /\ e = f v.

(** What the handlers of an element raise: a click, a change of a box
    that takes no text, or a text typed; nothing when it is disabled. *)
Definition raises (props : list prop) (e : E) : Prop :=
  flag "disabled" props = false
  /\ (In e (handlers "onClick" props) \/ In e (handlers "onChange" props)
      \/ exists f v, In f (value_handlers "onChange" props) /\ e = f v).

(** ** Class names *)

Definition is_class (p : prop) : bool :=
  match p with Str n _ => String.eqb n "className" | _ => false end.

Definition unclass (props : list prop) : list prop :=
  List.filter (fun p => negb (is_class p)) props.

(** The tree without its class names. *)
Fixpoint unstyled (n : node) : node :=
  match n with
  | Text s => Text s
  | Elem tag props children => Elem tag (unclass props) (map unstyled children)
  end.

Definition same_shape (a b : node) : Prop := unstyled a = unstyled b.

(** Nothing in the tree can be acted on. *)
Definition inert (n : node) : Prop :=
  clicks n = [] /\ changes n = [] /\ submits n = [] /\ picks n = [].

End Nodes.

Arguments prop : clear implicits.
Arguments node : clear implicits.

(** [clsx(...)]: the truthy arguments, joined by a space.  An argument is
    a string or a falsy value. *)
Definition clsx (parts : list (option string)) : string :=
  join_on " " (List.filter str_truthy (omap id parts)).

(** [cond && s] as an argument of [clsx]. *)
Definition class_when (cond : bool) (s : string) : option string :=
  if cond then Some s else None.

(** ** Facts *)

Section NodeFacts.
Context {E : Type}.
Implicit Types (n : node E) (props : list (prop E)).

(** Induction on trees: the children come with the property. *)
Lemma node_ind_nested (P : node E -> Prop) :
  (forall s, P (Text s)) ->
  (forall tag props children, Forall P children -> P (Elem tag props children)) ->
  forall n, P n.
Proof.
  intros Htext Helem; fix IH 1; intros [s|tag props children]; [apply Htext|].
  apply Helem; induction children as [|c cs IHcs]; constructor; [apply IH | exact IHcs].
Qed.

Lemma flat_map_ext_Forall {A B} (f g : A -> list B) l :
  Forall (fun x => f x = g x) l -> flat_map f l = flat_map g l.
Proof. induction 1 as [|x l Hx _ IH]; simpl; congruence. Qed.

Lemma flat_map_map {A B C} (f : A -> B) (g : B -> list C) l :
  flat_map g (map f l) = flat_map (fun x => g (f x)) l.
Proof. induction l as [|x l IH]; simpl; congruence. Qed.

Lemma omap_unclass {B} (f : prop E -> option B) props :
  (forall p, is_class p = true -> f p = None) -> omap f (unclass props) = omap f props.
Proof.
  intros Hf; unfold omap, unclass; induction props as [|p props IH]; [reflexivity|]; simpl.
  destruct (is_class p) eqn:Hp; simpl; [rewrite (Hf p Hp)|]; rewrite IH; reflexivity.
Qed.

Lemma flag_unclass name props : flag name (unclass props) = flag name props.
Proof.
  unfold flag, unclass; induction props as [|p props IH]; [reflexivity|]; simpl.
  destruct p; simpl; try (rewrite IH; reflexivity).
  destruct (String.eqb name0 "className"); simpl; exact IH.
Qed.

Lemma handlers_unclass name props : handlers name (unclass props) = handlers name props.
Proof. apply omap_unclass; intros []; simpl; congruence. Qed.

Lemma value_handlers_unclass name props :
  value_handlers name (unclass props) = value_handlers name props.
Proof. apply omap_unclass; intros []; simpl; congruence. Qed.

Lemma num_prop_unclass name props : num_prop name (unclass props) = num_prop name props.
Proof. unfold num_prop; f_equal; apply omap_unclass; intros []; simpl; congruence. Qed.

Lemma number_prop_unclass name props :
  number_prop name (unclass props) = number_prop name props.
Proof. unfold number_prop; f_equal; apply omap_unclass; intros []; simpl; congruence. Qed.

Lemma str_prop_unclass name props :
  name <> "className" -> str_prop name (unclass props) = str_prop name props.
Proof.
  intros Hname; unfold str_prop; f_equal; apply omap_unclass; intros []; simpl; try congruence.
  intros ->%String.eqb_eq; rewrite (proj2 (String.eqb_neq _ _)) by congruence; reflexivity.
Qed.

Lemma flatten_unstyled n : flatten (unstyled n) = map unstyled (flatten n).
Proof.
  induction n as [s|tag props children IH] using node_ind_nested; [reflexivity|].
  cbn [unstyled flatten map]; f_equal; rewrite flat_map_map.
  induction IH as [|c cs Hc _ IHcs]; simpl; [reflexivity|].
  rewrite map_app, Hc, IHcs; reflexivity.
Qed.

Lemma submit_button_unstyled n : submit_button (unstyled n) = submit_button n.
Proof.
  destruct n as [s|tag props children]; [reflexivity|]; cbn [unstyled submit_button].
  rewrite flag_unclass, str_prop_unclass by discriminate; reflexivity.
Qed.

Lemma input_valid_unstyled n : input_valid (unstyled n) = input_valid n.
Proof.
  destruct n as [s|tag props children]; [reflexivity|]; cbn [unstyled input_valid].
  rewrite flag_unclass, !num_prop_unclass, number_prop_unclass, !str_prop_unclass
    by discriminate; reflexivity.
Qed.

Lemma existsb_map_ext {A B} (f : A -> B) (p : B -> bool) (q : A -> bool) l :
  (forall x, p (f x) = q x) -> existsb p (map f l) = existsb q l.
Proof. intros Hpq; induction l as [|x l IH]; simpl; congruence. Qed.

Lemma forallb_map_ext {A B} (f : A -> B) (p : B -> bool) (q : A -> bool) l :
  (forall x, p (f x) = q x) -> forallb p (map f l) = forallb q l.
Proof. intros Hpq; induction l as [|x l IH]; simpl; congruence. Qed.

Lemma clicks_unstyled n : clicks (unstyled n) = clicks n.
Proof.
  induction n as [s|tag props children IH] using node_ind_nested; [reflexivity|].
  cbn [unstyled clicks]; rewrite flag_unclass, handlers_unclass, flat_map_map.
  f_equal; apply flat_map_ext_Forall, IH.
Qed.

Lemma changes_unstyled n : changes (unstyled n) = changes n.
Proof.
  induction n as [s|tag props children IH] using node_ind_nested; [reflexivity|].
  cbn [unstyled changes].
  rewrite flag_unclass, handlers_unclass, value_handlers_unclass, flat_map_map.
  f_equal; apply flat_map_ext_Forall, IH.
Qed.

Lemma option_values_unstyled (children : list (node E)) :
  option_values (map unstyled children) = option_values children.
Proof.
  unfold option_values, omap; induction children as [|[s|tag props cs] children IH];
    [reflexivity|exact IH|]; simpl.
  rewrite IH, str_prop_unclass by discriminate; reflexivity.
Qed.

Lemma picks_unstyled n : picks (unstyled n) = picks n.
Proof.
  induction n as [s|tag props children IH] using node_ind_nested; [reflexivity|].
  cbn [unstyled picks].
  rewrite flag_unclass, handlers_unclass, value_handlers_unclass, option_values_unstyled,
    flat_map_map.
  f_equal; apply flat_map_ext_Forall, IH.
Qed.

Lemma submits_unstyled n : submits (unstyled n) = submits n.
Proof.
  induction n as [s|tag props children IH] using node_ind_nested; [reflexivity|].
  change (unstyled (Elem tag props children))
    with (Elem tag (unclass props) (map unstyled children)) at 1.
  cbn [submits]; rewrite handlers_unclass, flat_map_map.
  change (Elem tag (unclass props) (map unstyled children))
    with (unstyled (Elem tag props children)).
  rewrite flatten_unstyled, (existsb_map_ext _ _ _ _ submit_button_unstyled),
    (forallb_map_ext _ _ _ _ input_valid_unstyled).
  f_equal; apply flat_map_ext_Forall, IH.
Qed.

Lemma text_content_unstyled n : text_content (unstyled n) = text_content n.
Proof.
  induction n as [s|tag props children IH] using node_ind_nested; [reflexivity|].
  cbn [unstyled text_content]; induction IH as [|c cs Hc _ IHcs]; simpl; congruence.
Qed.

Lemma unstyled_idemp n : unstyled (unstyled n) = unstyled n.
Proof.
  induction n as [s|tag props children IH] using node_ind_nested; [reflexivity|].
  cbn [unstyled]; f_equal.
  - unfold unclass; induction props as [|p props IHp]; [reflexivity|]; simpl.
    destruct (is_class p) eqn:Hp; simpl; [exact IHp | rewrite Hp; simpl; congruence].
  - rewrite map_map; induction IH as [|c cs Hc _ IHcs]; simpl; congruence.
Qed.

#[export] Instance same_shape_equiv : Equivalence (@same_shape E).
Proof.
  unfold same_shape; split; [intros ?|intros ? ?|intros ? ? ?]; congruence.
Qed.

Lemma same_shape_unstyled n : same_shape (unstyled n) n.
Proof. apply unstyled_idemp. Qed.

(** What a tree offers depends on its shape only. *)
#[export] Instance clicks_proper : Proper (same_shape ==> eq) (@clicks E).
Proof. intros a b Hab; rewrite <- (clicks_unstyled a), <- (clicks_unstyled b), Hab; reflexivity. Qed.

#[export] Instance changes_proper : Proper (same_shape ==> eq) (@changes E).
Proof. intros a b Hab; rewrite <- (changes_unstyled a), <- (changes_unstyled b), Hab; reflexivity. Qed.

#[export] Instance picks_proper : Proper (same_shape ==> eq) (@picks E).
Proof. intros a b Hab; rewrite <- (picks_unstyled a), <- (picks_unstyled b), Hab; reflexivity. Qed.

#[export] Instance submits_proper : Proper (same_shape ==> eq) (@submits E).
Proof. intros a b Hab; rewrite <- (submits_unstyled a), <- (submits_unstyled b), Hab; reflexivity. Qed.

#[export] Instance text_content_proper : Proper (same_shape ==> eq) (@text_content E).
Proof.
  intros a b Hab; rewrite <- (text_content_unstyled a), <- (text_content_unstyled b), Hab.
  reflexivity.
Qed.

#[export] Instance offered_proper : Proper (same_shape ==> eq ==> iff) (@offered E).
Proof.
  intros a b Hab e ? <-; unfold offered.
  rewrite (clicks_proper a b Hab), (submits_proper a b Hab), (changes_proper a b Hab),
    (picks_proper a b Hab).
  reflexivity.
Qed.

(** Two elements of the same tag and props, up to class names, over
    children of the same shape. *)
Lemma same_shape_Elem tag props props' children children' :
  unclass props = unclass props' -> Forall2 same_shape children children' ->
  same_shape (Elem tag props children) (Elem tag props' children').
Proof.
  intros Hp Hc; unfold same_shape; cbn [unstyled]; rewrite Hp; f_equal.
  induction Hc as [|c c' cs cs' Hcc _ IH]; simpl; congruence.
Qed.

Lemma flat_map_when {B} (f : node E -> list B) (cond : bool) n :
  flat_map f (when cond n) = if cond then f n else [].
Proof. destruct cond; simpl; rewrite ?app_nil_r; reflexivity. Qed.

Lemma inert_Text s : inert (E := E) (Text s).
Proof. repeat split. Qed.

Lemma flat_map_nil {A B} (f : A -> list B) l : Forall (fun x => f x = []) l -> flat_map f l = [].
Proof. induction 1 as [|x l Hx _ IH]; simpl; [|rewrite Hx, IH]; reflexivity. Qed.

Lemma inert_all (ns : list (node E)) :
  Forall inert ns ->
  flat_map clicks ns = [] /\ flat_map changes ns = [] /\ flat_map submits ns = []
  /\ flat_map picks ns = [].
Proof.
  intros Hns; repeat split; apply flat_map_nil; eapply Forall_impl; try exact Hns;
    intros n (Hc & Hch & Hs & Hp); assumption.
Qed.

(** What a list of trees offers, by kind of handler. *)
Lemma offered_among (ns : list (node E)) e :
  Exists (fun n => offered n e) ns
  <-> In e (flat_map clicks ns) \/ In e (flat_map submits ns) \/ In e (flat_map picks ns)
      \/ exists f v, In f (flat_map changes ns) /\ e = f v.
Proof.
  induction ns as [|n ns IH]; cbn [flat_map].
  - rewrite Exists_nil; split; [intros [] | intros [[]|[[]|[[]|(f & v & [] & _)]]]].
  - rewrite Exists_cons, IH; unfold offered; rewrite !in_app_iff.
    setoid_rewrite in_app_iff; naive_solver.
Qed.

Lemma has_submit_Elem tag props (children : list (node E)) :
  has_submit (Elem tag props children)
  = submit_button (Elem tag props children) || existsb has_submit children.
Proof.
  unfold has_submit; cbn [flatten existsb]; f_equal.
  induction children as [|c cs IH]; [reflexivity|]; cbn [flat_map existsb].
  rewrite existsb_app, IH; reflexivity.
Qed.

Lemma all_valid_Elem tag props (children : list (node E)) :
  all_valid (Elem tag props children)
  = input_valid (Elem tag props children) && forallb all_valid children.
Proof.
  unfold all_valid; cbn [flatten forallb]; f_equal.
  induction children as [|c cs IH]; [reflexivity|]; cbn [flat_map forallb].
  rewrite forallb_app, IH; reflexivity.
Qed.

Lemma submits_Elem tag props (children : list (node E)) :
  submits (Elem tag props children)
  = ((if String.eqb tag "form" && has_submit (Elem tag props children)
         && all_valid (Elem tag props children)
      then handlers "onSubmit" props else [])
     ++ flat_map submits children)%list.
Proof. reflexivity. Qed.

Lemma option_values_cons props (children rest : list (node E)) :
  option_values (Elem "option" props children :: rest)
  = (match str_prop "value" props with Some v => [v] | None => [] end
     ++ option_values rest)%list.
Proof. unfold option_values; cbn; destruct (str_prop "value" props); reflexivity. Qed.

Section Holds.
Context {n : node E} {cs : list E} {chs : list (string -> E)} {ps : list E} {submit valid : bool}.
Hypothesis H : holds n cs chs ps submit valid.

Lemma holds_clicks : clicks n = cs.
Proof. apply H. Qed.

Lemma holds_changes : changes n = chs.
Proof. apply H. Qed.

Lemma holds_picks : picks n = ps.
Proof. apply H. Qed.

Lemma holds_submits : submits n = [].
Proof. apply H. Qed.

Lemma holds_has_submit : has_submit n = submit.
Proof. apply H. Qed.

Lemma holds_all_valid : all_valid n = valid.
Proof. apply H. Qed.

End Holds.

(** Parts without handlers, submit buttons or invalid inputs. *)
Lemma holds_nothing (ns : list (node E)) :
  Forall (fun n => holds n [] [] [] false true) ns ->
  flat_map clicks ns = [] /\ flat_map changes ns = [] /\ flat_map picks ns = []
  /\ flat_map submits ns = [] /\ existsb has_submit ns = false /\ forallb all_valid ns = true.
Proof.
  induction 1 as [|n ns (Hc & Hch & Hp & Hs & Hb & Hv) _ (IHc & IHch & IHp & IHs & IHb & IHv)];
    [repeat split|].
  cbn [flat_map existsb forallb]; rewrite Hc, Hch, Hp, Hs, Hb, Hv, IHc, IHch, IHp, IHs, IHb, IHv.
  repeat split.
Qed.

(** What a tree offers, from the lists of its handlers. *)
Lemma offered_lists n e cs ss ps chs :
  clicks n = cs -> submits n = ss -> picks n = ps -> changes n = chs ->
  offered n e <-> In e (cs ++ ss ++ ps) \/ exists f v, In f chs /\ e = f v.
Proof. intros <- <- <- <-; unfold offered; rewrite !in_app_iff; tauto. Qed.

Lemma inert_offers_nothing n e : inert n -> ~ offered n e.
Proof.
  intros (Hc & Hch & Hs & Hp); unfold offered; rewrite Hc, Hch, Hs, Hp.
  intros [[]|[[]|[[]|(f & v & [] & _)]]].
Qed.

(** An element without handlers around children that offer nothing. *)
Lemma inert_Elem tag props (children : list (node E)) :
  handlers "onClick" props = [] -> handlers "onChange" props = [] ->
  value_handlers "onChange" props = [] -> handlers "onSubmit" props = [] ->
  Forall inert children -> inert (Elem tag props children).
Proof.
  intros Hc Hch Hv Hs (Cc & Cch & Cs & Cp)%inert_all; unfold inert.
  cbn [clicks changes submits picks]; rewrite Hc, Hch, Hv, Hs, Cc, Cch, Cs, Cp.
  repeat match goal with |- context [if ?b then _ else _] => destruct b end; repeat split.
Qed.

(** *** What a tree offers, part by part *)

Lemma offered_inert n e : inert n -> offered n e <-> False.
Proof. intros Hn; split; [apply inert_offers_nothing, Hn | intros []]. Qed.

Lemma offered_Text s e : offered (E := E) (Text s) e <-> False.
Proof. apply offered_inert, inert_Text. Qed.

Lemma Exists_when (P : node E -> Prop) (cond : bool) n :
  Exists P (when cond n) <-> cond = true /\ P n.
Proof.
  destruct cond; cbn; rewrite ?Exists_cons, Exists_nil; intuition discriminate.
Qed.

Lemma changes_app (left right : list (string -> E)) e :
  (exists f v, In f (left ++ right) /\ e = f v)
  <-> (exists f v, In f left /\ e = f v) \/ exists f v, In f right /\ e = f v.
Proof. setoid_rewrite in_app_iff; naive_solver. Qed.

(** The texts and the ticks among the changes of an element. *)
Lemma changes_raise (typed rest : list (string -> E)) (ticked : list E) e :
  (exists f v, In f ((typed ++ map (fun e _ => e) ticked) ++ rest) /\ e = f v)
  <-> (exists f v, In f typed /\ e = f v) \/ In e ticked \/ exists f v, In f rest /\ e = f v.
Proof.
  split.
  - intros (f & v & [[Hf|(e' & <- & He)%in_map_iff]%in_app_iff|Hf]%in_app_iff & ->); eauto 6.
  - intros [(f & v & Hf & ->)|[He|(f & v & Hf & ->)]].
    + exists f, v; rewrite !in_app_iff; auto.
    + exists (fun _ => e), ""; rewrite !in_app_iff, in_map_iff; eauto 6.
    + exists f, v; rewrite !in_app_iff; auto.
Qed.

(** An element that is not a form nor a select offers what its handlers
    raise and what its children offer. *)
Lemma offered_Elem tag props children e :
  String.eqb tag "form" = false -> String.eqb tag "select" = false ->
  offered (Elem tag props children) e
  <-> raises props e \/ Exists (fun n => offered n e) children.
Proof.
  intros Hform Hselect; rewrite offered_among; unfold offered, raises.
  cbn [clicks changes picks submits]; rewrite Hform, Hselect, orb_false_r.
  destruct (flag "disabled" props); cbn [andb app]; rewrite ?in_app_iff, ?changes_raise;
    intuition discriminate.
Qed.

(** No handler among the props. *)
Lemma raises_none props e :
  handlers "onClick" props = [] -> handlers "onChange" props = [] ->
  value_handlers "onChange" props = [] -> raises props e <-> False.
Proof.
  unfold raises; intros -> -> ->; split; [|intros []].
  intros (_ & [[]|[[]|(f & v & [] & _)]]).
Qed.

End NodeFacts.

(** Forgets what the handlers of a tree do not depend on: the class
    names, the placeholders and the texts. *)
Ltac forget_styles :=
  repeat match goal with
  | |- context [Str "className" ?s] => tryif is_var s then fail else (generalize s; intro)
  | |- context [Str "placeholder" ?s] => tryif is_var s then fail else (generalize s; intro)
  | |- context [Text ?s] => tryif is_var s then fail else (generalize s; intro)
  end.

(** Reads what a tree that is written out offers, down to the handlers
    of its elements and to the parts that are not written out. *)
Ltac offers :=
  repeat first
    [ rewrite offered_Elem by reflexivity
    | rewrite Exists_cons | rewrite Exists_app | rewrite Exists_nil | rewrite Exists_when
    | rewrite offered_Text
    | match goal with
      | |- context [raises ?props ?e] => rewrite (raises_none props e) by reflexivity
      end ].

(** Reads what a tree offers off the lists of its handlers; the lists
    compute once the conditions in the tree are decided. *)
Tactic Notation "offered_by_lists" constr(e) :=
  rewrite (offered_lists _ e _ _ _ _ eq_refl eq_refl eq_refl eq_refl).

(** Rewrites with what a part holds. *)
Tactic Notation "use_part" uconstr(H) :=
  rewrite ?(holds_clicks H), ?(holds_changes H), ?(holds_picks H), ?(holds_submits H),
    ?(holds_has_submit H), ?(holds_all_valid H).

(** Opens a tree down to its parts. *)
Ltac open_parts :=
  unfold holds; rewrite ?submits_Elem, ?has_submit_Elem, ?all_valid_Elem;
  cbn [clicks changes picks flat_map existsb forallb];
  rewrite ?submits_Elem, ?has_submit_Elem, ?all_valid_Elem;
  cbn [clicks changes picks flat_map existsb forallb].

(** Reads the handlers off a tree that is written out, down to the
    parts that are not. *)
Ltac tree_handlers :=
  repeat (progress (cbn [flat_map clicks changes submits picks default];
                    rewrite ?flat_map_app, ?flat_map_when)).
