(* ===== verification/Leads.v ===== *)
(** * Leads: the record shapes and the payload accessors

    The records of [src/frontend/src/types/leads.ts] and the interfaces,
    constants and helper functions at the top of
    [src/frontend/src/lib/leads.ts]: [LeadGroup], [OptionItem],
    [LeadFilters], [DEFAULT_LEAD_FILTERS], [PROPERTY_TYPE_OPTIONS],
    [toNumber], [getFromRaw] and [extractLabel].

    An optional field ([x?: T], [T | null]) is an [option]; [None] stands for
    both [undefined] and [null], which the code never tells apart.
    [crm_raw] is typed as a record but guarded with [?? {}] at every use, so
    it is an optional object here. *)

From Stdlib Require Import QArith ZArith Lia.
From stdpp Require Import base tactics option list strings gmap.
From S2P Require Import Prelude JsNumber JsString JsValue.
Close Scope Q_scope.
Open Scope string_scope.

(** ** types/leads.ts *)

Inductive LeadStatus : Type := LEAD | REACHED_OUT | ERROR.

Record OutreachHistoryEntry : Type := {
  date : option string;
  success : bool;
  note : option string;
}.

Record Lead : Type := {
  property_id : string;
  display_id : string;
  title : string;
  date_added : string;
  lister_name : string;
  lister_phone : option string;
  status : LeadStatus;
  outreach_history : list OutreachHistoryEntry;
  crm_raw : option (gmap string value);
  last_message_excerpt : option string;
  last_message_at : option string;
  unread_count : option number;
}.

Record LeadsResponse : Type := { response_leads : list Lead }.

Inductive Direction : Type := inbound | outbound.

#[export] Instance Direction_eq_dec : EqDecision Direction.
Proof. solve_decision. Defined.

Record ConversationMessage : Type := {
  msg_id : option string;
  direction : Direction;
  message : string;
  message_type : string;
  timestamp : string;
  msg_status : option string;
}.

Record MessagesResponse : Type := { messages : list ConversationMessage }.

Record Template : Type := { name : string; display_name : string }.

Record TemplatesResponse : Type := { templates : list Template }.

(** ** lib/leads.ts: interfaces and constants *)

Record LeadGroup : Type := { label : string; leads : list Lead }.

Record OptionItem : Type := { option_value : number; option_label : string }.

Record TransactionFilter : Type := { sale : bool; rent : bool }.

Inductive RoomsFilter : Type :=
| rooms_all | rooms_1 | rooms_2 | rooms_3 | rooms_4 | rooms_5_plus.

Record LeadFilters : Type := {
  propertyTypes : list number;
  regionId : option number;
  zoneId : option number;
  transaction : TransactionFilter;
  rooms : RoomsFilter;
  minBudget : option number;
  maxBudget : option number;
  dateFrom : option string;
  dateTo : option string;
}.

Definition DEFAULT_LEAD_FILTERS : LeadFilters := {|
  propertyTypes := [];
  regionId := None;
  zoneId := None;
  transaction := {| sale := false; rent := false |};
  rooms := rooms_all;
  minBudget := None;
  maxBudget := None;
  dateFrom := None;
  dateTo := None;
|}.

(** [{ ...prev, field: v }] on filters, one per field. *)
Definition with_propertyTypes (v : list number) (prev : LeadFilters) : LeadFilters :=
  {| propertyTypes := v; regionId := regionId prev; zoneId := zoneId prev;
     transaction := transaction prev; rooms := rooms prev; minBudget := minBudget prev;
     maxBudget := maxBudget prev; dateFrom := dateFrom prev; dateTo := dateTo prev |}.

Definition with_regionId (v : option number) (prev : LeadFilters) : LeadFilters :=
  {| propertyTypes := propertyTypes prev; regionId := v; zoneId := zoneId prev;
     transaction := transaction prev; rooms := rooms prev; minBudget := minBudget prev;
     maxBudget := maxBudget prev; dateFrom := dateFrom prev; dateTo := dateTo prev |}.

Definition with_zoneId (v : option number) (prev : LeadFilters) : LeadFilters :=
  {| propertyTypes := propertyTypes prev; regionId := regionId prev; zoneId := v;
     transaction := transaction prev; rooms := rooms prev; minBudget := minBudget prev;
     maxBudget := maxBudget prev; dateFrom := dateFrom prev; dateTo := dateTo prev |}.

Definition with_transaction (v : TransactionFilter) (prev : LeadFilters) : LeadFilters :=
  {| propertyTypes := propertyTypes prev; regionId := regionId prev; zoneId := zoneId prev;
     transaction := v; rooms := rooms prev; minBudget := minBudget prev;
     maxBudget := maxBudget prev; dateFrom := dateFrom prev; dateTo := dateTo prev |}.

Definition with_rooms (v : RoomsFilter) (prev : LeadFilters) : LeadFilters :=
  {| propertyTypes := propertyTypes prev; regionId := regionId prev; zoneId := zoneId prev;
     transaction := transaction prev; rooms := v; minBudget := minBudget prev;
     maxBudget := maxBudget prev; dateFrom := dateFrom prev; dateTo := dateTo prev |}.

Definition with_minBudget (v : option number) (prev : LeadFilters) : LeadFilters :=
  {| propertyTypes := propertyTypes prev; regionId := regionId prev; zoneId := zoneId prev;
     transaction := transaction prev; rooms := rooms prev; minBudget := v;
     maxBudget := maxBudget prev; dateFrom := dateFrom prev; dateTo := dateTo prev |}.

Definition with_maxBudget (v : option number) (prev : LeadFilters) : LeadFilters :=
  {| propertyTypes := propertyTypes prev; regionId := regionId prev; zoneId := zoneId prev;
     transaction := transaction prev; rooms := rooms prev; minBudget := minBudget prev;
     maxBudget := v; dateFrom := dateFrom prev; dateTo := dateTo prev |}.

Definition with_dateFrom (v : option string) (prev : LeadFilters) : LeadFilters :=
  {| propertyTypes := propertyTypes prev; regionId := regionId prev; zoneId := zoneId prev;
     transaction := transaction prev; rooms := rooms prev; minBudget := minBudget prev;
     maxBudget := maxBudget prev; dateFrom := v; dateTo := dateTo prev |}.

Definition with_dateTo (v : option string) (prev : LeadFilters) : LeadFilters :=
  {| propertyTypes := propertyTypes prev; regionId := regionId prev; zoneId := zoneId prev;
     transaction := transaction prev; rooms := rooms prev; minBudget := minBudget prev;
     maxBudget := maxBudget prev; dateFrom := dateFrom prev; dateTo := v |}.

Definition PROPERTY_TYPE_OPTIONS : list OptionItem := [
  {| option_value := of_Z 1; option_label := "Apartament" |};
  {| option_value := of_Z 2; option_label := "Casă / Vilă" |};
  {| option_value := of_Z 3; option_label := "Teren" |};
  {| option_value := of_Z 4; option_label := "Spațiu de birouri" |};
  {| option_value := of_Z 5; option_label := "Spațiu comercial" |};
  {| option_value := of_Z 6; option_label := "Spațiu industrial" |};
  {| option_value := of_Z 7; option_label := "Hotel / Pensiune" |};
  {| option_value := of_Z 8; option_label := "Proprietate specială" |}
].

Record FilterOptions : Type := {
  fo_propertyTypes : list OptionItem;
  fo_regions : list OptionItem;
  fo_zones : list OptionItem;
}.

(** The string a [rooms] selection is spelled with. *)
Definition rooms_string (r : RoomsFilter) : string :=
  match r with
  | rooms_all => "all"
  | rooms_1 => "1"
  | rooms_2 => "2"
  | rooms_3 => "3"
  | rooms_4 => "4"
  | rooms_5_plus => "5+"
  end.

(** ** lib/leads.ts: helpers *)

(** [(lead.crm_raw ?? {})] *)
Definition raw_of (lead : Lead) : gmap string value := default ∅ (crm_raw lead).

(** A lead with the given identifier, creation date and payload. *)
Definition sample_lead (id added : string) (raw : gmap string value) : Lead := {|
  property_id := id; display_id := id; title := "";
  date_added := added; lister_name := ""; lister_phone := None;
  status := LEAD; outreach_history := [];
  crm_raw := Some raw;
  last_message_excerpt := None; last_message_at := None; unread_count := None;
|}.

Section WithHost.
Context {host : Host}.

(** [toNumber]: a finite number, or [undefined]. *)
Definition toNumber (v : value) : option number :=
  match v with
  | VNull | VUndefined | VStr "" => None
  | _ =>
      let numberValue := ToNumber v in
      if isFinite numberValue then Some numberValue else None
  end.

Definition getFromRaw (lead : Lead) (field : string) : value :=
  get_prop (raw_of lead) field.

(** [extractLabel(raw, ...keys)]: the first non-blank string among the
    values of [keys]. *)
Fixpoint extractLabel (raw : gmap string value) (keys : list string) : option string :=
  match keys with
  | [] => None
  | key :: rest =>
      match get_prop raw key with
      | VStr s => if (0 <? String.length (trim s))%nat then Some s else extractLabel raw rest
      | _ => extractLabel raw rest
      end
  end.

(** ** Facts *)

Lemma toNumber_finite v n : toNumber v = Some n -> isFinite n = true.
Proof.
  unfold toNumber; intros Hn.
  repeat case_match; simplify_eq; assumption.
Qed.

Lemma toNumber_Some v n : toNumber v = Some n -> exists q, n = Fin q.
Proof.
  intros Hn; apply toNumber_finite in Hn.
  destruct n; try discriminate; eauto.
Qed.

Lemma toNumber_undefined : toNumber VUndefined = None.
Proof. reflexivity. Qed.

Lemma toNumber_null : toNumber VNull = None.
Proof. reflexivity. Qed.

Lemma toNumber_empty_string : toNumber (VStr "") = None.
Proof. reflexivity. Qed.

Lemma toNumber_num q : toNumber (VNum (Fin q)) = Some (Fin q).
Proof. reflexivity. Qed.

Lemma toNumber_num_nonfinite n : isFinite n = false -> toNumber (VNum n) = None.
Proof. unfold toNumber; simpl; intros ->; reflexivity. Qed.

Lemma toNumber_bool b : toNumber (VBool b) = Some (of_Z (if b then 1 else 0)).
Proof. destruct b; reflexivity. Qed.

Lemma toNumber_Some_iff v n :
  toNumber v = Some n <->
  nullish v = false /\ v <> VStr "" /\ ToNumber v = n /\ isFinite n = true.
Proof.
  unfold toNumber; split.
  - intros Hn; repeat case_match; simplify_eq; repeat split; try discriminate; auto.
  - intros (Hv & Hs & <- & Hf).
    destruct v as [| |b|m|s|l|o]; try discriminate; rewrite ?Hf; try reflexivity.
    destruct s; [congruence | reflexivity].
Qed.

Lemma getFromRaw_no_raw lead field : crm_raw lead = None -> getFromRaw lead field = VUndefined.
Proof.
  unfold getFromRaw, raw_of; intros ->; simpl; apply get_prop_empty.
Qed.

Lemma extractLabel_Some raw keys s :
  extractLabel raw keys = Some s ->
  exists key, In key keys /\ get_prop raw key = VStr s /\ trim s <> "".
Proof.
  induction keys as [|key rest IH]; simpl; [discriminate|].
  destruct (get_prop raw key) as [| | | |s'| |] eqn:E;
    try (intros H; destruct (IH H) as (k & ? & ?); exists k; auto).
  destruct (0 <? String.length (trim s'))%nat eqn:El.
  - intros [= <-]; exists key; repeat split; auto.
    intros Ht; rewrite Ht in El; discriminate.
  - intros H; destruct (IH H) as (k & ? & ?); exists k; auto.
Qed.

Lemma extractLabel_first raw key rest s :
  get_prop raw key = VStr s -> trim s <> "" ->
  extractLabel raw (key :: rest) = Some s.
Proof.
  intros Hk Ht; simpl; rewrite Hk.
  destruct (trim s) eqn:E; [congruence | reflexivity].
Qed.

Lemma extractLabel_skip raw key rest :
  (forall s, get_prop raw key = VStr s -> trim s = "") ->
  extractLabel raw (key :: rest) = extractLabel raw rest.
Proof.
  intros Hk; simpl. destruct (get_prop raw key) as [| | | |s| |]; try reflexivity.
  rewrite (Hk s eq_refl); reflexivity.
Qed.

Lemma extractLabel_None_iff raw keys :
  extractLabel raw keys = None <->
  forall key s, In key keys -> get_prop raw key = VStr s -> trim s = "".
Proof.
  induction keys as [|key rest IH]; simpl.
  - split; [intros _ ? ? [] | reflexivity].
  - destruct (get_prop raw key) as [| | | |s'| |] eqn:E.
    1-4,6-7: rewrite IH; split; [intros H k s [<-|Hin] Hs; [congruence | eauto] | eauto].
    destruct (trim s') eqn:Et; simpl.
    + rewrite IH; split; [intros H k s [<-|Hin] Hs; [congruence | eauto] | eauto].
    + split; [discriminate|]. intros H. specialize (H key s' (or_introl eq_refl) E).
      congruence.
Qed.

End WithHost.
