(* ===== verification/Filters.v ===== *)
(** * Filters: the composite lead filter

    [applyLeadFilters] of [src/frontend/src/lib/leads.ts] (lines 156-295).
    The callback of the source tests seven clauses in order and returns
    [false] at the first one that fails; each clause is a definition here
    ([propertyType_rejects] ... [date_rejects], true when the source takes
    the early [return false]) and [leadMatches] chains them in the order of
    the source.

    The second half of the file states what each clause accepts as a
    proposition over the payload ([propertyType_ok] ... [date_ok]) and
    proves that a lead passes exactly when the seven propositions hold. *)

From Stdlib Require Import QArith Lqa ZArith Lia.
From stdpp Require Import base tactics option list strings gmap.
From S2P Require Import Prelude JsNumber JsString JsValue Calendar RefHost Leads.
Close Scope Q_scope.
Open Scope string_scope.

(** ** Definitions *)

(** [list.includes(n)] *)
Definition includes_number (l : list number) (n : number) : bool :=
  existsb (same_value_zero n) l.

(** Truthiness of an optional string ([filters.dateFrom]). *)
Definition opt_str_truthy (o : option string) : bool :=
  match o with Some s => str_truthy s | None => false end.

(** [Number(filters.rooms)] *)
Definition rooms_Number (r : RoomsFilter) : number :=
  match r with
  | rooms_1 => of_Z 1
  | rooms_2 => of_Z 2
  | rooms_3 => of_Z 3
  | rooms_4 => of_Z 4
  | rooms_all | rooms_5_plus => NaN
  end.

Section WithHost.
Context {host : Host}.

(** Lines 170-176. *)
Definition propertyType_rejects (filters : LeadFilters) (raw : gmap string value) : bool :=
  (0 <? length (propertyTypes filters))%nat &&
  match toNumber (get_prop raw "property_type") with
  | None => true
  | Some propType =>
      negb (num_truthy propType) || negb (includes_number (propertyTypes filters) propType)
  end.

(** Lines 178-184. *)
Definition region_rejects (filters : LeadFilters) (raw : gmap string value) : bool :=
  match regionId filters with
  | None => false
  | Some wanted =>
      match toNumber (get_prop raw "region_obj_id") with
      | None => true
      | Some regionId => negb (num_truthy regionId) || strict_neq regionId wanted
      end
  end.

(** Lines 186-192. *)
Definition zone_rejects (filters : LeadFilters) (raw : gmap string value) : bool :=
  match zoneId filters with
  | None => false
  | Some wanted =>
      match toNumber (get_prop raw "zone_id") with
      | None => true
      | Some zoneId => negb (num_truthy zoneId) || strict_neq zoneId wanted
      end
  end.

(** Lines 194-208. *)
Definition transaction_rejects (filters : LeadFilters) (raw : gmap string value) : bool :=
  let saleSelected := sale (transaction filters) in
  let rentSelected := rent (transaction filters) in
  (saleSelected || rentSelected) &&
  (let isSale := ToBoolean (get_prop raw "for_sale") in
   let isRent := ToBoolean (get_prop raw "for_rent") in
   if saleSelected && negb rentSelected && negb isSale then true
   else if negb saleSelected && rentSelected && negb isRent then true
   else if saleSelected && rentSelected && negb isSale && negb isRent then true
   else false).

(** Lines 210-225. *)
Definition rooms_rejects (filters : LeadFilters) (raw : gmap string value) : bool :=
  match rooms filters with
  | rooms_all => false
  | selected =>
      match toNumber (get_prop raw "rooms") with
      | None => true
      | Some rooms =>
          match selected with
          | rooms_5_plus => ltb rooms (of_Z 5)
          | _ => strict_neq rooms (rooms_Number selected)
          end
      end
  end.

(** Lines 233-250. *)
Definition withinRange (filters : LeadFilters) (price : option number) : bool :=
  match price with
  | None => false
  | Some price =>
      if match minBudget filters with Some m => ltb price m | None => false end then false
      else if match maxBudget filters with Some m => gtb price m | None => false end then false
      else true
  end.

(** Lines 227-270. *)
Definition budget_rejects (filters : LeadFilters) (raw : gmap string value) : bool :=
  let saleSelected := sale (transaction filters) in
  let rentSelected := rent (transaction filters) in
  let hasBudget := bool_decide (minBudget filters <> None) || bool_decide (maxBudget filters <> None) in
  hasBudget &&
  (let priceSale := toNumber (get_prop raw "price_sale") in
   let priceRent := toNumber (get_prop raw "price_rent") in
   let matchesBudget :=
     if saleSelected && negb rentSelected then withinRange filters priceSale
     else if negb saleSelected && rentSelected then withinRange filters priceRent
     else if saleSelected && rentSelected then
       withinRange filters priceSale || withinRange filters priceRent
     else withinRange filters priceSale || withinRange filters priceRent in
   negb matchesBudget).

(** Lines 272-291. *)
Definition date_rejects (filters : LeadFilters) (lead : Lead) : bool :=
  (opt_str_truthy (dateFrom filters) || opt_str_truthy (dateTo filters)) &&
  (let addedDate := DateParse (date_added lead) in
   if isNaN (getTime addedDate) then true
   else if opt_str_truthy (dateFrom filters) &&
           ltb (getTime addedDate)
               (getTime (DateParse (default "" (dateFrom filters) +:+ "T00:00:00")))
   then true
   else if opt_str_truthy (dateTo filters) &&
           gtb (getTime addedDate)
               (getTime (DateParse (default "" (dateTo filters) +:+ "T23:59:59")))
   then true
   else false).

(** The callback of [leads.filter] (lines 167-294). *)
Definition leadMatches (filters : LeadFilters) (lead : Lead) : bool :=
  let raw := raw_of lead in
  if propertyType_rejects filters raw then false
  else if region_rejects filters raw then false
  else if zone_rejects filters raw then false
  else if transaction_rejects filters raw then false
  else if rooms_rejects filters raw then false
  else if budget_rejects filters raw then false
  else if date_rejects filters lead then false
  else true.

Definition applyLeadFilters (leads : list Lead) (filters : LeadFilters) : list Lead :=
  if (length leads =? 0)%nat then leads
  else List.filter (leadMatches filters) leads.

(** ** What each clause accepts *)

(** A payload value that is a finite, non-zero number equal to [wanted]. *)
Definition id_is (v : value) (wanted : number) : Prop :=
  exists n, toNumber v = Some n /\ ~ num_equiv n (of_Z 0) /\ num_equiv n wanted.

Definition propertyType_ok (filters : LeadFilters) (raw : gmap string value) : Prop :=
  propertyTypes filters = [] \/
  exists t, In t (propertyTypes filters) /\ id_is (get_prop raw "property_type") t.

Definition region_ok (filters : LeadFilters) (raw : gmap string value) : Prop :=
  forall wanted, regionId filters = Some wanted -> id_is (get_prop raw "region_obj_id") wanted.

Definition zone_ok (filters : LeadFilters) (raw : gmap string value) : Prop :=
  forall wanted, zoneId filters = Some wanted -> id_is (get_prop raw "zone_id") wanted.

Definition transaction_ok (filters : LeadFilters) (raw : gmap string value) : Prop :=
  let isSale := ToBoolean (get_prop raw "for_sale") = true in
  let isRent := ToBoolean (get_prop raw "for_rent") = true in
  match sale (transaction filters), rent (transaction filters) with
  | false, false => True
  | true, false => isSale
  | false, true => isRent
  | true, true => isSale \/ isRent
  end.

Definition rooms_ok (filters : LeadFilters) (raw : gmap string value) : Prop :=
  match rooms filters with
  | rooms_all => True
  | rooms_5_plus => exists q, toNumber (get_prop raw "rooms") = Some (Fin q) /\ (5 <= q)%Q
  | selected =>
      exists n, toNumber (get_prop raw "rooms") = Some n /\ num_equiv n (rooms_Number selected)
  end.

(** A lower bound holds: an absent or [NaN] bound constrains nothing. *)
Definition above_min (m : option number) (q : Q) : Prop :=
  match m with
  | Some (Fin lo) => (lo <= q)%Q
  | Some PInf => False
  | _ => True
  end.

Definition below_max (m : option number) (q : Q) : Prop :=
  match m with
  | Some (Fin hi) => (q <= hi)%Q
  | Some NInf => False
  | _ => True
  end.

(** The field holds a finite price between the bounds. *)
Definition price_in_range (filters : LeadFilters) (v : value) : Prop :=
  exists q, toNumber v = Some (Fin q) /\
            above_min (minBudget filters) q /\ below_max (maxBudget filters) q.

Definition budget_ok (filters : LeadFilters) (raw : gmap string value) : Prop :=
  (minBudget filters = None /\ maxBudget filters = None) \/
  match sale (transaction filters), rent (transaction filters) with
  | true, false => price_in_range filters (get_prop raw "price_sale")
  | false, true => price_in_range filters (get_prop raw "price_rent")
  | _, _ => price_in_range filters (get_prop raw "price_sale") \/
            price_in_range filters (get_prop raw "price_rent")
  end.

(** The creation date parses and lies between the bounds that are set and
    parse. *)
Definition date_ok (filters : LeadFilters) (lead : Lead) : Prop :=
  opt_str_truthy (dateFrom filters) || opt_str_truthy (dateTo filters) = true ->
  exists t, DateParse (date_added lead) = Some t /\
    (forall s b, dateFrom filters = Some s -> s <> "" ->
                 DateParse (s +:+ "T00:00:00") = Some b -> (b <= t)%Z) /\
    (forall s b, dateTo filters = Some s -> s <> "" ->
                 DateParse (s +:+ "T23:59:59") = Some b -> (t <= b)%Z).

(** What the filter accepts: the seven clauses together. *)
Definition accepts (filters : LeadFilters) (lead : Lead) : Prop :=
  propertyType_ok filters (raw_of lead) /\
  region_ok filters (raw_of lead) /\
  zone_ok filters (raw_of lead) /\
  transaction_ok filters (raw_of lead) /\
  rooms_ok filters (raw_of lead) /\
  budget_ok filters (raw_of lead) /\
  date_ok filters lead.

(** [keeps P leads kept]: [kept] is [leads] without the leads that [P]
    refuses, each lead that [P] accepts in its place and as often as it
    occurs. *)
Inductive keeps (P : Lead -> Prop) : list Lead -> list Lead -> Prop :=
| keeps_nil : keeps P [] []
| keeps_take lead leads kept :
    P lead -> keeps P leads kept -> keeps P (lead :: leads) (lead :: kept)
| keeps_drop lead leads kept :
    ~ P lead -> keeps P leads kept -> keeps P (lead :: leads) kept.

(** ** Facts about the clauses *)

Lemma includes_number_spec l n :
  includes_number l n = true <-> exists t, In t l /\ num_equiv n t.
Proof.
  unfold includes_number; rewrite existsb_exists.
  split; intros (t & Hin & Ht); exists t; split; auto; apply same_value_zero_spec; auto.
Qed.

Lemma num_truthy_finite q : num_truthy (Fin q) = true <-> ~ num_equiv (Fin q) (of_Z 0).
Proof.
  simpl; rewrite negb_true_iff, <- not_true_iff_false, Qeq_bool_iff; reflexivity.
Qed.

(** The shape shared by the property-type, region and zone tests. *)
Lemma id_test_spec v wanted :
  match toNumber v with
  | None => true
  | Some n => negb (num_truthy n) || strict_neq n wanted
  end = false <-> id_is v wanted.
Proof.
  unfold id_is, strict_neq. destruct (toNumber v) as [n|] eqn:E.
  - destruct (toNumber_Some _ _ E) as [q ->].
    rewrite orb_false_iff, !negb_false_iff, num_truthy_finite, strict_eq_spec.
    split.
    + intros [? [? _]]; eauto.
    + intros (n & [= <-] & ? & ?); repeat split; auto; discriminate.
  - split; [discriminate | intros (n & ? & _); discriminate].
Qed.

Lemma propertyType_rejects_spec filters raw :
  propertyType_rejects filters raw = false <-> propertyType_ok filters raw.
Proof.
  unfold propertyType_rejects, propertyType_ok, id_is.
  destruct (propertyTypes filters) as [|t0 ts] eqn:Ep; simpl Nat.ltb; [simpl; tauto|].
  rewrite andb_true_l.
  destruct (toNumber (get_prop raw "property_type")) as [n|] eqn:E.
  - destruct (toNumber_Some _ _ E) as [q ->].
    rewrite orb_false_iff, !negb_false_iff, num_truthy_finite, includes_number_spec.
    split.
    + intros [Hnz (t & Hin & Ht)]; right; exists t; eauto.
    + intros [?|(t & Hin & n & [= <-] & Hnz & Ht)]; [discriminate | eauto].
  - split; [discriminate|].
    intros [?|(t & _ & n & ? & _)]; discriminate.
Qed.

Lemma region_rejects_spec filters raw :
  region_rejects filters raw = false <-> region_ok filters raw.
Proof.
  unfold region_rejects, region_ok. destruct (regionId filters) as [w|].
  - rewrite id_test_spec; split; [intros H ? [= <-]; exact H | auto].
  - split; [intros _ ? [=] | reflexivity].
Qed.

Lemma zone_rejects_spec filters raw :
  zone_rejects filters raw = false <-> zone_ok filters raw.
Proof.
  unfold zone_rejects, zone_ok. destruct (zoneId filters) as [w|].
  - rewrite id_test_spec; split; [intros H ? [= <-]; exact H | auto].
  - split; [intros _ ? [=] | reflexivity].
Qed.

Lemma transaction_rejects_spec filters raw :
  transaction_rejects filters raw = false <-> transaction_ok filters raw.
Proof.
  unfold transaction_rejects, transaction_ok.
  destruct (sale (transaction filters)), (rent (transaction filters)),
    (ToBoolean (get_prop raw "for_sale")), (ToBoolean (get_prop raw "for_rent"));
    simpl; intuition discriminate.
Qed.

Lemma rooms_rejects_spec filters raw :
  rooms_rejects filters raw = false <-> rooms_ok filters raw.
Proof.
  unfold rooms_rejects, rooms_ok.
  destruct (rooms filters); try tauto;
    (destruct (toNumber (get_prop raw "rooms")) as [n|] eqn:E;
     [destruct (toNumber_Some _ _ E) as [q ->]
     | split; [discriminate | intros (? & ? & _); discriminate]]).
  1-4: unfold strict_neq; rewrite negb_false_iff, strict_eq_spec;
    (split; [intros [? _]; eauto | intros (n & [= <-] & ?); split; [auto | discriminate]]).
  unfold of_Z; rewrite ltb_Fin_false. split.
  - intros ?; eauto.
  - intros (q' & [= <-] & ?); auto.
Qed.

Lemma withinRange_spec filters v :
  withinRange filters (toNumber v) = true <-> price_in_range filters v.
Proof.
  unfold withinRange, price_in_range.
  destruct (toNumber v) as [n|] eqn:E;
    [destruct (toNumber_Some _ _ E) as [q ->]
    | split; [discriminate | intros (? & ? & _); discriminate]].
  assert (Hmin : match minBudget filters with Some m => ltb (Fin q) m | None => false end = false
                 <-> above_min (minBudget filters) q).
  { destruct (minBudget filters) as [[| | |lo]|]; simpl above_min; try (simpl; intuition discriminate).
    apply ltb_Fin_false. }
  assert (Hmax : match maxBudget filters with Some m => gtb (Fin q) m | None => false end = false
                 <-> below_max (maxBudget filters) q).
  { destruct (maxBudget filters) as [[| | |hi]|]; simpl below_max; try (simpl; intuition discriminate).
    apply ltb_Fin_false. }
  destruct (match minBudget filters with Some m => ltb (Fin q) m | None => false end);
    destruct (match maxBudget filters with Some m => gtb (Fin q) m | None => false end);
    split; try discriminate; try (intros _; exists q; intuition);
    intros (q' & [= <-] & ? & ?); intuition discriminate.
Qed.

Lemma budget_rejects_spec filters raw :
  budget_rejects filters raw = false <-> budget_ok filters raw.
Proof.
  unfold budget_rejects, budget_ok.
  destruct (sale (transaction filters)), (rent (transaction filters)); simpl;
    rewrite <- ?withinRange_spec, <- ?orb_true_iff;
    destruct (minBudget filters) as [m|], (maxBudget filters) as [m'|];
    rewrite ?bool_decide_eq_true_2 by discriminate; simpl;
    rewrite ?negb_false_iff;
    try (split; [intros H; right; exact H | intros [[? ?]|H]; [discriminate | exact H]]);
    (split; [left; auto | reflexivity]).
Qed.

Lemma date_rejects_spec filters lead :
  date_rejects filters lead = false <-> date_ok filters lead.
Proof.
  unfold date_rejects, date_ok.
  destruct (opt_str_truthy (dateFrom filters) || opt_str_truthy (dateTo filters)) eqn:Eact;
    [rewrite andb_true_l | split; [discriminate | reflexivity]].
  destruct (DateParse (date_added lead)) as [t|]; simpl getTime; simpl isNaN;
    [|split; [discriminate | intros H; destruct (H eq_refl) as (t & ? & _); discriminate]].
  assert (Hb : forall o suffix (test : number -> bool) (P : Z -> Prop),
    (forall b, test (of_Z b) = false <-> P b) -> test NaN = false ->
    (opt_str_truthy o && test (getTime (DateParse (default "" o +:+ suffix))) = false <->
     forall s b, o = Some s -> s <> "" -> DateParse (s +:+ suffix) = Some b -> P b)).
  { intros [s|] suffix test P Htest Hnan; simpl.
    - unfold str_truthy. destruct (String.eqb_spec s "") as [->|Hne]; simpl.
      + split; [intros _ ? ? [= <-] ?; congruence | reflexivity].
      + destruct (DateParse (s +:+ suffix)) as [b|] eqn:Ed; simpl.
        * rewrite Htest; split; [|eauto].
          intros H s0 b0 [= <-] _ Hp; rewrite Ed in Hp; injection Hp as <-; exact H.
        * split; [|intros _; exact Hnan].
          intros _ s0 b0 [= <-] _ Hp; rewrite Ed in Hp; discriminate.
    - split; [intros _ ? ? [=] | reflexivity]. }
  assert (Hle : forall a b, ltb (of_Z a) (of_Z b) = false <-> (b <= a)%Z).
  { intros a b; unfold of_Z; rewrite ltb_Fin_false, <- Zle_Qle; reflexivity. }
  pose proof (Hb (dateFrom filters) "T00:00:00" (ltb (of_Z t)) (fun b => (b <= t)%Z)
                (fun b => Hle t b) eq_refl) as Hfrom.
  pose proof (Hb (dateTo filters) "T23:59:59" (gtb (of_Z t)) (fun b => (t <= b)%Z)
                (fun b => Hle b t) eq_refl) as Hto.
  cbv beta in Hfrom, Hto.
  transitivity
    ((forall s b, dateFrom filters = Some s -> s <> "" ->
                  DateParse (s +:+ "T00:00:00") = Some b -> (b <= t)%Z) /\
     (forall s b, dateTo filters = Some s -> s <> "" ->
                  DateParse (s +:+ "T23:59:59") = Some b -> (t <= b)%Z)).
  - rewrite <- Hfrom, <- Hto.
    destruct (opt_str_truthy (dateFrom filters) && _), (opt_str_truthy (dateTo filters) && _);
      intuition discriminate.
  - split.
    + intros [? ?] _; exists t; auto.
    + intros H; destruct (H eq_refl) as (t' & [= <-] & ? & ?); auto.
Qed.

(** ** The filter as a whole *)

Lemma leadMatches_rejects filters lead :
  leadMatches filters lead = true <->
  propertyType_rejects filters (raw_of lead) = false /\
  region_rejects filters (raw_of lead) = false /\
  zone_rejects filters (raw_of lead) = false /\
  transaction_rejects filters (raw_of lead) = false /\
  rooms_rejects filters (raw_of lead) = false /\
  budget_rejects filters (raw_of lead) = false /\
  date_rejects filters lead = false.
Proof.
  unfold leadMatches; cbv zeta.
  repeat match goal with |- context [if ?b then false else _] => destruct b end;
    intuition discriminate.
Qed.

Lemma leadMatches_accepts filters lead :
  leadMatches filters lead = true <-> accepts filters lead.
Proof.
  unfold accepts.
  rewrite leadMatches_rejects, propertyType_rejects_spec, region_rejects_spec,
    zone_rejects_spec, transaction_rejects_spec, rooms_rejects_spec,
    budget_rejects_spec, date_rejects_spec.
  reflexivity.
Qed.

(** C1.  A lead passes the filter exactly when each of the seven clauses
    accepts it: property type, region, zone, transaction, rooms, budget and
    creation date, each one constraining only when its filter field is set. *)
Theorem leadMatches_iff filters lead :
  leadMatches filters lead = true <->
  propertyType_ok filters (raw_of lead) /\
  region_ok filters (raw_of lead) /\
  zone_ok filters (raw_of lead) /\
  transaction_ok filters (raw_of lead) /\
  rooms_ok filters (raw_of lead) /\
  budget_ok filters (raw_of lead) /\
  date_ok filters lead.
Proof. exact (leadMatches_accepts filters lead). Qed.

Lemma applyLeadFilters_filter leads filters :
  applyLeadFilters leads filters = List.filter (leadMatches filters) leads.
Proof. destruct leads; reflexivity. Qed.

Lemma applyLeadFilters_In leads filters lead :
  In lead (applyLeadFilters leads filters) <->
  In lead leads /\ leadMatches filters lead = true.
Proof. rewrite applyLeadFilters_filter; apply List.filter_In. Qed.

(** C6.  The result of [applyLeadFilters] is the input without the leads
    that one of the seven clauses refuses: a lead that every clause
    accepts stays, in its place and as often as it occurs, and no other
    lead does; the empty list is returned as it is. *)
Theorem applyLeadFilters_keeps leads filters kept :
  applyLeadFilters leads filters = kept <-> keeps (accepts filters) leads kept.
Proof.
  rewrite applyLeadFilters_filter; split.
  - intros <-; induction leads as [|lead leads IH]; cbn; [constructor|].
    destruct (leadMatches filters lead) eqn:Hlead; constructor; try exact IH.
    + apply leadMatches_accepts, Hlead.
    + rewrite <- leadMatches_accepts, Hlead; discriminate.
  - induction 1 as [|lead leads kept Hlead _ IH|lead leads kept Hlead _ IH]; cbn;
      [reflexivity|..].
    + rewrite (proj2 (leadMatches_accepts filters lead) Hlead), IH; reflexivity.
    + destruct (leadMatches filters lead) eqn:Hm; [|exact IH].
      destruct Hlead; apply leadMatches_accepts, Hm.
Qed.

(** The result keeps the order of the input and invents no lead: it is
    a sublist of the input. *)
Theorem applyLeadFilters_sublist leads filters :
  sublist (applyLeadFilters leads filters) leads.
Proof.
  rewrite applyLeadFilters_filter; apply filter_sublist.
Qed.

Lemma leadMatches_default lead : leadMatches DEFAULT_LEAD_FILTERS lead = true.
Proof. reflexivity. Qed.

(** The default filters constrain nothing: every lead is kept. *)
Theorem applyLeadFilters_default leads :
  applyLeadFilters leads DEFAULT_LEAD_FILTERS = leads.
Proof.
  rewrite applyLeadFilters_filter.
  induction leads as [|l leads IH]; [reflexivity|].
  cbn [List.filter]; rewrite leadMatches_default, IH; reflexivity.
Qed.

(** Filtering twice with the same filters changes nothing more. *)
Theorem applyLeadFilters_idempotent leads filters :
  applyLeadFilters (applyLeadFilters leads filters) filters =
  applyLeadFilters leads filters.
Proof.
  rewrite !applyLeadFilters_filter.
  induction leads as [|l leads IH]; simpl; [reflexivity|].
  destruct (leadMatches filters l) eqn:E; simpl; rewrite ?E, IH; reflexivity.
Qed.

(** With both transaction boxes ticked, a lead passes the transaction
    clause when it is for sale or for rent (one is enough). *)
Theorem transaction_both_is_or filters raw :
  sale (transaction filters) = true -> rent (transaction filters) = true ->
  (transaction_rejects filters raw = false <->
   ToBoolean (get_prop raw "for_sale") = true \/
   ToBoolean (get_prop raw "for_rent") = true).
Proof.
  intros Hs Hr; rewrite transaction_rejects_spec.
  unfold transaction_ok; rewrite Hs, Hr; reflexivity.
Qed.

(** C36.  With [rooms] set to "5+", a lead whose room count is the number
    [q] passes the rooms clause exactly when [q] is at least 5. *)
Theorem rooms_5_plus_boundary filters raw q :
  rooms filters = rooms_5_plus ->
  get_prop raw "rooms" = VNum (Fin q) ->
  (rooms_rejects filters raw = false <-> (5 <= q)%Q).
Proof.
  intros Hr Hq; rewrite rooms_rejects_spec; unfold rooms_ok; rewrite Hr, Hq.
  rewrite toNumber_num. split.
  - intros (q' & [= <-] & H); exact H.
  - intros H; exists q; auto.
Qed.

(** With a budget set, a price field qualifies exactly when it holds a
    finite number between the bounds; with both bounds finite this is
    [lo <= price <= hi]. *)
Theorem withinRange_bounds filters v lo hi :
  minBudget filters = Some (Fin lo) -> maxBudget filters = Some (Fin hi) ->
  (withinRange filters (toNumber v) = true <->
   exists q, toNumber v = Some (Fin q) /\ (lo <= q <= hi)%Q).
Proof.
  intros Hlo Hhi; rewrite withinRange_spec; unfold price_in_range.
  rewrite Hlo, Hhi; simpl. split; intros (q & ? & ?); exists q; tauto.
Qed.

(** The budget clause does not tell "no transaction box ticked" from
    "both ticked": in both cases either price field may qualify. *)
Theorem budget_neither_is_both raw mn mx dt1 dt2 r pt rg zn :
  budget_rejects
    {| propertyTypes := pt; regionId := rg; zoneId := zn;
       transaction := {| sale := false; rent := false |};
       rooms := r; minBudget := mn; maxBudget := mx;
       dateFrom := dt1; dateTo := dt2 |} raw =
  budget_rejects
    {| propertyTypes := pt; regionId := rg; zoneId := zn;
       transaction := {| sale := true; rent := true |};
       rooms := r; minBudget := mn; maxBudget := mx;
       dateFrom := dt1; dateTo := dt2 |} raw.
Proof. reflexivity. Qed.

(** C37.  A property type, region or zone whose identifier is the number 0
    never passes its clause, even when the filter asks for 0: the code
    tests the identifier for truthiness before it compares. *)
Theorem zero_id_never_matches filters raw :
  propertyTypes filters <> [] ->
  get_prop raw "property_type" = VNum (of_Z 0) ->
  propertyType_rejects filters raw = true.
Proof.
  intros Hne Hz; unfold propertyType_rejects; rewrite Hz.
  destruct (propertyTypes filters); [congruence | reflexivity].
Qed.

End WithHost.

(** ** Examples on the reference host *)

Definition with_budget (mn mx : option number) (filters : LeadFilters) : LeadFilters := {|
  propertyTypes := propertyTypes filters; regionId := regionId filters;
  zoneId := zoneId filters; transaction := transaction filters;
  rooms := rooms filters; minBudget := mn; maxBudget := mx;
  dateFrom := dateFrom filters; dateTo := dateTo filters;
|}.

Definition with_dates (from to : option string) (filters : LeadFilters) : LeadFilters := {|
  propertyTypes := propertyTypes filters; regionId := regionId filters;
  zoneId := zoneId filters; transaction := transaction filters;
  rooms := rooms filters; minBudget := minBudget filters; maxBudget := maxBudget filters;
  dateFrom := from; dateTo := to;
|}.

(** The lead of the specification's scenario. *)
Definition lead_p1 : Lead :=
  sample_lead "p1" "2024-01-01"
    (<["property_type" := VNum (of_Z 1)]>
     (<["for_sale" := VBool true]>
      (<["price_sale" := VNum (of_Z 100000)]> ∅))).

Definition scenario_filters (mx : Z) : LeadFilters :=
  with_propertyTypes [of_Z 1]
    (with_transaction {| sale := true; rent := false |}
       (with_budget (Some (of_Z 50000)) (Some (of_Z mx)) DEFAULT_LEAD_FILTERS)).

(** The scenario of the specification: the lead priced 100000 is kept
    by the budget 50000-150000 and dropped by the budget 50000-90000. *)
Theorem scenario_budget :
  applyLeadFilters (host := host_bucharest) [lead_p1] (scenario_filters 150000) = [lead_p1] /\
  applyLeadFilters (host := host_bucharest) [lead_p1] (scenario_filters 90000) = [].
Proof. split; vm_compute; reflexivity. Qed.

Example transaction_or_examples :
  let both := with_transaction {| sale := true; rent := true |} DEFAULT_LEAD_FILTERS in
  transaction_rejects both
    (<["for_sale" := VBool true]> (<["for_rent" := VBool false]> ∅)) = false /\
  transaction_rejects both
    (<["for_sale" := VBool false]> (<["for_rent" := VBool false]> ∅)) = true /\
  transaction_rejects both ∅ = true.
Proof. vm_compute; repeat split; reflexivity. Qed.

Example rooms_examples :
  let five_plus := with_rooms rooms_5_plus DEFAULT_LEAD_FILTERS in
  rooms_rejects (host := host_bucharest) five_plus (<["rooms" := VNum (of_Z 5)]> ∅) = false /\
  rooms_rejects (host := host_bucharest) five_plus (<["rooms" := VNum (of_Z 4)]> ∅) = true /\
  rooms_rejects (host := host_bucharest) five_plus (<["rooms" := VStr "7"]> ∅) = false /\
  rooms_rejects (host := host_bucharest) five_plus (<["rooms" := VStr "many"]> ∅) = true /\
  rooms_rejects (host := host_bucharest) (with_rooms rooms_3 DEFAULT_LEAD_FILTERS)
    (<["rooms" := VStr " 3 "]> ∅) = false.
Proof. vm_compute; repeat split; reflexivity. Qed.

(** The lead of the first day of the specification's scenario, on the
    two reference hosts. *)
Example date_filter_examples :
  let filters := with_dates (Some "2024-01-01") None DEFAULT_LEAD_FILTERS in
  applyLeadFilters (host := host_new_york) [lead_p1] filters = [] /\
  applyLeadFilters (host := host_bucharest) [lead_p1] filters = [lead_p1].
Proof. split; vm_compute; reflexivity. Qed.

(** C40.  A creation date without a time is read at UTC midnight, while
    the first day of the date filter is read at midnight of the local
    clock.  Whatever the day and whatever the zone, the lead created on
    the very day the filter starts from is dropped on every machine west
    of Greenwich and kept on every other. *)
Theorem date_filter_depends_on_zone tz day t lead :
  String.length day = 10%nat -> DateParse (Host := ref_host tz) day = Some t ->
  date_added lead = day ->
  applyLeadFilters (host := ref_host tz) [lead]
    (with_dates (Some day) None DEFAULT_LEAD_FILTERS)
  = if (tz <? 0)%Z then [] else [lead].
Proof.
  intros Hlen Hday Hadded; pose proof (read_iso_midnight tz day t Hlen Hday) as Hfrom.
  unfold applyLeadFilters, leadMatches; cbn -[date_rejects].
  replace (date_rejects _ lead) with (tz <? 0)%Z; [by destruct (tz <? 0)%Z|].
  unfold date_rejects; cbn [dateFrom dateTo with_dates opt_str_truthy default DateParse ref_host].
  change (DateParse day) with (read_iso tz true day) in Hday.
  change (id day) with day; rewrite Hadded, Hday, Hfrom.
  destruct day; [discriminate Hlen|]; cbn [str_truthy String.eqb negb orb andb getTime isNaN].
  symmetry; destruct (Z.ltb_spec tz 0) as [Hwest|Heast].
  - replace (ltb _ _) with true; [reflexivity|].
    symmetry; apply ltb_Fin; rewrite <- Zlt_Qlt; lia.
  - replace (ltb _ _) with false; [reflexivity|].
    symmetry; apply ltb_Fin_false; rewrite <- Zle_Qle; lia.
Qed.

Lemma date_filter_depends_on_zone_witness :
  applyLeadFilters (host := host_new_york) [lead_p1]
    (with_dates (Some "2024-01-01") None DEFAULT_LEAD_FILTERS) = [].
Proof.
  exact (date_filter_depends_on_zone (-5 * MS_PER_HOUR) "2024-01-01" 1704067200000 lead_p1
           eq_refl eq_refl eq_refl).
Defined.

Lemma transaction_both_is_or_witness :
  transaction_rejects
    (with_transaction {| sale := true; rent := true |} DEFAULT_LEAD_FILTERS)
    (<["for_sale" := VBool true]> ∅) = false <->
  ToBoolean (get_prop (<["for_sale" := VBool true]> ∅) "for_sale") = true \/
  ToBoolean (get_prop (<["for_sale" := VBool true]> ∅) "for_rent") = true.
Proof.
  apply transaction_both_is_or; reflexivity.
Defined.

Lemma rooms_5_plus_boundary_witness :
  rooms_rejects (host := host_bucharest)
    (with_rooms rooms_5_plus DEFAULT_LEAD_FILTERS)
    (<["rooms" := VNum (Fin 5)]> ∅) = false <-> (5 <= 5)%Q.
Proof.
  apply (rooms_5_plus_boundary (host := host_bucharest)); reflexivity.
Defined.

Lemma withinRange_bounds_witness :
  withinRange (with_budget (Some (Fin 50000)) (Some (Fin 150000)) DEFAULT_LEAD_FILTERS)
    (toNumber (host := host_bucharest) (VNum (Fin 100000))) = true <->
  exists q, toNumber (host := host_bucharest) (VNum (Fin 100000)) = Some (Fin q) /\
            (50000 <= q <= 150000)%Q.
Proof.
  apply (withinRange_bounds (host := host_bucharest)); reflexivity.
Defined.

Lemma zero_id_never_matches_witness :
  propertyType_rejects (host := host_bucharest)
    (with_propertyTypes [of_Z 0] DEFAULT_LEAD_FILTERS)
    (<["property_type" := VNum (of_Z 0)]> ∅) = true.
Proof.
  apply (zero_id_never_matches (host := host_bucharest)); [discriminate | reflexivity].
Defined.
