(* ===== verification/Dates.v ===== *)
(** * Dates: day headers and timestamp labels

    The first 59 lines of [src/frontend/src/lib/dates.ts]: [ensureDate],
    [formatDayHeader], [formatFullDateTime] and [formatMessageTimestamp].

    The functions they call from date-fns ([differenceInCalendarDays],
    [isSameYear], [format]) are modelled on the local clock of the host, a
    fixed offset from UTC.  [format] throws a [RangeError] on an Invalid
    Date, as the library does; this is how an unparseable date reaches the
    caller of [formatDayHeader].

    [TODAY] is the module-level constant [new Date()], evaluated once when
    the module loads; it is a parameter of the functions that read it.  The
    clock read inside [formatMessageTimestamp] is the parameter [now]. *)

From Stdlib Require Import QArith ZArith Lia Ascii.
From stdpp Require Import base tactics option list strings pretty.
From S2P Require Import Prelude JsNumber JsString JsValue Calendar RefHost.
Close Scope Q_scope.
Open Scope string_scope.

(** ** Definitions *)

(** The argument of the formatters: [string | Date | undefined]. *)
Inductive DateInput : Type :=
| InUndefined
| InString (s : string)
| InDate (d : jsdate).

Definition month_abbr (m : Z) : string :=
  match m with
  | 1 => "Jan" | 2 => "Feb" | 3 => "Mar" | 4 => "Apr" | 5 => "May" | 6 => "Jun"
  | 7 => "Jul" | 8 => "Aug" | 9 => "Sep" | 10 => "Oct" | 11 => "Nov" | _ => "Dec"
  end%Z.

(** [addLeadingZeros(n, width)] for a non-negative [n]. *)
Definition addLeadingZeros (n : Z) (width : nat) : string :=
  let s := pretty n in
  String.concat "" (replicate (width - String.length s) "0") +:+ s.

Definition is_letter (c : ascii) : bool :=
  let n := N_of_ascii c in
  ((65 <=? n) && (n <=? 90) || (97 <=? n) && (n <=? 122))%N.

(** The run of copies of [c] that starts [s]: its length and the rest. *)
Fixpoint take_run (c : ascii) (s : string) : nat * string :=
  match s with
  | String c' r =>
      if Ascii.eqb c c' then let '(n, rest) := take_run c r in (S n, rest)
      else (O, s)
  | EmptyString => (O, s)
  end.

(** One token of a format pattern: a letter repeated [n] times. *)
Definition format_token (f : date_fields) (c : ascii) (n : nat) : result exn string :=
  match c, n with
  | "d"%char, 1%nat => Ok (pretty (day f))
  | "d"%char, 2%nat => Ok (addLeadingZeros (day f) 2)
  | "M"%char, 1%nat => Ok (pretty (month f))
  | "M"%char, 2%nat => Ok (addLeadingZeros (month f) 2)
  | "M"%char, 3%nat => Ok (month_abbr (month f))
  | "y"%char, _ =>
      Ok (addLeadingZeros (if (0 <? year f)%Z then year f else 1 - year f)%Z n)
  | "H"%char, 1%nat => Ok (pretty (hours f))
  | "H"%char, 2%nat => Ok (addLeadingZeros (hours f) 2)
  | "m"%char, 1%nat => Ok (pretty (minutes f))
  | "m"%char, 2%nat => Ok (addLeadingZeros (minutes f) 2)
  | "s"%char, 1%nat => Ok (pretty (seconds f))
  | "s"%char, 2%nat => Ok (addLeadingZeros (seconds f) 2)
  | _, _ => Throw (RangeError "Format string contains an unescaped latin alphabet character")
  end.

(** The pattern is read token by token; the length of the pattern is the
    fuel, and every round consumes at least one byte. *)
Fixpoint format_fields (fuel : nat) (f : date_fields) (pattern : string) : result exn string :=
  match fuel, pattern with
  | _, EmptyString => Ok ""
  | O, _ => Ok ""
  | S fuel', String c r =>
      if is_letter c then
        let '(n, rest) := take_run c r in
        tok ← format_token f c (S n);
        out ← format_fields fuel' f rest;
        mret (tok +:+ out)
      else
        out ← format_fields fuel' f r;
        mret (String c out)
  end.

Section WithHost.
Context {host : Host}.

(** The fields of a time value on the local clock. *)
Definition local_fields (t : Z) : date_fields := fields_of_ms (t + tzOffsetMs).

(** Number of the local day a time value falls on. *)
Definition local_day (t : Z) : Z := (t + tzOffsetMs) / MS_PER_DAY.

(** date-fns [differenceInCalendarDays(left, right)] *)
Definition differenceInCalendarDays (left right : jsdate) : number :=
  match left, right with
  | Some l, Some r => of_Z (local_day l - local_day r)
  | _, _ => NaN
  end.

(** [d.getFullYear()] *)
Definition getFullYear (d : jsdate) : number :=
  match d with
  | Some t => of_Z (year (local_fields t))
  | None => NaN
  end.

(** date-fns [isSameYear(a, b)] *)
Definition isSameYear (a b : jsdate) : bool :=
  strict_eq (getFullYear a) (getFullYear b).

(** date-fns [format(date, pattern)] *)
Definition format (d : jsdate) (pattern : string) : result exn string :=
  match d with
  | None => Throw (RangeError "Invalid time value")
  | Some t => format_fields (String.length pattern) (local_fields t) pattern
  end.

(** Lines 10-18.  [None] is the [null] of the source.  The [try] around
    [parseISO] has no counterpart: [parseISO] of the host returns an
    Invalid Date and does not throw, so the [catch] is never entered. *)
Definition ensureDate (value : DateInput) : option jsdate :=
  match value with
  | InUndefined => None
  | InString "" => None
  | InDate d => Some d
  | InString s => Some (parseISO s)
  end.

Section WithToday.
Variable TODAY : Z.

(** Lines 20-35. *)
Definition formatDayHeader (value : DateInput) : result exn string :=
  match ensureDate value with
  | None => Ok "Unknown date"
  | Some date =>
      if strict_eq (differenceInCalendarDays (Some TODAY) date) (of_Z 0) then Ok "Today"
      else if strict_eq (differenceInCalendarDays (Some TODAY) date) (of_Z 1) then Ok "Yesterday"
      else
        let pattern := if isSameYear date (Some TODAY) then "d MMM" else "d MMM yyyy" in
        format date pattern
  end.

End WithToday.

(** Lines 37-44. *)
Definition formatFullDateTime (value : DateInput) : result exn string :=
  match ensureDate value with
  | None => Ok "Unknown time"
  | Some date => format date "d MMM yyyy • HH:mm"
  end.

(** Lines 46-59. *)
Definition formatMessageTimestamp (now : Z) (value : DateInput) : result exn string :=
  match ensureDate value with
  | None => Ok ""
  | Some date =>
      if strict_eq (differenceInCalendarDays (Some now) date) (of_Z 0) then
        format date "HH:mm"
      else
        let pattern :=
          if isSameYear date (Some now) then "d MMM • HH:mm" else "d MMM yyyy • HH:mm" in
        format date pattern
  end.

(** ** Facts *)

Lemma take_run_length c s :
  (String.length (take_run c s).2 <= String.length s)%nat.
Proof.
  induction s as [|c' r IH]; simpl; [lia|].
  destruct (Ascii.eqb c c'); [|simpl; lia].
  destruct (take_run c r); simpl in *; lia.
Qed.

Lemma format_fields_fuel_irrelevant fuel1 fuel2 f pattern :
  (String.length pattern <= fuel1)%nat -> (String.length pattern <= fuel2)%nat ->
  format_fields fuel1 f pattern = format_fields fuel2 f pattern.
Proof.
  revert fuel2 pattern; induction fuel1 as [|fuel1 IH]; intros fuel2 [|c r] H1 H2;
    destruct fuel2 as [|fuel2]; simpl in *; try reflexivity; try lia.
  destruct (is_letter c).
  - pose proof (take_run_length c r) as Hr. destruct (take_run c r) as [n rest]; simpl in Hr.
    rewrite (IH fuel2 rest) by lia. reflexivity.
  - rewrite (IH fuel2 r) by lia. reflexivity.
Qed.

(** The fuel of [format_fields] is enough: more fuel gives the same string. *)
Lemma format_fields_fuel fuel f pattern :
  (String.length pattern <= fuel)%nat ->
  format_fields fuel f pattern = format_fields (String.length pattern) f pattern.
Proof. intros H; apply format_fields_fuel_irrelevant; [exact H | reflexivity]. Qed.

Lemma differenceInCalendarDays_invalid d : differenceInCalendarDays d None = NaN.
Proof. destruct d; reflexivity. Qed.

Lemma isSameYear_invalid d : isSameYear None d = false.
Proof. reflexivity. Qed.

Lemma local_fields_day t :
  (year (local_fields t), month (local_fields t), day (local_fields t)) =
  civil_from_days (local_day t).
Proof.
  unfold local_fields, fields_of_ms, local_day.
  destruct (civil_from_days ((t + tzOffsetMs) / MS_PER_DAY)) as [[y m] d]; reflexivity.
Qed.

Lemma local_fields_same_day t1 t2 :
  local_day t1 = local_day t2 ->
  year (local_fields t1) = year (local_fields t2) /\
  month (local_fields t1) = month (local_fields t2) /\
  day (local_fields t1) = day (local_fields t2).
Proof.
  intros Hd; pose proof (local_fields_day t1) as H1; pose proof (local_fields_day t2) as H2.
  rewrite Hd, <- H2 in H1.
  repeat split; [exact (f_equal (fun p => p.1.1) H1) | exact (f_equal (fun p => p.1.2) H1)
                | exact (f_equal snd H1)].
Qed.

(** The date-only patterns print the local civil date. *)
Lemma format_day_month t :
  format (Some t) "d MMM" =
  Ok (pretty (day (local_fields t)) +:+ " " +:+ month_abbr (month (local_fields t))).
Proof.
  rewrite <- (append_empty_r (month_abbr (month (local_fields t)))) at 1.
  reflexivity.
Qed.

Lemma format_day_month_year t :
  format (Some t) "d MMM yyyy" =
  Ok (pretty (day (local_fields t)) +:+ " " +:+ month_abbr (month (local_fields t))
      +:+ " " +:+ addLeadingZeros
            (if (0 <? year (local_fields t))%Z then year (local_fields t)
             else 1 - year (local_fields t))%Z 4).
Proof.
  rewrite <- (append_empty_r (addLeadingZeros _ 4)) at 1.
  reflexivity.
Qed.

Section WithToday.
Variable TODAY : Z.

(** What [formatDayHeader] returns on a valid date, by the local day it
    falls on. *)
Lemma formatDayHeader_valid t :
  formatDayHeader TODAY (InDate (Some t)) =
  if (local_day TODAY - local_day t =? 0)%Z then Ok "Today"
  else if (local_day TODAY - local_day t =? 1)%Z then Ok "Yesterday"
  else if (year (local_fields t) =? year (local_fields TODAY))%Z
       then format (Some t) "d MMM"
       else format (Some t) "d MMM yyyy".
Proof.
  unfold formatDayHeader, isSameYear; cbn [ensureDate differenceInCalendarDays getFullYear].
  rewrite !strict_eq_of_Z.
  repeat case_match; reflexivity.
Qed.

Lemma ensureDate_string s : s <> "" -> ensureDate (InString s) = Some (parseISO s).
Proof. destruct s; [congruence | reflexivity]. Qed.

Lemma formatDayHeader_unknown :
  formatDayHeader TODAY InUndefined = Ok "Unknown date" /\
  formatDayHeader TODAY (InString "") = Ok "Unknown date".
Proof. split; reflexivity. Qed.

(** A non-empty string that does not parse is not labelled: the formatter
    is reached with an Invalid Date and throws. *)
Lemma formatDayHeader_invalid_throws s :
  s <> "" -> parseISO s = None ->
  formatDayHeader TODAY (InString s) = Throw (RangeError "Invalid time value").
Proof.
  intros Hne Hp; unfold formatDayHeader; rewrite (ensureDate_string s Hne), Hp.
  reflexivity.
Qed.

Lemma formatDayHeader_string s t :
  s <> "" -> parseISO s = Some t ->
  formatDayHeader TODAY (InString s) = formatDayHeader TODAY (InDate (Some t)).
Proof.
  intros Hne Hp; unfold formatDayHeader; rewrite (ensureDate_string s Hne), Hp; reflexivity.
Qed.

Lemma formatDayHeader_valid_ok t : is_ok (formatDayHeader TODAY (InDate (Some t))) = true.
Proof.
  rewrite formatDayHeader_valid, format_day_month, format_day_month_year.
  repeat case_match; reflexivity.
Qed.

Lemma formatDayHeader_throw_inv s err :
  formatDayHeader TODAY (InString s) = Throw err -> err = RangeError "Invalid time value".
Proof.
  destruct (decide (s = "")) as [->|Hne]; [discriminate|].
  destruct (parseISO s) as [t|] eqn:Hp.
  - rewrite (formatDayHeader_string s t Hne Hp); pose proof (formatDayHeader_valid_ok t) as Hok.
    intros Ht; rewrite Ht in Hok; discriminate.
  - rewrite (formatDayHeader_invalid_throws s Hne Hp); congruence.
Qed.

(** [formatDayHeader] returns a label on the empty string and on a string
    that parses, and on no other string. *)
Lemma formatDayHeader_is_ok s :
  is_ok (formatDayHeader TODAY (InString s)) = true <-> s = "" \/ is_Some (parseISO s).
Proof.
  destruct (decide (s = "")) as [->|Hne]; [split; [left|]; reflexivity|].
  destruct (parseISO s) as [t|] eqn:Hp.
  - rewrite (formatDayHeader_string s t Hne Hp), formatDayHeader_valid_ok.
    split; [right; eexists|]; reflexivity.
  - rewrite (formatDayHeader_invalid_throws s Hne Hp); simpl.
    split; [discriminate | intros [?|[? ?]]; [contradiction | discriminate]].
Qed.

(** On a valid date [formatDayHeader] returns a label (it does not
    throw), and the label is fixed by the local day the instant falls on:
    two instants of one local day get the same label. *)
Theorem formatDayHeader_by_local_day t1 t2 :
  local_day t1 = local_day t2 ->
  formatDayHeader TODAY (InDate (Some t1)) = formatDayHeader TODAY (InDate (Some t2)) /\
  is_ok (formatDayHeader TODAY (InDate (Some t1))) = true.
Proof.
  intros Hd; split; [|apply formatDayHeader_valid_ok].
  rewrite !formatDayHeader_valid, !format_day_month, !format_day_month_year.
  destruct (local_fields_same_day t1 t2 Hd) as (-> & -> & ->).
  rewrite Hd; reflexivity.
Qed.

End WithToday.

(** ** The time of a message *)

Lemma formatMessageTimestamp_invalid_throws now s :
  s <> "" -> parseISO s = None ->
  formatMessageTimestamp now (InString s) = Throw (RangeError "Invalid time value").
Proof.
  intros Hne Hp; unfold formatMessageTimestamp; rewrite (ensureDate_string s Hne), Hp.
  reflexivity.
Qed.

Lemma formatMessageTimestamp_valid_ok now t :
  is_ok (formatMessageTimestamp now (InDate (Some t))) = true.
Proof.
  unfold formatMessageTimestamp; cbn [ensureDate]; repeat case_match; reflexivity.
Qed.

(** [formatMessageTimestamp] returns a text on the empty string and on a
    string that parses, and on no other string. *)
Lemma formatMessageTimestamp_is_ok now s :
  is_ok (formatMessageTimestamp now (InString s)) = true <-> s = "" \/ is_Some (parseISO s).
Proof.
  destruct (decide (s = "")) as [->|Hne]; [split; [left|]; reflexivity|].
  destruct (parseISO s) as [t|] eqn:Hp.
  - replace (formatMessageTimestamp now (InString s))
      with (formatMessageTimestamp now (InDate (Some t)))
      by (unfold formatMessageTimestamp; rewrite (ensureDate_string s Hne), Hp; reflexivity).
    rewrite formatMessageTimestamp_valid_ok; split; [right; eexists|]; reflexivity.
  - rewrite (formatMessageTimestamp_invalid_throws now s Hne Hp); simpl.
    split; [discriminate | intros [?|[? ?]]; [contradiction | discriminate]].
Qed.

(** ** The time a lead was added *)

Lemma formatFullDateTime_valid_ok t : is_ok (formatFullDateTime (InDate (Some t))) = true.
Proof. reflexivity. Qed.

(** [formatFullDateTime] returns a text on the empty string and on a
    string that parses, and throws on every other string. *)
Lemma formatFullDateTime_is_ok s :
  is_ok (formatFullDateTime (InString s)) = true <-> s = "" \/ is_Some (parseISO s).
Proof.
  destruct (decide (s = "")) as [->|Hne]; [split; [left|]; reflexivity|].
  unfold formatFullDateTime; rewrite (ensureDate_string s Hne).
  destruct (parseISO s) as [t|]; [split; [right; eexists|]; reflexivity|].
  split; [discriminate | intros [?|[? ?]]; [contradiction | discriminate]].
Qed.

End WithHost.

(** ** Examples on the reference host *)

(** 2024-03-15T10:00:00Z *)
Definition sample_today : Z := 1710496800000.

Example formatDayHeader_examples :
  let fmt := formatDayHeader (host := host_bucharest) sample_today in
  fmt (InString "2024-03-15T08:00:00Z") = Ok "Today" /\
  fmt (InString "2024-03-14T23:30:00Z") = Ok "Today" /\
  fmt (InString "2024-03-14T12:00:00Z") = Ok "Yesterday" /\
  fmt (InString "2024-01-05") = Ok "5 Jan" /\
  fmt (InString "2023-12-31") = Ok "31 Dec 2023" /\
  fmt (InString "") = Ok "Unknown date" /\
  fmt (InString "last week") = Throw (RangeError "Invalid time value").
Proof. vm_compute; repeat split; reflexivity. Qed.

Example formatMessageTimestamp_examples :
  let fmt := formatMessageTimestamp (host := host_bucharest) sample_today in
  fmt (InString "2024-03-15T08:05:00Z") = Ok "10:05" /\
  fmt (InString "2024-01-05T09:30:00Z") = Ok "5 Jan • 11:30" /\
  fmt (InString "2023-12-31T22:15:00Z") = Ok "1 Jan • 00:15" /\
  fmt (InString "2022-06-01T00:00:00Z") = Ok "1 Jun 2022 • 02:00" /\
  fmt InUndefined = Ok "" /\
  formatFullDateTime (host := host_bucharest) (InString "2024-03-15T08:05:00Z")
    = Ok "15 Mar 2024 • 10:05".
Proof. vm_compute; repeat split; reflexivity. Qed.

Lemma formatDayHeader_by_local_day_witness :
  formatDayHeader (host := host_bucharest) sample_today (InDate (Some 1704412800000%Z))
  = formatDayHeader (host := host_bucharest) sample_today (InDate (Some 1704445200000%Z)) /\
  is_ok (formatDayHeader (host := host_bucharest) sample_today
           (InDate (Some 1704412800000%Z))) = true.
Proof.
  apply (formatDayHeader_by_local_day (host := host_bucharest)); reflexivity.
Defined.
