(* ===== verification/Facets.v ===== *)
(** * Facets: the options of the filter panel

    [deriveFilterOptions] of [src/frontend/src/lib/leads.ts] (lines 105-154):
    one pass over the leads fills a [Set] of property types and two [Map]s
    from region and zone identifiers to labels; the property types select
    from the fixed catalogue, the maps are sorted by label with the
    collation of the host.

    [FacetState] is the three collections the pass mutates, [scan_lead] the
    body of the [forEach], [mapToOptions] the local function of that name.
    [region_entry] and [zone_entry] say what one lead contributes; the
    theorems read the options off the sequence of contributions. *)

From Stdlib Require Import QArith ZArith Lia Sorted.
From stdpp Require Import base tactics option list strings gmap sorting.
From S2P Require Import Prelude JsNumber JsString JsValue Collections ArraySort RefHost Leads.
Close Scope Q_scope.
Open Scope string_scope.

(** ** Definitions *)

(** The collections of lines 106-108. *)
Record FacetState : Type := {
  propertyTypeSet : list number;
  regionMap : list (number * string);
  zoneMap : list (number * string);
}.

Definition empty_facets : FacetState :=
  {| propertyTypeSet := []; regionMap := []; zoneMap := [] |}.

(** The sign of the number a comparator returns. *)
Definition sign_of (z : Z) : comparison := (z ?= 0)%Z.

Section WithHost.
Context {host : Host}.

(** Lines 119-121. *)
Definition region_label (raw : gmap string value) (regionId : number) : string :=
  default ("Județ #" +:+ NumberToString regionId)
          (extractLabel raw ["region_name"; "region"; "county"]).

(** Lines 129-130. *)
Definition zone_label (raw : gmap string value) (zoneId : number) : string :=
  default ("Zonă #" +:+ NumberToString zoneId)
          (extractLabel raw ["zone_name"; "zone"]).

(** The body of the [forEach], lines 110-135. *)
Definition scan_lead (st : FacetState) (lead : Lead) : FacetState :=
  let raw := raw_of lead in
  {| propertyTypeSet :=
       match toNumber (get_prop raw "property_type") with
       | Some propertyType => set_add propertyType (propertyTypeSet st)
       | None => propertyTypeSet st
       end;
     regionMap :=
       match toNumber (get_prop raw "region_obj_id") with
       | Some regionId =>
           map_set_absent regionId (region_label raw regionId) (regionMap st)
       | None => regionMap st
       end;
     zoneMap :=
       match toNumber (get_prop raw "zone_id") with
       | Some zoneId => map_set_absent zoneId (zone_label raw zoneId) (zoneMap st)
       | None => zoneMap st
       end |}.

(** The comparator of line 146. *)
Definition by_label (a b : number * string) : comparison :=
  sign_of (localeCompare a.2 b.2).

(** Lines 144-147. *)
Definition mapToOptions (m : list (number * string)) : list OptionItem :=
  map (fun e => {| option_value := e.1; option_label := e.2 |}) (js_sort by_label m).

(** Lines 105-154. *)
Definition deriveFilterOptions (leads : list Lead) : FilterOptions :=
  let st := foldl scan_lead empty_facets leads in
  {| fo_propertyTypes :=
       if (length (propertyTypeSet st) =? 0)%nat then PROPERTY_TYPE_OPTIONS
       else List.filter (fun option => set_has (option_value option) (propertyTypeSet st))
                        PROPERTY_TYPE_OPTIONS;
     fo_regions := mapToOptions (regionMap st);
     fo_zones := mapToOptions (zoneMap st) |}.

(** ** What a lead contributes *)

Definition property_type_of (lead : Lead) : option number :=
  toNumber (get_prop (raw_of lead) "property_type").

Definition region_entry (lead : Lead) : option (number * string) :=
  regionId ← toNumber (get_prop (raw_of lead) "region_obj_id");
  Some (regionId, region_label (raw_of lead) regionId).

Definition zone_entry (lead : Lead) : option (number * string) :=
  zoneId ← toNumber (get_prop (raw_of lead) "zone_id");
  Some (zoneId, zone_label (raw_of lead) zoneId).

(** The entries of an option list, as a map from value to label. *)
Definition option_entries (options : list OptionItem) : list (number * string) :=
  map (fun o => (option_value o, option_label o)) options.

(** Labels in the order of the collation. *)
Definition label_le (a b : OptionItem) : Prop :=
  (localeCompare (option_label a) (option_label b) <= 0)%Z.

End WithHost.

(** ** Facts *)

Section Facts.
Context {host : Host}.

Lemma sign_of_le z : sign_of z <> Gt <-> (z <= 0)%Z.
Proof. unfold sign_of; rewrite Z.compare_gt_iff; lia. Qed.

Lemma sign_of_antisym a b : Z.sgn a = (- Z.sgn b)%Z -> sign_of a = CompOpp (sign_of b).
Proof.
  unfold sign_of; intros Hs.
  destruct (Z.compare_spec a 0), (Z.compare_spec b 0); simpl; try reflexivity; lia.
Qed.

(** The collation of the host makes a consistent comparator. *)
#[export] Instance by_label_consistent : Consistent by_label.
Proof.
  split; unfold by_label, cmp_le.
  - intros a; rewrite localeCompare_refl; reflexivity.
  - intros a b; apply sign_of_antisym, localeCompare_antisym.
  - intros a b c; rewrite !sign_of_le; apply localeCompare_trans.
Qed.

(** The pass fills each collection from what the leads contribute to it. *)
Lemma scan_propertyTypeSet leads st :
  propertyTypeSet (foldl scan_lead st leads)
  = fold_left (fun s k => set_add k s) (omap property_type_of leads) (propertyTypeSet st).
Proof.
  revert st; induction leads as [|lead leads IH]; intros st; [reflexivity|].
  cbn [foldl omap list_omap]; rewrite IH; unfold property_type_of; simpl.
  destruct (toNumber _); reflexivity.
Qed.

Lemma scan_propertyTypeSet_all leads :
  propertyTypeSet (foldl scan_lead empty_facets leads)
  = set_from_list (omap property_type_of leads).
Proof. apply scan_propertyTypeSet. Qed.

Lemma scan_regionMap leads st :
  regionMap (foldl scan_lead st leads) = map_collect (regionMap st) (omap region_entry leads).
Proof.
  revert st; induction leads as [|lead leads IH]; intros st; [reflexivity|].
  cbn [foldl omap list_omap]; rewrite IH; unfold region_entry; simpl.
  destruct (toNumber _); reflexivity.
Qed.

Lemma scan_zoneMap leads st :
  zoneMap (foldl scan_lead st leads) = map_collect (zoneMap st) (omap zone_entry leads).
Proof.
  revert st; induction leads as [|lead leads IH]; intros st; [reflexivity|].
  cbn [foldl omap list_omap]; rewrite IH; unfold zone_entry; simpl.
  destruct (toNumber _); reflexivity.
Qed.

Lemma option_entries_mapToOptions m : option_entries (mapToOptions m) = js_sort by_label m.
Proof.
  unfold option_entries, mapToOptions; rewrite map_map; simpl.
  rewrite <- (map_id (js_sort by_label m)) at 2; apply List.map_ext; intros [k v]; reflexivity.
Qed.

(** Sorting the entries of a map changes no lookup. *)
Lemma mapToOptions_lookup id es :
  map_get id (option_entries (mapToOptions (map_collect [] es))) = map_get id es.
Proof.
  rewrite option_entries_mapToOptions, <- (map_get_collect id [] es).
  symmetry; apply map_get_Permutation;
    [apply map_collect_wf; exact I | symmetry; apply js_sort_Permutation].
Qed.

Lemma mapToOptions_sorted m : StronglySorted label_le (mapToOptions m).
Proof.
  unfold mapToOptions. apply (StronglySorted_fmap _ (cmp_le by_label)).
  - intros a b Hab; apply sign_of_le, Hab.
  - apply js_sort_sorted, _.
Qed.

Lemma mapToOptions_distinct es :
  set_wf (map option_value (mapToOptions (map_collect [] es))).
Proof.
  unfold mapToOptions; rewrite map_map; simpl.
  apply (set_wf_Permutation (map_keys (map_collect [] es))).
  - symmetry; apply fmap_Permutation, js_sort_Permutation.
  - apply map_collect_wf; exact I.
Qed.

Lemma mapToOptions_In o es :
  In o (mapToOptions (map_collect [] es)) -> In (option_value o, option_label o) es.
Proof.
  unfold mapToOptions; rewrite in_map_iff; intros ([k v] & <- & Hin); simpl.
  apply js_sort_In, map_collect_In in Hin as [[]|Hin]; exact Hin.
Qed.

End Facts.

(** ** Theorems *)

Section Theorems.
Context {host : Host}.

Lemma In_omap {A B} (f : A -> option B) l y :
  In y (omap f l) <-> exists x, In x l /\ f x = Some y.
Proof.
  rewrite <- list_elem_of_In, list_elem_of_omap.
  split; intros (x & Hx & Hf); exists x; split; auto; apply list_elem_of_In; exact Hx.
Qed.

(** C4.  Looking an identifier up among the region options finds the label
    of the first lead that carries the identifier, and likewise for the
    zones: the first label seen for an identifier wins. *)
Theorem deriveFilterOptions_first_label_wins leads id :
  map_get id (option_entries (fo_regions (deriveFilterOptions leads)))
  = map_get id (omap region_entry leads) /\
  map_get id (option_entries (fo_zones (deriveFilterOptions leads)))
  = map_get id (omap zone_entry leads).
Proof.
  unfold deriveFilterOptions; cbn [fo_regions fo_zones].
  rewrite scan_regionMap, scan_zoneMap; split; apply mapToOptions_lookup.
Qed.

(** The region options and the zone options are sorted by label in
    the collation of the host. *)
Theorem deriveFilterOptions_sorted leads :
  StronglySorted label_le (fo_regions (deriveFilterOptions leads)) /\
  StronglySorted label_le (fo_zones (deriveFilterOptions leads)).
Proof. split; apply mapToOptions_sorted. Qed.

(** No two region options have the same identifier, and no two zone
    options. *)
Theorem deriveFilterOptions_distinct leads :
  set_wf (map option_value (fo_regions (deriveFilterOptions leads))) /\
  set_wf (map option_value (fo_zones (deriveFilterOptions leads))).
Proof.
  unfold deriveFilterOptions; cbn [fo_regions fo_zones].
  rewrite scan_regionMap, scan_zoneMap; split; apply mapToOptions_distinct.
Qed.

(** Every region option is what some lead contributes: its identifier
    is the [region_obj_id] of the lead and its label the label of that
    lead, textual or the placeholder. *)
Theorem deriveFilterOptions_regions_from_leads leads o :
  In o (fo_regions (deriveFilterOptions leads)) ->
  exists lead, In lead leads /\ region_entry lead = Some (option_value o, option_label o).
Proof.
  unfold deriveFilterOptions; cbn [fo_regions]; rewrite scan_regionMap.
  intros Hin%mapToOptions_In; apply In_omap, Hin.
Qed.

(** The property types offered are the entries of the catalogue that
    some lead carries, or the whole catalogue when no lead carries a
    property type. *)
Theorem deriveFilterOptions_propertyTypes leads o :
  In o (fo_propertyTypes (deriveFilterOptions leads)) <->
  In o PROPERTY_TYPE_OPTIONS /\
  (omap property_type_of leads = [] \/
   set_has (option_value o) (omap property_type_of leads) = true).
Proof.
  unfold deriveFilterOptions; cbn [fo_propertyTypes]; rewrite scan_propertyTypeSet_all.
  pose proof (set_from_list_nil (omap property_type_of leads)) as Hnil.
  destruct (set_from_list (omap property_type_of leads)) as [|k s] eqn:E;
    cbn [length Nat.eqb].
  - tauto.
  - rewrite <- E, List.filter_In, set_has_from_list.
    assert (omap property_type_of leads <> []) by (intros Hn; apply Hnil in Hn; discriminate).
    tauto.
Qed.

(** The property types offered keep the order of the catalogue. *)
Theorem deriveFilterOptions_propertyTypes_sublist leads :
  sublist (fo_propertyTypes (deriveFilterOptions leads)) PROPERTY_TYPE_OPTIONS.
Proof.
  unfold deriveFilterOptions; cbn [fo_propertyTypes].
  destruct (_ =? _)%nat; [reflexivity | apply filter_sublist].
Qed.

(** C39.  When the leads carry property types and none of them is in the
    catalogue, no property type is offered: the catalogue is the fallback
    of the empty set only. *)
Theorem deriveFilterOptions_unlisted_types leads :
  omap property_type_of leads <> [] ->
  (forall o, In o PROPERTY_TYPE_OPTIONS ->
             set_has (option_value o) (omap property_type_of leads) = false) ->
  fo_propertyTypes (deriveFilterOptions leads) = [].
Proof.
  intros Hne Hnone; unfold deriveFilterOptions; cbn [fo_propertyTypes].
  rewrite scan_propertyTypeSet_all.
  destruct (set_from_list (omap property_type_of leads)) as [|k s] eqn:E;
    [apply (proj1 (set_from_list_nil _)) in E; contradiction|].
  cbn [length Nat.eqb]; rewrite <- E; apply filter_none; intros o Ho.
  rewrite set_has_from_list; apply Hnone, Ho.
Qed.

End Theorems.

(** ** Examples on the reference host *)

Definition raw_region (id : Z) (key label : string) : gmap string value :=
  <[ "region_obj_id" := VNum (of_Z id) ]> (<[ key := VStr label ]> ∅).

(** Two leads of region 10 with different labels, one of region 7 without
    a label, one of region 3 whose identifier is a string, and one without
    payload. *)
Definition facet_leads : list Lead := [
  sample_lead "a" "2024-01-01" (raw_region 10 "region_name" "Cluj");
  sample_lead "b" "2024-01-02" (raw_region 10 "county" "Kolozs");
  sample_lead "c" "2024-01-03" (<[ "region_obj_id" := VNum (of_Z 7) ]> ∅);
  sample_lead "d" "2024-01-04"
    (<[ "region_obj_id" := VStr "3" ]> (<[ "region" := VStr "Alba" ]> ∅));
  sample_lead "e" "2024-01-05" ∅
].

(** A lead of a property type that the catalogue does not list. *)
Definition unlisted_leads : list Lead := [
  sample_lead "u" "2024-01-01" (<[ "property_type" := VNum (of_Z 99) ]> ∅)
].

Example deriveFilterOptions_examples :
  option_entries (fo_regions (deriveFilterOptions (host := host_bucharest) facet_leads))
  = [(of_Z 3, "Alba"); (of_Z 10, "Cluj"); (of_Z 7, "Județ #7")] /\
  fo_zones (deriveFilterOptions (host := host_bucharest) facet_leads) = [] /\
  fo_propertyTypes (deriveFilterOptions (host := host_bucharest) facet_leads)
  = PROPERTY_TYPE_OPTIONS /\
  deriveFilterOptions (host := host_bucharest) []
  = {| fo_propertyTypes := PROPERTY_TYPE_OPTIONS; fo_regions := []; fo_zones := [] |}.
Proof. vm_compute; repeat split; reflexivity. Qed.

Lemma deriveFilterOptions_regions_from_leads_witness :
  exists lead, In lead facet_leads /\
    region_entry (host := host_bucharest) lead = Some (of_Z 10, "Cluj").
Proof.
  apply (deriveFilterOptions_regions_from_leads (host := host_bucharest) facet_leads
           {| option_value := of_Z 10; option_label := "Cluj" |}).
  vm_compute; right; left; reflexivity.
Defined.

Lemma deriveFilterOptions_unlisted_types_witness :
  fo_propertyTypes (deriveFilterOptions (host := host_bucharest) unlisted_leads) = [].
Proof.
  apply (deriveFilterOptions_unlisted_types (host := host_bucharest)).
  - vm_compute; discriminate.
  - intros o Ho; repeat (destruct Ho as [<-|Ho]; [vm_compute; reflexivity|]); destruct Ho.
Defined.
