(* ===== verification/Grouping.v ===== *)
(** * Grouping: leads in day buckets

    [groupByDateAdded] (lines 11-34) and [groupByLastOutreach] (lines
    297-329) of [src/frontend/src/lib/leads.ts].  Both sort a copy of the
    leads by an instant, newest first, then walk the sorted leads and file
    each under the day label of its date in a [Map] from label to bucket;
    the groups are the entries of the map in insertion order.

    [formatDayHeader] throws on a date that is not empty and does not
    parse, so the functions return a [result].  [bucket_loop] is the [for]
    loop, with the map as its state; [entries_to_groups] is the final
    [Array.from(map.entries()).map(...)].

    [groups_of] is the specification: one group per label in the order the
    labels first occur, holding the leads of that label in order. *)

From Stdlib Require Import QArith ZArith Lia Sorted.
From stdpp Require Import base tactics option list strings gmap sorting.
From S2P Require Import Prelude JsNumber JsString JsValue Collections ArraySort.
From S2P Require Import Calendar RefHost Leads Dates.
Close Scope Q_scope.
Open Scope string_scope.

(** ** Definitions *)

(** Lines 30-33 and 325-328. *)
Definition entries_to_groups (m : list (string * list Lead)) : list LeadGroup :=
  map (fun e => {| label := e.1; leads := e.2 |}) m.

(** The loop of lines 20-28 and 313-323: the label of each lead in turn,
    then the push; the first label that throws ends the loop. *)
Fixpoint bucket_loop (label_of : Lead -> result exn string) (sorted : list Lead)
    (m : list (string * list Lead)) : result exn (list (string * list Lead)) :=
  match sorted with
  | [] => Ok m
  | lead :: rest =>
      label ← label_of lead;
      bucket_loop label_of rest (map_push label lead m)
  end.

(** [last?.date ?? lead.date_added] (lines 314-316): the date the label of
    a lead is made from in the view by last outreach. *)
Definition last_outreach_date (lead : Lead) : string :=
  let entries := outreach_history lead in
  default (date_added lead) (last entries ≫= date).

Section WithHost.
Context {host : Host}.

(** The comparator of lines 12-16. *)
Definition by_date_added (a b : Lead) : comparison :=
  let aTime := getTime (parseISO (date_added a)) in
  let bTime := getTime (parseISO (date_added b)) in
  comparator_sign (sub bTime aTime).

(** Lines 301-304 and 305-308. *)
Definition outreach_sort_date (a : Lead) : jsdate :=
  let aEntries := outreach_history a in
  if (0 <? length aEntries)%nat
  then parseISO (default (date_added a) (last aEntries ≫= date))
  else parseISO (date_added a).

(** The comparator of lines 298-310. *)
Definition by_last_outreach (a b : Lead) : comparison :=
  let aDate := outreach_sort_date a in
  let bDate := outreach_sort_date b in
  comparator_sign (sub (getTime bDate) (getTime aDate)).

Section WithToday.
Variable TODAY : Z.

(** Lines 11-34. *)
Definition groupByDateAdded (leads : list Lead) : result exn (list LeadGroup) :=
  let sorted := js_sort by_date_added leads in
  m ← bucket_loop (fun lead => formatDayHeader TODAY (InString (date_added lead))) sorted [];
  mret (entries_to_groups m).

(** Lines 297-329. *)
Definition groupByLastOutreach (leads : list Lead) : result exn (list LeadGroup) :=
  let sorted := js_sort by_last_outreach leads in
  m ← bucket_loop
        (fun lead => formatDayHeader TODAY (InString (last_outreach_date lead))) sorted [];
  mret (entries_to_groups m).

(** ** Specification *)

(** The label of a date, or the empty string where there is none. *)
Definition day_label (s : string) : string :=
  match formatDayHeader TODAY (InString s) with Ok l => l | Throw _ => "" end.

End WithToday.

(** The instant of a date that parses. *)
Definition instant (s : string) : Z := default 0%Z (parseISO s).

(** A date the views can label: empty, or one that parses. *)
Definition datable (s : string) : Prop := s = "" \/ is_Some (parseISO s).

(** The comparator both views share: newest first by the instant of
    [key], a date that does not parse comparing equal to every date. *)
Definition by_instant (key : Lead -> string) (a b : Lead) : comparison :=
  comparator_sign (sub (getTime (parseISO (key b))) (getTime (parseISO (key a)))).

(** The view both functions are instances of. *)
Definition group_by (TODAY : Z) (key : Lead -> string) (leads : list Lead)
    : result exn (list LeadGroup) :=
  m ← bucket_loop (fun lead => formatDayHeader TODAY (InString (key lead)))
        (js_sort (by_instant key) leads) [];
  mret (entries_to_groups m).

(** Newest first, by the instant of [key]. *)
Definition newest_first (key : Lead -> string) (a b : Lead) : Prop :=
  (instant (key b) <= instant (key a))%Z.

End WithHost.

(** One group per label in the order the labels first occur in [sorted],
    with the leads of that label in the order of [sorted]. *)
Definition groups_of (lab : Lead -> string) (sorted : list Lead) : list LeadGroup :=
  map (fun k => {| label := k;
                   leads := List.filter (fun lead => String.eqb k (lab lead)) sorted |})
      (set_from_list (map lab sorted)).

(** The first lead of every group, in the order of the groups. *)
Definition group_heads (groups : list LeadGroup) : list Lead :=
  omap (fun g => head (leads g)) groups.

(** ** Facts about the loop *)

Section LoopFacts.
Variable label_of : Lead -> result exn string.

Lemma bucket_loop_ok (lab : Lead -> string) sorted m :
  Forall (fun lead => label_of lead = Ok (lab lead)) sorted ->
  bucket_loop label_of sorted m
  = Ok (foldl (fun m e => map_push e.1 e.2 m) m (map (fun lead => (lab lead, lead)) sorted)).
Proof.
  intros Hall; revert m; induction Hall as [|lead rest Hl _ IH]; intros m; [reflexivity|].
  simpl; rewrite Hl; simpl; apply IH.
Qed.

(** The loop throws as soon as a label throws. *)
Lemma bucket_loop_throws e sorted m :
  (forall lead err, label_of lead = Throw err -> err = e) ->
  Exists (fun lead => is_ok (label_of lead) = false) sorted ->
  bucket_loop label_of sorted m = Throw e.
Proof.
  intros He Hex; revert m; induction sorted as [|lead rest IH]; intros m;
    [inversion Hex|]; simpl.
  destruct (label_of lead) as [l|err] eqn:El; simpl.
  - apply IH. inversion Hex as [? ? Hh|]; subst; [rewrite El in Hh; discriminate | assumption].
  - rewrite (He lead err El); reflexivity.
Qed.

(** The loop and the final mapping build the groups of the labels. *)
Lemma bucket_loop_groups (lab : Lead -> string) sorted :
  Forall (fun lead => label_of lead = Ok (lab lead)) sorted ->
  (m ← bucket_loop label_of sorted []; mret (entries_to_groups m)) = Ok (groups_of lab sorted).
Proof.
  intros Hall; rewrite (bucket_loop_ok lab) by exact Hall; simpl.
  rewrite map_pushes_spec; unfold entries_to_groups, groups_of.
  rewrite !map_map; simpl; f_equal.
  rewrite (List.map_ext _ lab) by reflexivity.
  apply List.map_ext; intros k; rewrite (members_map lab); reflexivity.
Qed.

End LoopFacts.

(** ** Facts about the groups of a labelling *)

Section GroupsOf.
Variable lab : Lead -> string.

Lemma groups_of_labels l : map label (groups_of lab l) = set_from_list (map lab l).
Proof. unfold groups_of; rewrite map_map; simpl; apply map_id. Qed.

Lemma groups_of_NoDup l : List.NoDup (map label (groups_of lab l)).
Proof. rewrite groups_of_labels; apply set_wf_NoDup, set_from_list_wf. Qed.

Lemma groups_of_concat l : concat (map leads (groups_of lab l)) ≡ₚ l.
Proof.
  unfold groups_of; rewrite map_map; simpl.
  pose proof (members_all (map (fun x => (lab x, x)) l)) as Hm.
  rewrite !map_map in Hm; simpl in Hm; rewrite map_id in Hm.
  rewrite <- Hm at 2; apply reflexive_eq; f_equal.
  apply List.map_ext; intros k; rewrite (members_map lab); reflexivity.
Qed.

Lemma groups_of_In g l :
  In g (groups_of lab l) ->
  In (label g) (map lab l) /\
  leads g = List.filter (fun lead => String.eqb (label g) (lab lead)) l.
Proof.
  unfold groups_of; rewrite in_map_iff; intros (k & <- & Hk); simpl; split; [|reflexivity].
  apply set_has_In; rewrite <- set_has_from_list; apply set_has_In, Hk.
Qed.

(** Every group has a member; its members carry its label and stand in
    the order of the sorted leads. *)
Lemma groups_of_members g l :
  In g (groups_of lab l) ->
  leads g <> [] /\ Forall (fun lead => lab lead = label g) (leads g) /\ sublist (leads g) l.
Proof.
  intros (Hl & ->)%groups_of_In; split; [|split].
  - apply in_map_iff in Hl as (lead & Hlab & Hin).
    intros Hnil. assert (In lead []) as [].
    rewrite <- Hnil; apply List.filter_In; split; [exact Hin|].
    rewrite Hlab; apply String.eqb_refl.
  - apply List.Forall_forall; intros lead [_ He%String.eqb_eq]%List.filter_In; auto.
  - apply filter_sublist.
Qed.

(** The groups of [x :: l]: the group of [x] first, then the groups of
    [l] under the other labels. *)
Lemma groups_of_cons x l :
  groups_of lab (x :: l)
  = {| label := lab x;
       leads := x :: List.filter (fun lead => String.eqb (lab x) (lab lead)) l |}
    :: List.filter (fun g => negb (String.eqb (label g) (lab x))) (groups_of lab l).
Proof.
  unfold groups_of; simpl map; rewrite set_from_list_cons; simpl.
  rewrite String.eqb_refl; f_equal.
  rewrite filter_map_swap; simpl; apply map_ext_in; intros k [_ Hk]%List.filter_In.
  change (key_eqb k (lab x)) with (String.eqb k (lab x)) in Hk.
  destruct (String.eqb k (lab x)); [discriminate Hk | reflexivity].
Qed.

Lemma group_heads_filter f groups : sublist (group_heads (List.filter f groups)) (group_heads groups).
Proof. apply omap_sublist_mono, filter_sublist. Qed.

(** The first leads of the groups are a subsequence of the grouped list:
    the groups stand in the order of their first members. *)
Lemma group_heads_sublist l : sublist (group_heads (groups_of lab l)) l.
Proof.
  induction l as [|x l IH]; [constructor|].
  rewrite groups_of_cons; unfold group_heads at 1; simpl; constructor.
  etrans; [apply group_heads_filter | exact IH].
Qed.

End GroupsOf.

(** ** Facts about the two views *)

Section Views.
Context {host : Host}.
Variable TODAY : Z.

#[export] Instance datable_dec s : Decision (datable s).
Proof. unfold datable; apply _. Defined.

Lemma outreach_sort_date_eq a : outreach_sort_date a = parseISO (last_outreach_date a).
Proof.
  unfold outreach_sort_date, last_outreach_date; destruct (outreach_history a); reflexivity.
Qed.

Lemma groupByDateAdded_group_by leads :
  groupByDateAdded TODAY leads = group_by TODAY date_added leads.
Proof. reflexivity. Qed.

Lemma groupByLastOutreach_group_by leads :
  groupByLastOutreach TODAY leads = group_by TODAY last_outreach_date leads.
Proof.
  unfold groupByLastOutreach, group_by.
  rewrite (js_sort_ext_in by_last_outreach (by_instant last_outreach_date)); [reflexivity|].
  intros a b _ _; unfold by_last_outreach, by_instant.
  rewrite !outreach_sort_date_eq; reflexivity.
Qed.

Section Generic.
Variable key : Lead -> string.

Lemma day_label_ok s :
  datable s -> formatDayHeader TODAY (InString s) = Ok (day_label TODAY s).
Proof.
  intros Hd%(formatDayHeader_is_ok TODAY); unfold day_label.
  destruct (formatDayHeader TODAY (InString s)); [reflexivity | discriminate].
Qed.

Lemma group_by_ok leads :
  Forall (fun lead => datable (key lead)) leads ->
  group_by TODAY key leads
  = Ok (groups_of (fun lead => day_label TODAY (key lead)) (js_sort (by_instant key) leads)).
Proof.
  intros Hall; apply bucket_loop_groups.
  rewrite List.Forall_forall in *; intros lead Hin%js_sort_In; apply day_label_ok, Hall, Hin.
Qed.

Lemma group_by_throws leads :
  Exists (fun lead => ~ datable (key lead)) leads ->
  group_by TODAY key leads = Throw (RangeError "Invalid time value").
Proof.
  intros Hex; unfold group_by.
  rewrite (bucket_loop_throws _ (RangeError "Invalid time value")); [reflexivity | |].
  - intros lead err; apply formatDayHeader_throw_inv.
  - rewrite List.Exists_exists in *; destruct Hex as (lead & Hin & Hnd).
    exists lead; split; [apply js_sort_In, Hin|].
    apply not_true_iff_false; rewrite formatDayHeader_is_ok; exact Hnd.
Qed.

(** A view returns groups exactly when every date can be labelled. *)
Lemma group_by_is_ok leads :
  is_ok (group_by TODAY key leads) = true <-> Forall (fun lead => datable (key lead)) leads.
Proof.
  split; [|intros Hall; rewrite group_by_ok by exact Hall; reflexivity].
  intros Hok; destruct (decide (Forall (fun lead => datable (key lead)) leads)) as [|Hn];
    [assumption|].
  apply not_Forall_Exists in Hn; [|intros x; apply _].
  rewrite (group_by_throws leads Hn) in Hok; discriminate.
Qed.

Lemma group_by_inv leads groups :
  group_by TODAY key leads = Ok groups ->
  groups = groups_of (fun lead => day_label TODAY (key lead)) (js_sort (by_instant key) leads)
  /\ Forall (fun lead => datable (key lead)) leads.
Proof.
  intros Hg; assert (Hall : Forall (fun lead => datable (key lead)) leads)
    by (apply group_by_is_ok; rewrite Hg; reflexivity).
  rewrite (group_by_ok leads Hall) in Hg; injection Hg as <-; auto.
Qed.

(** Where both dates parse the comparator orders by instant, newest
    first. *)
Lemma by_instant_valid a b :
  is_Some (parseISO (key a)) -> is_Some (parseISO (key b)) ->
  by_instant key a b = by_key (fun x => instant (key x)) (fun x y => Z.compare y x) a b.
Proof.
  unfold by_instant, by_key, instant; intros [ta ->] [tb ->]; simpl getTime.
  apply comparator_sign_sub_of_Z.
Qed.

Lemma sorted_newest_first leads :
  Forall (fun lead => is_Some (parseISO (key lead))) leads ->
  StronglySorted (newest_first key) (js_sort (by_instant key) leads).
Proof.
  intros Hall; rewrite List.Forall_forall in Hall.
  rewrite (js_sort_ext_in _ (by_key (fun x => instant (key x)) (fun x y => Z.compare y x)))
    by (intros a b Ha Hb; apply by_instant_valid; auto).
  eapply StronglySorted_weaken; [|apply js_sort_sorted, _].
  intros a b; unfold cmp_le, by_key, newest_first; rewrite Z.compare_gt_iff; lia.
Qed.

(** The groups of a view: every lead in exactly one group, the labels
    distinct, no group empty, every member under its own label. *)
Lemma group_by_partition leads groups :
  group_by TODAY key leads = Ok groups ->
  concat (map Leads.leads groups) ≡ₚ leads /\
  List.NoDup (map label groups) /\
  Forall (fun g => Leads.leads g <> [] /\
            Forall (fun lead => formatDayHeader TODAY (InString (key lead)) = Ok (label g))
                   (Leads.leads g)) groups.
Proof.
  intros [-> Hall]%group_by_inv; split; [|split].
  - rewrite groups_of_concat; apply js_sort_Permutation.
  - apply groups_of_NoDup.
  - apply List.Forall_forall; intros g (Hne & Hlab & Hsub)%groups_of_members; split; [exact Hne|].
    rewrite List.Forall_forall in *; intros lead Hin; rewrite <- (Hlab lead Hin).
    apply day_label_ok, Hall, (js_sort_In (by_instant key)), list_elem_of_In.
    eapply elem_of_sublist; [apply list_elem_of_In, Hin | exact Hsub].
Qed.

(** Inside every group the leads stand newest first, and so do the first
    leads of the groups: the groups are ordered by their most recent
    member. *)
Lemma group_by_sorted leads groups :
  Forall (fun lead => is_Some (parseISO (key lead))) leads ->
  group_by TODAY key leads = Ok groups ->
  Forall (fun g => StronglySorted (newest_first key) (Leads.leads g)) groups /\
  StronglySorted (newest_first key) (group_heads groups).
Proof.
  intros Hv%sorted_newest_first [-> _]%group_by_inv; split.
  - apply List.Forall_forall; intros g [_ ->]%groups_of_In.
    apply StronglySorted_filter, Hv.
  - eapply StronglySorted_sublist; [apply group_heads_sublist | exact Hv].
Qed.

End Generic.

(** ** Theorems *)

(** C2.  When every [date_added] is empty or parses, [groupByDateAdded]
    returns one group per day label, in the order the labels first occur
    among the leads sorted newest first, each group holding the leads of
    its label in that order. *)
Theorem groupByDateAdded_groups leads :
  Forall (fun lead => datable (date_added lead)) leads ->
  groupByDateAdded TODAY leads
  = Ok (groups_of (fun lead => day_label TODAY (date_added lead))
                  (js_sort by_date_added leads)).
Proof. apply (group_by_ok date_added). Qed.

(** The same for [groupByLastOutreach], on the date of the last
    outreach entry, or [date_added] for a lead without entries or whose
    last entry has no date. *)
Theorem groupByLastOutreach_groups leads :
  Forall (fun lead => datable (last_outreach_date lead)) leads ->
  groupByLastOutreach TODAY leads
  = Ok (groups_of (fun lead => day_label TODAY (last_outreach_date lead))
                  (js_sort (by_instant last_outreach_date) leads)).
Proof. rewrite groupByLastOutreach_group_by; apply group_by_ok. Qed.

(** C9.  One lead whose [date_added] is not empty and does not parse makes
    [groupByDateAdded] throw a [RangeError]: no group is returned for any
    lead. *)
Theorem groupByDateAdded_throws leads :
  Exists (fun lead => date_added lead <> "" /\ parseISO (date_added lead) = None) leads ->
  groupByDateAdded TODAY leads = Throw (RangeError "Invalid time value").
Proof.
  intros Hex; apply (group_by_throws date_added).
  eapply List.Exists_impl; [|exact Hex]; intros lead [Hne Hp] [?|[t Ht]]; congruence.
Qed.

(** [groupByLastOutreach] returns groups exactly when the date of
    every lead, its last outreach or else its creation, is empty or
    parses. *)
Theorem groupByLastOutreach_is_ok leads :
  is_ok (groupByLastOutreach TODAY leads) = true <->
  Forall (fun lead => datable (last_outreach_date lead)) leads.
Proof. rewrite groupByLastOutreach_group_by; apply group_by_is_ok. Qed.

(** C7.  The groups [groupByDateAdded] returns partition the leads: every
    lead is in exactly one group, no two groups share a label, no group is
    empty, and the label of a group is the day label of each member. *)
Theorem groupByDateAdded_partition leads groups :
  groupByDateAdded TODAY leads = Ok groups ->
  concat (map Leads.leads groups) ≡ₚ leads /\
  List.NoDup (map label groups) /\
  Forall (fun g => Leads.leads g <> [] /\
            Forall (fun lead => formatDayHeader TODAY (InString (date_added lead))
                                = Ok (label g)) (Leads.leads g)) groups.
Proof. apply (group_by_partition date_added). Qed.

(** The groups [groupByLastOutreach] returns partition the leads in
    the same way, by the label of the last outreach. *)
Theorem groupByLastOutreach_partition leads groups :
  groupByLastOutreach TODAY leads = Ok groups ->
  concat (map Leads.leads groups) ≡ₚ leads /\
  List.NoDup (map label groups) /\
  Forall (fun g => Leads.leads g <> [] /\
            Forall (fun lead => formatDayHeader TODAY (InString (last_outreach_date lead))
                                = Ok (label g)) (Leads.leads g)) groups.
Proof. rewrite groupByLastOutreach_group_by; apply group_by_partition. Qed.

(** When every [date_added] parses, the leads of every group stand
    newest first, and the groups stand in the order of their most recent
    member, newest first. *)
Theorem groupByDateAdded_newest_first leads groups :
  Forall (fun lead => is_Some (parseISO (date_added lead))) leads ->
  groupByDateAdded TODAY leads = Ok groups ->
  Forall (fun g => StronglySorted (newest_first date_added) (Leads.leads g)) groups /\
  StronglySorted (newest_first date_added) (group_heads groups).
Proof. apply (group_by_sorted date_added). Qed.

(** A lead whose [date_added] does not parse compares equal to every
    lead, whichever side it is on: the comparator does not order it after
    the dated leads. *)
Theorem by_date_added_undated a b :
  parseISO (date_added a) = None ->
  by_date_added a b = Eq /\ by_date_added b a = Eq.
Proof.
  unfold by_date_added; intros ->; simpl getTime.
  rewrite sub_NaN_l, sub_NaN_r; split; reflexivity.
Qed.

End Views.

(** ** Examples on the reference host *)

Definition dated (id added : string) : Lead := sample_lead id added ∅.

Definition with_history (lead : Lead) (history : list OutreachHistoryEntry) : Lead := {|
  property_id := property_id lead; display_id := display_id lead; title := title lead;
  date_added := date_added lead; lister_name := lister_name lead;
  lister_phone := lister_phone lead; status := status lead;
  outreach_history := history; crm_raw := crm_raw lead;
  last_message_excerpt := last_message_excerpt lead;
  last_message_at := last_message_at lead; unread_count := unread_count lead;
|}.

Definition sent (on : option string) : OutreachHistoryEntry :=
  {| date := on; success := true; note := None |}.

(** Four leads, two of them of the day of [sample_today]. *)
Definition grouping_leads : list Lead := [
  dated "a" "2024-03-14T12:00:00Z";
  dated "b" "2024-03-15T08:00:00Z";
  dated "c" "2024-01-05";
  dated "d" "2024-03-15T09:00:00Z"
].

(** The same leads with outreach: [c] was written to yesterday, [a] has an
    entry without date. *)
Definition outreach_leads : list Lead := [
  with_history (dated "a" "2024-03-14T12:00:00Z") [sent None];
  dated "b" "2024-03-15T08:00:00Z";
  with_history (dated "c" "2024-01-05")
    [sent (Some "2024-02-01T10:00:00Z"); sent (Some "2024-03-14T15:00:00Z")]
].

Example groupByDateAdded_example :
  groupByDateAdded (host := host_bucharest) sample_today grouping_leads
  = Ok [ {| label := "Today";
            leads := [dated "d" "2024-03-15T09:00:00Z"; dated "b" "2024-03-15T08:00:00Z"] |};
         {| label := "Yesterday"; leads := [dated "a" "2024-03-14T12:00:00Z"] |};
         {| label := "5 Jan"; leads := [dated "c" "2024-01-05"] |} ].
Proof. vm_compute; reflexivity. Qed.

Example groupByLastOutreach_example :
  (gs ← groupByLastOutreach (host := host_bucharest) sample_today outreach_leads;
   mret (map (fun g => (label g, map property_id (leads g))) gs))
  = Ok [ ("Today", ["b"]); ("Yesterday", ["c"; "a"]) ].
Proof. vm_compute; reflexivity. Qed.

(** An undated lead at the head of the input stays at the head: its group
    comes first, not last. *)
Example groupByDateAdded_undated_first :
  (gs ← groupByDateAdded (host := host_bucharest) sample_today
          (dated "u" "" :: grouping_leads);
   mret (map (fun g => (label g, map property_id (leads g))) gs))
  = Ok [ ("Unknown date", ["u"]); ("Today", ["d"; "b"]); ("Yesterday", ["a"]);
         ("5 Jan", ["c"]) ].
Proof. vm_compute; reflexivity. Qed.

(** ** The theorems at the examples *)

Lemma datable_parsed `{host : Host} s : is_Some (parseISO s) -> datable s.
Proof. intros Hs; right; exact Hs. Qed.

Lemma groupByDateAdded_groups_witness :
  groupByDateAdded (host := host_bucharest) sample_today grouping_leads
  = Ok (groups_of (fun lead => day_label (host := host_bucharest) sample_today (date_added lead))
          (js_sort (by_date_added (host := host_bucharest)) grouping_leads)).
Proof.
  apply (groupByDateAdded_groups (host := host_bucharest)).
  repeat (apply List.Forall_cons; [apply datable_parsed; vm_compute; eexists; reflexivity|]).
  apply List.Forall_nil.
Defined.

Lemma groupByLastOutreach_groups_witness :
  groupByLastOutreach (host := host_bucharest) sample_today outreach_leads
  = Ok (groups_of
          (fun lead => day_label (host := host_bucharest) sample_today (last_outreach_date lead))
          (js_sort (by_instant (host := host_bucharest) last_outreach_date) outreach_leads)).
Proof.
  apply (groupByLastOutreach_groups (host := host_bucharest)).
  repeat (apply List.Forall_cons; [apply datable_parsed; vm_compute; eexists; reflexivity|]).
  apply List.Forall_nil.
Defined.

Lemma groupByDateAdded_throws_witness :
  groupByDateAdded (host := host_bucharest) sample_today
    (grouping_leads ++ [dated "x" "last week"])
  = Throw (RangeError "Invalid time value").
Proof.
  apply (groupByDateAdded_throws (host := host_bucharest)).
  apply List.Exists_exists; exists (dated "x" "last week"); split;
    [apply in_or_app; right; left; reflexivity | split; [discriminate | reflexivity]].
Defined.

Lemma groupByDateAdded_partition_witness :
  exists groups,
    groupByDateAdded (host := host_bucharest) sample_today grouping_leads = Ok groups /\
    concat (map leads groups) ≡ₚ grouping_leads /\
    List.NoDup (map label groups).
Proof.
  eexists; split; [vm_compute; reflexivity|].
  refine (let H := groupByDateAdded_partition (host := host_bucharest) sample_today
                     grouping_leads _ _ in conj (proj1 H) (proj1 (proj2 H))).
  vm_compute; reflexivity.
Defined.

Lemma groupByLastOutreach_partition_witness :
  exists groups,
    groupByLastOutreach (host := host_bucharest) sample_today outreach_leads = Ok groups /\
    concat (map leads groups) ≡ₚ outreach_leads /\
    List.NoDup (map label groups).
Proof.
  eexists; split; [vm_compute; reflexivity|].
  refine (let H := groupByLastOutreach_partition (host := host_bucharest) sample_today
                     outreach_leads _ _ in conj (proj1 H) (proj1 (proj2 H))).
  vm_compute; reflexivity.
Defined.

Lemma groupByDateAdded_newest_first_witness :
  exists groups,
    groupByDateAdded (host := host_bucharest) sample_today grouping_leads = Ok groups /\
    Forall (fun g => StronglySorted (newest_first (host := host_bucharest) date_added) (leads g))
           groups /\
    StronglySorted (newest_first (host := host_bucharest) date_added) (group_heads groups).
Proof.
  eexists; split; [vm_compute; reflexivity|].
  apply (groupByDateAdded_newest_first (host := host_bucharest) sample_today grouping_leads).
  - repeat (apply List.Forall_cons; [vm_compute; eexists; reflexivity|]); apply List.Forall_nil.
  - vm_compute; reflexivity.
Defined.

Lemma by_date_added_undated_witness :
  by_date_added (host := host_bucharest) (dated "u" "") (dated "b" "2024-03-15T08:00:00Z") = Eq /\
  by_date_added (host := host_bucharest) (dated "b" "2024-03-15T08:00:00Z") (dated "u" "") = Eq.
Proof. apply (by_date_added_undated (host := host_bucharest)); reflexivity. Defined.
