(* ===== verification/Chats.v ===== *)
(** * Chats: the conversation list

    The helpers of [src/frontend/src/pages/chats.tsx] (lines 20-79) and the
    three memoised lists of [ChatsPage] (lines 104-118): the leads that
    pass the filters, those that match the search box, and these sorted by
    last activity, newest first.

    [getInitials] and what the page renders are in [ChatsPage]. *)

From Stdlib Require Import QArith ZArith Lia Sorted.
From stdpp Require Import base tactics option list strings gmap sorting.
From S2P Require Import Prelude JsNumber JsString JsValue Collections ArraySort.
From S2P Require Import Calendar RefHost Leads Filters.
Close Scope Q_scope.
Open Scope string_scope.

(** ** Definitions *)

(** Line 20. *)
Definition chats_refreshIntervalMs : Z := 30000.

(** Lines 22-25. *)
Definition getLastTimelineEntry (lead : Lead) : option OutreachHistoryEntry :=
  let history := outreach_history lead in
  last history.

(** Lines 27-34. *)
Definition getActivityTimestamp (lead : Lead) : option string :=
  match last_message_at lead with
  | Some ts => Some ts
  | None =>
      match getLastTimelineEntry lead ≫= date with
      | Some ts => Some ts
      | None => Some (date_added lead)
      end
  end.

(** [`Status: ${lead.status}`] *)
Definition status_string (s : LeadStatus) : string :=
  match s with LEAD => "LEAD" | REACHED_OUT => "REACHED_OUT" | ERROR => "ERROR" end.

(** Lines 53-65.  A status is a non-empty string, so the last [return] of
    the source is never reached. *)
Definition getPreviewText (lead : Lead) : string :=
  if opt_str_truthy (last_message_excerpt lead) then default "" (last_message_excerpt lead)
  else
    let last := getLastTimelineEntry lead in
    if opt_str_truthy (last ≫= note) then default "" (last ≫= note)
    else if str_truthy (status_string (status lead))
         then "Status: " +:+ status_string (status lead)
         else "No messages yet. Tap to start chatting.".

Section WithHost.
Context {host : Host}.

(** Lines 36-39. *)
Definition getActivityValue (lead : Lead) : number :=
  match getActivityTimestamp lead with
  | Some ts =>
      if str_truthy ts then
        let parsed := getTime (DateParse ts) in
        if num_truthy parsed then parsed else of_Z 0
      else of_Z 0
  | None => of_Z 0
  end.

(** The fields the search reads (lines 70-77): the truthy ones, in lower
    case. *)
Definition search_fields (lead : Lead) : list string :=
  flat_map (fun value : option string =>
              match value with
              | Some v => if str_truthy v then [toLowerCase v] else []
              | None => []
              end)
    [ Some (lister_name lead); Some (title lead); lister_phone lead;
      Some (display_id lead); last_message_excerpt lead ].

(** Lines 67-79. *)
Definition matchesSearch (lead : Lead) (query : string) : bool :=
  if negb (str_truthy query) then true
  else
    let lowered := toLowerCase query in
    existsb (fun value => includes value lowered) (search_fields lead).

(** Lines 104-107; [data] is [data?.leads]. *)
Definition chats_filteredLeads (data : option (list Lead)) (appliedFilters : LeadFilters)
    : list Lead :=
  let leads := default [] data in
  applyLeadFilters leads appliedFilters.

(** Lines 109-112. *)
Definition searchedLeads (filtered : list Lead) (searchTerm : string) : list Lead :=
  if negb (str_truthy searchTerm) then filtered
  else List.filter (fun lead => matchesSearch lead searchTerm) filtered.

(** The comparator of line 116. *)
Definition by_activity (a b : Lead) : comparison :=
  comparator_sign (sub (getActivityValue b) (getActivityValue a)).

(** Lines 114-118. *)
Definition sortedLeads (searched : list Lead) : list Lead := js_sort by_activity searched.

(** The list the page shows. *)
Definition chats_view (data : option (list Lead)) (appliedFilters : LeadFilters)
    (searchTerm : string) : list Lead :=
  sortedLeads (searchedLeads (chats_filteredLeads data appliedFilters) searchTerm).

(** ** Specification *)

(** The instant of the last activity of a lead, 0 where there is none. *)
Definition activity (lead : Lead) : Z :=
  match getActivityTimestamp lead with
  | Some ts => if str_truthy ts then default 0%Z (DateParse ts) else 0%Z
  | None => 0%Z
  end.

Definition most_recent_first (a b : Lead) : Prop := (activity b <= activity a)%Z.

End WithHost.

(** ** Facts *)

Section Facts.
Context {host : Host}.

Lemma getActivityValue_activity lead : getActivityValue lead = of_Z (activity lead).
Proof.
  unfold getActivityValue, activity.
  destruct (getActivityTimestamp lead) as [ts|]; [|reflexivity].
  destruct (str_truthy ts); [|reflexivity].
  destruct (DateParse ts) as [t|]; [|reflexivity].
  unfold getTime; rewrite num_truthy_of_Z; destruct (Z.eqb_spec t 0) as [->|]; reflexivity.
Qed.

Lemma by_activity_by_key a b :
  by_activity a b = by_key activity (fun x y => Z.compare y x) a b.
Proof.
  unfold by_activity, by_key; rewrite !getActivityValue_activity.
  apply comparator_sign_sub_of_Z.
Qed.

Lemma sortedLeads_by_key l :
  sortedLeads l = js_sort (by_key activity (fun x y => Z.compare y x)) l.
Proof. apply js_sort_ext_in; intros a b _ _; apply by_activity_by_key. Qed.

Lemma cmp_le_most_recent a b :
  cmp_le (by_key activity (fun x y => Z.compare y x)) a b <-> most_recent_first a b.
Proof. unfold cmp_le, by_key, most_recent_first; rewrite Z.compare_gt_iff; lia. Qed.

Lemma cmp_eqb_activity a b :
  cmp_eqb (by_key activity (fun x y => Z.compare y x)) a b = (activity a =? activity b)%Z.
Proof.
  unfold cmp_eqb, by_key.
  destruct (Z.compare_spec (activity b) (activity a)), (Z.eqb_spec (activity a) (activity b));
    try reflexivity; lia.
Qed.

Lemma searchedLeads_filter filtered searchTerm :
  searchedLeads filtered searchTerm
  = List.filter (fun lead => matchesSearch lead searchTerm) filtered.
Proof.
  unfold searchedLeads, matchesSearch; destruct (str_truthy searchTerm); simpl; [reflexivity|].
  symmetry; apply filter_all; reflexivity.
Qed.

(** ** Theorems *)

(** The activity value of a lead is a finite number: the instant of
    its last activity, and 0 when the lead has no timestamp that parses.
    No [NaN] reaches the comparator. *)
Theorem getActivityValue_finite lead :
  isFinite (getActivityValue lead) = true /\
  getActivityValue lead = of_Z (activity lead).
Proof. rewrite getActivityValue_activity; split; reflexivity. Qed.

(** C32.  [sortedLeads] is the stable sort by last activity, newest first:
    the one permutation of its input that is in that order and keeps
    leads of equal activity in the order they had. *)
Theorem sortedLeads_characterised l l' :
  l' = sortedLeads l <->
  l' ≡ₚ l /\ StronglySorted most_recent_first l' /\
  (forall t, List.filter (fun lead => (t =? activity lead)%Z) l'
             = List.filter (fun lead => (t =? activity lead)%Z) l).
Proof.
  rewrite sortedLeads_by_key, (js_sort_characterised _ l l').
  split; intros (Hp & Hs & Hst); (split; [exact Hp|split]).
  - eapply StronglySorted_weaken; [|exact Hs]; intros a b; apply cmp_le_most_recent.
  - intros t; destruct (existsb (fun a => (t =? activity a)%Z) (l' ++ l)) eqn:E.
    + apply existsb_exists in E as (a & _ & ->%Z.eqb_eq).
      rewrite <- !(List.filter_ext _ _ (cmp_eqb_activity a)); apply Hst.
    + rewrite !filter_none; [reflexivity| |]; intros x Hx;
        apply not_true_iff_false; intros Hx'; apply not_true_iff_false in E; apply E;
        apply existsb_exists; exists x; (split; [apply in_or_app|]; auto).
  - eapply StronglySorted_weaken; [|exact Hs]; intros a b; apply cmp_le_most_recent.
  - intros a; rewrite !(List.filter_ext _ _ (cmp_eqb_activity a)); apply Hst.
Qed.

(** The conversation list holds exactly the leads of the snapshot
    that pass the filters and match the search. *)
Theorem chats_view_In data appliedFilters searchTerm lead :
  In lead (chats_view data appliedFilters searchTerm) <->
  In lead (default [] data) /\ leadMatches appliedFilters lead = true /\
  matchesSearch lead searchTerm = true.
Proof.
  unfold chats_view, sortedLeads, chats_filteredLeads.
  rewrite js_sort_In, searchedLeads_filter, List.filter_In, applyLeadFilters_filter,
    List.filter_In; tauto.
Qed.

(** The empty search keeps every lead, and a search keeps the order
    of the filtered leads. *)
Theorem searchedLeads_sublist filtered searchTerm :
  searchedLeads filtered "" = filtered /\
  sublist (searchedLeads filtered searchTerm) filtered.
Proof. split; [reflexivity | rewrite searchedLeads_filter; apply filter_sublist]. Qed.

(** A lead always has a preview: the excerpt of its last message, or
    the note of its last outreach, or its status; the text for a lead
    without any of them is never used. *)
Theorem getPreviewText_cases lead :
  getPreviewText lead <> "No messages yet. Tap to start chatting." \/
  last_message_excerpt lead = Some "No messages yet. Tap to start chatting." \/
  getLastTimelineEntry lead ≫= note = Some "No messages yet. Tap to start chatting.".
Proof.
  unfold getPreviewText.
  destruct (last_message_excerpt lead) as [e|]; simpl.
  - destruct (str_truthy e) eqn:E; simpl.
    + destruct (decide (e = "No messages yet. Tap to start chatting.")) as [->|]; auto.
    + destruct (getLastTimelineEntry lead ≫= note) as [n|]; simpl.
      * destruct (str_truthy n);
          [destruct (decide (n = "No messages yet. Tap to start chatting.")) as [->|]; auto|].
        left; destruct (status lead); discriminate.
      * left; destruct (status lead); discriminate.
  - destruct (getLastTimelineEntry lead ≫= note) as [n|]; simpl.
    + destruct (str_truthy n);
        [destruct (decide (n = "No messages yet. Tap to start chatting.")) as [->|]; auto|].
      left; destruct (status lead); discriminate.
    + left; destruct (status lead); discriminate.
Qed.

End Facts.

(** ** Examples on the reference host *)

Definition chat_lead (id name : string) (added : string) (message_at : option string)
    (history : list OutreachHistoryEntry) : Lead := {|
  property_id := id; display_id := id; title := ""; date_added := added;
  lister_name := name; lister_phone := None; status := REACHED_OUT;
  outreach_history := history; crm_raw := None;
  last_message_excerpt := None; last_message_at := message_at; unread_count := None;
|}.

Definition chat_leads : list Lead := [
  chat_lead "a" "Ana Pop" "2024-03-01" None [];
  chat_lead "b" "Bogdan" "2024-01-01" (Some "2024-03-10T09:00:00Z") [];
  chat_lead "c" "Carmen" "someday" None [];
  chat_lead "d" "Dan Popa" "2024-02-01" None
    [{| date := Some "2024-03-05T12:00:00Z"; success := true; note := Some "sent" |}]
].

Example chats_view_examples :
  map property_id (chats_view (host := host_bucharest) (Some chat_leads) DEFAULT_LEAD_FILTERS "")
  = ["b"; "d"; "a"; "c"] /\
  map property_id (chats_view (host := host_bucharest) (Some chat_leads) DEFAULT_LEAD_FILTERS "POP")
  = ["d"; "a"] /\
  chats_view (host := host_bucharest) None DEFAULT_LEAD_FILTERS "" = [] /\
  map getPreviewText chat_leads
  = ["Status: REACHED_OUT"; "Status: REACHED_OUT"; "Status: REACHED_OUT"; "sent"].
Proof. vm_compute; repeat split; reflexivity. Qed.
