(* ===== verification/Dashboard.v ===== *)
(** * Dashboard: the lead queue page

    [DashboardPage], lines 79-521 of [src/frontend/src/lib/dates.ts] (the
    file holds the page after the date helpers): its state (lines
    104-114), the lists derived from the snapshot (131-139, 270), its four
    effects (125-168) and its handlers (170-268), with the conditions under
    which the page offers a button (272-299, 388-395, 471-482).

    [PageState] is the state of the [useState] hooks, [Swr] what the
    [useSWR] hook returns.  A setter of the source that takes a function
    of the previous state is a setter here that takes a function.  An
    asynchronous handler is cut at its [await]s into phases; each phase is
    a function on [PageState].

    Two readings of a handler are given.  [handleSingleSend] and
    [handleBulkSend] run a handler to completion against a backend that is
    a state-passing parameter.  [DashboardSteps] lets the phases of several
    handlers, the effects and the changes of the snapshot interleave. *)

From Stdlib Require Import QArith ZArith Lia.
From stdpp Require Import base tactics option list strings gmap pretty.
From S2P Require Import Prelude JsNumber JsString JsValue Collections ArraySort.
From S2P Require Import Calendar RefHost Leads Filters Dates Grouping.
Close Scope Q_scope.
Open Scope string_scope.

(** ** State *)

(** Line 98. *)
Definition refreshIntervalMs : Z := 15000.

Inductive Tone : Type := tone_info | tone_success | tone_error.

(** Lines 100-102; [null] is [None]. *)
Record Banner : Type := { tone : Tone; banner_message : string }.

(** Lines 106-114. *)
Record PageState : Type := {
  multiSelectMode : bool;
  selectedIds : list string;
  pendingIds : list string;
  banner : option Banner;
  copiedId : option string;
  activeLead : option Lead;
  appliedFilters : LeadFilters;
  showFilters : bool;
}.

Definition initial_page : PageState := {|
  multiSelectMode := false; selectedIds := []; pendingIds := []; banner := None;
  copiedId := None; activeLead := None; appliedFilters := DEFAULT_LEAD_FILTERS;
  showFilters := false;
|}.

(** What [useSWR] returns (lines 116-123), [mutate] apart. *)
Record Swr : Type := {
  data : option LeadsResponse;
  swr_error : option exn;
  isLoading : bool;
  isValidating : bool;
}.

(** The setters of the hooks. *)
Definition setMultiSelectMode (v : bool) (st : PageState) : PageState := {|
  multiSelectMode := v; selectedIds := selectedIds st; pendingIds := pendingIds st;
  banner := banner st; copiedId := copiedId st; activeLead := activeLead st;
  appliedFilters := appliedFilters st; showFilters := showFilters st |}.

Definition setSelectedIds (f : list string -> list string) (st : PageState) : PageState := {|
  multiSelectMode := multiSelectMode st; selectedIds := f (selectedIds st);
  pendingIds := pendingIds st; banner := banner st; copiedId := copiedId st;
  activeLead := activeLead st; appliedFilters := appliedFilters st;
  showFilters := showFilters st |}.

Definition setPendingIds (f : list string -> list string) (st : PageState) : PageState := {|
  multiSelectMode := multiSelectMode st; selectedIds := selectedIds st;
  pendingIds := f (pendingIds st); banner := banner st; copiedId := copiedId st;
  activeLead := activeLead st; appliedFilters := appliedFilters st;
  showFilters := showFilters st |}.

Definition setBanner (b : option Banner) (st : PageState) : PageState := {|
  multiSelectMode := multiSelectMode st; selectedIds := selectedIds st;
  pendingIds := pendingIds st; banner := b; copiedId := copiedId st;
  activeLead := activeLead st; appliedFilters := appliedFilters st;
  showFilters := showFilters st |}.

Definition setCopiedId (c : option string) (st : PageState) : PageState := {|
  multiSelectMode := multiSelectMode st; selectedIds := selectedIds st;
  pendingIds := pendingIds st; banner := banner st; copiedId := c;
  activeLead := activeLead st; appliedFilters := appliedFilters st;
  showFilters := showFilters st |}.

Definition setActiveLead (a : option Lead) (st : PageState) : PageState := {|
  multiSelectMode := multiSelectMode st; selectedIds := selectedIds st;
  pendingIds := pendingIds st; banner := banner st; copiedId := copiedId st;
  activeLead := a; appliedFilters := appliedFilters st; showFilters := showFilters st |}.

Definition setAppliedFilters (f : LeadFilters) (st : PageState) : PageState := {|
  multiSelectMode := multiSelectMode st; selectedIds := selectedIds st;
  pendingIds := pendingIds st; banner := banner st; copiedId := copiedId st;
  activeLead := activeLead st; appliedFilters := f; showFilters := showFilters st |}.

Definition setShowFilters (f : bool -> bool) (st : PageState) : PageState := {|
  multiSelectMode := multiSelectMode st; selectedIds := selectedIds st;
  pendingIds := pendingIds st; banner := banner st; copiedId := copiedId st;
  activeLead := activeLead st; appliedFilters := appliedFilters st;
  showFilters := f (showFilters st) |}.

(** ** Effects that do not read the host *)

(** Lines 125-129: where the router is sent, if anywhere. *)
Definition auth_effect (swr : Swr) : option string :=
  match swr_error swr with
  | Some e => if is_unauthorized e then Some "/login" else None
  | None => None
  end.

(** Lines 141-145. *)
Definition clear_pending_effect (swr : Swr) (st : PageState) : PageState :=
  if negb (isValidating swr) && negb (isLoading swr)
  then setPendingIds (fun _ => []) st
  else st.

(** Lines 147-158. *)
Definition prune_effect (filtered : list Lead) (st : PageState) : PageState :=
  setSelectedIds (fun prev =>
    let allowedIds := set_from_list (map property_id filtered) in
    foldl (fun next id => if set_has id allowedIds then set_add id next else next) [] prev)
    st.

(** Lines 160-168.  [updated !== activeLead] compares references; setting
    the state to an equal lead changes no value. *)
Definition active_effect (filtered : list Lead) (st : PageState) : PageState :=
  match activeLead st with
  | None => st
  | Some active =>
      match List.find (fun lead => String.eqb (property_id lead) (property_id active))
                      filtered with
      | Some updated => setActiveLead (Some updated) st
      | None => st
      end
  end.

(** ** Handlers *)

(** Lines 170-183. *)
Definition toggleSelect (propertyId : string) (st : PageState) : PageState :=
  setSelectedIds (fun prev =>
    let next := prev in
    if set_has propertyId next then set_delete propertyId next
    else set_add propertyId next) st.

(** Lines 185-188. *)
Definition clearSelection (st : PageState) : PageState :=
  setMultiSelectMode false (setSelectedIds (fun _ => []) st).

(** [handleSingleSend], lines 192-193: up to the first [await]. *)
Definition single_start (propertyId : string) (st : PageState) : PageState :=
  setBanner None (setPendingIds (fun prev => set_add propertyId prev) st).

(** Line 196. *)
Definition single_sent (st : PageState) : PageState :=
  setBanner (Some {| tone := tone_success; banner_message := "WhatsApp message sent." |}) st.

(** Lines 198-203. *)
Definition single_failed (err : exn) (st : PageState) : PageState :=
  setBanner (Some {| tone := tone_error;
                     banner_message := error_message_or "Failed to send WhatsApp." err |}) st.

(** Lines 204-210. *)
Definition single_finally (propertyId : string) (st : PageState) : PageState :=
  setPendingIds (fun prev => let next := prev in set_delete propertyId next) st.

(** [handleBulkSend], lines 216-226: [None] is the early return. *)
Definition bulk_start (st : PageState) : option (list string * PageState) :=
  if (length (selectedIds st) =? 0)%nat then None
  else
    let ids := selectedIds st in
    Some (ids, setPendingIds (fun prev => foldl (fun next id => set_add id next) prev ids)
                 (setBanner None st)).

(** Lines 248-260. *)
Definition bulk_banner (successCount failureCount : nat) : Banner :=
  if (failureCount =? 0)%nat then
    {| tone := tone_success;
       banner_message := "Sent " +:+ pretty successCount +:+ " WhatsApp message"
                         +:+ (if (successCount =? 1)%nat then "" else "s") +:+ "." |}
  else
    {| tone := tone_error;
       banner_message := "Sent " +:+ pretty successCount +:+ " messages, "
                         +:+ pretty failureCount +:+ " failed." |}.

(** Lines 244-260. *)
Definition bulk_finish (successCount failureCount : nat) (st : PageState) : PageState :=
  setBanner (Some (bulk_banner successCount failureCount))
    (setMultiSelectMode false
       (setSelectedIds (fun _ => []) (setPendingIds (fun _ => []) st))).

(** Lines 263-266; the timer of line 267 is [copy_expired]. *)
Definition handleCopy (lead : Lead) (st : PageState) : PageState :=
  if negb (opt_str_truthy (lister_phone lead)) then st
  else setCopiedId (Some (property_id lead)) st.

Definition copy_expired (st : PageState) : PageState := setCopiedId None st.

(** ** What the page offers *)

(** Line 277: the bulk button is disabled. *)
Definition bulk_disabled (st : PageState) : bool :=
  (length (selectedIds st) =? 0)%nat || (0 <? length (pendingIds st))%nat.

(** Lines 475-477: the send button of a lead is disabled. *)
Definition single_disabled (lead : Lead) (st : PageState) : bool :=
  let isSending := set_has (property_id lead) (pendingIds st) in
  isSending || (0 <? length (pendingIds st))%nat || negb (opt_str_truthy (lister_phone lead)).

Section WithHost.
Context {host : Host}.

(** ** The lists the page derives from the snapshot *)

(** Lines 131-134. *)
Definition filteredLeads (swr : Swr) (st : PageState) : list Lead :=
  let leads := default [] (response_leads <$> data swr) in
  applyLeadFilters leads (appliedFilters st).

(** Lines 136-139. *)
Definition groupedLeads (TODAY : Z) (swr : Swr) (st : PageState)
    : result exn (list LeadGroup) :=
  groupByDateAdded TODAY (filteredLeads swr st).

(** Line 270. *)
Definition hasLeads (swr : Swr) (st : PageState) : bool :=
  (0 <? length (filteredLeads swr st))%nat.

(** The effects of lines 141-168 after a render.  The effect that clears
    the pending set runs when [isValidating] or [isLoading] changed.  The
    other two run when the filtered leads changed; they change nothing
    when run again on the same leads, so they are run at every render. *)
Definition run_effects (old new : Swr) (st : PageState) : PageState :=
  let st1 :=
    if decide ((isValidating old, isLoading old) = (isValidating new, isLoading new))
    then st else clear_pending_effect new st in
  active_effect (filteredLeads new st1) (prune_effect (filteredLeads new st1) st1).

End WithHost.

(** ** Handlers run to completion *)

(** The backend as the handlers see it: [sendWhatsApp] and [mutate] act on
    a world and settle with a result.  Nothing else happens between the
    phases of the handler. *)
Section WithBackend.
Context {World : Type}.
Variable sendWhatsApp : string -> World -> result exn unit * World.
Variable mutate : World -> result exn unit * World.

(** Lines 190-213. *)
Definition handleSingleSend (propertyId : string) (st : PageState) (w : World)
    : PageState * World :=
  let st1 := single_start propertyId st in
  let '(sent, w1) := sendWhatsApp propertyId w in
  match sent with
  | Ok _ =>
      let st2 := single_sent st1 in
      let '(refreshed, w2) := mutate w1 in
      match refreshed with
      | Ok _ => (single_finally propertyId st2, w2)
      | Throw err => (single_finally propertyId (single_failed err st2), w2)
      end
  | Throw err => (single_finally propertyId (single_failed err st1), w1)
  end.

(** Lines 228-238: the loop and its two counters. *)
Fixpoint bulk_loop (ids : list string) (successCount failureCount : nat) (w : World)
    : nat * nat * World :=
  match ids with
  | [] => (successCount, failureCount, w)
  | id :: rest =>
      let '(sent, w1) := sendWhatsApp id w in
      match sent with
      | Ok _ => bulk_loop rest (successCount + 1) failureCount w1
      | Throw _ => bulk_loop rest successCount (failureCount + 1) w1
      end
  end.

(** Lines 215-261.  The third component is what the promise of the
    handler settles with: a rejection of [mutate] is not caught. *)
Definition handleBulkSend (st : PageState) (w : World)
    : PageState * World * result exn unit :=
  match bulk_start st with
  | None => (st, w, Ok tt)
  | Some (ids, st1) =>
      let '(successCount, failureCount, w1) := bulk_loop ids 0 0 w in
      if (0 <? successCount)%nat then
        let '(refreshed, w2) := mutate w1 in
        match refreshed with
        | Ok _ => (bulk_finish successCount failureCount st1, w2, Ok tt)
        | Throw err => (st1, w2, Throw err)
        end
      else (bulk_finish successCount failureCount st1, w1, Ok tt)
  end.

(** What the sends of a bulk run settle with, in order. *)
Fixpoint bulk_outcomes (ids : list string) (w : World) : list (result exn unit) :=
  match ids with
  | [] => []
  | id :: rest => let '(sent, w1) := sendWhatsApp id w in sent :: bulk_outcomes rest w1
  end.

(** The world after the sends of a bulk run. *)
Definition after_sends (ids : list string) (w : World) : World :=
  foldl (fun w id => (sendWhatsApp id w).2) w ids.

End WithBackend.

(** A backend that records the calls it receives: a send settles as
    [outcome] says, a refresh resolves. *)
Inductive Call : Type := CallSend (propertyId : string) | CallMutate.

Definition logged_send (outcome : string -> result exn unit) (propertyId : string)
    (log : list Call) : result exn unit * list Call :=
  (outcome propertyId, (log ++ [CallSend propertyId])%list).

Definition logged_mutate (log : list Call) : result exn unit * list Call :=
  (Ok tt, (log ++ [CallMutate])%list).

(** How many sends resolved, and how many rejected. *)
Definition successes (outcomes : list (result exn unit)) : nat :=
  length (List.filter is_ok outcomes).

Definition failures (outcomes : list (result exn unit)) : nat :=
  length (List.filter (fun r => negb (is_ok r)) outcomes).

(** ** The page as a transition system *)

(** A handler that is waiting at an [await]. *)
Inductive Task : Type :=
| SingleSending (propertyId : string)
| SingleRefreshing (propertyId : string)
| BulkSending (id : string) (rest : list string) (successCount failureCount : nat)
| BulkRefreshing (successCount failureCount : nat).

(** The page, the snapshot hook, the handlers in flight, the calls issued
    so far and where the router was last sent. *)
Record Sys : Type := {
  page : PageState;
  swr : Swr;
  tasks : list Task;
  calls : list Call;
  route : option string;
}.

(** The hook before its first response. *)
Definition initial_swr : Swr :=
  {| data := None; swr_error := None; isLoading := true; isValidating := true |}.

Definition initial_sys : Sys :=
  {| page := initial_page; swr := initial_swr; tasks := []; calls := []; route := None |}.

Definition with_page (p : PageState) (s : Sys) : Sys :=
  {| page := p; swr := swr s; tasks := tasks s; calls := calls s; route := route s |}.

Definition with_tasks (p : PageState) (ts : list Task) (cs : list Call) (s : Sys) : Sys :=
  {| page := p; swr := swr s; tasks := ts; calls := (calls s ++ cs)%list; route := route s |}.

(** What a bulk handler does when the send of [id] settles with [sent]
    (lines 231-260): the page, the task that replaces it, the call it
    issues. *)
Definition bulk_step (sent : result exn unit) (rest : list string)
    (successCount failureCount : nat) (p : PageState)
    : PageState * list Task * list Call :=
  let '(successCount, failureCount) :=
    match sent with
    | Ok _ => (successCount + 1, failureCount)
    | Throw _ => (successCount, failureCount + 1)
    end%nat in
  match rest with
  | id :: rest' => (p, [BulkSending id rest' successCount failureCount], [CallSend id])
  | [] =>
      if (0 <? successCount)%nat
      then (p, [BulkRefreshing successCount failureCount], [CallMutate])
      else (bulk_finish successCount failureCount p, [], [])
  end.

Definition after_bulk_step (t1 t2 : list Task) (r : PageState * list Task * list Call)
    (s : Sys) : Sys :=
  with_tasks r.1.1 (t1 ++ r.1.2 ++ t2) r.2 s.

Section Steps.
Context {host : Host}.

Inductive step : Sys -> Sys -> Prop :=
(** the hook returns a new snapshot state; the effects run *)
| step_snapshot s new :
    step s {| page := run_effects (swr s) new (page s); swr := new; tasks := tasks s;
              calls := calls s;
              route := match auth_effect new with Some r => Some r | None => route s end |}
(** [onApply] and [onReset] of the filter panel (lines 325-332) *)
| step_filters s filters :
    showFilters (page s) = true -> is_Some (data (swr s)) ->
    step s (with_page (run_effects (swr s) (swr s) (setAppliedFilters filters (page s))) s)
| step_show_filters s :
    step s (with_page (setShowFilters negb (page s)) s)
(** "Select multiple" (lines 291-298) *)
| step_multi s :
    multiSelectMode (page s) = false -> hasLeads (swr s) (page s) = true ->
    step s (with_page (setMultiSelectMode true (page s)) s)
(** the checkbox of a lead (lines 388-395) *)
| step_toggle s lead :
    multiSelectMode (page s) = true -> In lead (filteredLeads (swr s) (page s)) ->
    step s (with_page (toggleSelect (property_id lead) (page s)) s)
(** "Cancel selection" (lines 282-288) *)
| step_clear s :
    multiSelectMode (page s) = true -> hasLeads (swr s) (page s) = true ->
    step s (with_page (clearSelection (page s)) s)
(** "Open conversation" (lines 483-489) and its close button *)
| step_open s lead :
    In lead (filteredLeads (swr s) (page s)) ->
    step s (with_page (active_effect (filteredLeads (swr s) (page s))
                         (setActiveLead (Some lead) (page s))) s)
| step_close s :
    step s (with_page (setActiveLead None (page s)) s)
(** "Copy" (lines 427-437) and its timer *)
| step_copy s lead :
    In lead (filteredLeads (swr s) (page s)) ->
    step s (with_page (handleCopy lead (page s)) s)
| step_copy_expired s :
    step s (with_page (copy_expired (page s)) s)
(** "Send WhatsApp" of a lead (lines 471-482) *)
| step_single_click s lead :
    multiSelectMode (page s) = false -> In lead (filteredLeads (swr s) (page s)) ->
    single_disabled lead (page s) = false ->
    step s (with_tasks (single_start (property_id lead) (page s))
              (tasks s ++ [SingleSending (property_id lead)])
              [CallSend (property_id lead)] s)
| step_single_sent s t1 id t2 :
    tasks s = (t1 ++ SingleSending id :: t2)%list ->
    step s (with_tasks (single_sent (page s)) (t1 ++ SingleRefreshing id :: t2)
              [CallMutate] s)
| step_single_send_failed s t1 id t2 err :
    tasks s = (t1 ++ SingleSending id :: t2)%list ->
    step s (with_tasks (single_finally id (single_failed err (page s))) (t1 ++ t2) [] s)
| step_single_refreshed s t1 id t2 (refreshed : result exn unit) :
    tasks s = (t1 ++ SingleRefreshing id :: t2)%list ->
    step s (with_tasks
              (single_finally id
                 match refreshed with Ok _ => page s | Throw err => single_failed err (page s) end)
              (t1 ++ t2) [] s)
(** "Send WhatsApp to Selected" (lines 274-281) *)
| step_bulk_click s id rest p :
    multiSelectMode (page s) = true -> hasLeads (swr s) (page s) = true ->
    bulk_disabled (page s) = false -> bulk_start (page s) = Some (id :: rest, p) ->
    step s (with_tasks p (tasks s ++ [BulkSending id rest 0 0]) [CallSend id] s)
| step_bulk_sent s t1 id rest successCount failureCount t2 sent :
    tasks s = (t1 ++ BulkSending id rest successCount failureCount :: t2)%list ->
    step s (after_bulk_step t1 t2 (bulk_step sent rest successCount failureCount (page s)) s)
| step_bulk_refreshed s t1 successCount failureCount t2 (refreshed : result exn unit) :
    tasks s = (t1 ++ BulkRefreshing successCount failureCount :: t2)%list ->
    step s (with_tasks
              match refreshed with
              | Ok _ => bulk_finish successCount failureCount (page s)
              | Throw _ => page s
              end (t1 ++ t2) [] s)
(** "Log out" of the frame ([src/unnamed/part_002], lines 79-83): the
    route is replaced *)
| step_logout s :
    step s {| page := page s; swr := swr s; tasks := tasks s; calls := calls s;
              route := Some "/login" |}.

(** The states the page can be in. *)
Definition reachable (s : Sys) : Prop := rtc step initial_sys s.

(** ** Invariant *)

(** The selection and the pending set hold no id twice, and every selected
    id is the id of a lead on display. *)
Definition page_ok (w : Swr) (p : PageState) : Prop :=
  set_wf (selectedIds p) /\ set_wf (pendingIds p) /\
  forall id, In id (selectedIds p) -> In id (map property_id (filteredLeads w p)).

Definition page_wf (s : Sys) : Prop := page_ok (swr s) (page s).

End Steps.

(** ** Facts about the pieces *)

Lemma prune_fold_filter (allowed acc prev : list string) :
  set_wf (acc ++ prev) ->
  foldl (fun next id => if set_has id allowed then set_add id next else next) acc prev
  = (acc ++ List.filter (fun id => set_has id allowed) prev)%list.
Proof.
  revert acc; induction prev as [|id prev IH]; intros acc Hwf; simpl.
  - rewrite app_nil_r; reflexivity.
  - pose proof Hwf as (Ha & [_ Hp] & Hd)%set_wf_app.
    assert (Hfresh : set_has id acc = false).
    { apply not_true_iff_false; intros (x & Hx & He)%existsb_exists.
      specialize (Hd x Hx); unfold set_has in Hd; simpl in Hd.
      apply String.eqb_eq in He as ->; rewrite String.eqb_refl in Hd; discriminate. }
    destruct (set_has id allowed).
    + unfold set_add; rewrite Hfresh, IH, <- app_assoc by (rewrite <- app_assoc; exact Hwf).
      reflexivity.
    + apply IH, set_wf_app; repeat split; auto.
      intros x Hx; specialize (Hd x Hx); unfold set_has in Hd; simpl in Hd.
      apply orb_false_iff in Hd; tauto.
Qed.

Lemma prune_effect_selected filtered st :
  set_wf (selectedIds st) ->
  selectedIds (prune_effect filtered st)
  = List.filter (fun id => set_has id (map property_id filtered)) (selectedIds st).
Proof.
  intros Hwf; unfold prune_effect; simpl.
  rewrite (prune_fold_filter _ [] _ Hwf); simpl.
  apply List.filter_ext; intros id; apply set_has_from_list.
Qed.

Lemma foldl_set_add_wf (ids prev : list string) :
  set_wf prev -> set_wf (foldl (fun next id => set_add id next) prev ids).
Proof. revert prev; induction ids; simpl; auto using set_add_wf. Qed.

Lemma foldl_set_add_has id (ids prev : list string) :
  set_has id (foldl (fun next id => set_add id next) prev ids)
  = set_has id prev || set_has id ids.
Proof.
  revert prev; induction ids as [|x ids IH]; intros prev; simpl.
  - rewrite orb_false_r; reflexivity.
  - rewrite IH, set_has_add; unfold set_has; simpl.
    destruct (existsb _ prev), (id =? x)%string; reflexivity.
Qed.

(** ** Facts about a bulk run *)

Section BulkFacts.
Context {World : Type}.
Variable sendWhatsApp : string -> World -> result exn unit * World.
Variable mutate : World -> result exn unit * World.

Lemma bulk_outcomes_length ids w : length (bulk_outcomes sendWhatsApp ids w) = length ids.
Proof.
  revert w; induction ids as [|id ids IH]; intros w; simpl; [reflexivity|].
  destruct (sendWhatsApp id w) as [sent w1]; simpl; f_equal; apply IH.
Qed.

Lemma successes_failures (outcomes : list (result exn unit)) :
  (successes outcomes + failures outcomes = length outcomes)%nat.
Proof.
  unfold successes, failures; induction outcomes as [|r l IH]; simpl; [reflexivity|].
  destruct (is_ok r); simpl; lia.
Qed.

(** The loop sends in the order of [ids], one call after the other, and
    counts what the sends settle with. *)
Lemma bulk_loop_spec ids successCount failureCount w :
  bulk_loop sendWhatsApp ids successCount failureCount w
  = ((successCount + successes (bulk_outcomes sendWhatsApp ids w))%nat,
     (failureCount + failures (bulk_outcomes sendWhatsApp ids w))%nat,
     after_sends sendWhatsApp ids w).
Proof.
  revert successCount failureCount w; induction ids as [|id ids IH]; intros sc fc w.
  - simpl; rewrite !Nat.add_0_r; reflexivity.
  - unfold after_sends; simpl. destruct (sendWhatsApp id w) as [[[]|err] w1]; simpl;
      rewrite IH; unfold successes, failures, after_sends; simpl;
      f_equal; first [lia | reflexivity | (f_equal; lia)].
Qed.

Lemma bulk_start_Some st :
  selectedIds st <> [] ->
  bulk_start st
  = Some (selectedIds st,
          setPendingIds (fun prev => foldl (fun next id => set_add id next) prev (selectedIds st))
            (setBanner None st)).
Proof. unfold bulk_start; destruct (selectedIds st); [congruence | reflexivity]. Qed.

End BulkFacts.

(** ** Theorems about handlers run to completion *)

Section RunTheorems.
Context {World : Type}.
Variable sendWhatsApp : string -> World -> result exn unit * World.
Variable mutate : World -> result exn unit * World.

Lemma handleBulkSend_unfold st w :
  selectedIds st <> [] ->
  let ids := selectedIds st in
  let outcomes := bulk_outcomes sendWhatsApp ids w in
  let st1 := setPendingIds (fun prev => foldl (fun next id => set_add id next) prev ids)
               (setBanner None st) in
  let w1 := after_sends sendWhatsApp ids w in
  handleBulkSend sendWhatsApp mutate st w
  = if (0 <? successes outcomes)%nat then
      match (mutate w1).1 with
      | Ok _ => (bulk_finish (successes outcomes) (failures outcomes) st1, (mutate w1).2, Ok tt)
      | Throw err => (st1, (mutate w1).2, Throw err)
      end
    else (bulk_finish (successes outcomes) (failures outcomes) st1, w1, Ok tt).
Proof.
  intros Hne; unfold handleBulkSend; rewrite (bulk_start_Some st Hne), bulk_loop_spec; simpl.
  destruct (0 <? successes _)%nat; [|reflexivity].
  destruct (mutate _) as [[[]|err] w2]; reflexivity.
Qed.

(** However the send and the refresh settle, [handleSingleSend]
    leaves the lead out of the pending set and changes the membership of
    no other id. *)
Theorem handleSingleSend_cleanup propertyId st w :
  let st' := (handleSingleSend sendWhatsApp mutate propertyId st w).1 in
  set_has propertyId (pendingIds st') = false /\
  forall id, id <> propertyId -> set_has id (pendingIds st') = set_has id (pendingIds st).
Proof.
  assert (Hp : pendingIds (handleSingleSend sendWhatsApp mutate propertyId st w).1
               = set_delete propertyId (set_add propertyId (pendingIds st))).
  { unfold handleSingleSend; destruct (sendWhatsApp propertyId w) as [[[]|e] w1];
      [destruct (mutate w1) as [[[]|e] w2]|]; reflexivity. }
  simpl; rewrite Hp; split; [apply set_delete_not_has|].
  intros id Hne; rewrite set_has_delete, set_has_add.
  assert (Heq : (propertyId =? id)%string = false) by (apply String.eqb_neq; congruence).
  assert (Heq' : (id =? propertyId)%string = false) by (apply String.eqb_neq; congruence).
  simpl; rewrite Heq, Heq'; reflexivity.
Qed.

(** C3.  When [handleBulkSend] resolves on a selection that is not empty,
    the pending set and the selection are empty, selection mode is off,
    the banner reports how many sends resolved and how many rejected, the
    two counts add up to the number of selected ids, and the backend has
    seen the sends in the order of the selection followed by one refresh
    if a send resolved and none otherwise. *)
Theorem handleBulkSend_resolves st w st' w' :
  selectedIds st <> [] ->
  handleBulkSend sendWhatsApp mutate st w = (st', w', Ok tt) ->
  let outcomes := bulk_outcomes sendWhatsApp (selectedIds st) w in
  let w1 := after_sends sendWhatsApp (selectedIds st) w in
  pendingIds st' = [] /\ selectedIds st' = [] /\ multiSelectMode st' = false /\
  banner st' = Some (bulk_banner (successes outcomes) (failures outcomes)) /\
  (successes outcomes + failures outcomes = length (selectedIds st))%nat /\
  w' = if (0 <? successes outcomes)%nat then (mutate w1).2 else w1.
Proof.
  intros Hne; rewrite (handleBulkSend_unfold st w Hne); simpl.
  rewrite successes_failures, bulk_outcomes_length.
  destruct (0 <? successes _)%nat; [destruct (mutate _).1 as [[]|err]|];
    intros [= <- <-]; repeat split; reflexivity.
Qed.

(** C34.  When the refresh of a bulk run rejects, the handler rejects with
    it and the rest of the handler does not run: every selected id stays
    pending and the selection stays. *)
Theorem handleBulkSend_refresh_rejects st w err :
  selectedIds st <> [] ->
  (0 < successes (bulk_outcomes sendWhatsApp (selectedIds st) w))%nat ->
  (mutate (after_sends sendWhatsApp (selectedIds st) w)).1 = Throw err ->
  let '(st', _, settled) := handleBulkSend sendWhatsApp mutate st w in
  settled = Throw err /\ selectedIds st' = selectedIds st /\
  forall id, In id (selectedIds st) -> set_has id (pendingIds st') = true.
Proof.
  intros Hne Hs Hm; rewrite (handleBulkSend_unfold st w Hne); simpl.
  apply Nat.ltb_lt in Hs; rewrite Hs, Hm; repeat split.
  intros id Hin; simpl; rewrite foldl_set_add_has.
  apply orb_true_iff; right; apply set_has_In, Hin.
Qed.

(** With nothing selected [handleBulkSend] does nothing. *)
Theorem handleBulkSend_empty st w :
  selectedIds st = [] -> handleBulkSend sendWhatsApp mutate st w = (st, w, Ok tt).
Proof. unfold handleBulkSend, bulk_start; intros ->; reflexivity. Qed.

End RunTheorems.

Lemma after_sends_logged outcome ids log :
  after_sends (logged_send outcome) ids log = (log ++ map CallSend ids)%list.
Proof.
  unfold after_sends; revert log; induction ids as [|id ids IH]; intros log; simpl.
  - rewrite app_nil_r; reflexivity.
  - rewrite IH, <- app_assoc; reflexivity.
Qed.

Lemma bulk_outcomes_logged outcome ids log :
  bulk_outcomes (logged_send outcome) ids log = map outcome ids.
Proof. revert log; induction ids as [|id ids IH]; intros log; simpl; [|rewrite IH]; reflexivity. Qed.

Lemma successes_logged (outcome : string -> result exn unit) (ids : list string) :
  (0 <? successes (map outcome ids))%nat = existsb (fun id => is_ok (outcome id)) ids.
Proof.
  unfold successes; induction ids as [|id ids IH]; simpl; [reflexivity|].
  destruct (is_ok (outcome id)); simpl; [reflexivity | exact IH].
Qed.

(** C8.  Against a backend that records its calls, a bulk run issues one
    send per selected id, in the order of the selection, then exactly one
    refresh if some send resolved, and no refresh otherwise. *)
Theorem handleBulkSend_calls outcome st log :
  selectedIds st <> [] ->
  (handleBulkSend (logged_send outcome) logged_mutate st log).1.2
  = (log ++ map CallSend (selectedIds st)
       ++ if existsb (fun id => is_ok (outcome id)) (selectedIds st) then [CallMutate] else [])%list.
Proof.
  intros Hne; rewrite (handleBulkSend_unfold _ _ st log Hne); simpl.
  rewrite after_sends_logged, bulk_outcomes_logged.
  rewrite successes_logged; destruct (existsb _ _); simpl; [rewrite <- app_assoc|rewrite app_nil_r]; reflexivity.
Qed.

(** ** Facts about the steps *)

Section StepFacts.
Context {host : Host}.

Lemma filteredLeads_ext w p p' :
  appliedFilters p' = appliedFilters p -> filteredLeads w p' = filteredLeads w p.
Proof. unfold filteredLeads; intros ->; reflexivity. Qed.

Lemma active_effect_fields filtered p :
  selectedIds (active_effect filtered p) = selectedIds p /\
  pendingIds (active_effect filtered p) = pendingIds p /\
  appliedFilters (active_effect filtered p) = appliedFilters p.
Proof. unfold active_effect; repeat case_match; repeat split; reflexivity. Qed.

Lemma clear_pending_effect_fields w p :
  selectedIds (clear_pending_effect w p) = selectedIds p /\
  appliedFilters (clear_pending_effect w p) = appliedFilters p /\
  (set_wf (pendingIds p) -> set_wf (pendingIds (clear_pending_effect w p))).
Proof. unfold clear_pending_effect; case_match; repeat split; auto. Qed.

Lemma set_add_In (k x : string) s : In x (set_add k s) -> x = k \/ In x s.
Proof.
  unfold set_add; destruct (set_has k s); [auto|].
  intros [?|[<-|[]]]%in_app_or; auto.
Qed.

(** A page that differs in neither selection nor filters is as good. *)
Lemma page_ok_same w p p' :
  page_ok w p -> selectedIds p' = selectedIds p -> appliedFilters p' = appliedFilters p ->
  set_wf (pendingIds p') -> page_ok w p'.
Proof.
  intros (Hs & _ & Hsub) Hsel Hf Hp; unfold page_ok.
  rewrite Hsel, (filteredLeads_ext w p p' Hf); auto.
Qed.

(** The effects restore the invariant for the snapshot they ran on. *)
Lemma run_effects_ok old new p :
  set_wf (selectedIds p) -> set_wf (pendingIds p) -> page_ok new (run_effects old new p).
Proof.
  intros Hs Hp; unfold run_effects.
  set (p1 := if decide _ then p else clear_pending_effect new p).
  assert (H1 : selectedIds p1 = selectedIds p /\ appliedFilters p1 = appliedFilters p /\
               set_wf (pendingIds p1)).
  { unfold p1; case_match; [auto|]. destruct (clear_pending_effect_fields new p) as (? & ? & ?); auto. }
  destruct H1 as (Hs1 & Hf1 & Hp1).
  destruct (active_effect_fields (filteredLeads new p1)
              (prune_effect (filteredLeads new p1) p1)) as (Ha1 & Ha2 & Ha3).
  apply (page_ok_same new (prune_effect (filteredLeads new p1) p1));
    [|exact Ha1 | exact Ha3 | rewrite Ha2; exact Hp1].
  rewrite <- Hs1 in Hs; split; [|split; [exact Hp1|]].
  - rewrite prune_effect_selected by exact Hs; apply set_wf_filter, Hs.
  - intros id; rewrite prune_effect_selected by exact Hs.
    intros [_ Hin]%List.filter_In; apply set_has_In, Hin.
Qed.

Lemma toggleSelect_ok w p lead :
  page_ok w p -> In lead (filteredLeads w p) -> page_ok w (toggleSelect (property_id lead) p).
Proof.
  intros (Hs & Hp & Hsub) Hin; split; [|split; [exact Hp|]]; simpl.
  - destruct (set_has _ _); [apply set_delete_wf | apply set_add_wf]; exact Hs.
  - intros id; destruct (set_has _ _).
    + intros [Hid _]%List.filter_In; apply Hsub, Hid.
    + intros [->|Hid]%set_add_In; [apply in_map, Hin | apply Hsub, Hid].
Qed.

Lemma page_ok_cleared w p' :
  selectedIds p' = [] -> set_wf (pendingIds p') -> page_ok w p'.
Proof. intros Hs Hp; unfold page_ok; rewrite Hs; repeat split; auto; intros ? []. Qed.

Lemma bulk_step_ok w sent rest successCount failureCount p :
  page_ok w p -> page_ok w (bulk_step sent rest successCount failureCount p).1.1.
Proof.
  intros Hok; unfold bulk_step; destruct sent, rest; simpl; auto;
    case_match; simpl; auto; apply page_ok_cleared; simpl; auto.
Qed.

Lemma bulk_start_ok w p ids p' :
  page_ok w p -> bulk_start p = Some (ids, p') -> page_ok w p'.
Proof.
  intros Hok; unfold bulk_start; case_match; [discriminate|]. intros [= <- <-].
  apply (page_ok_same w p); auto; simpl; apply foldl_set_add_wf, Hok.
Qed.

End StepFacts.

(** ** Theorems about the transition system *)

Section StepTheorems.
Context {host : Host}.

Lemma step_page_wf s s' : page_wf s -> step s s' -> page_wf s'.
Proof.
  intros Hok Hstep; pose proof Hok as (Hs & Hp & Hsub).
  destruct Hstep; unfold page_wf, after_bulk_step; simpl;
    try (apply run_effects_ok; assumption);
    try (apply (page_ok_same _ (page s) _ Hok); [reflexivity | reflexivity |]; simpl;
         auto using set_add_wf, set_delete_wf).
  - apply toggleSelect_ok; assumption.
  - apply page_ok_cleared; auto.
  - destruct (active_effect_fields (filteredLeads (swr s) (page s))
                (setActiveLead (Some lead) (page s))) as (Ha1 & Ha2 & Ha3).
    apply (page_ok_same _ (page s) _ Hok); [rewrite Ha1 | rewrite Ha3 | rewrite Ha2]; auto.
  - apply (page_ok_same _ (page s) _ Hok); unfold handleCopy; case_match; auto.
  - apply (page_ok_same _ (page s) _ Hok); destruct refreshed; simpl;
      auto using set_delete_wf.
  - eapply bulk_start_ok; eassumption.
  - apply bulk_step_ok, Hok.
  - destruct refreshed; [apply page_ok_cleared; simpl; auto | exact Hok].
Qed.

(** C5.  In every state the page can reach, the selection and the pending
    set hold no id twice and every selected id is the id of a lead that
    passes the filters applied to the current snapshot. *)
Theorem reachable_page_wf s : reachable s -> page_wf s.
Proof.
  unfold reachable; revert s; apply rtc_ind_r.
  - repeat split; simpl; auto; intros ? [].
  - intros s s' _ Hstep IH; eapply step_page_wf; eassumption.
Qed.

(** ** A run of the handler is a path of the transition system *)

(** From a state where a bulk handler waits for the send of [id], the
    handler finishes along the steps, if nothing else happens meanwhile:
    the sends settle as [outcome] says and the refresh resolves.  The
    counters are those of [bulk_loop]. *)
Lemma bulk_sending_path outcome rest :
  forall id successCount failureCount s t1 t2 log,
    tasks s = (t1 ++ BulkSending id rest successCount failureCount :: t2)%list ->
    calls s = (log ++ [CallSend id])%list ->
    let r := bulk_loop (logged_send outcome) (id :: rest) successCount failureCount log in
    rtc step s
      {| page := bulk_finish r.1.1 r.1.2 (page s); swr := swr s; tasks := (t1 ++ t2)%list;
         calls := (r.2 ++ if (0 <? r.1.1)%nat then [CallMutate] else [])%list;
         route := route s |}.
Proof.
  induction rest as [|id' rest IH]; intros id sc fc s t1 t2 log Ht Hc;
    (eapply rtc_l; [exact (step_bulk_sent s t1 id _ sc fc t2 (outcome id) Ht)|]).
  - cbn [bulk_loop logged_send]; unfold after_bulk_step, bulk_step, with_tasks.
    destruct (outcome id) as [[]|err]; cbn [fst snd]; destruct (0 <? _)%nat eqn:E; simpl;
      rewrite <- Hc, ?app_nil_r; try apply rtc_refl.
    all: match goal with |- rtc step ?a _ =>
           pose proof (step_bulk_refreshed a t1 _ _ t2 (Ok tt) eq_refl) as Hstep end;
      unfold with_tasks in Hstep; simpl in Hstep; rewrite app_nil_r in Hstep;
      exact (rtc_once _ _ Hstep).
  - pose proof (IH id' (if is_ok (outcome id) then sc + 1 else sc)%nat
                  (if is_ok (outcome id) then fc else fc + 1)%nat
                  (after_bulk_step t1 t2 (bulk_step (outcome id) (id' :: rest) sc fc (page s)) s)
                  t1 t2 (calls s)) as Hpath.
    cbn [bulk_loop logged_send] in Hpath |- *; rewrite <- Hc.
    destruct (outcome id) as [[]|err]; apply Hpath; reflexivity.
Qed.

(** C14.  A bulk run against the recording backend is a path of the
    transition system: from a state where the bulk button is enabled, the
    steps lead to the page and the calls that [handleBulkSend] returns,
    with the handlers in flight untouched. *)
Theorem handleBulkSend_is_path outcome s :
  multiSelectMode (page s) = true -> hasLeads (swr s) (page s) = true ->
  bulk_disabled (page s) = false ->
  let r := handleBulkSend (logged_send outcome) logged_mutate (page s) (calls s) in
  rtc step s {| page := r.1.1; swr := swr s; tasks := tasks s; calls := r.1.2;
                route := route s |}.
Proof.
  intros Hm Hl Hd.
  assert (Hne : selectedIds (page s) <> [])
    by (intros Hnil; unfold bulk_disabled in Hd; rewrite Hnil in Hd; discriminate Hd).
  pose proof (bulk_start_Some (page s) Hne) as Hs; unfold handleBulkSend; rewrite Hs.
  set (st1 := setPendingIds _ _) in *; clearbody st1.
  destruct (selectedIds (page s)) as [|id rest]; [congruence|].
  eapply rtc_l; [exact (step_bulk_click s id rest st1 Hm Hl Hd Hs)|].
  pose proof (bulk_sending_path outcome rest id 0 0
                (with_tasks st1 (tasks s ++ [BulkSending id rest 0 0]) [CallSend id] s)
                (tasks s) [] (calls s) eq_refl eq_refl) as Hpath.
  destruct (bulk_loop _ _ _ _ _) as [[sc fc] log]; simpl in Hpath |- *.
  rewrite app_nil_r in Hpath; destruct (0 <? sc)%nat; simpl; [|rewrite app_nil_r in Hpath];
    exact Hpath.
Qed.

End StepTheorems.

(** The page is sent to the login route exactly when the snapshot
    hook reports an error whose status is 401. *)
Theorem auth_effect_login w :
  auth_effect w = Some "/login" <->
  exists e, swr_error w = Some e /\ is_unauthorized e = true.
Proof.
  unfold auth_effect; destruct (swr_error w) as [e|].
  - destruct (is_unauthorized e) eqn:E; split; eauto; try discriminate.
    intros (e' & [= <-] & He); congruence.
  - split; [discriminate | intros (e & He & _); discriminate].
Qed.

(** ** Progress *)

(** How many steps a task is from its end at most. *)
Definition task_weight (t : Task) : nat :=
  match t with
  | BulkSending _ rest _ _ => length rest + 2
  | _ => 1
  end.

Definition tasks_weight (ts : list Task) : nat := foldr (fun t n => task_weight t + n)%nat 0%nat ts.

(** The hook at rest, and while it validates, over the snapshot of [w]. *)
Definition at_rest (validating : bool) (w : Swr) : Swr :=
  {| data := data w; swr_error := swr_error w; isLoading := false;
     isValidating := validating |}.

Section Progress.
Context {host : Host}.

Ltac weigh ts := simpl; generalize (tasks_weight ts); intros; lia.

(** The handler that waits longest can go on: its request settles. *)
Lemma head_task_steps s t ts :
  tasks s = t :: ts ->
  exists s', step s s' /\ (tasks_weight (tasks s') < tasks_weight (tasks s))%nat.
Proof.
  intros E; rewrite E; destruct t as [id|id|id rest successCount failureCount
                                     |successCount failureCount].
  - eexists; split; [exact (step_single_send_failed s [] id ts (TypeError "") E)|weigh ts].
  - eexists; split; [exact (step_single_refreshed s [] id ts (Ok tt) E)|weigh ts].
  - eexists; split;
      [exact (step_bulk_sent s [] id rest successCount failureCount ts (Throw (TypeError "")) E)|].
    destruct rest as [|id' rest']; [destruct (0 <? successCount)%nat eqn:Hs|];
      unfold bulk_step; rewrite ?Hs; weigh ts.
  - eexists; split;
      [exact (step_bulk_refreshed s [] successCount failureCount ts (Ok tt) E)|weigh ts].
Qed.

(** Every handler in flight can run to its end. *)
Lemma tasks_drain s : exists s', rtc step s s' /\ tasks s' = [].
Proof.
  remember (tasks_weight (tasks s)) as n eqn:Hn.
  revert s Hn; induction n as [n IH] using lt_wf_ind; intros s ->.
  destruct (tasks s) as [|t ts] eqn:E; [exists s; split; [reflexivity | exact E]|].
  destruct (head_task_steps s t ts E) as (s1 & Hstep & Hlt); rewrite E in Hlt.
  destruct (IH _ Hlt s1 eq_refl) as (s' & Hpath & Hnone).
  exists s'; split; [exact (rtc_l _ _ _ _ Hstep Hpath) | exact Hnone].
Qed.

Lemma run_effects_pending old new p :
  (isValidating old, isLoading old) <> (isValidating new, isLoading new) ->
  isValidating new = false -> isLoading new = false ->
  pendingIds (run_effects old new p) = [].
Proof.
  intros Hchanged Hv Hl; unfold run_effects.
  rewrite decide_False by exact Hchanged.
  rewrite (proj1 (proj2 (active_effect_fields _ _))).
  unfold clear_pending_effect; rewrite Hv, Hl; reflexivity.
Qed.

(** C18.  Whatever state the page is in, it can come to rest: the requests
    in flight settle, a poll ends, and then no handler is waiting and no
    lead is pending, so that no send button is held disabled. *)
Theorem page_can_rest s :
  exists s', rtc step s s' /\ tasks s' = [] /\ pendingIds (page s') = [].
Proof.
  destruct (tasks_drain s) as (s1 & Hdrain & Hnone).
  pose (s2 := {| page := run_effects (swr s1) (at_rest true (swr s1)) (page s1);
                 swr := at_rest true (swr s1); tasks := tasks s1; calls := calls s1;
                 route := match auth_effect (at_rest true (swr s1)) with
                          | Some r => Some r | None => route s1 end |}).
  eexists; split; [|split].
  - etrans; [exact Hdrain|].
    eapply rtc_l; [exact (step_snapshot s1 (at_rest true (swr s1)))|].
    apply rtc_once; exact (step_snapshot s2 (at_rest false (swr s2))).
  - exact Hnone.
  - apply run_effects_pending; [discriminate | reflexivity..].
Qed.

End Progress.

(** ** Examples *)

Definition phone_lead (id : string) : Lead := {|
  property_id := id; display_id := id; title := ""; date_added := "2024-03-15T08:00:00Z";
  lister_name := ""; lister_phone := Some "0712345678"; status := LEAD;
  outreach_history := []; crm_raw := None;
  last_message_excerpt := None; last_message_at := None; unread_count := None;
|}.

(** The hook with a snapshot of one lead, idle and while it polls. *)
Definition loaded (validating : bool) : Swr := {|
  data := Some {| response_leads := [phone_lead "p1"] |}; swr_error := None;
  isLoading := false; isValidating := validating |}.

Definition sys_idle (w : Swr) (pending : list string) (ts : list Task) (cs : list Call) : Sys := {|
  page := setPendingIds (fun _ => pending) initial_page; swr := w; tasks := ts;
  calls := cs; route := None |}.

Section Traces.
Context {host : Host}.

(** The snapshot arrives, the operator sends to [p1], a poll starts and
    ends while the send is in flight. *)
Lemma trace_unpending :
  reachable (sys_idle (loaded false) [] [SingleSending "p1"] [CallSend "p1"]).
Proof.
  unfold reachable.
  eapply rtc_r; [eapply rtc_r; [eapply rtc_r; [eapply rtc_once|]|]|].
  - exact (step_snapshot initial_sys (loaded false)).
  - refine (step_single_click _ (phone_lead "p1") _ _ _);
      [reflexivity | left; reflexivity | reflexivity].
  - exact (step_snapshot _ (loaded true)).
  - exact (step_snapshot _ (loaded false)).
Qed.

(** A poll that ends while a send is in flight empties the pending
    set: the page can reach a state in which the send to a lead has not
    settled and the lead is not pending. *)
Theorem pending_cleared_while_sending :
  exists s, reachable s /\ tasks s = [SingleSending "p1"] /\ pendingIds (page s) = [].
Proof. eexists; split; [apply trace_unpending | split; reflexivity]. Qed.

(** C10.  The button of that lead is then enabled again, and a second click
    sends to the same lead while the first send is in flight. *)
Theorem reentrant_send_reachable :
  exists s, reachable s /\
    tasks s = [SingleSending "p1"; SingleSending "p1"] /\
    calls s = [CallSend "p1"; CallSend "p1"].
Proof.
  eexists; split; [eapply rtc_r; [apply trace_unpending|]|].
  - refine (step_single_click _ (phone_lead "p1") _ _ _);
      [reflexivity | left; reflexivity | reflexivity].
  - split; reflexivity.
Qed.

End Traces.

(** ** The bulk run of the specification: three ids, the second fails *)

Definition three_selected : PageState :=
  setMultiSelectMode true (setSelectedIds (fun _ => ["a"; "b"; "c"]) initial_page).

Definition second_fails (id : string) : result exn unit :=
  if String.eqb id "b" then Throw (ApiError "Template rejected" 422 VUndefined) else Ok tt.

Definition refresh_fails (log : list Call) : result exn unit * list Call :=
  (Throw (TypeError "Failed to fetch"), (log ++ [CallMutate])%list).

Example bulk_partial_failure :
  handleBulkSend (logged_send second_fails) logged_mutate three_selected []
  = (setBanner (Some {| tone := tone_error; banner_message := "Sent 2 messages, 1 failed." |})
       initial_page,
     [CallSend "a"; CallSend "b"; CallSend "c"; CallMutate], Ok tt).
Proof. vm_compute; reflexivity. Qed.

Example bulk_all_fail :
  handleBulkSend (logged_send (fun _ => Throw (TypeError "Failed to fetch"))) logged_mutate
    three_selected []
  = (setBanner (Some {| tone := tone_error; banner_message := "Sent 0 messages, 3 failed." |})
       initial_page,
     [CallSend "a"; CallSend "b"; CallSend "c"], Ok tt).
Proof. vm_compute; reflexivity. Qed.

Example single_send_examples :
  handleSingleSend (logged_send (fun _ => Ok tt)) logged_mutate "a" initial_page []
  = (setBanner (Some {| tone := tone_success; banner_message := "WhatsApp message sent." |})
       initial_page, [CallSend "a"; CallMutate]) /\
  handleSingleSend (logged_send second_fails) logged_mutate "b" initial_page []
  = (setBanner (Some {| tone := tone_error; banner_message := "Template rejected" |})
       initial_page, [CallSend "b"]) /\
  handleSingleSend (logged_send (fun _ => Throw (Thrown (VStr "x")))) logged_mutate "b"
    initial_page []
  = (setBanner (Some {| tone := tone_error; banner_message := "Failed to send WhatsApp." |})
       initial_page, [CallSend "b"]).
Proof. vm_compute; repeat split; reflexivity. Qed.

Lemma handleBulkSend_resolves_witness :
  exists st' w',
    handleBulkSend (logged_send second_fails) logged_mutate three_selected [] = (st', w', Ok tt) /\
    pendingIds st' = [] /\ selectedIds st' = [] /\ multiSelectMode st' = false.
Proof.
  eexists _, _; split; [vm_compute; reflexivity|].
  refine (let H := handleBulkSend_resolves (logged_send second_fails) logged_mutate
                     three_selected [] _ _ _ _ in
          conj (proj1 H) (conj (proj1 (proj2 H)) (proj1 (proj2 (proj2 H)))));
    [discriminate | vm_compute; reflexivity].
Defined.

Lemma handleBulkSend_refresh_rejects_witness :
  let '(st', _, settled) :=
    handleBulkSend (logged_send second_fails) refresh_fails three_selected [] in
  settled = Throw (TypeError "Failed to fetch") /\ selectedIds st' = ["a"; "b"; "c"] /\
  forall id, In id ["a"; "b"; "c"] -> set_has id (pendingIds st') = true.
Proof.
  apply (handleBulkSend_refresh_rejects (logged_send second_fails) refresh_fails
           three_selected [] (TypeError "Failed to fetch"));
    [discriminate | vm_compute; lia | reflexivity].
Defined.

Lemma handleBulkSend_empty_witness :
  handleBulkSend (logged_send second_fails) logged_mutate initial_page []
  = (initial_page, [], Ok tt).
Proof. apply handleBulkSend_empty; reflexivity. Defined.

Lemma handleBulkSend_calls_witness :
  (handleBulkSend (logged_send second_fails) logged_mutate three_selected []).1.2
  = [CallSend "a"; CallSend "b"; CallSend "c"; CallMutate].
Proof. apply (handleBulkSend_calls second_fails three_selected []); discriminate. Defined.

(** The snapshot of one lead, the lead selected, nothing in flight. *)
Definition bulk_ready : Sys := {|
  page := setMultiSelectMode true (setSelectedIds (fun _ => ["p1"]) initial_page);
  swr := loaded false; tasks := []; calls := []; route := None |}.

Lemma handleBulkSend_is_path_witness :
  rtc (step (host := host_bucharest)) bulk_ready
    {| page := setBanner (Some {| tone := tone_success;
                                  banner_message := "Sent 1 WhatsApp message." |})
                 initial_page;
       swr := loaded false; tasks := []; calls := [CallSend "p1"; CallMutate];
       route := None |}.
Proof.
  exact (handleBulkSend_is_path (host := host_bucharest) (fun _ => Ok tt) bulk_ready
           eq_refl eq_refl eq_refl).
Defined.

Lemma reachable_page_wf_witness :
  page_wf (host := host_bucharest)
    (sys_idle (loaded false) [] [SingleSending "p1"] [CallSend "p1"]).
Proof. apply (reachable_page_wf (host := host_bucharest)), trace_unpending. Defined.
