(* ===== verification/Wire.v ===== *)
(** * Wire: the dashboard on the wire

    [Dashboard] runs its handlers against a backend that is a parameter:
    a send and a refresh that act on a world.  [Api] gives the send that
    the page imports, [sendWhatsApp], over a transport.  Here the two
    meet: the handlers run over the endpoints of [Api] on a transport
    that records its calls.

    The refresh is [mutate] of the snapshot hook ([lib/dates.ts], lines
    116-123).  [mutate] is the library's; [swr_mutate] takes it as the
    specification describes [refresh()] (section 4.4): the fetcher of
    the hook, [fetchNewLeads], is issued again and the caller is given
    its outcome.  A hook that absorbed the call because a poll is in
    flight, or that kept a failure to itself, would issue no request or
    hand the handler no error: the refresh leg of the theorems below
    holds of a hook at rest that reports its failures.

    A simulation carries what [Dashboard] proves of a backend that
    records [CallSend] and [CallMutate] over to the wire: [call_of] reads
    a call of the transport as the request it stands for, and the two
    backends settle alike and keep their logs related. *)

From Stdlib Require Import QArith ZArith Lia.
From stdpp Require Import base tactics option list strings gmap.
From S2P Require Import Prelude JsNumber JsString JsValue RefHost Json Api Leads Dashboard.
Close Scope Q_scope.
Open Scope string_scope.

(** ** Two backends that settle alike *)

Section Simulation.
Context {W1 W2 : Type} (R : W1 -> W2 -> Prop).
Variable send1 : string -> W1 -> result exn unit * W1.
Variable send2 : string -> W2 -> result exn unit * W2.
Variable mutate1 : W1 -> result exn unit * W1.
Variable mutate2 : W2 -> result exn unit * W2.

(** The two sends, and the two refreshes, settle with the same result and
    keep the worlds related. *)
Definition alike {A} (run1 : W1 -> result exn A * W1) (run2 : W2 -> result exn A * W2) : Prop :=
  forall w1 w2, R w1 w2 -> (run1 w1).1 = (run2 w2).1 /\ R (run1 w1).2 (run2 w2).2.

Hypothesis send_alike : forall id, alike (send1 id) (send2 id).
Hypothesis mutate_alike : alike mutate1 mutate2.

Lemma bulk_loop_alike ids : forall successCount failureCount w1 w2,
  R w1 w2 ->
  (bulk_loop send1 ids successCount failureCount w1).1
  = (bulk_loop send2 ids successCount failureCount w2).1 /\
  R (bulk_loop send1 ids successCount failureCount w1).2
    (bulk_loop send2 ids successCount failureCount w2).2.
Proof.
  induction ids as [|id ids IH]; intros successCount failureCount w1 w2 Hw; [split; auto|].
  cbn [bulk_loop]; destruct (send_alike id w1 w2 Hw) as [Hres Hw'].
  destruct (send1 id w1) as [r1 w1'], (send2 id w2) as [r2 w2']; cbn in Hres, Hw'; subst r2.
  destruct r1; apply IH, Hw'.
Qed.

(** A bulk run leaves the same page, settles alike and keeps the worlds
    related. *)
Lemma handleBulkSend_alike st w1 w2 :
  R w1 w2 ->
  let run1 := handleBulkSend send1 mutate1 st w1 in
  let run2 := handleBulkSend send2 mutate2 st w2 in
  run1.1.1 = run2.1.1 /\ run1.2 = run2.2 /\ R run1.1.2 run2.1.2.
Proof.
  intros Hw; unfold handleBulkSend; destruct (bulk_start st) as [[ids st1]|]; [|cbn; auto].
  destruct (bulk_loop_alike ids 0 0 w1 w2 Hw) as [Hres Hw'].
  destruct (bulk_loop send1 ids 0 0 w1) as [[s1 f1] w1'],
           (bulk_loop send2 ids 0 0 w2) as [[s2 f2] w2']; cbn in Hres, Hw'.
  injection Hres as <- <-; destruct (0 <? s1)%nat; [|cbn; auto].
  destruct (mutate_alike w1' w2' Hw') as [Hm Hw''].
  destruct (mutate1 w1') as [m1 w1''], (mutate2 w2') as [m2 w2'']; cbn in Hm, Hw''; subst m2.
  destruct m1; cbn; auto.
Qed.

(** So does a single send. *)
Lemma handleSingleSend_alike propertyId st w1 w2 :
  R w1 w2 ->
  (handleSingleSend send1 mutate1 propertyId st w1).1
  = (handleSingleSend send2 mutate2 propertyId st w2).1 /\
  R (handleSingleSend send1 mutate1 propertyId st w1).2
    (handleSingleSend send2 mutate2 propertyId st w2).2.
Proof.
  intros Hw; unfold handleSingleSend; destruct (send_alike propertyId w1 w2 Hw) as [Hres Hw'].
  destruct (send1 propertyId w1) as [r1 w1'], (send2 propertyId w2) as [r2 w2'];
    cbn in Hres, Hw'; subst r2.
  destruct r1; [|cbn; auto].
  destruct (mutate_alike w1' w2' Hw') as [Hm Hw''].
  destruct (mutate1 w1') as [m1 w1''], (mutate2 w2') as [m2 w2'']; cbn in Hm, Hw''; subst m2.
  destruct m1; cbn; auto.
Qed.

End Simulation.

(** ** The backend of the page *)

Section Wire.
Context `{host : Host} `{!DecimalHost host}.
Variable env : Env.
Variable answer : string -> FetchInit -> result exn Response.

(** [mutate()] of the hook as the specification describes [refresh()]:
    the fetcher again, its outcome returned. *)
Definition swr_mutate (log : list FetchCall) : result exn unit * list FetchCall :=
  discard (fetchNewLeads env (recording answer) log).

(** The request that a call of the transport stands for: a call with a
    method is a send for the property its body names, a call without is
    the refresh. *)
Definition call_of (call : FetchCall) : option Call :=
  match method (call_init call) with
  | Some _ =>
      text ← body (call_init call);
      match JSON_parse text with
      | Ok (VObj fields) =>
          match fields !! "property_id" with
          | Some (VStr propertyId) => Some (CallSend propertyId)
          | _ => None
          end
      | _ => None
      end
  | None => Some CallMutate
  end.

(** What a send settles with, and what the refresh settles with. *)
Definition wire_outcome (propertyId : string) : result exn unit :=
  (sendWhatsApp env (recording answer) propertyId []).1.

Definition wire_refreshed : result exn unit := (swr_mutate []).1.

Definition refresh_with (settled : result exn unit) (log : list Call)
    : result exn unit * list Call :=
  (settled, (log ++ [CallMutate])%list).

(** The log of the transport, read as requests. *)
Definition as_calls (wire : list FetchCall) (log : list Call) : Prop :=
  omap call_of wire = log /\ length wire = length log.

Lemma omap_snoc {A B} (f : A -> option B) l x y :
  f x = Some y -> omap f (l ++ [x])%list = (omap f l ++ [y])%list.
Proof. intros Hx; rewrite omap_app; cbn; rewrite Hx; reflexivity. Qed.

Lemma as_calls_snoc wire log call c :
  as_calls wire log -> call_of call = Some c ->
  as_calls (wire ++ [call])%list (log ++ [c])%list.
Proof.
  intros [Hcalls Hlen] Hc; split; [rewrite (omap_snoc _ _ _ _ Hc), Hcalls; reflexivity|].
  rewrite !length_app, Hlen; reflexivity.
Qed.

Lemma send_alike propertyId :
  alike as_calls (sendWhatsApp env (recording answer) propertyId)
        (logged_send wire_outcome propertyId).
Proof.
  intros wire log Hlog; unfold wire_outcome, sendWhatsApp, discard, logged_send; cbn [fst snd].
  destruct (post_recorded env answer "/api/send-whatsapp"
              (json_object "property_id" (VStr propertyId)) wire
              (is_plain_json_object "property_id" (VStr propertyId) eq_refl))
    as (text & Hparse & Hsent).
  split; [rewrite !request_unfold; reflexivity|]; rewrite Hsent.
  apply as_calls_snoc; [exact Hlog|]; unfold call_of, posted; cbn; rewrite Hparse.
  unfold json_object; rewrite lookup_insert_eq; reflexivity.
Qed.

Lemma mutate_alike : alike as_calls swr_mutate (refresh_with wire_refreshed).
Proof.
  intros wire log Hlog; unfold wire_refreshed, swr_mutate, fetchNewLeads, discard, refresh_with.
  rewrite !request_unfold; cbn [fst snd]; split; [reflexivity|].
  apply as_calls_snoc; [exact Hlog | reflexivity].
Qed.

(** C19.  A bulk run over the endpoints of the wrapper leaves the page and
    settles as the run over the backend that records sends and refreshes
    does, and its requests, read off the transport, are those calls: one
    send per selected lead in the order of the selection, each with the
    property in its body, then at most one refresh. *)
Theorem handleBulkSend_on_the_wire st :
  let wire := handleBulkSend (sendWhatsApp env (recording answer)) swr_mutate st [] in
  let model := handleBulkSend (logged_send wire_outcome) (refresh_with wire_refreshed) st [] in
  wire.1.1 = model.1.1 /\ wire.2 = model.2 /\ as_calls wire.1.2 model.1.2.
Proof.
  apply (handleBulkSend_alike as_calls); [exact send_alike | exact mutate_alike | split; reflexivity].
Qed.

(** The requests of a bulk run as the transport saw them. *)
Corollary handleBulkSend_wire_requests st :
  selectedIds st <> [] ->
  omap call_of (handleBulkSend (sendWhatsApp env (recording answer)) swr_mutate st []).1.2
  = (map CallSend (selectedIds st)
       ++ if existsb (fun id => is_ok (wire_outcome id)) (selectedIds st)
          then [CallMutate] else [])%list.
Proof.
  intros Hne.
  destruct (handleBulkSend_alike as_calls _ _ _ _ send_alike mutate_alike st [] []
              (conj eq_refl eq_refl)) as (_ & _ & -> & _).
  rewrite (handleBulkSend_unfold _ _ st [] Hne); cbv zeta.
  rewrite after_sends_logged, bulk_outcomes_logged, successes_logged.
  destruct (existsb _ _); [|rewrite app_nil_r; reflexivity].
  unfold refresh_with; cbn [fst snd]; destruct wire_refreshed; reflexivity.
Qed.

(** The same for a single send. *)
Theorem handleSingleSend_on_the_wire propertyId st :
  let wire := handleSingleSend (sendWhatsApp env (recording answer)) swr_mutate propertyId st [] in
  let model :=
    handleSingleSend (logged_send wire_outcome) (refresh_with wire_refreshed) propertyId st [] in
  wire.1 = model.1 /\ as_calls wire.2 model.2.
Proof.
  apply (handleSingleSend_alike as_calls);
    [exact send_alike | exact mutate_alike | split; reflexivity].
Qed.

End Wire.

(** ** Examples *)

(** A backend that refuses the lead [b]. *)
Definition refuses_b (url : string) (options : FetchInit) : result exn Response :=
  if bool_decide (body options = Some ("{" +:+ dq +:+ "property_id" +:+ dq +:+ ":" +:+ dq
                                       +:+ "b" +:+ dq +:+ "}"))
  then Ok (response_of 422 "Unprocessable" ("{" +:+ dq +:+ "error" +:+ dq +:+ ":" +:+ dq
                                            +:+ "No phone" +:+ dq +:+ "}"))
  else Ok (response_of 200 "OK" "{}").

Example bulk_on_the_wire_example :
  let run := handleBulkSend (sendWhatsApp (host := host_bucharest) in_browser
                               (recording refuses_b))
               (swr_mutate (host := host_bucharest) in_browser refuses_b) three_selected [] in
  map call_url run.1.2
  = ["/api/send-whatsapp"; "/api/send-whatsapp"; "/api/send-whatsapp"; "/api/leads/new"] /\
  omap call_of run.1.2
  = [CallSend "a"; CallSend "b"; CallSend "c"; CallMutate] /\
  banner run.1.1 = Some {| tone := tone_error; banner_message := "Sent 2 messages, 1 failed." |}.
Proof. vm_compute; repeat split; reflexivity. Qed.

Lemma handleBulkSend_on_the_wire_witness :
  as_calls
    (handleBulkSend (sendWhatsApp (host := ref_host 7200000) in_browser (recording refuses_b))
       (swr_mutate (host := ref_host 7200000) in_browser refuses_b) three_selected []).1.2
    (handleBulkSend
       (logged_send (wire_outcome (host := ref_host 7200000) in_browser refuses_b))
       (refresh_with (wire_refreshed (host := ref_host 7200000) in_browser refuses_b))
       three_selected []).1.2.
Proof.
  exact (proj2 (proj2 (handleBulkSend_on_the_wire (host := ref_host 7200000) in_browser
                         refuses_b three_selected))).
Defined.
