(* ===== verification/Conversation.v ===== *)
(** * Conversation: the conversation panel

    [ConversationPanel], lines 104-290 of
    [src/frontend/src/pages/login.tsx] (the file holds the panel after the
    login page): its state (lines 128-129), the effect that marks the
    conversation read (141-145), the message list (153-155), [handleSend]
    (157-176) and the condition of the send button (279).

    As in [Dashboard], [handleSend] and the effect are run to completion
    against a backend that passes a world along, and [pstep] is the
    transition system in which typing, clicks, renders of the parent page
    and the settling of requests interleave.

    Both pages pass [onRefreshLeads] as an arrow function written in their
    markup ([dates.ts] lines 513-515, [chats.tsx] lines 255-257), so the
    panel receives a new function at every render of the page.  The
    identity of that function is a dependency of the effect; it is
    modelled as the number of the render that made it. *)

From Stdlib Require Import ZArith Lia.
From stdpp Require Import base tactics option list strings relations.
From S2P Require Import Prelude JsNumber JsString JsValue Leads.
Open Scope string_scope.

(** ** State *)

(** Lines 128-129. *)
Record PanelState : Type := {
  draft : string;
  sendError : option string;
}.

Definition initial_panel : PanelState := {| draft := ""; sendError := None |}.

Definition setDraft (text : string) (st : PanelState) : PanelState :=
  {| draft := text; sendError := sendError st |}.

Definition setSendError (e : option string) (st : PanelState) : PanelState :=
  {| draft := draft st; sendError := e |}.

(** Lines 153-155; [data] is what the message hook returns. *)
Definition panel_messages (data : option MessagesResponse) : list ConversationMessage :=
  default [] (messages <$> data).

Definition direction_string (d : Direction) : string :=
  match d with inbound => "inbound" | outbound => "outbound" end.

(** Line 222: the key of a message in the list. *)
Definition message_key (msg : ConversationMessage) : string :=
  default (timestamp msg +:+ "-" +:+ direction_string (direction msg)) (msg_id msg).

(** Line 279: the send button is disabled. *)
Definition send_disabled (st : PanelState) : bool := negb (str_truthy (trim (draft st))).

(** Lines 169-175. *)
Definition send_failed (err : exn) (st : PanelState) : PanelState :=
  setSendError (Some (error_message_or "Failed to send message. Please try again." err)) st.

(** ** The handler and the effect run to completion *)

Section WithBackend.
Context {World : Type}.
Variable markConversationRead : string -> World -> result exn unit * World.
Variable sendLeadReply : string -> string -> World -> result exn unit * World.
Variable mutate : World -> result exn unit * World.
Variable onRefreshLeads : World -> result exn unit * World.

(** Lines 141-145: the body of the effect.  The refresh is requested in the
    [then] of the promise, that is, when marking read resolves; what the
    refresh settles with is dropped.  The result is what the promise of
    line 142 settles with. *)
Definition mark_read_effect (propertyId : string) (w : World) : result exn unit * World :=
  let '(marked, w1) := markConversationRead propertyId w in
  match marked with
  | Ok _ => let '(_, w2) := onRefreshLeads w1 in (Ok tt, w2)
  | Throw err => (Throw err, w1)
  end.

(** Lines 157-176. *)
Definition handleSend (propertyId : string) (st : PanelState) (w : World)
    : PanelState * World :=
  let trimmed := trim (draft st) in
  if negb (str_truthy trimmed) then (st, w)
  else
    let st1 := setSendError None st in
    let '(sent, w1) := sendLeadReply propertyId trimmed w in
    match sent with
    | Ok _ =>
        let st2 := setDraft "" st1 in
        let '(refreshed, w2) := mutate w1 in
        match refreshed with
        | Ok _ =>
            let '(leads_refreshed, w3) := onRefreshLeads w2 in
            match leads_refreshed with
            | Ok _ => (st2, w3)
            | Throw err => (send_failed err st2, w3)
            end
        | Throw err => (send_failed err st2, w2)
        end
    | Throw err => (send_failed err st1, w1)
    end.

End WithBackend.

(** A backend that records the calls it receives. *)
Inductive PanelCall : Type :=
| CallMarkRead (propertyId : string)
| CallReply (propertyId message : string)
| CallMessages
| CallLeads.

Definition logged (call : PanelCall) (outcome : result exn unit) (log : list PanelCall)
    : result exn unit * list PanelCall :=
  (outcome, (log ++ [call])%list).

(** ** The panel as a transition system *)

(** A request of the panel that has not settled. *)
Inductive PanelTask : Type :=
| MarkingRead (propertyId : string)
| Replying
| RefreshingMessages
| RefreshingLeads.

(** The panel in its page: its state, the lead it shows, the number of the
    render of the page that made the [onRefreshLeads] it holds, the
    dependencies the effect last ran with, the requests in flight and the
    calls issued. *)
Record PanelSys : Type := {
  panel : PanelState;
  lead_id : string;
  refresh_identity : nat;
  effect_deps : option (string * nat);
  panel_tasks : list PanelTask;
  panel_calls : list PanelCall;
}.

(** The panel as the page mounts it for [propertyId], before its first
    effect. *)
Definition mounted (propertyId : string) : PanelSys := {|
  panel := initial_panel; lead_id := propertyId; refresh_identity := 0;
  effect_deps := None; panel_tasks := []; panel_calls := [] |}.

(** The effect of lines 141-145 after a render: it runs when
    [lead.property_id] or [onRefreshLeads] is not what it last ran with. *)
Definition run_mark_read (s : PanelSys) : PanelSys :=
  let deps := (lead_id s, refresh_identity s) in
  if decide (effect_deps s = Some deps) then s
  else {| panel := panel s; lead_id := lead_id s; refresh_identity := refresh_identity s;
          effect_deps := Some deps;
          panel_tasks := (panel_tasks s ++ [MarkingRead (lead_id s)])%list;
          panel_calls := (panel_calls s ++ [CallMarkRead (lead_id s)])%list |}.

Definition update_panel (p : PanelState) (ts : list PanelTask) (cs : list PanelCall)
    (s : PanelSys) : PanelSys := {|
  panel := p; lead_id := lead_id s; refresh_identity := refresh_identity s;
  effect_deps := effect_deps s; panel_tasks := ts;
  panel_calls := (panel_calls s ++ cs)%list |}.

(** A request of the panel settles. *)
Inductive psettle : PanelSys -> PanelSys -> Prop :=
(** marking read settles (lines 142-144) *)
| psettle_marked s t1 id t2 (marked : result exn unit) :
    panel_tasks s = (t1 ++ MarkingRead id :: t2)%list ->
    psettle s (update_panel (panel s) (t1 ++ t2)
                 match marked with Ok _ => [CallLeads] | Throw _ => [] end s)
(** the reply settles (lines 164-167) *)
| psettle_replied s t1 t2 (sent : result exn unit) :
    panel_tasks s = (t1 ++ Replying :: t2)%list ->
    psettle s match sent with
              | Ok _ => update_panel (setDraft "" (panel s)) (t1 ++ RefreshingMessages :: t2)
                          [CallMessages] s
              | Throw err => update_panel (send_failed err (panel s)) (t1 ++ t2) [] s
              end
(** the refresh of the messages settles (lines 167-168) *)
| psettle_messages s t1 t2 (refreshed : result exn unit) :
    panel_tasks s = (t1 ++ RefreshingMessages :: t2)%list ->
    psettle s match refreshed with
              | Ok _ => update_panel (panel s) (t1 ++ RefreshingLeads :: t2) [CallLeads] s
              | Throw err => update_panel (send_failed err (panel s)) (t1 ++ t2) [] s
              end
(** the refresh of the leads settles (line 168) *)
| psettle_leads s t1 t2 (refreshed : result exn unit) :
    panel_tasks s = (t1 ++ RefreshingLeads :: t2)%list ->
    psettle s (update_panel
                 match refreshed with
                 | Ok _ => panel s
                 | Throw err => send_failed err (panel s)
                 end (t1 ++ t2) [] s).

(** The page renders the panel: it gets the [onRefreshLeads] of this
    render, and its effect runs. *)
Definition rendered (s : PanelSys) : PanelSys :=
  run_mark_read {| panel := panel s; lead_id := lead_id s;
                   refresh_identity := S (refresh_identity s);
                   effect_deps := effect_deps s;
                   panel_tasks := panel_tasks s;
                   panel_calls := panel_calls s |}.

Inductive pstep : PanelSys -> PanelSys -> Prop :=
| pstep_render s : pstep s (rendered s)
(** the operator types (line 267) *)
| pstep_type s text :
    pstep s (update_panel (setDraft text (panel s)) (panel_tasks s) [] s)
(** "Send reply" (lines 276-283), up to the first [await] *)
| pstep_send s :
    send_disabled (panel s) = false ->
    pstep s (update_panel (setSendError None (panel s)) (panel_tasks s ++ [Replying])
               [CallReply (lead_id s) (trim (draft (panel s)))] s)
| pstep_settle s s' : psettle s s' -> pstep s s'.

(** The states the panel can reach once the page has rendered it for
    [propertyId]. *)
Definition panel_reachable (propertyId : string) (s : PanelSys) : Prop :=
  rtc pstep (mounted propertyId) s.

(** How many times marking read was requested. *)
Definition mark_read_calls (cs : list PanelCall) : nat :=
  length (List.filter (fun c => match c with CallMarkRead _ => true | _ => false end) cs).

(** A backend that records its calls and settles each as given. *)
Section Logged.
Variables (marked sent refreshed leads_refreshed : result exn unit).

Definition logged_mark_read_effect (propertyId : string) (log : list PanelCall)
    : result exn unit * list PanelCall :=
  mark_read_effect (fun id => logged (CallMarkRead id) marked)
    (logged CallLeads leads_refreshed) propertyId log.

Definition logged_handleSend (propertyId : string) (st : PanelState) (log : list PanelCall)
    : PanelState * list PanelCall :=
  handleSend (fun id message => logged (CallReply id message) sent)
    (logged CallMessages refreshed) (logged CallLeads leads_refreshed) propertyId st log.

End Logged.

(** What the panel keeps true. *)
Definition panel_inv (propertyId : string) (s : PanelSys) : Prop :=
  lead_id s = propertyId /\
  mark_read_calls (panel_calls s) = refresh_identity s /\
  effect_deps s = match refresh_identity s with
                  | O => None
                  | S _ => Some (propertyId, refresh_identity s)
                  end.

(** ** Facts *)

Lemma mark_read_calls_app cs cs' :
  mark_read_calls (cs ++ cs') = (mark_read_calls cs + mark_read_calls cs')%nat.
Proof. unfold mark_read_calls; rewrite List.filter_app, length_app; reflexivity. Qed.

Lemma update_panel_inv propertyId p ts cs s :
  mark_read_calls cs = 0%nat -> panel_inv propertyId s ->
  panel_inv propertyId (update_panel p ts cs s).
Proof.
  intros Hcs (Hl & Hc & Hd); unfold panel_inv; simpl.
  rewrite mark_read_calls_app, Hcs, Nat.add_0_r; auto.
Qed.

Lemma pstep_inv propertyId s s' : panel_inv propertyId s -> pstep s s' -> panel_inv propertyId s'.
Proof.
  intros Hinv Hstep; destruct Hstep as [s|s text|s Hsend|s s' []];
    try (destruct_all (result exn unit); apply update_panel_inv; auto; fail).
  destruct Hinv as (Hl & Hc & Hd); unfold rendered, run_mark_read; simpl.
  rewrite Hd, Hl; destruct (refresh_identity s) as [|n];
    (destruct (decide _) as [He|_]; [first [discriminate He | (injection He; lia)]|]);
    unfold panel_inv; simpl; rewrite mark_read_calls_app, Hc;
    change (mark_read_calls [CallMarkRead propertyId]) with 1%nat;
    repeat split; auto; lia.
Qed.

(** ** Theorems *)

Section RunTheorems.
Context {World : Type}.
Variable markConversationRead : string -> World -> result exn unit * World.
Variable sendLeadReply : string -> string -> World -> result exn unit * World.
Variable mutate : World -> result exn unit * World.
Variable onRefreshLeads : World -> result exn unit * World.

(** A draft that is blank is not sent: [handleSend] changes neither
    the panel nor the world. *)
Theorem handleSend_blank propertyId st w :
  trim (draft st) = "" ->
  handleSend sendLeadReply mutate onRefreshLeads propertyId st w = (st, w).
Proof. unfold handleSend; intros ->; reflexivity. Qed.

(** When the reply is rejected, the draft is kept, the error is shown,
    and neither refresh is requested: the world is the one the reply left. *)
Theorem handleSend_rejected propertyId st w err :
  trim (draft st) <> "" ->
  (sendLeadReply propertyId (trim (draft st)) w).1 = Throw err ->
  handleSend sendLeadReply mutate onRefreshLeads propertyId st w
  = ({| draft := draft st;
        sendError := Some (error_message_or "Failed to send message. Please try again." err) |},
     (sendLeadReply propertyId (trim (draft st)) w).2).
Proof.
  intros Hne Hs; unfold handleSend.
  destruct (trim (draft st)) eqn:Et; [congruence|]; simpl.
  destruct (sendLeadReply _ _ w) as [sent w1]; simpl in *; subst; reflexivity.
Qed.

End RunTheorems.

(** When every request resolves, [handleSend] sends the trimmed draft,
    then refreshes the messages, then the leads, in that order; the draft
    is emptied and no error is shown. *)
Theorem handleSend_resolves propertyId st log :
  trim (draft st) <> "" ->
  logged_handleSend (Ok tt) (Ok tt) (Ok tt) propertyId st log
  = ({| draft := ""; sendError := None |},
     (log ++ [CallReply propertyId (trim (draft st)); CallMessages; CallLeads])%list).
Proof.
  intros Hne; unfold logged_handleSend, handleSend, logged.
  destruct (trim (draft st)) eqn:Et; [congruence|]; simpl.
  rewrite <- !app_assoc; reflexivity.
Qed.

(** The effect asks for a refresh of the leads when marking read
    resolves, and does not when it is rejected. *)
Theorem mark_read_effect_calls marked leads_refreshed propertyId log :
  (logged_mark_read_effect marked leads_refreshed propertyId log).2
  = (log ++ CallMarkRead propertyId :: if is_ok marked then [CallLeads] else [])%list.
Proof.
  unfold logged_mark_read_effect, mark_read_effect, logged.
  destruct marked; simpl; [rewrite <- app_assoc|]; reflexivity.
Qed.

(** C15.  Marking read is requested once for every render of the page while
    the panel is open: in every reachable state the number of requests is
    the number of renders. *)
Theorem mark_read_every_render propertyId s :
  panel_reachable propertyId s -> mark_read_calls (panel_calls s) = refresh_identity s.
Proof.
  intros Hr; cut (panel_inv propertyId s); [intros (_ & H & _); exact H|].
  revert s Hr; apply rtc_ind_r; [repeat split|].
  intros s s' _ Hstep IH; eapply pstep_inv; eassumption.
Qed.

(** ** Examples *)

Definition typed (text : string) : PanelState := {| draft := text; sendError := None |}.

Example handleSend_examples :
  logged_handleSend (Ok tt) (Ok tt) (Ok tt) "p1" (typed "  hello ") []
  = (typed "", [CallReply "p1" "hello"; CallMessages; CallLeads]) /\
  logged_handleSend (Throw (ApiError "Window closed" 400 VUndefined)) (Ok tt) (Ok tt) "p1"
    (typed "hello") []
  = ({| draft := "hello"; sendError := Some "Window closed" |}, [CallReply "p1" "hello"]) /\
  logged_handleSend (Ok tt) (Throw (TypeError "Failed to fetch")) (Ok tt) "p1" (typed "hello") []
  = ({| draft := ""; sendError := Some "Failed to fetch" |}, [CallReply "p1" "hello"; CallMessages]) /\
  logged_handleSend (Ok tt) (Ok tt) (Ok tt) "p1" (typed "   ") [] = (typed "   ", []).
Proof. vm_compute; repeat split; reflexivity. Qed.

(** Three renders of the page after the panel opened: four requests. *)
Example mark_read_four_times :
  exists s, panel_reachable "p1" s /\
    panel_calls s = [CallMarkRead "p1"; CallMarkRead "p1"; CallMarkRead "p1"; CallMarkRead "p1"].
Proof.
  eexists; split.
  - eapply rtc_l; [apply pstep_render|]. eapply rtc_l; [apply pstep_render|].
    eapply rtc_l; [apply pstep_render|]. eapply rtc_l; [apply pstep_render|]. apply rtc_refl.
  - reflexivity.
Qed.

Lemma handleSend_blank_witness :
  logged_handleSend (Ok tt) (Ok tt) (Ok tt) "p1" (typed "   ") [] = (typed "   ", []).
Proof. apply handleSend_blank; reflexivity. Defined.

Lemma handleSend_rejected_witness :
  logged_handleSend (Throw (TypeError "Failed to fetch")) (Ok tt) (Ok tt) "p1" (typed "hello") []
  = ({| draft := "hello"; sendError := Some "Failed to fetch" |}, [CallReply "p1" "hello"]).
Proof.
  apply (handleSend_rejected
           (fun id message => logged (CallReply id message) (Throw (TypeError "Failed to fetch")))
           (logged CallMessages (Ok tt)) (logged CallLeads (Ok tt)) "p1" (typed "hello") []
           (TypeError "Failed to fetch")); [discriminate | reflexivity].
Defined.

Lemma handleSend_resolves_witness :
  logged_handleSend (Ok tt) (Ok tt) (Ok tt) "p1" (typed "  hello ") []
  = (typed "", [CallReply "p1" "hello"; CallMessages; CallLeads]).
Proof. apply (handleSend_resolves "p1" (typed "  hello ") []); discriminate. Defined.

Lemma mark_read_every_render_witness :
  mark_read_calls [CallMarkRead "p1"; CallMarkRead "p1"] = 2%nat.
Proof.
  refine (mark_read_every_render "p1"
            (run_mark_read {| panel := initial_panel; lead_id := "p1"; refresh_identity := 2;
                              effect_deps := Some ("p1", 1%nat);
                              panel_tasks := [MarkingRead "p1"];
                              panel_calls := [CallMarkRead "p1"] |}) _).
  eapply rtc_l; [apply pstep_render|]. eapply rtc_l; [apply pstep_render|]. apply rtc_refl.
Defined.
