(* ===== verification/Middleware.v ===== *)
(** * Middleware: the route guard

    [src/frontend/middleware.ts]: [isJwtExpired] (lines 7-19) and
    [middleware] (lines 21-56).

    The guard runs before a page is served.  It lets the assets and the
    API routes through, sends a request without a token to the login page,
    sends a request with an expired token there too and deletes the
    cookie, and sends a request for the login page with a live token to
    the dashboard.

    [atob] and [JSON.parse] are the class [Decoder].  A [NextRequest] is
    its path and its cookies; a [NextResponse] is [Next] or a redirection
    with the cookies it deletes.  The URL of a redirection is its path:
    [new URL(path, request.url)] keeps the origin of the request.
    [Date.now()] is the argument [now], in milliseconds.

    [follow] is the browser: it requests the target of a redirection with
    the cookies that are left.  Here every request is taken to reach the
    guard; the matcher of [config], which decides that, is in [Routes]. *)

From Stdlib Require Import QArith ZArith Lia Ascii.
From stdpp Require Import base tactics option list strings gmap.
From S2P Require Import Prelude JsNumber JsString JsValue RefHost.
Close Scope Q_scope.
Open Scope string_scope.

(** ** Definitions *)

Definition AUTH_COOKIE : string := "crmrebs_token".
Definition PUBLIC_PATHS : list string := ["/login"].

(** [atob] and [JSON.parse]: each returns or throws.  [atob] throws on a
    string that is not ASCII. *)
Class Decoder : Type := {
  atob : string -> result exn string;
  JSON_parse : string -> result exn value;
  atob_ascii : forall s t, atob s = Ok t -> is_ascii s = true;
}.

(** What [.*] matches: a string without a line terminator (LF, CR, U+2028
    and U+2029, the last two in UTF-8). *)
Fixpoint no_line_terminator (s : string) : bool :=
  match s with
  | EmptyString => true
  | String c r =>
      negb (Ascii.eqb c "010"%char || Ascii.eqb c "013"%char ||
            (Ascii.eqb c "226"%char &&
             (String.prefix (String "128"%char (String "168"%char "")) r ||
              String.prefix (String "128"%char (String "169"%char "")) r)))
      && no_line_terminator r
  end.

(** [PUBLIC_FILE.test(s)]: the pattern is a dot, then any characters but
    line terminators, then the end of [s]. *)
Fixpoint PUBLIC_FILE_test (s : string) : bool :=
  match s with
  | EmptyString => false
  | String c r => (Ascii.eqb c "." && no_line_terminator r) || PUBLIC_FILE_test r
  end.

(** [v?.key], for a key that no prototype defines. *)
Definition optional_get (v : value) (key : string) : value :=
  match v with
  | VObj fields => get_prop fields key
  | _ => VUndefined
  end.

(** The second segment of the token: [const [, payload] = token.split(".")]. *)
Definition payload_of (token : string) : option string := split_on "." token !! 1%nat.

(** From base64url to padded base64: the two [replace]s and [padEnd]. *)
Definition padded (payload : string) : string :=
  let base64 := replace_all "_" "/" (replace_all "-" "+" payload) in
  padEnd base64
         (String.length base64 + ((4 - String.length base64 mod 4) mod 4)) "=".

Record NextRequest : Type := {
  pathname : string;
  cookies : gmap string string;
}.

Inductive NextResponse : Type :=
| Next
| Redirect (url : string) (deleted : list string).

#[export] Instance NextResponse_eq_dec : EqDecision NextResponse.
Proof. solve_decision. Defined.

Definition loginUrl : string := "/login".
Definition dashboardUrl : string := "/".

(** The first condition of [middleware]: the paths it lets through without
    reading the cookie. *)
Definition bypassed (pathname : string) : bool :=
  startsWith pathname "/_next" || startsWith pathname "/api" ||
  startsWith pathname "/static" || String.eqb pathname "/favicon.ico" ||
  PUBLIC_FILE_test pathname.

(** [!token] for [request.cookies.get(AUTH_COOKIE)?.value]. *)
Definition no_token (token : option string) : bool :=
  match token with
  | Some t => negb (str_truthy t)
  | None => true
  end.

Section WithHost.
Context `{host : Host} `{decoder : Decoder}.

(** The [try] block of [isJwtExpired]. *)
Definition isJwtExpired_try (now : Z) (token : string) : result exn bool :=
  match payload_of token with
  | None => Ok true
  | Some payload =>
      if negb (str_truthy payload) then Ok true
      else
        text ← atob (padded payload);
        decoded ← JSON_parse text;
        let exp := optional_get decoded "exp" in
        if negb (ToBoolean exp) then Ok false
        else Ok (ltb (mul (ToNumber exp) (of_Z 1000)) (of_Z now))
  end.

(** [isJwtExpired]: whatever the block throws, the token counts as
    expired. *)
Definition isJwtExpired (now : Z) (token : string) : bool :=
  match isJwtExpired_try now token with
  | Ok expired => expired
  | Throw _ => true
  end.

Definition middleware (now : Z) (request : NextRequest) : NextResponse :=
  if bypassed (pathname request) then Next
  else
    let token := cookies request !! AUTH_COOKIE in
    if no_token token then
      if existsb (String.eqb (pathname request)) PUBLIC_PATHS then Next
      else Redirect loginUrl []
    else if isJwtExpired now (default "" token) then Redirect loginUrl [AUTH_COOKIE]
    else if String.eqb (pathname request) "/login" then Redirect dashboardUrl []
    else Next.

End WithHost.

(** The browser: after a redirection it requests the target, without the
    cookies the response deleted. *)
Definition follow (request : NextRequest) (response : NextResponse) : NextRequest :=
  match response with
  | Next => request
  | Redirect url deleted =>
      {| pathname := url; cookies := foldr delete (cookies request) deleted |}
  end.

(** ** Facts about the token *)

Section TokenFacts.
Context `{host : Host} `{decoder : Decoder}.

(** The padded text: the payload with at most three [=] after it, of a
    length that is a multiple of four. *)
Lemma padded_length payload :
  (String.length (padded payload) mod 4 = 0 /\
   String.length payload <= String.length (padded payload) < String.length payload + 4)%nat.
Proof.
  unfold padded; rewrite padEnd_length, !replace_all_length.
  apply pad_to_four.
Qed.

Lemma padded_is_ascii payload : is_ascii (padded payload) = is_ascii payload.
Proof.
  unfold padded, padEnd; rewrite is_ascii_append, is_ascii_repeat_char, andb_true_r
    by (vm_compute; lia).
  rewrite !is_ascii_replace_all by (vm_compute; lia); reflexivity.
Qed.

(** A token counts as live exactly when its second segment is not
    empty, decodes and parses, and the [exp] of what it parses to is falsy
    or, times 1000, not below the clock. *)
Theorem isJwtExpired_false_iff now token :
  isJwtExpired now token = false <->
  exists payload text decoded,
    payload_of token = Some payload /\ payload <> "" /\
    atob (padded payload) = Ok text /\ JSON_parse text = Ok decoded /\
    (ToBoolean (optional_get decoded "exp") = false \/
     ltb (mul (ToNumber (optional_get decoded "exp")) (of_Z 1000)) (of_Z now) = false).
Proof.
  unfold isJwtExpired, isJwtExpired_try, str_truthy; split.
  - destruct (payload_of token) as [payload|]; [|discriminate].
    destruct (String.eqb_spec payload "") as [->|Hne]; simpl; [discriminate|].
    destruct (atob (padded payload)) as [text|] eqn:Ha; simpl; [|discriminate].
    destruct (JSON_parse text) as [decoded|] eqn:Hj; simpl; [|discriminate].
    destruct (ToBoolean (optional_get decoded "exp")) eqn:Hb; simpl; eauto 12.
  - intros (payload & text & decoded & -> & Hne%String.eqb_neq & Ha & Hj & Hexp).
    rewrite Hne; simpl; rewrite Ha; simpl; rewrite Hj; simpl.
    destruct Hexp as [->| ->]; [reflexivity | destruct (ToBoolean _); reflexivity].
Qed.

(** What [isJwtExpired] returns once the payload has been decoded. *)
Lemma isJwtExpired_decoded now token payload text decoded :
  payload_of token = Some payload -> payload <> "" ->
  atob (padded payload) = Ok text -> JSON_parse text = Ok decoded ->
  isJwtExpired now token
  = ToBoolean (optional_get decoded "exp") &&
    ltb (mul (ToNumber (optional_get decoded "exp")) (of_Z 1000)) (of_Z now).
Proof.
  intros Hp Hne%String.eqb_neq Ha Hj; unfold isJwtExpired, isJwtExpired_try, str_truthy.
  rewrite Hp, Hne; simpl; rewrite Ha; simpl; rewrite Hj; simpl.
  destruct (ToBoolean _); reflexivity.
Qed.

(** For a payload that parses to an object whose [exp] is a number of
    seconds, not zero: expired when that instant is before the clock. *)
Lemma isJwtExpired_exp now token payload text fields e :
  payload_of token = Some payload -> payload <> "" ->
  atob (padded payload) = Ok text -> JSON_parse text = Ok (VObj fields) ->
  fields !! "exp" = Some (VNum (of_Z e)) -> e <> 0%Z ->
  isJwtExpired now token = (e * 1000 <? now)%Z.
Proof.
  intros Hp Hne Ha Hj He Hz; rewrite (isJwtExpired_decoded _ _ _ _ _ Hp Hne Ha Hj).
  cbn [optional_get]; rewrite (get_prop_Some _ _ _ He); cbn [ToBoolean ToNumber].
  rewrite num_truthy_of_Z, (proj2 (Z.eqb_neq _ _) Hz), mul_of_Z; apply ltb_of_Z.
Qed.

(** C38.  A payload that parses to a value without a truthy [exp] never
    counts as expired: not an object, no [exp], or an [exp] that is zero,
    empty, [null] or [false]. *)
Theorem isJwtExpired_without_exp now token payload text decoded :
  payload_of token = Some payload -> payload <> "" ->
  atob (padded payload) = Ok text -> JSON_parse text = Ok decoded ->
  ToBoolean (optional_get decoded "exp") = false ->
  isJwtExpired now token = false.
Proof.
  intros Hp Hne Ha Hj Hb; rewrite (isJwtExpired_decoded _ _ _ _ _ Hp Hne Ha Hj), Hb.
  reflexivity.
Qed.

(** A payload that is not ASCII counts as expired, whatever its padding. *)
Lemma isJwtExpired_non_ascii now token payload :
  payload_of token = Some payload -> is_ascii payload = false ->
  isJwtExpired now token = true.
Proof.
  intros Hp Hascii; unfold isJwtExpired, isJwtExpired_try; rewrite Hp.
  destruct (negb (str_truthy payload)); [reflexivity|].
  destruct (atob (padded payload)) as [text|] eqn:Ha; [|reflexivity].
  apply atob_ascii in Ha; rewrite padded_is_ascii in Ha; congruence.
Qed.

(** A token that counts as expired at one instant counts as expired
    at every later one. *)
Theorem isJwtExpired_monotone now now' token :
  (now <= now')%Z -> isJwtExpired now token = true -> isJwtExpired now' token = true.
Proof.
  intros Hle; unfold isJwtExpired, isJwtExpired_try.
  destruct (payload_of token) as [payload|]; [|tauto].
  destruct (negb (str_truthy payload)); [tauto|].
  destruct (atob (padded payload)) as [text|]; simpl; [|tauto].
  destruct (JSON_parse text) as [decoded|]; simpl; [|tauto].
  destruct (negb (ToBoolean _)); [tauto | apply ltb_of_Z_mono, Hle].
Qed.

End TokenFacts.

(** ** Facts about the guard *)

Section GuardFacts.
Context `{host : Host} `{decoder : Decoder}.

(** The login page is served to a request without a token. *)
Lemma middleware_login now request :
  pathname request = loginUrl -> no_token (cookies request !! AUTH_COOKIE) = true ->
  middleware now request = Next.
Proof. unfold middleware; intros -> ->; reflexivity. Qed.

(** A redirection either goes to the login page and leaves no token, or
    goes to the dashboard and deletes nothing. *)
Lemma middleware_redirect_inv now request url deleted :
  middleware now request = Redirect url deleted ->
  (url = loginUrl /\ no_token (foldr delete (cookies request) deleted !! AUTH_COOKIE) = true) \/
  (url = dashboardUrl /\ deleted = [] /\
   no_token (cookies request !! AUTH_COOKIE) = false /\ isJwtExpired now (default "" (cookies request !! AUTH_COOKIE)) = false).
Proof.
  unfold middleware; destruct (bypassed _); [discriminate|].
  destruct (no_token _) eqn:Hno; [destruct (existsb _ _); intros [= <- <-]; auto|].
  destruct (isJwtExpired _ _).
  - intros [= <- <-]; left; split; [reflexivity|]; simpl; rewrite lookup_delete_eq; reflexivity.
  - destruct (String.eqb (pathname request) "/login"); intros [= <- <-]; auto.
Qed.

(** The page of a path that is not let through and is not the login page
    is served exactly to a token that is not empty and has not expired. *)
Lemma middleware_Next_iff now request :
  bypassed (pathname request) = false -> pathname request <> loginUrl ->
  middleware now request = Next <->
  exists token, cookies request !! AUTH_COOKIE = Some token /\ token <> "" /\
                isJwtExpired now token = false.
Proof.
  intros Hby Hpath%String.eqb_neq; unfold loginUrl in Hpath.
  unfold middleware, no_token, str_truthy, PUBLIC_PATHS; rewrite Hby; simpl; rewrite Hpath; simpl.
  destruct (cookies request !! AUTH_COOKIE) as [token|]; simpl;
    [destruct (String.eqb_spec token "") as [->|Hne]; simpl;
     [|destruct (isJwtExpired now token) eqn:He]|];
    (split; [try discriminate; eauto | intros (t & Heq & Hne' & He'); simplify_eq; congruence]).
Qed.

(** C33.  A page that is not let through and is not the login page is
    served only to a request whose cookie holds a token that is not empty
    and has not expired. *)
Theorem middleware_guards now request :
  bypassed (pathname request) = false -> pathname request <> loginUrl ->
  middleware now request = Next ->
  exists token, cookies request !! AUTH_COOKIE = Some token /\ token <> "" /\
                isJwtExpired now token = false.
Proof. intros Hby Hpath; apply middleware_Next_iff; assumption. Qed.

(** After a redirection the browser is served, or it was sent from the
    login page to the dashboard with a token that has expired since. *)
Lemma middleware_after_redirect now now' request url deleted :
  middleware now request = Redirect url deleted ->
  middleware now' (follow request (Redirect url deleted)) = Next \/
  middleware now' (follow request (Redirect url deleted)) = Redirect loginUrl [AUTH_COOKIE].
Proof.
  intros [[-> Hno]|(-> & -> & Hno & _)]%middleware_redirect_inv.
  - left; apply middleware_login; [reflexivity | exact Hno].
  - unfold middleware; simpl; rewrite Hno.
    destruct (isJwtExpired now' _); [right | left]; reflexivity.
Qed.

(** C35.  A chain of redirections has at most two links, whatever the
    clock does between the requests: the third response serves a page. *)
Theorem middleware_redirects_settle now1 now2 now3 request url1 deleted1 url2 deleted2 :
  middleware now1 request = Redirect url1 deleted1 ->
  middleware now2 (follow request (Redirect url1 deleted1)) = Redirect url2 deleted2 ->
  middleware now3 (follow (follow request (Redirect url1 deleted1)) (Redirect url2 deleted2))
  = Next.
Proof.
  intros H1 H2.
  destruct (middleware_after_redirect _ now2 _ _ _ H1) as [Hn|Hr]; [congruence|].
  rewrite Hr in H2; injection H2 as <- <-.
  apply middleware_login; [reflexivity | simpl; rewrite lookup_delete_eq; reflexivity].
Qed.

(** At one instant one redirection is enough. *)
Lemma middleware_redirect_once now request url deleted :
  middleware now request = Redirect url deleted ->
  middleware now (follow request (Redirect url deleted)) = Next.
Proof.
  intros [[-> Hno]|(-> & -> & Hno & Hlive)]%middleware_redirect_inv.
  - apply middleware_login; [reflexivity | exact Hno].
  - unfold middleware; simpl; rewrite Hno, Hlive; reflexivity.
Qed.

End GuardFacts.

(** ** Examples *)

(** A decoder that knows the payloads and the texts of the examples. *)
Definition lookup_text {A} (table : list (string * A)) (s : string) : result exn A :=
  match List.find (fun entry => String.eqb (fst entry) s) table with
  | Some entry => Ok (snd entry)
  | None => Throw (SyntaxError "unknown text")
  end.

Definition quoted (s : string) : string := String "034"%char (s +:+ String "034"%char "").

Definition exp_text (seconds : string) : string := "{" +:+ quoted "exp" +:+ ":" +:+ seconds +:+ "}".
Definition sub_text : string := "{" +:+ quoted "sub" +:+ ":" +:+ quoted "operator" +:+ "}".

Definition sample_payloads : list (string * string) := [
  ("eyJleHAiOjE3MTA1MDAwMDB9", exp_text "1710500000");
  ("eyJleHAiOjE3MTAwMDAwMDB9", exp_text "1710000000");
  ("eyJzdWIiOiJvcGVyYXRvciJ9", sub_text);
  ("bnVsbA==", "null")
].

Definition sample_texts : list (string * value) := [
  (exp_text "1710500000", VObj {["exp" := VNum (of_Z 1710500000)]});
  (exp_text "1710000000", VObj {["exp" := VNum (of_Z 1710000000)]});
  (sub_text, VObj {["sub" := VStr "operator"]});
  ("null", VNull)
].

Definition sample_atob (s : string) : result exn string :=
  if is_ascii s then lookup_text sample_payloads s
  else Throw (Thrown (VStr "InvalidCharacterError")).

Lemma sample_atob_ascii s t : sample_atob s = Ok t -> is_ascii s = true.
Proof. unfold sample_atob; destruct (is_ascii s); [reflexivity | discriminate]. Qed.

Definition sample_decoder : Decoder := {|
  atob := sample_atob;
  JSON_parse := lookup_text sample_texts;
  atob_ascii := sample_atob_ascii;
|}.

Definition guard_now : Z := 1710496800000.
Definition live_token : string := "h.eyJleHAiOjE3MTA1MDAwMDB9.s".
Definition stale_token : string := "h.eyJleHAiOjE3MTAwMDAwMDB9.s".

Definition visit (path : string) (token : option string) : NextRequest :=
  {| pathname := path;
     cookies := match token with Some t => {[AUTH_COOKIE := t]} | None => ∅ end |}.

(** The guard on the paths of the console, without a token, with a live
    one and with a stale one. *)
Example middleware_example :
  let guard := middleware (host := host_bucharest) (decoder := sample_decoder) guard_now in
  map guard [visit "/" None; visit "/login" None; visit "/chats" (Some live_token);
             visit "/login" (Some live_token); visit "/" (Some stale_token);
             visit "/" (Some ""); visit "/logo.png" None; visit "/api/leads" None;
             visit "/" (Some "opaque")]
  = [Redirect "/login" []; Next; Next; Redirect "/" []; Redirect "/login" [AUTH_COOKIE];
     Redirect "/login" []; Next; Next; Redirect "/login" [AUTH_COOKIE]].
Proof. vm_compute; reflexivity. Qed.

(** A path with a dot in any segment is let through. *)
Example bypassed_dotted_segment :
  map bypassed ["/v1.2/leads"; "/leads"; "/apiary"; "/static"; "/favicon.ico"]
  = [true; false; true; true; true].
Proof. vm_compute; reflexivity. Qed.

(** The payload [bnVsbA] is padded to [bnVsbA==]; it decodes to [null],
    and the token counts as live. *)
Example isJwtExpired_null_payload :
  padded "bnVsbA" = "bnVsbA==" /\
  isJwtExpired (host := host_bucharest) (decoder := sample_decoder) guard_now "h.bnVsbA.s" = false.
Proof. vm_compute; split; reflexivity. Qed.

Example isJwtExpired_exp_example :
  isJwtExpired (host := host_bucharest) (decoder := sample_decoder) guard_now live_token = false /\
  isJwtExpired (host := host_bucharest) (decoder := sample_decoder) guard_now stale_token = true /\
  isJwtExpired (host := host_bucharest) (decoder := sample_decoder) guard_now "one-segment" = true.
Proof. vm_compute; repeat split; reflexivity. Qed.

(** ** Witnesses *)

Lemma isJwtExpired_without_exp_witness :
  isJwtExpired (host := host_bucharest) (decoder := sample_decoder) guard_now
               "h.eyJzdWIiOiJvcGVyYXRvciJ9.s" = false.
Proof.
  apply (isJwtExpired_without_exp (host := host_bucharest) (decoder := sample_decoder) guard_now
           _ "eyJzdWIiOiJvcGVyYXRvciJ9" sub_text (VObj {["sub" := VStr "operator"]}));
    [reflexivity | discriminate | reflexivity | reflexivity | reflexivity].
Defined.

Lemma isJwtExpired_monotone_witness :
  isJwtExpired (host := host_bucharest) (decoder := sample_decoder) (guard_now + 1) stale_token
  = true.
Proof.
  apply (isJwtExpired_monotone (host := host_bucharest) (decoder := sample_decoder) guard_now);
    [unfold guard_now; lia | vm_compute; reflexivity].
Defined.

Lemma middleware_guards_witness :
  exists token, cookies (visit "/chats" (Some live_token)) !! AUTH_COOKIE = Some token /\
                token <> "" /\
                isJwtExpired (host := host_bucharest) (decoder := sample_decoder) guard_now token
                = false.
Proof.
  apply (middleware_guards (host := host_bucharest) (decoder := sample_decoder) guard_now
           (visit "/chats" (Some live_token)));
    [reflexivity | discriminate | vm_compute; reflexivity].
Defined.

(** A token that expires between the requests: from the login page to the
    dashboard, from there back to the login page, which is then served. *)
Lemma middleware_redirects_settle_witness :
  middleware (host := host_bucharest) (decoder := sample_decoder) (guard_now + 2)
    (follow (follow (visit "/login" (Some live_token)) (Redirect "/" []))
            (Redirect "/login" [AUTH_COOKIE]))
  = Next.
Proof.
  apply (middleware_redirects_settle (host := host_bucharest) (decoder := sample_decoder)
           guard_now 1710500000001 (guard_now + 2) (visit "/login" (Some live_token)));
    vm_compute; reflexivity.
Defined.
