(* ===== verification/Token.v ===== *)
(** * Token: the guard on the decoder of the runtime

    [Middleware] states the guard over the class [Decoder].  Here the
    class is filled with [Base64.atob] and [Json.JSON_parse], and
    [isJwtExpired] is followed through a whole token: the split at the
    dots, the two replacements, the padding, [atob], [JSON.parse] and the
    comparison of [exp] with the clock.

    [token_of] writes a token as its issuer does: the payload is the
    base64url text of the bytes of the claims, between a header and a
    signature that the guard does not read. *)

From Stdlib Require Import QArith NArith ZArith Lia Ascii.
From stdpp Require Import base tactics option list strings gmap pretty.
From S2P Require Import Prelude JsNumber JsString JsValue RefHost Base64 Json Middleware.
Close Scope Q_scope.
Open Scope string_scope.

(** ** Definitions *)

#[export] Instance runtime_decoder : Decoder := {|
  Middleware.atob := Base64.atob;
  Middleware.JSON_parse := Json.JSON_parse;
  atob_ascii := Base64.atob_is_ascii;
|}.

Definition token_of (header : string) (claims : list N) (signature : string) : string :=
  header +:+ "." +:+ base64url claims +:+ "." +:+ signature.

(** No dot in [s]. *)
Definition dotless (s : string) : Prop := Forall (fun c => c <> "."%char) (chars_of_string s).

(** What [isJwtExpired] does with the parsed payload. *)
Definition expired_claims `{host : Host} (now : Z) (decoded : value) : bool :=
  let exp := optional_get decoded "exp" in
  if negb (ToBoolean exp) then false
  else ltb (mul (ToNumber exp) (of_Z 1000)) (of_Z now).

(** ** The payload of a token *)

Lemma split_on_dotless sep h r :
  Forall (fun c => c <> sep) (chars_of_string h) ->
  split_on sep (h +:+ String sep r) = h :: split_on sep r.
Proof.
  induction h as [|c h IH]; simpl; intros Hh.
  - rewrite Ascii.eqb_refl; reflexivity.
  - apply Forall_cons in Hh as [Hc Hh]; rewrite (proj2 (Ascii.eqb_neq c sep) Hc), (IH Hh).
    reflexivity.
Qed.

Lemma payload_of_token header claims signature :
  dotless header -> Forall (fun b => b < 256)%N claims ->
  payload_of (token_of header claims signature) = Some (base64url claims).
Proof.
  intros Hh Hb; unfold payload_of.
  change (token_of header claims signature)
    with (header +:+ String "." (base64url claims +:+ String "." signature)).
  rewrite (split_on_dotless _ _ _ Hh), (split_on_dotless _ _ _ (base64url_no_dot claims Hb)).
  reflexivity.
Qed.

(** The two replacements and the padding turn the payload into the
    base64 text of the claims. *)
Lemma padded_base64url claims :
  Forall (fun b => b < 256)%N claims -> padded (base64url claims) = encode claims.
Proof.
  intros Hb; unfold padded, padEnd; rewrite (base64url_decoded claims Hb).
  rewrite encode_body_padding, <- (padding_of_body claims); do 2 f_equal; lia.
Qed.

Section WithHost.
Context `{host : Host}.

(** The guard reads the claims that the token carries. *)
Lemma isJwtExpired_try_token now header claims signature :
  dotless header -> claims <> [] -> Forall (fun b => b < 256)%N claims ->
  isJwtExpired_try now (token_of header claims signature)
  = (decoded ← Json.JSON_parse (latin1_string claims); Ok (expired_claims now decoded)).
Proof.
  intros Hh Hne Hb; unfold isJwtExpired_try; rewrite (payload_of_token _ _ _ Hh Hb).
  assert (str_truthy (base64url claims) = true) as ->.
  { unfold str_truthy; apply negb_true_iff, String.eqb_neq, base64url_nonempty, Hne. }
  cbn [negb]; rewrite (padded_base64url claims Hb).
  change (Middleware.atob (encode claims)) with (Base64.atob (encode claims)).
  rewrite (atob_encode claims Hb); cbn [mbind result_bind].
  change Middleware.JSON_parse with Json.JSON_parse.
  destruct (Json.JSON_parse _) as [decoded|e]; [|reflexivity]; cbn [mbind result_bind].
  unfold expired_claims; destruct (negb _); reflexivity.
Qed.

Context `{!DecimalHost host}.

(** C21. A token issued with claims that hold an expiry [exp], written as
    JSON in ASCII and carried as base64url, is read back by the guard: it
    counts as expired exactly when [exp] seconds lie before the clock. *)
Theorem isJwtExpired_issued now header signature (claims : gmap string value) text (exp : Z) :
  dotless header -> is_plain (VObj claims) = true ->
  JSON_stringify (VObj claims) = Some text -> is_ascii text = true ->
  claims !! "exp" = Some (VNum (of_Z exp)) -> exp <> 0%Z ->
  isJwtExpired now (token_of header (string_bytes text) signature) = (exp * 1000 <? now)%Z.
Proof.
  intros Hh Hplain Htext Hascii Hexp Hnz.
  destruct (JSON_parse_stringify _ Hplain) as (text' & Ht' & Hparse).
  assert (text' = text) as -> by congruence.
  assert (Hne : string_bytes text <> []).
  { destruct text; [vm_compute in Hparse; discriminate | discriminate]. }
  unfold isJwtExpired.
  rewrite (isJwtExpired_try_token now header _ signature Hh Hne (string_bytes_lt text)).
  rewrite (latin1_string_bytes text Hascii), Hparse; cbn [mbind result_bind].
  unfold expired_claims, optional_get, get_prop; rewrite Hexp; cbn [default id ToBoolean ToNumber].
  rewrite mul_of_Z, ltb_of_Z.
  assert (num_truthy (of_Z exp) = true) as ->; [|reflexivity].
  destruct exp; [congruence | reflexivity..].
Qed.

End WithHost.

(** ** Examples *)

Definition sample_header : string := "eyJhbGciOiJIUzI1NiIsInR5cCI6IkpXVCJ9".

Definition sample_claims : gmap string value :=
  {["exp" := VNum (of_Z 1710500000); "sub" := VStr "admin"]}.

Definition sample_token : string :=
  "eyJhbGciOiJIUzI1NiIsInR5cCI6IkpXVCJ9.eyJzdWIiOiJhZG1pbiIsImV4cCI6MTcxMDUwMDAwMH0.c2ln".

Example token_of_sample :
  JSON_stringify (host := host_bucharest) (VObj sample_claims)
    = Some ("{" +:+ dq +:+ "sub" +:+ dq +:+ ":" +:+ dq +:+ "admin" +:+ dq +:+ ","
            +:+ dq +:+ "exp" +:+ dq +:+ ":1710500000}") /\
  token_of sample_header
    (string_bytes (default "" (JSON_stringify (host := host_bucharest) (VObj sample_claims))))
    "c2ln" = sample_token.
Proof. vm_compute; split; reflexivity. Qed.

(** The guard on tokens as they come: a live one, a stale one, one without
    expiry, one that is not base64, one of a single segment. *)
Example isJwtExpired_runtime :
  let expired := isJwtExpired (host := host_bucharest) in
  expired 1710496800000%Z sample_token = false /\
  expired 1710500000001%Z sample_token = true /\
  expired 1710500000000%Z sample_token = false /\
  expired 0%Z "e30.eyJzdWIiOiJhZG1pbiJ9.c2ln" = false /\
  expired 0%Z "e30.e30" = false /\
  expired 0%Z "e30.bm90IGpzb24.c2ln" = true /\
  expired 0%Z "e30.a.c2ln" = true /\
  expired 0%Z "e30.é.c2ln" = true /\
  expired 0%Z "e30" = true /\
  expired 0%Z "e30..c2ln" = true.
Proof. vm_compute; repeat split; reflexivity. Qed.

Lemma isJwtExpired_issued_witness :
  isJwtExpired (host := ref_host 7200000) 1710496800000
    (token_of sample_header
       (string_bytes ("{" +:+ dq +:+ "sub" +:+ dq +:+ ":" +:+ dq +:+ "admin" +:+ dq +:+ ","
                      +:+ dq +:+ "exp" +:+ dq +:+ ":1710500000}")) "c2ln")
  = (1710500000 * 1000 <? 1710496800000)%Z.
Proof.
  apply (isJwtExpired_issued (host := ref_host 7200000) _ _ _ sample_claims).
  - unfold dotless; vm_compute; repeat (apply List.Forall_cons; [discriminate|]); apply List.Forall_nil.
  - vm_compute; reflexivity.
  - vm_compute; reflexivity.
  - vm_compute; reflexivity.
  - vm_compute; reflexivity.
  - discriminate.
Defined.
