(* ===== verification/Routes.v ===== *)
(** * Routes: what stands between a request and a page

    - [src/frontend/middleware.ts], lines 58-60: the matcher of [config],
      which decides the requests that reach the guard.  The pattern is a
      slash, a negative lookahead over four alternatives, and any
      characters; [matcher] is that pattern, read as the framework does,
      against the whole path.  In [favicon.ico] the dot stands for any
      character.
    - [src/frontend/next.config.mjs]: the one rewrite, of every path
      under [/api] to the backend.
    - [src/frontend/src/lib/dates.ts], lines 65-78: the history page,
      which only redirects to the conversation list.

    [guard] is the guard behind its matcher.  [proxied] is where a
    request of the browser for its own origin ends up. *)

From Stdlib Require Import QArith ZArith Lia Ascii.
From stdpp Require Import base tactics option list strings gmap.
From S2P Require Import Prelude JsNumber JsString JsValue RefHost Json Api Middleware.
Close Scope Q_scope.
Open Scope string_scope.

(** ** The matcher *)

(** [favicon.ico] as a pattern at the start of [s]. *)
Definition favicon_pattern (s : string) : bool :=
  startsWith s "favicon"
  && match String.substring 7 1 s with
     | String c EmptyString => no_line_terminator (String c (String.substring 8 3 s))
     | _ => false
     end
  && String.eqb (String.substring 8 3 s) "ico".

(** The alternatives of the lookahead. *)
Definition excluded (rest : string) : bool :=
  startsWith rest "_next" || startsWith rest "api" || startsWith rest "static"
  || favicon_pattern rest.

(** Lines 58-60. *)
Definition matcher (pathname : string) : bool :=
  match pathname with
  | String "/" rest => negb (excluded rest) && no_line_terminator rest
  | _ => false
  end.

Section WithHost.
Context `{host : Host} `{decoder : Decoder}.

(** The guard as the framework runs it: only on the paths of the
    matcher. *)
Definition guard (now : Z) (request : NextRequest) : NextResponse :=
  if matcher (pathname request) then middleware now request else Next.

End WithHost.

(** ** The rewrite *)

Record Rewrite : Type := {
  source : string;
  destination : string;
}.

(** [next.config.mjs], lines 3-10. *)
Definition rewrites : list Rewrite :=
  [ {| source := "/api/:path*";
       destination := "https://crmrebs-backend-746815019501.europe-west1.run.app/api/:path*" |} ].

(** The part of a pattern before [/:path*], when it ends so. *)
Definition wildcard_prefix (pattern : string) : option string :=
  let n := (String.length pattern - 7)%nat in
  if String.eqb (String.substring n 7 pattern) "/:path*"
  then Some (String.substring 0 n pattern) else None.

(** A pattern that ends in [/:path*] matches its prefix and everything
    under it; the destination takes the same rest.  [expect_str p s] is
    [s] without its prefix [p]. *)
Definition apply_rewrite (rule : Rewrite) (pathname : string) : option string :=
  match wildcard_prefix (source rule), wildcard_prefix (destination rule) with
  | Some from, Some to =>
      match expect_str from pathname with
      | Some EmptyString => Some to
      | Some (String c rest) =>
          if Ascii.eqb c "/" then Some (to +:+ String "/" rest) else None
      | None => None
      end
  | _, _ => if String.eqb pathname (source rule) then Some (destination rule) else None
  end.

(** The first rule that matches. *)
Definition proxied (pathname : string) : option string :=
  head (omap (fun rule => apply_rewrite rule pathname) rewrites).

(** ** The history page *)

Record Redirection : Type := {
  redirect_destination : string;
  permanent : bool;
}.

(** [lib/dates.ts], lines 67-74. *)
Definition getServerSideProps : Redirection :=
  {| redirect_destination := "/chats"; permanent := false |}.

(** The page renders nothing (lines 76-78). *)
Definition HistoryRedirect : option unit := None.

(** ** Facts *)

Lemma prefix_split p s : String.prefix p s = true -> exists r, s = p +:+ r.
Proof.
  revert s; induction p as [|a p IH]; intros s; [exists s; reflexivity|].
  destruct s as [|b s]; [discriminate|]; simpl.
  destruct (ascii_dec a b) as [<-|]; [|discriminate].
  intros (r & ->)%IH; exists r; reflexivity.
Qed.

Lemma prefix_append p r : String.prefix p (p +:+ r) = true.
Proof.
  induction p as [|a p IH]; [destruct r; reflexivity|].
  change (String a p +:+ r) with (String a (p +:+ r)); cbn [String.prefix].
  destruct (ascii_dec a a); [exact IH | congruence].
Qed.

(** What the matcher lets through is outside the four prefixes that the
    guard tests first: of the first condition of the guard only the test
    for a file name is left. *)
Lemma matcher_bypassed pathname :
  matcher pathname = true -> bypassed pathname = PUBLIC_FILE_test pathname.
Proof.
  destruct pathname as [|c rest]; [discriminate|].
  destruct c as [[] [] [] [] [] [] [] []]; try (intros Hm; discriminate Hm).
  change (Ascii true true true true false true false false) with "/"%char.
  cbn [matcher]; intros [Hex _]%andb_true_iff; apply negb_true_iff in Hex.
  unfold excluded in Hex; repeat (apply orb_false_iff in Hex as [Hex ?]).
  unfold bypassed, startsWith in *.
  change (String.prefix "/_next" (String "/" rest)) with (String.prefix "_next" rest).
  change (String.prefix "/api" (String "/" rest)) with (String.prefix "api" rest).
  change (String.prefix "/static" (String "/" rest)) with (String.prefix "static" rest).
  replace (String "/" rest =? "/favicon.ico") with false.
  - repeat match goal with H : String.prefix _ rest = false |- _ => rewrite H; clear H end.
    reflexivity.
  - symmetry; apply String.eqb_neq; intros [= ->]; discriminate.
Qed.

Section GuardFacts.
Context `{host : Host} `{decoder : Decoder}.

(** Behind its matcher the guard lets through, without reading the
    cookie, exactly the paths that end in a dot and a name; the four
    prefixes it tests first never reach it. *)
Theorem guard_unfold now request :
  guard now request
  = if negb (matcher (pathname request)) || PUBLIC_FILE_test (pathname request) then Next
    else
      let token := cookies request !! AUTH_COOKIE in
      if no_token token then
        if String.eqb (pathname request) "/login" then Next else Redirect loginUrl []
      else if isJwtExpired now (default "" token) then Redirect loginUrl [AUTH_COOKIE]
      else if String.eqb (pathname request) "/login" then Redirect dashboardUrl []
      else Next.
Proof.
  unfold guard, middleware; destruct (matcher (pathname request)) eqn:Hm; [|reflexivity].
  rewrite (matcher_bypassed _ Hm); cbn [negb orb existsb PUBLIC_PATHS].
  rewrite orb_false_r; reflexivity.
Qed.

End GuardFacts.

(** ** The proxy *)

Lemma proxied_api rest :
  proxied ("/api/" +:+ rest)
  = Some ("https://crmrebs-backend-746815019501.europe-west1.run.app/api/" +:+ rest).
Proof. reflexivity. Qed.

(** A path is rewritten exactly when it is [/api] or lies under it. *)
Lemma proxied_Some pathname :
  is_Some (proxied pathname) <-> pathname = "/api" \/ startsWith pathname "/api/" = true.
Proof.
  assert (Hcases : pathname = "/api" \/ (exists rest, pathname = "/api/" +:+ rest)
                   \/ (proxied pathname = None /\ startsWith pathname "/api/" = false
                       /\ pathname <> "/api")).
  { do 4 (destruct pathname as [|[[] [] [] [] [] [] [] []] pathname];
          try (right; right; repeat split; [reflexivity..|discriminate])).
    destruct pathname as [|[[] [] [] [] [] [] [] []] pathname];
      try (right; right; repeat split; [reflexivity..|discriminate]); eauto. }
  destruct Hcases as [->|[(rest & ->)|(Hnone & Hpre & Hne)]].
  - split; eauto.
  - split; [right; apply prefix_append | intros _; rewrite proxied_api; eauto].
  - rewrite Hnone, Hpre; split; [intros [? [=]] | intros [?|[=]]; congruence].
Qed.

(** The requests that the proxy takes never reach the guard. *)
Lemma proxied_unguarded pathname : is_Some (proxied pathname) -> matcher pathname = false.
Proof.
  intros [->|(rest & ->)%prefix_split]%proxied_Some; reflexivity.
Qed.

(** C25.  In a build without the variable, a request of the browser for
    an endpoint goes to the page's own origin, passes the guard unread
    and is rewritten to the URL that the same endpoint calls directly
    when it runs on the server. *)
Theorem browser_reaches_backend path :
  startsWith path "/api/" = true ->
  let browser := {| has_window := true; NEXT_PUBLIC_BACKEND_URL := None |} in
  let server := {| has_window := false; NEXT_PUBLIC_BACKEND_URL := None |} in
  matcher (BASE_URL browser +:+ path) = false /\
  proxied (BASE_URL browser +:+ path) = Some (BASE_URL server +:+ path).
Proof.
  intros (rest & ->)%prefix_split; split; [reflexivity | exact (proxied_api rest)].
Qed.

(** ** Examples *)

Example matcher_examples :
  map matcher ["/"; "/chats"; "/login"; "/api/leads/new"; "/apiary"; "/_next/static/x.js";
               "/static/logo.png"; "/favicon.ico"; "/faviconXico"; "/favicon"; "/logo.png"; ""]
  = [true; true; true; false; false; false; false; false; false; true; true; false].
Proof. vm_compute; reflexivity. Qed.

Example proxied_examples :
  proxied "/api/leads/new"
  = Some "https://crmrebs-backend-746815019501.europe-west1.run.app/api/leads/new" /\
  proxied "/api" = Some "https://crmrebs-backend-746815019501.europe-west1.run.app/api" /\
  proxied "/apiary" = None /\ proxied "/chats" = None.
Proof. vm_compute; repeat split; reflexivity. Qed.

Lemma browser_reaches_backend_witness :
  matcher "/api/send-whatsapp" = false /\
  proxied "/api/send-whatsapp"
  = Some "https://crmrebs-backend-746815019501.europe-west1.run.app/api/send-whatsapp".
Proof. exact (browser_reaches_backend "/api/send-whatsapp" eq_refl). Defined.
