(* ===== verification/FilterPanel.v ===== *)
(** * FilterPanel: the form that edits the filters

    [src/frontend/src/components/LeadFilters.tsx]: the constants (lines
    19-29), the state, the effect, the two filtered option lists and the
    handlers of [LeadFiltersPanel] (lines 31-89), and the handlers written
    inline on the inputs (lines 113-319).

    The form holds a draft of the filters and the two search texts
    ([FiltersForm]).  Its parent holds the filters in force and hands the
    form two callbacks, [onApply] and [onReset]; the handlers that call
    them are functions on the pair of the form and the parent.  [Edit] is
    what the operator can do to an input; [edit] is the handler of that
    input.

    [form_step] is the form under its parent as both pages use it
    ([onApply] sets the filters in force, [onReset] sets the default
    ones): the form is mounted and unmounted, edited, applied and reset,
    and the effect on [appliedFilters] copies the filters in force into
    the draft after every change of them. *)

From Stdlib Require Import QArith ZArith Lia.
From stdpp Require Import base tactics option list strings gmap relations.
From S2P Require Import Prelude JsNumber JsString JsValue Collections RefHost Leads Filters Facets.
Close Scope Q_scope.
Open Scope string_scope.

(** ** Definitions *)

Definition ROOMS_OPTIONS : list (RoomsFilter * string) := [
  (rooms_all, "Toate"); (rooms_1, "1"); (rooms_2, "2"); (rooms_3, "3"); (rooms_4, "4");
  (rooms_5_plus, "5+")
].

(** The three [useState] cells. *)
Record FiltersForm : Type := {
  filters_draft : LeadFilters;
  regionQuery : string;
  zoneQuery : string;
}.

Definition initial_form : FiltersForm :=
  {| filters_draft := DEFAULT_LEAD_FILTERS; regionQuery := ""; zoneQuery := "" |}.

Definition setFiltersDraft (f : LeadFilters -> LeadFilters) (st : FiltersForm) : FiltersForm :=
  {| filters_draft := f (filters_draft st); regionQuery := regionQuery st;
     zoneQuery := zoneQuery st |}.

Definition setRegionQuery (q : string) (st : FiltersForm) : FiltersForm :=
  {| filters_draft := filters_draft st; regionQuery := q; zoneQuery := zoneQuery st |}.

Definition setZoneQuery (q : string) (st : FiltersForm) : FiltersForm :=
  {| filters_draft := filters_draft st; regionQuery := regionQuery st; zoneQuery := q |}.

(** The effect on [appliedFilters]: [setDraft(appliedFilters)]. *)
Definition draft_effect (appliedFilters : LeadFilters) (st : FiltersForm) : FiltersForm :=
  setFiltersDraft (fun _ => appliedFilters) st.

(** [togglePropertyType] *)
Definition togglePropertyType (value : number) (st : FiltersForm) : FiltersForm :=
  setFiltersDraft (fun prev =>
    let next :=
      if includes_number (propertyTypes prev) value
      then List.filter (fun type => strict_neq type value) (propertyTypes prev)
      else (propertyTypes prev ++ [value])%list in
    with_propertyTypes next prev) st.

Inductive TransactionKey : Type := key_sale | key_rent.

(** [handleTransactionChange] *)
Definition handleTransactionChange (key : TransactionKey) (st : FiltersForm) : FiltersForm :=
  setFiltersDraft (fun prev =>
    with_transaction
      match key with
      | key_sale => {| sale := negb (sale (transaction prev)); rent := rent (transaction prev) |}
      | key_rent => {| sale := sale (transaction prev); rent := negb (rent (transaction prev)) |}
      end prev) st.

(** The text of a date input: empty means no bound. *)
Definition text_input (text : string) : option string :=
  if String.eqb text "" then None else Some text.

Section WithHost.
Context `{host : Host}.

(** [formatOptionLabel]: the template string is never nullish, so the
    right operand of [??] is not evaluated. *)
Definition formatOptionLabel (option : OptionItem) (prefix : string) : string :=
  option_label option +:+ " (#" +:+ NumberToString (option_value option) +:+ ")".

(** The body of [filteredRegions] and of [filteredZones]. *)
Definition filter_options (options : list OptionItem) (query : string) : list OptionItem :=
  if negb (str_truthy query) then options
  else List.filter (fun option =>
         includes (toLowerCase (option_label option)) (toLowerCase query)) options.

Definition filteredRegions (leads : list Lead) (st : FiltersForm) : list OptionItem :=
  filter_options (fo_regions (deriveFilterOptions leads)) (regionQuery st).

Definition filteredZones (leads : list Lead) (st : FiltersForm) : list OptionItem :=
  filter_options (fo_zones (deriveFilterOptions leads)) (zoneQuery st).

(** The text of a select or of a number input: empty means no value,
    other texts go through [Number]. *)
Definition number_input (text : string) : option number :=
  if String.eqb text "" then None else Some (StringToNumber text).

(** What the operator does to one input. *)
Inductive Edit : Type :=
| EditType (option : OptionItem)
| EditRegionQuery (text : string)
| EditRegion (text : string)
| EditZoneQuery (text : string)
| EditZone (text : string)
| EditTransaction (key : TransactionKey)
| EditRooms (value : RoomsFilter)
| EditMinBudget (text : string)
| EditMaxBudget (text : string)
| EditDateFrom (text : string)
| EditDateTo (text : string).

(** The [onChange] of each input. *)
Definition edit (e : Edit) (st : FiltersForm) : FiltersForm :=
  match e with
  | EditType option => togglePropertyType (option_value option) st
  | EditRegionQuery text => setRegionQuery text st
  | EditRegion text => setFiltersDraft (with_regionId (number_input text)) st
  | EditZoneQuery text => setZoneQuery text st
  | EditZone text => setFiltersDraft (with_zoneId (number_input text)) st
  | EditTransaction key => handleTransactionChange key st
  | EditRooms value => setFiltersDraft (with_rooms value) st
  | EditMinBudget text => setFiltersDraft (with_minBudget (number_input text)) st
  | EditMaxBudget text => setFiltersDraft (with_maxBudget (number_input text)) st
  | EditDateFrom text => setFiltersDraft (with_dateFrom (text_input text)) st
  | EditDateTo text => setFiltersDraft (with_dateTo (text_input text)) st
  end.

(** The checkboxes are those of the catalogue; the other inputs take any
    text. *)
Definition edit_offered (e : Edit) : Prop :=
  match e with
  | EditType option => In option PROPERTY_TYPE_OPTIONS
  | _ => True
  end.

End WithHost.

Section WithParent.
Context {Parent : Type} (onApply : LeadFilters -> Parent -> Parent) (onReset : Parent -> Parent).

(** [handleApply] *)
Definition handleApply (s : FiltersForm * Parent) : FiltersForm * Parent :=
  (s.1, onApply (filters_draft s.1) s.2).

(** [handleReset] *)
Definition handleReset (s : FiltersForm * Parent) : FiltersForm * Parent :=
  (setZoneQuery "" (setRegionQuery "" (setFiltersDraft (fun _ => DEFAULT_LEAD_FILTERS) s.1)),
   onReset s.2).

End WithParent.

(** The form under a page: the filters in force, and the form while it is
    mounted. *)
Record FormSys : Type := {
  applied : LeadFilters;
  form : option FiltersForm;
}.

Definition form_closed : FormSys := {| applied := DEFAULT_LEAD_FILTERS; form := None |}.

(** The pair a handler returns, with the effect on [appliedFilters] run. *)
Definition after_handler (s : FiltersForm * LeadFilters) : FormSys :=
  {| applied := s.2; form := Some (draft_effect s.2 s.1) |}.

Inductive form_step `{host : Host} : FormSys -> FormSys -> Prop :=
(** the page shows the form: initial state, then the effect *)
| form_mount s :
    form s = None ->
    form_step s {| applied := applied s; form := Some (draft_effect (applied s) initial_form) |}
(** the page hides the form *)
| form_unmount s :
    form_step s {| applied := applied s; form := None |}
| form_edit s st e :
    form s = Some st -> edit_offered e ->
    form_step s {| applied := applied s; form := Some (edit e st) |}
(** the form is submitted; the page's [onApply] is [setAppliedFilters] *)
| form_apply s st :
    form s = Some st ->
    form_step s (after_handler (handleApply (fun filters _ => filters) (st, applied s)))
(** "Reset"; the page's [onReset] sets the default filters *)
| form_reset s st :
    form s = Some st ->
    form_step s (after_handler (handleReset (fun _ => DEFAULT_LEAD_FILTERS) (st, applied s))).

Definition form_reachable `{host : Host} (s : FormSys) : Prop := rtc form_step form_closed s.

(** The selected property types: none twice, each from the catalogue. *)
Definition types_ok (filters : LeadFilters) : Prop :=
  set_wf (propertyTypes filters) /\
  Forall (fun v => In v (map option_value PROPERTY_TYPE_OPTIONS)) (propertyTypes filters).

Definition form_ok (s : FormSys) : Prop :=
  types_ok (applied s) /\ forall st, form s = Some st -> types_ok (filters_draft st).

(** ** Facts about the selected types *)

Lemma includes_number_has l v : includes_number l v = set_has v l.
Proof. reflexivity. Qed.

Lemma includes_number_congr l a b :
  same_value_zero a b = true -> includes_number l a = includes_number l b.
Proof. exact (@set_has_congr number number_KeyEq a b l). Qed.

Lemma includes_number_app l l' v :
  includes_number (l ++ l') v = includes_number l v || includes_number l' v.
Proof. apply existsb_app. Qed.

(** A value that is not [NaN] is strictly equal to what it is the same
    value as. *)
Lemma strict_eq_same_value a b :
  isNaN b = false -> same_value_zero a b = true -> strict_eq a b = true.
Proof.
  intros Hb Hab; apply strict_eq_spec; split; [apply same_value_zero_spec, Hab|].
  intros ->; destruct b; discriminate.
Qed.

Lemma strict_eq_same_value_zero a b : strict_eq a b = true -> same_value_zero a b = true.
Proof. unfold strict_eq; intros [_ H]%andb_true_iff; exact H. Qed.

(** Filtering a value out removes it and what is the same value, and
    nothing else. *)
Lemma includes_number_filter l v value :
  isNaN value = false ->
  includes_number (List.filter (fun type => strict_neq type value) l) v
  = includes_number l v && negb (same_value_zero v value).
Proof.
  intros Hv; induction l as [|a l IH]; [reflexivity|].
  cbn [List.filter]; unfold strict_neq at 1.
  destruct (strict_eq a value) eqn:Ea; cbn [negb includes_number existsb];
    fold (includes_number l v); fold (includes_number (List.filter (fun t => strict_neq t value) l) v);
    rewrite IH; destruct (same_value_zero v a) eqn:Eva; cbn [orb]; try reflexivity.
  - apply strict_eq_same_value_zero in Ea.
    rewrite (same_value_zero_trans v a value Eva Ea), andb_false_r; reflexivity.
  - destruct (same_value_zero v value) eqn:Evv; [|reflexivity].
    rewrite same_value_zero_sym in Eva.
    rewrite (strict_eq_same_value a value Hv (same_value_zero_trans a v value Eva Evv)) in Ea.
    discriminate.
Qed.

Lemma togglePropertyType_types value st :
  propertyTypes (filters_draft (togglePropertyType value st))
  = if includes_number (propertyTypes (filters_draft st)) value
    then List.filter (fun type => strict_neq type value) (propertyTypes (filters_draft st))
    else set_add value (propertyTypes (filters_draft st)).
Proof.
  unfold togglePropertyType, set_add; simpl; rewrite <- includes_number_has.
  destruct (includes_number _ value); reflexivity.
Qed.

(** Toggling a type keeps the selection without duplicates and within the
    catalogue. *)
Lemma togglePropertyType_ok option st :
  In option PROPERTY_TYPE_OPTIONS -> types_ok (filters_draft st) ->
  types_ok (filters_draft (togglePropertyType (option_value option) st)).
Proof.
  intros Hin [Hwf Hall]; unfold types_ok; rewrite togglePropertyType_types.
  destruct (includes_number _ _) eqn:E; split.
  - apply set_wf_filter, Hwf.
  - rewrite List.Forall_forall in *; intros v [Hv _]%List.filter_In; auto.
  - apply set_add_wf, Hwf.
  - unfold set_add; rewrite <- includes_number_has, E; apply Forall_app; split; [exact Hall|].
    apply List.Forall_cons; [apply in_map, Hin | apply List.Forall_nil].
Qed.

Section WithHost.
Context `{host : Host}.

Lemma edit_ok e st : edit_offered e -> types_ok (filters_draft st) -> types_ok (filters_draft (edit e st)).
Proof. destruct e; try (intros _ H; exact H); apply togglePropertyType_ok. Qed.

Lemma types_ok_default : types_ok DEFAULT_LEAD_FILTERS.
Proof. split; [exact I | constructor]. Qed.

Lemma form_step_ok s s' : form_ok s -> form_step s s' -> form_ok s'.
Proof.
  intros [Ha Hf]; destruct 1 as [s Hn|s|s st e Hst He|s st Hst|s st Hst];
    (split; [|intros st' [= <-]]); simpl;
    auto using edit_ok, types_ok_default; discriminate.
Qed.

(** In every state the form can reach under its page, the property
    types of the draft and of the filters in force hold no value twice and
    only values of the catalogue. *)
Theorem form_reachable_ok s : form_reachable s -> form_ok s.
Proof.
  unfold form_reachable; revert s; apply rtc_ind_r.
  - split; [apply types_ok_default | discriminate].
  - intros s s' _ Hstep IH; exact (form_step_ok s s' IH Hstep).
Qed.

(** Toggling a type that is not [NaN] flips whether the draft
    includes it and changes the membership of no other value. *)
Theorem togglePropertyType_includes value st v :
  isNaN value = false ->
  includes_number (propertyTypes (filters_draft (togglePropertyType value st))) v
  = xorb (includes_number (propertyTypes (filters_draft st)) v) (same_value_zero v value).
Proof.
  intros Hv; rewrite togglePropertyType_types.
  destruct (includes_number _ value) eqn:E.
  - rewrite includes_number_filter by exact Hv.
    destruct (same_value_zero v value) eqn:Ev; [|rewrite andb_true_r, xorb_false_r; reflexivity].
    rewrite (includes_number_congr _ v value Ev), E; reflexivity.
  - unfold set_add; rewrite <- includes_number_has, E, includes_number_app; simpl.
    rewrite orb_false_r; destruct (same_value_zero v value) eqn:Ev;
      [|rewrite orb_false_r, xorb_false_r; reflexivity].
    rewrite (includes_number_congr _ v value Ev), E; reflexivity.
Qed.

(** After "Reset" the filters in force keep every lead, and the form is
    the initial one. *)
Lemma form_reset_shows_all st parent leads :
  let s' := after_handler (handleReset (fun _ => DEFAULT_LEAD_FILTERS) (st, parent)) in
  applyLeadFilters leads (applied s') = leads /\ form s' = Some initial_form.
Proof. split; [apply applyLeadFilters_default | reflexivity]. Qed.

(** Hiding the form and showing it again discards the draft: the form
    comes back with the filters in force. *)
Lemma form_remount s st :
  form s = Some st ->
  exists s', rtc form_step s s' /\
    form s' = Some {| filters_draft := applied s; regionQuery := ""; zoneQuery := "" |}.
Proof.
  intros _; exists {| applied := applied s; form := Some (draft_effect (applied s) initial_form) |}.
  split; [|reflexivity].
  eapply rtc_l; [apply form_unmount | apply rtc_once, (form_mount {| form := None |}); reflexivity].
Qed.

(** The options a search text leaves are among the options, in their
    order; the empty text leaves them all. *)
Lemma filter_options_sublist options query : sublist (filter_options options query) options.
Proof. unfold filter_options; case_match; [reflexivity | apply filter_sublist]. Qed.

(** The second argument of [formatOptionLabel] is never used. *)
Lemma formatOptionLabel_prefix option prefix prefix' :
  formatOptionLabel option prefix = formatOptionLabel option prefix'.
Proof. reflexivity. Qed.

End WithHost.

(** ** Examples *)

Definition type_option (n : Z) (text : string) : OptionItem :=
  {| option_value := of_Z n; option_label := text |}.

Definition land_only : LeadFilters := with_propertyTypes [of_Z 3] DEFAULT_LEAD_FILTERS.

(** The form after the operator has ticked "Apartament" and "Teren",
    unticked "Apartament", and submitted. *)
Definition session_end : FormSys :=
  {| applied := land_only;
     form := Some {| filters_draft := land_only; regionQuery := ""; zoneQuery := "" |} |}.

Lemma session_trace : form_reachable (host := host_bucharest) session_end.
Proof.
  eapply rtc_l; [apply form_mount; reflexivity|].
  eapply rtc_l; [eapply (form_edit _ _ (EditType (type_option 1 "Apartament")));
                 [reflexivity | simpl; tauto]|].
  eapply rtc_l; [eapply (form_edit _ _ (EditType (type_option 3 "Teren")));
                 [reflexivity | simpl; tauto]|].
  eapply rtc_l; [eapply (form_edit _ _ (EditType (type_option 1 "Apartament")));
                 [reflexivity | simpl; tauto]|].
  eapply rtc_l; [eapply form_apply; reflexivity|].
  apply rtc_refl.
Qed.

(** The inputs: a region chosen, a budget typed and cleared, a date. *)
Example edit_example :
  let st := foldl (fun st e => edit (host := host_bucharest) e st) initial_form
              [EditRegion "12"; EditMinBudget "50000"; EditMaxBudget "90000"; EditMaxBudget "";
               EditTransaction key_rent; EditRooms rooms_5_plus; EditDateFrom "2024-03-01";
               EditRegionQuery "clu"] in
  filters_draft st
  = {| propertyTypes := []; regionId := Some (of_Z 12); zoneId := None;
       transaction := {| sale := false; rent := true |}; rooms := rooms_5_plus;
       minBudget := Some (of_Z 50000); maxBudget := None;
       dateFrom := Some "2024-03-01"; dateTo := None |} /\
  regionQuery st = "clu".
Proof. vm_compute; split; reflexivity. Qed.

(** ** Witnesses *)

Lemma form_reachable_ok_witness : form_ok session_end.
Proof. apply (form_reachable_ok (host := host_bucharest)), session_trace. Defined.

Lemma togglePropertyType_includes_witness :
  includes_number
    (propertyTypes (filters_draft (togglePropertyType (of_Z 3) initial_form))) (of_Z 3)
  = xorb (includes_number (propertyTypes (filters_draft initial_form)) (of_Z 3))
         (same_value_zero (of_Z 3) (of_Z 3)).
Proof. apply togglePropertyType_includes; reflexivity. Defined.
