(* ===== verification/Login.v ===== *)
(** * Login: the login page

    [LoginPage], lines 7-98 of [src/frontend/src/pages/login.tsx]: its
    state (lines 9-11), the effect that leaves the page when a token
    cookie is visible (13-21), [handleSubmit] (23-38) and what the page
    renders (39-97).  [legacy_LoginPage] is what the earlier copy of the
    page renders ([src/unnamed/part_001], lines 39-97); the rest of that
    file is the text of the page as it is now.

    [handleSubmit] is run to completion against a backend that passes a
    world along: [login] is the endpoint of [Api], [router_replace] is
    [router.replace].  [document.cookie] is the argument of the effect.

    [login_step] is the page in time: the user types and submits through
    what the page renders, and a login in flight settles later.  Typing
    goes on while a login is in flight. *)

From Stdlib Require Import ZArith Lia Ascii.
From stdpp Require Import base tactics option list strings gmap.
From S2P Require Import Prelude JsNumber JsString JsValue Middleware View.
Open Scope string_scope.

(** ** Definitions *)

(** Lines 9-11. *)
Record LoginState : Type := {
  password : string;
  isSubmitting : bool;
  login_error : option string;
}.

Definition initial_login : LoginState :=
  {| password := ""; isSubmitting := false; login_error := None |}.

Definition setPassword (text : string) (st : LoginState) : LoginState :=
  {| password := text; isSubmitting := isSubmitting st; login_error := login_error st |}.

Definition setIsSubmitting (b : bool) (st : LoginState) : LoginState :=
  {| password := password st; isSubmitting := b; login_error := login_error st |}.

Definition setError (e : option string) (st : LoginState) : LoginState :=
  {| password := password st; isSubmitting := isSubmitting st; login_error := e |}.

(** [s.split("; ")] *)
Fixpoint split_cookies (s : string) : list string :=
  match s with
  | EmptyString => [EmptyString]
  | String ";" (String " " r) => EmptyString :: split_cookies r
  | String c r =>
      match split_cookies r with
      | [] => [String c EmptyString]
      | h :: t => String c h :: t
      end
  end.

(** The effect of lines 13-21: where it sends the router, if anywhere. *)
Definition token_effect (cookie : string) : option string :=
  match List.find (fun part => startsWith part "crmrebs_token=") (split_cookies cookie) with
  | Some token => if str_truthy token then Some "/" else None
  | None => None
  end.

(** The [catch] of [handleSubmit]. *)
Definition submit_failed (err : exn) (st : LoginState) : LoginState :=
  setIsSubmitting false
    (setError (Some (error_message_or "Unable to log in. Please try again." err)) st).

Section WithBackend.
Context {World : Type}.
Context (login : string -> World -> result exn unit * World).
Context (router_replace : string -> World -> result exn unit * World).

(** Lines 23-38. *)
Definition handleSubmit (st : LoginState) (w : World) : LoginState * World :=
  let st1 := setError None (setIsSubmitting true st) in
  let '(logged_in, w1) := login (password st1) w in
  match logged_in with
  | Ok _ =>
      let '(replaced, w2) := router_replace "/" w1 in
      match replaced with
      | Ok _ => (st1, w2)
      | Throw err => (submit_failed err st1, w2)
      end
  | Throw err => (submit_failed err st1, w1)
  end.

End WithBackend.

(** A backend that records the calls it receives. *)
Inductive LoginCall : Type :=
| CallLogin (password : string)
| CallReplace (url : string).

#[export] Instance LoginCall_eq_dec : EqDecision LoginCall.
Proof. solve_decision. Defined.

Definition logged_login (answer : string -> result exn unit) (password : string)
    (w : list LoginCall) : result exn unit * list LoginCall :=
  (answer password, w ++ [CallLogin password])%list.

Definition logged_replace (url : string) (w : list LoginCall)
    : result exn unit * list LoginCall :=
  (Ok tt, w ++ [CallReplace url])%list.

(** ** What the page renders *)

(** What the user does to the page: typing into the password field, and
    submitting the form. *)
Inductive LoginEvent : Type :=
| Change (text : string)
| Submit.

(** Lines 39-97: what the page renders. *)
Definition LoginPage (st : LoginState) : node LoginEvent :=
  Elem "Fragment" []
    [ Elem "Head" [] [Elem "title" [] [Text "Log in · CRMREBS"]];
      Elem "div" [Str "className" "flex min-h-screen items-center justify-center bg-slate-50 px-6"]
        [ Elem "div" [Str "className" "w-full max-w-md rounded-2xl border border-slate-200 bg-white px-6 py-8 shadow-sm"]
            [ Elem "div" [Str "className" "mb-6"]
                [ Elem "p" [Str "className" "text-xs font-semibold uppercase tracking-[0.3rem] text-slate-400"] [Text "CRMREBS"];
                  Elem "h1" [Str "className" "mt-2 text-2xl font-semibold text-slate-900"] [Text "Welcome back"];
                  Elem "p" [Str "className" "mt-2 text-sm text-slate-500"] [Text "Enter the admin password to access the outreach queue."] ];
              Elem "form" [Str "className" "space-y-4"; Handler "onSubmit" Submit]
                ([ Elem "div" []
                     [ Elem "label" [Str "htmlFor" "password"; Str "className" "text-sm font-medium text-slate-700"] [Text "Password"];
                       Elem "input"
                         [ Str "id" "password"; Str "name" "password"; Str "type" "password";
                           Flag "required" true; Num "minLength" 6;
                           Str "className" "mt-2 w-full rounded-lg border border-slate-200 bg-white px-3 py-2 text-sm text-slate-900 shadow-sm focus:border-slate-400 focus:outline-none focus:ring-2 focus:ring-slate-200";
                           Str "placeholder" "••••••••"; Str "value" (password st);
                           ValueHandler "onChange" Change ] [] ] ]
                   ++ when (str_truthy (default "" (login_error st)))
                        (Elem "p" [Str "className" "text-sm text-rose-600"; Str "role" "alert"]
                           [Text (default "" (login_error st))])
                   ++ [ Elem "button"
                          [ Str "type" "submit"; Flag "disabled" (isSubmitting st);
                            Str "className" "flex w-full items-center justify-center rounded-lg bg-slate-900 px-4 py-2 text-sm font-medium text-white transition-colors hover:bg-slate-800 disabled:cursor-not-allowed disabled:opacity-70" ]
                          [Text (if isSubmitting st then "Signing in…" else "Sign in")] ]) ] ] ].

(** [src/unnamed/part_001], lines 39-97: the page in its earlier colours. *)
Definition legacy_LoginPage (st : LoginState) : node LoginEvent :=
  Elem "Fragment" []
    [ Elem "Head" [] [Elem "title" [] [Text "Log in · CRMREBS"]];
      Elem "div" [Str "className" "flex min-h-screen items-center justify-center bg-black px-6"]
        [ Elem "div" [Str "className" "w-full max-w-md rounded-2xl border border-black/30 bg-black px-6 py-8 shadow-lg"]
            [ Elem "div" [Str "className" "mb-6"]
                [ Elem "p" [Str "className" "text-xs font-semibold uppercase tracking-[0.3rem] text-white/60"] [Text "CRMREBS"];
                  Elem "h1" [Str "className" "mt-2 text-2xl font-semibold text-white"] [Text "Welcome back"];
                  Elem "p" [Str "className" "mt-2 text-sm text-white/70"] [Text "Enter the admin password to access the outreach queue."] ];
              Elem "form" [Str "className" "space-y-4"; Handler "onSubmit" Submit]
                ([ Elem "div" []
                     [ Elem "label" [Str "htmlFor" "password"; Str "className" "text-sm font-medium text-white/90"] [Text "Password"];
                       Elem "input"
                         [ Str "id" "password"; Str "name" "password"; Str "type" "password";
                           Flag "required" true; Num "minLength" 6;
                           Str "className" "mt-2 w-full rounded-lg border border-white/20 bg-white/10 px-3 py-2 text-sm text-white placeholder:text-white/40 shadow-sm focus:border-white/40 focus:outline-none focus:ring-2 focus:ring-white/20";
                           Str "placeholder" "••••••••"; Str "value" (password st);
                           ValueHandler "onChange" Change ] [] ] ]
                   ++ when (str_truthy (default "" (login_error st)))
                        (Elem "p" [Str "className" "text-sm text-rose-400"; Str "role" "alert"]
                           [Text (default "" (login_error st))])
                   ++ [ Elem "button"
                          [ Str "type" "submit"; Flag "disabled" (isSubmitting st);
                            Str "className" "flex w-full items-center justify-center rounded-lg bg-white px-4 py-2 text-sm font-medium text-black transition-colors hover:bg-white/90 disabled:cursor-not-allowed disabled:opacity-70" ]
                          [Text (if isSubmitting st then "Signing in…" else "Sign in")] ]) ] ] ].


(** ** The page in time *)

(** The page, the passwords of the logins in flight, oldest first, and the
    calls made so far. *)
Record LoginSys : Type := {
  form : LoginState;
  in_flight : list string;
  login_calls : list LoginCall;
}.

Definition login_start : LoginSys :=
  {| form := initial_login; in_flight := []; login_calls := [] |}.

Section LoginSteps.
Context (answer : string -> result exn unit).

Inductive login_step : LoginSys -> LoginSys -> Prop :=
| step_change sys text :
    offered (LoginPage (form sys)) (Change text) ->
    login_step sys {| form := setPassword text (form sys); in_flight := in_flight sys;
                      login_calls := login_calls sys |}
| step_submit sys :
    offered (LoginPage (form sys)) Submit ->
    login_step sys {| form := setError None (setIsSubmitting true (form sys));
                      in_flight := in_flight sys ++ [password (form sys)];
                      login_calls := login_calls sys ++ [CallLogin (password (form sys))] |}
| step_accepted sys sent rest :
    in_flight sys = sent :: rest -> answer sent = Ok tt ->
    login_step sys {| form := form sys; in_flight := rest;
                      login_calls := login_calls sys ++ [CallReplace "/"] |}
| step_rejected sys sent rest err :
    in_flight sys = sent :: rest -> answer sent = Throw err ->
    login_step sys {| form := submit_failed err (form sys); in_flight := rest;
                      login_calls := login_calls sys |}.

Definition login_reachable : LoginSys -> Prop := rtc login_step login_start.

End LoginSteps.

(** A password that the field lets through: not empty, and of six UTF-16
    code units or more. *)
Definition password_ok (text : string) : bool :=
  negb (String.eqb text "") && (6 <=? Z.of_nat (utf16_length text))%Z.

Definition is_replace (call : LoginCall) : bool :=
  match call with CallReplace _ => true | CallLogin _ => false end.

(** What holds of the page at every moment: at most one login is in
    flight, and the button is disabled while it is; every login carried a
    password that the field let through; once the route was replaced the
    button stays disabled and nothing is in flight, so that the route is
    replaced at most once. *)
Definition login_ok (sys : LoginSys) : Prop :=
  (length (in_flight sys) <= 1)%nat /\
  (in_flight sys <> [] -> isSubmitting (form sys) = true) /\
  Forall (fun call => match call with
                      | CallLogin text => password_ok text = true
                      | CallReplace _ => True
                      end) (login_calls sys) /\
  (length (List.filter is_replace (login_calls sys)) <= 1)%nat /\
  (existsb is_replace (login_calls sys) = true ->
   isSubmitting (form sys) = true /\ in_flight sys = []).

(** ** Theorems *)

Lemma split_cookies_nonempty s : split_cookies s <> [].
Proof.
  induction s as [|c r IH]; [discriminate|]; simpl.
  repeat case_match; discriminate.
Qed.

(** The effect leaves the page exactly when some part of the cookie
    string starts with the name of the token cookie, whatever its value:
    an empty value counts. *)
Lemma token_effect_Some cookie :
  token_effect cookie = Some "/" <->
  exists part, In part (split_cookies cookie) /\ startsWith part "crmrebs_token=" = true.
Proof.
  unfold token_effect; destruct (List.find _ _) as [token|] eqn:E.
  - apply List.find_some in E as [Hin Hpre].
    replace (str_truthy token) with true; [split; eauto|].
    destruct token; [discriminate Hpre | reflexivity].
  - split; [discriminate|]; intros (part & Hin & Hpre).
    rewrite (List.find_none _ _ E part Hin) in Hpre; discriminate.
Qed.

(** A token cookie with an empty value: the effect leaves for the
    dashboard, and the guard, for which an empty token is no token, sends
    the browser back to the login page without deleting the cookie. *)
Lemma empty_token_bounces `{host : Host} `{decoder : Decoder} now :
  token_effect (AUTH_COOKIE +:+ "=") = Some "/" /\
  middleware now {| pathname := "/"; cookies := {[AUTH_COOKIE := ""]} |} = Redirect "/login" [] /\
  middleware now {| pathname := "/login"; cookies := {[AUTH_COOKIE := ""]} |} = Next.
Proof. repeat split. Qed.

Section Submit.
Context (answer : string -> result exn unit).

(** When the password is accepted, [handleSubmit] logs in with the
    password typed and then replaces the route by the dashboard; the
    button stays disabled and no error is shown. *)
Lemma handleSubmit_accepted st w :
  answer (password st) = Ok tt ->
  handleSubmit (logged_login answer) logged_replace st w
  = (setError None (setIsSubmitting true st),
     (w ++ [CallLogin (password st); CallReplace "/"])%list).
Proof.
  intros Hok; unfold handleSubmit, logged_login, logged_replace; simpl; rewrite Hok.
  rewrite <- app_assoc; reflexivity.
Qed.

(** When the password is rejected, the page shows the message of the
    error, enables the button again, keeps the password typed and does
    not leave. *)
Lemma handleSubmit_rejected st w err :
  answer (password st) = Throw err ->
  handleSubmit (logged_login answer) logged_replace st w
  = ({| password := password st; isSubmitting := false;
        login_error := Some (error_message_or "Unable to log in. Please try again." err) |},
     (w ++ [CallLogin (password st)])%list).
Proof. intros Herr; unfold handleSubmit, logged_login; simpl; rewrite Herr; reflexivity. Qed.

End Submit.

(** ** What the page offers *)

Lemma LoginPage_clicks st : clicks (LoginPage st) = [].
Proof. destruct st as [text [] [[|c e]|]]; reflexivity. Qed.

Lemma LoginPage_changes st : changes (LoginPage st) = [Change].
Proof. destruct st as [text [] [[|c e]|]]; reflexivity. Qed.

Lemma LoginPage_picks st : picks (LoginPage st) = [].
Proof. destruct st as [text [] [[|c e]|]]; reflexivity. Qed.

Lemma LoginPage_submits st :
  submits (LoginPage st)
  = if negb (isSubmitting st) && password_ok (password st) then [Submit] else [].
Proof.
  destruct st as [text [] [[|c e]|]]; unfold password_ok; cbn;
    destruct (String.eqb text ""); cbn; try reflexivity;
    destruct (6 <=? _)%Z; reflexivity.
Qed.

Lemma offered_Change st text : offered (LoginPage st) (Change text).
Proof.
  unfold offered; rewrite LoginPage_changes.
  do 3 right; exists Change, text; split; [left|]; reflexivity.
Qed.

Lemma offered_Submit st :
  offered (LoginPage st) Submit <->
  isSubmitting st = false /\ password_ok (password st) = true.
Proof.
  rewrite (offered_lists _ _ _ _ _ _ (LoginPage_clicks st) (LoginPage_submits st)
             (LoginPage_picks st) (LoginPage_changes st)).
  destruct (isSubmitting st), (password_ok (password st)); simpl;
    (split; [intros [H|(f & v & [<-|[]] & [=])]; intuition congruence
            | intros [? ?]; try discriminate; left; left; reflexivity]).
Qed.

(** The page lets the user type at any time, and submit exactly when
    the button is enabled and the password is not empty and has six
    UTF-16 code units or more. *)
Theorem LoginPage_offers st e :
  offered (LoginPage st) e <->
  match e with
  | Change _ => True
  | Submit => isSubmitting st = false /\ password_ok (password st) = true
  end.
Proof.
  destruct e as [text|]; [split; [trivial | intros _; apply offered_Change] | apply offered_Submit].
Qed.

(** The earlier page and the present one differ in their class names
    only. *)
Theorem legacy_LoginPage_same_shape st : same_shape (legacy_LoginPage st) (LoginPage st).
Proof. destruct st as [text [] [[|c e]|]]; reflexivity. Qed.

(** ** The page in time *)

Section LoginFacts.
Context (answer : string -> result exn unit).

Lemma login_start_ok : login_ok login_start.
Proof. repeat split; simpl; auto; congruence. Qed.

Lemma filter_is_replace_app calls call :
  List.filter is_replace (calls ++ [call])
  = (List.filter is_replace calls ++ if is_replace call then [call] else [])%list.
Proof. rewrite List.filter_app; simpl; destruct (is_replace call); reflexivity. Qed.

Lemma existsb_filter_nil {A} (p : A -> bool) l : existsb p l = false -> List.filter p l = [].
Proof.
  induction l as [|x l IH]; [reflexivity|]; simpl.
  destruct (p x); simpl; [discriminate | exact IH].
Qed.

Lemma no_replace_yet sys :
  login_ok sys -> isSubmitting (form sys) = false \/ in_flight sys <> [] ->
  existsb is_replace (login_calls sys) = false.
Proof.
  intros (_ & _ & _ & _ & Hleft) Hnot.
  destruct (existsb is_replace (login_calls sys)); [|reflexivity].
  destruct (Hleft eq_refl) as [Hbusy Hnone]; destruct Hnot; congruence.
Qed.

Lemma in_flight_one sys sent rest :
  login_ok sys -> in_flight sys = sent :: rest -> rest = [].
Proof.
  intros (Hone & _) E; rewrite E in Hone; destruct rest; [reflexivity | simpl in Hone; lia].
Qed.

Ltac login_parts := unfold login_ok; cbn; split; [|split; [|split; [|split]]].

Lemma login_step_ok sys sys' : login_ok sys -> login_step answer sys sys' -> login_ok sys'.
Proof.
  intros Hok Hstep; pose proof Hok as (Hone & Hbusy & Hlong & Honce & Hleft).
  destruct Hstep as [sys text _|sys [Hidle Hpw]%offered_Submit|sys sent rest E _
                    |sys sent rest err E _].
  - login_parts; auto.
  - pose proof (no_replace_yet sys Hok (or_introl Hidle)) as Hnone.
    assert (Hempty : in_flight sys = []).
    { destruct (in_flight sys); [reflexivity|]; rewrite Hbusy in Hidle; congruence. }
    rewrite Hempty; login_parts; auto.
    + apply Forall_app; split; [exact Hlong | repeat constructor; exact Hpw].
    + rewrite filter_is_replace_app, app_nil_r; exact Honce.
    + rewrite existsb_app, Hnone; discriminate.
  - assert (Hfl : in_flight sys <> []) by (rewrite E; discriminate).
    pose proof (no_replace_yet sys Hok (or_intror Hfl)) as Hnone.
    rewrite (in_flight_one sys sent rest Hok E) in *; login_parts; auto; try congruence.
    + apply Forall_app; split; [exact Hlong | repeat constructor].
    + rewrite filter_is_replace_app, (existsb_filter_nil _ _ Hnone); simpl; lia.
  - assert (Hfl : in_flight sys <> []) by (rewrite E; discriminate).
    pose proof (no_replace_yet sys Hok (or_intror Hfl)) as Hnone.
    rewrite (in_flight_one sys sent rest Hok E) in *; login_parts; auto; congruence.
Qed.

(** C22.  In every state the login page can reach, at most one login is in
    flight and the button is disabled while it is, every login carried a
    password that the field let through, and the route was replaced at
    most once. *)
Theorem login_reachable_ok sys : login_reachable answer sys -> login_ok sys.
Proof.
  unfold login_reachable; revert sys; apply rtc_ind_r.
  - apply login_start_ok.
  - intros sys sys' _ Hstep IH; exact (login_step_ok sys sys' IH Hstep).
Qed.

(** A submission run to completion is a path of the page: the submit, then
    the login settling. *)
Theorem handleSubmit_is_path st calls :
  offered (LoginPage st) Submit ->
  let run := handleSubmit (logged_login answer) logged_replace st calls in
  rtc (login_step answer) {| form := st; in_flight := []; login_calls := calls |}
      {| form := run.1; in_flight := []; login_calls := run.2 |}.
Proof.
  intros Hoffer.
  eapply rtc_l;
    [exact (step_submit answer {| form := st; in_flight := []; login_calls := calls |} Hoffer)|].
  cbn [form in_flight login_calls app].
  set (sys := {| form := setError None (setIsSubmitting true st); in_flight := [password st];
                 login_calls := (calls ++ [CallLogin (password st)])%list |}).
  apply rtc_once; unfold handleSubmit, logged_login, logged_replace; cbn.
  destruct (answer (password st)) as [[]|err] eqn:E; cbn.
  - exact (step_accepted answer sys _ [] eq_refl E).
  - exact (step_rejected answer sys _ [] err eq_refl E).
Qed.

End LoginFacts.

(** ** Examples *)

Example token_effect_example :
  map token_effect ["crmrebs_token=abc"; "theme=dark; crmrebs_token=abc"; "theme=dark";
                    ""; "crmrebs_token="; "xcrmrebs_token=abc"; "theme=dark;crmrebs_token=abc"]
  = [Some "/"; Some "/"; None; None; Some "/"; None; None].
Proof. vm_compute; reflexivity. Qed.

Definition only_secret (password : string) : result exn unit :=
  if String.eqb password "secret" then Ok tt
  else Throw (ApiError "Invalid password" 401 (VObj ∅)).

Lemma handleSubmit_accepted_witness :
  handleSubmit (logged_login only_secret) logged_replace (setPassword "secret" initial_login) []
  = ({| password := "secret"; isSubmitting := true; login_error := None |},
     [CallLogin "secret"; CallReplace "/"]).
Proof.
  apply (handleSubmit_accepted only_secret (setPassword "secret" initial_login) []); reflexivity.
Defined.

Lemma handleSubmit_rejected_witness :
  handleSubmit (logged_login only_secret) logged_replace (setPassword "guess" initial_login) []
  = ({| password := "guess"; isSubmitting := false; login_error := Some "Invalid password" |},
     [CallLogin "guess"]).
Proof.
  apply (handleSubmit_rejected only_secret (setPassword "guess" initial_login) []
           (ApiError "Invalid password" 401 (VObj ∅)));
    reflexivity.
Defined.

Example LoginPage_examples :
  submits (LoginPage initial_login) = [] /\
  submits (LoginPage (setPassword "guess" initial_login)) = [] /\
  submits (LoginPage (setPassword "secret" initial_login)) = [Submit] /\
  submits (LoginPage (setPassword "пароль" initial_login)) = [Submit] /\
  submits (LoginPage (setIsSubmitting true (setPassword "secret" initial_login))) = [] /\
  text_content (LoginPage (setError (Some "Invalid password") initial_login))
  = "Log in · CRMREBSCRMREBSWelcome backEnter the admin password to access the outreach queue."
    +:+ "PasswordInvalid passwordSign in".
Proof. vm_compute; repeat split; reflexivity. Qed.

(** Typing the password, submitting it, and the login being accepted. *)
Definition logged_in : LoginSys :=
  {| form := {| password := "secret"; isSubmitting := true; login_error := None |};
     in_flight := []; login_calls := [CallLogin "secret"; CallReplace "/"] |}.

Lemma login_trace : login_reachable only_secret logged_in.
Proof.
  eapply rtc_l; [apply (step_change only_secret login_start "secret"), offered_Change|].
  eapply rtc_l; [apply step_submit, offered_Submit; split; reflexivity|].
  apply rtc_once.
  exact (step_accepted only_secret
           {| form := {| password := "secret"; isSubmitting := true; login_error := None |};
              in_flight := ["secret"]; login_calls := [CallLogin "secret"] |}
           "secret" [] eq_refl eq_refl).
Qed.

Lemma login_reachable_ok_witness : login_ok logged_in.
Proof. exact (login_reachable_ok only_secret logged_in login_trace). Defined.

Lemma handleSubmit_is_path_witness :
  rtc (login_step only_secret)
    {| form := setPassword "secret" initial_login; in_flight := []; login_calls := [] |} logged_in.
Proof.
  apply (handleSubmit_is_path only_secret (setPassword "secret" initial_login) []).
  apply offered_Submit; split; reflexivity.
Defined.
