(* ===== verification/Shell.v ===== *)
(** * Shell: the frame of a page, and the inline notice

    [src/unnamed/part_002] is the component [PageShell]: the header with
    the title and the navigation ([NAV_ITEMS], lines 13-16; [isActive],
    44-47), the row of actions and the log-out button with its handler
    (lines 79-83), around the children of the page.
    [src/unnamed/part_003] is the component [InlineNotice]: a box of one
    of three tones with an optional title and an optional description.

    A [ReactNode] prop is [option (list node)]: [None] stands for every
    falsy value, and a caller with a string passes [text_child].

    The handler of the button does two things to the browser: it assigns
    [document.cookie] and it replaces the route.  A [Browser] is the
    cookie jar and the location.  Assigning [document.cookie] sets one
    cookie, or removes it when the text carries an expiry in the past,
    here the epoch; a script cannot touch a cookie that is HttpOnly.
    [request_of] is the request that the browser then makes, as the guard
    of [Middleware] reads it. *)

From Stdlib Require Import ZArith Lia Ascii.
From stdpp Require Import base tactics option list strings gmap.
From S2P Require Import Prelude JsNumber JsString JsValue RefHost Middleware Token View Login.
Open Scope string_scope.

(** ** The frame *)

Record NavItem : Type := {
  href : string;
  label : string;
}.

(** Lines 13-16. *)
Definition NAV_ITEMS : list NavItem :=
  [ {| href := "/"; label := "Queue" |}; {| href := "/chats"; label := "Chats" |} ].

(** Lines 44-47. *)
Definition isActive (pathname : string) (item : NavItem) : bool :=
  if String.eqb (href item) "/" then String.eqb pathname "/" || String.eqb pathname ""
  else String.eqb pathname (href item).

(** A string as a child. *)
Definition text_child {E : Type} (s : string) : option (list (node E)) :=
  if str_truthy s then Some [Text s] else None.

Inductive NoticeTone : Type := notice_info | notice_success | notice_error.

(** Lines 12-16. *)
Definition toneStyles (tone : NoticeTone) : string :=
  match tone with
  | notice_info => "bg-slate-100 text-slate-700 border-slate-200"
  | notice_success => "bg-emerald-50 text-emerald-700 border-emerald-200"
  | notice_error => "bg-rose-50 text-rose-700 border-rose-200"
  end.


Section Components.
Context {E : Type}.
Variable logout : E.

(** Lines 18-93. *)
Definition PageShell (pathname title : string) (subtitle : option string)
    (actions : option (list (node E))) (children : list (node E)) : node E :=
  let hasActions := bool_decide (is_Some actions) in
  Elem "div" [Str "className" "min-h-screen bg-white text-black"]
    [ Elem "header" [Str "className" "border-b border-slate-200 bg-white"]
        [ Elem "div" [Str "className" "mx-auto flex max-w-5xl flex-col gap-4 px-4 py-5 sm:px-6 md:flex-row md:items-center md:justify-between"]
            [ Elem "div" [Str "className" "space-y-2"]
                ([ Elem "p" [Str "className" "text-[11px] font-semibold uppercase tracking-[0.3rem] text-black/60"] [Text "CRMREBS"];
                   Elem "h1" [Str "className" "text-2xl font-semibold text-black md:text-3xl"] [Text title] ]
                 ++ when (str_truthy (default "" subtitle))
                      (Elem "p" [Str "className" "text-sm text-black/70"] [Text (default "" subtitle)]));
              Elem "nav" [Str "className" "flex flex-wrap items-center gap-2 md:justify-end"]
                (map (fun item =>
                        Elem "Link"
                          [ Str "key" (href item); Str "href" (href item);
                            Str "className"
                              (clsx [ Some "rounded-full px-4 py-2 text-sm font-medium transition-colors";
                                      Some (if isActive pathname item
                                            then "bg-black text-white"
                                            else "bg-slate-100 text-black/70 hover:bg-slate-200") ]) ]
                          [Text (label item)])
                     NAV_ITEMS) ] ];
      Elem "main" [Str "className" "mx-auto max-w-5xl px-4 py-8 sm:px-6 md:py-10"]
        (Elem "div"
           [ Str "className"
               (clsx [ Some "mb-6 flex flex-col gap-3 sm:flex-row sm:items-center";
                       Some (if hasActions then "sm:justify-between" else "sm:justify-end") ]) ]
           (when hasActions (Elem "div" [Str "className" "flex flex-wrap gap-3"] (default [] actions))
            ++ [ Elem "button"
                   [ Str "type" "button"; Handler "onClick" logout;
                     Str "className" "rounded-full border border-slate-300 px-4 py-2 text-sm font-medium text-black hover:border-slate-400 hover:text-black/70" ]
                   [Text "Log out"] ])
         :: children) ].


(** Lines 18-36. *)
Definition InlineNotice (tone : option NoticeTone) (title : option string)
    (description : option (list (node E))) : node E :=
  let tone := default notice_info tone in
  Elem "div"
    [ Str "className" (clsx [Some "rounded-lg border px-4 py-3 text-sm"; Some (toneStyles tone)]) ]
    (when (str_truthy (default "" title))
       (Elem "p" [Str "className" "font-medium"] [Text (default "" title)])
     ++ when (bool_decide (is_Some description))
          (Elem "div" [Str "className" (clsx [class_when (str_truthy (default "" title)) "mt-1"])]
             (default [] description))).


End Components.

(** ** Logging out *)

Record Cookie : Type := {
  cookie_value : string;
  http_only : bool;
}.

Record Browser : Type := {
  jar : gmap string Cookie;
  location : string;
}.

(** The text that the handler assigns, line 81. *)
Definition LOGOUT_COOKIE : string :=
  "crmrebs_token=; expires=Thu, 01 Jan 1970 00:00:00 GMT; path=/".

(** The name and the value of [name=value]. *)
Definition cookie_pair (part : string) : string * string :=
  match split_on "=" part with
  | name :: rest => (name, join_on "=" rest)
  | [] => (part, "")
  end.

(** [document.cookie = text] *)
Definition assign_cookie (text : string) (cookies : gmap string Cookie) : gmap string Cookie :=
  match split_cookies text with
  | first :: attributes =>
      let '(name, value) := cookie_pair first in
      if default false (http_only <$> cookies !! name) then cookies
      else if existsb (String.eqb "expires=Thu, 01 Jan 1970 00:00:00 GMT") attributes
           then delete name cookies
           else <[name := {| cookie_value := value; http_only := false |}]> cookies
  | [] => cookies
  end.

(** Lines 79-83: the handler of the log-out button. *)
Definition handleLogout (browser : Browser) : Browser :=
  {| jar := assign_cookie LOGOUT_COOKIE (jar browser); location := "/login" |}.

(** The request for a page, with the cookies of the jar. *)
Definition request_for (path : string) (browser : Browser) : NextRequest :=
  {| pathname := path; cookies := cookie_value <$> jar browser |}.

Definition request_of (browser : Browser) : NextRequest :=
  request_for (location browser) browser.

(** ** Facts *)

(** At most one item of the navigation is marked, and one is exactly on
    the two pages and on the empty path. *)
Lemma isActive_one pathname :
  List.filter (isActive pathname) NAV_ITEMS
  = if String.eqb pathname "/" || String.eqb pathname ""
    then [{| href := "/"; label := "Queue" |}]
    else if String.eqb pathname "/chats" then [{| href := "/chats"; label := "Chats" |}]
    else [].
Proof.
  unfold NAV_ITEMS, isActive; cbn.
  destruct (String.eqb_spec pathname "/") as [->|_]; [reflexivity|].
  destruct (String.eqb_spec pathname "") as [->|_]; [reflexivity|].
  destruct (String.eqb pathname "/chats"); reflexivity.
Qed.

Section ShellFacts.
Context {E : Type}.
Variable logout : E.

(** The frame adds one handler to those of the page: the log-out button,
    between the actions and the children, and never disabled. *)
Lemma PageShell_clicks pathname title subtitle actions (children : list (node E)) :
  clicks (PageShell logout pathname title subtitle actions children)
  = (flat_map clicks (default [] actions) ++ [logout] ++ flat_map clicks children)%list.
Proof.
  destruct actions as [actions|], subtitle as [[|c s]|]; cbn;
    rewrite ?app_nil_r, <- ?app_assoc; reflexivity.
Qed.

Lemma PageShell_submits pathname title subtitle actions (children : list (node E)) :
  submits (PageShell logout pathname title subtitle actions children)
  = (flat_map submits (default [] actions) ++ flat_map submits children)%list.
Proof.
  destruct actions as [actions|], subtitle as [[|c s]|]; cbn;
    rewrite ?app_nil_r, <- ?app_assoc; reflexivity.
Qed.

Lemma PageShell_picks pathname title subtitle actions (children : list (node E)) :
  picks (PageShell logout pathname title subtitle actions children)
  = (flat_map picks (default [] actions) ++ flat_map picks children)%list.
Proof.
  destruct actions as [actions|], subtitle as [[|c s]|]; cbn;
    rewrite ?app_nil_r, <- ?app_assoc; reflexivity.
Qed.

Lemma PageShell_changes pathname title subtitle actions (children : list (node E)) :
  changes (PageShell logout pathname title subtitle actions children)
  = (flat_map changes (default [] actions) ++ flat_map changes children)%list.
Proof.
  destruct actions as [actions|], subtitle as [[|c s]|]; cbn;
    rewrite ?app_nil_r, <- ?app_assoc; reflexivity.
Qed.

(** What the frame offers: what its actions offer, the log-out, and what
    the page in it offers. *)
Lemma PageShell_offers pathname title subtitle actions (children : list (node E)) e :
  offered (PageShell logout pathname title subtitle actions children) e
  <-> Exists (fun n => offered n e) (default [] actions) \/ e = logout
      \/ Exists (fun n => offered n e) children.
Proof.
  rewrite (offered_lists _ _ _ _ _ _ (PageShell_clicks _ _ _ _ _) (PageShell_submits _ _ _ _ _)
             (PageShell_picks _ _ _ _ _) (PageShell_changes _ _ _ _ _)), !offered_among.
  rewrite !in_app_iff, changes_app; cbn [In]; intuition auto.
Qed.

(** A notice offers what its description offers. *)
Lemma InlineNotice_inert tone title (description : option (list (node E))) :
  Forall inert (default [] description) -> inert (InlineNotice tone title description).
Proof.
  intros (Hc & Hch & Hs & Hp)%inert_all.
  unfold inert; destruct description as [nodes|], title as [[|c t]|]; cbn in *;
    rewrite ?app_nil_r, ?Hc, ?Hch, ?Hs, ?Hp; repeat split.
Qed.

Lemma InlineNotice_text_inert tone title (description : string) :
  inert (InlineNotice (E := E) tone title (text_child description)).
Proof.
  apply InlineNotice_inert; unfold text_child; destruct (str_truthy description);
    repeat constructor.
Qed.

Lemma InlineNotice_text_clicks tone title (description : string) :
  clicks (InlineNotice (E := E) tone title (text_child description)) = [].
Proof. apply InlineNotice_text_inert. Qed.

Lemma InlineNotice_text_changes tone title (description : string) :
  changes (InlineNotice (E := E) tone title (text_child description)) = [].
Proof. apply InlineNotice_text_inert. Qed.

Lemma InlineNotice_text_picks tone title (description : string) :
  picks (InlineNotice (E := E) tone title (text_child description)) = [].
Proof. apply InlineNotice_text_inert. Qed.

Lemma InlineNotice_text_submits tone title (description : string) :
  submits (InlineNotice (E := E) tone title (text_child description)) = [].
Proof. apply InlineNotice_text_inert. Qed.

(** A notice shows its title, then its description. *)
Lemma InlineNotice_text tone title (description : string) :
  text_content (InlineNotice (E := E) tone title (text_child description))
  = default "" title +:+ description.
Proof.
  destruct title as [[|c t]|], description as [|d s]; cbn; rewrite ?append_empty_r; reflexivity.
Qed.

End ShellFacts.

(** ** Logging out, and the guard *)

Lemma assign_LOGOUT_COOKIE cookies :
  assign_cookie LOGOUT_COOKIE cookies
  = if default false (http_only <$> cookies !! AUTH_COOKIE) then cookies
    else delete AUTH_COOKIE cookies.
Proof. reflexivity. Qed.

Section Guard.
Context `{host : Host} `{decoder : Decoder}.

(** C23.  After logging out, the guard serves the login page and sends every
    request for a page it guards to the login page: the token is gone,
    unless the cookie is HttpOnly. *)
Theorem logout_guarded now browser :
  default false (http_only <$> jar browser !! AUTH_COOKIE) = false ->
  middleware now (request_of (handleLogout browser)) = Next /\
  forall path, bypassed path = false -> path <> "/login" ->
    middleware now (request_for path (handleLogout browser)) = Redirect loginUrl [].
Proof.
  intros Hscript.
  assert (Hgone : forall path,
             cookies (request_for path (handleLogout browser)) !! AUTH_COOKIE = None).
  { intros path; cbn [cookies request_for handleLogout jar].
    rewrite assign_LOGOUT_COOKIE, Hscript, lookup_fmap, lookup_delete_eq.
    reflexivity. }
  split; [|intros path Hpath Hne]; unfold request_of, middleware; rewrite Hgone; cbn.
  - reflexivity.
  - rewrite Hpath, orb_false_r, (proj2 (String.eqb_neq _ _) Hne); reflexivity.
Qed.

(** When the token cookie is HttpOnly the handler changes nothing in the
    jar, and a token that is still valid sends the browser from the login
    page back to the dashboard. *)
Theorem logout_http_only now browser token :
  jar browser !! AUTH_COOKIE = Some {| cookie_value := token; http_only := true |} ->
  str_truthy token = true -> isJwtExpired now token = false ->
  jar (handleLogout browser) = jar browser /\
  middleware now (request_of (handleLogout browser)) = Redirect dashboardUrl [].
Proof.
  intros Hjar Htoken Hlive.
  assert (Hsame : jar (handleLogout browser) = jar browser).
  { cbn [handleLogout jar]; rewrite assign_LOGOUT_COOKIE, Hjar; reflexivity. }
  split; [exact Hsame|]; unfold middleware, request_of, request_for; cbn [pathname cookies].
  rewrite Hsame, lookup_fmap, Hjar; cbn; rewrite Htoken, Hlive; reflexivity.
Qed.

End Guard.

(** ** Examples *)

(** A browser on the dashboard with the token of a session. *)
Definition signed_in (script_visible : bool) : Browser :=
  {| jar := {[AUTH_COOKIE := {| cookie_value := sample_token;
                                http_only := negb script_visible |}]};
     location := "/" |}.

Example handleLogout_examples :
  handleLogout (signed_in true) = {| jar := ∅; location := "/login" |} /\
  handleLogout (signed_in false) = {| jar := jar (signed_in false); location := "/login" |} /\
  assign_cookie "theme=dark; path=/" ∅
  = {["theme" := {| cookie_value := "dark"; http_only := false |}]}.
Proof. vm_compute; repeat split; reflexivity. Qed.

Lemma logout_guarded_witness :
  middleware (host := host_bucharest) 1710496800000 (request_of (handleLogout (signed_in true)))
  = Next.
Proof.
  exact (proj1 (logout_guarded (host := host_bucharest) 1710496800000 (signed_in true) eq_refl)).
Defined.

Lemma logout_http_only_witness :
  jar (handleLogout (signed_in false)) = jar (signed_in false) /\
  middleware (host := host_bucharest) 1710496800000 (request_of (handleLogout (signed_in false)))
  = Redirect dashboardUrl [].
Proof.
  apply (logout_http_only (host := host_bucharest) 1710496800000 (signed_in false) sample_token);
    vm_compute; reflexivity.
Defined.
