(* ===== verification/ConversationView.v ===== *)
(** * ConversationView: what the conversation panel renders

    The element that [ConversationPanel] returns, lines 178-289 of
    [src/frontend/src/pages/login.tsx], and the message hook of lines
    133-139.  The state, the handlers and the panel in time are in
    [Conversation].

    The tree is written over any type of events: the panel is given the
    event of its close button by its page ([onClose]), and the events of
    its own two controls, the draft and the send button, are parameters
    ([onDraft], [onSend]).  With [PanelEvent] for these it is the panel
    on its own; a page gives them an event of its own.

    A render can throw: the time of a message is formatted by
    [formatMessageTimestamp]. *)

From Stdlib Require Import QArith ZArith Lia Ascii.
From stdpp Require Import base tactics option list strings gmap relations.
From S2P Require Import Prelude JsNumber JsString JsValue Calendar RefHost Leads Filters Dates.
From S2P Require Import View Conversation Middleware Login Shell.
Close Scope Q_scope.
Open Scope string_scope.

(** ** The tree *)

(** What the hook of lines 133-139 returns. *)
Record MessagesSwr : Type := {
  msg_data : option MessagesResponse;
  msg_error : option exn;
  msg_isValidating : bool;
}.

(** The hook before its first response. *)
Definition no_messages : MessagesSwr :=
  {| msg_data := None; msg_error := None; msg_isValidating := true |}.

(** The events of the panel on its own. *)
Inductive PanelEvent : Type :=
| DraftChanged (text : string)
| SendClicked
| CloseClicked.

Section Panel.
Context {host : Host} {E : Type}.
Variable now : Z.
Variable onDraft : string -> E.
Variable onSend : E.

(** Lines 221-249: a message of the list. *)
Definition message_row (msg : ConversationMessage) : result exn (node E) :=
  let outgoing := bool_decide (direction msg = outbound) in
  let incoming := bool_decide (direction msg = inbound) in
  time ← formatMessageTimestamp now (InString (timestamp msg));
  Ok (Elem "div"
        [ Str "key" (message_key msg);
          Str "className"
            (clsx [ Some "flex"; class_when outgoing "justify-end"; class_when incoming "justify-start" ]) ]
        [ Elem "div"
            [ Str "className"
                (clsx [ Some "max-w-[75%] rounded-2xl px-4 py-3 shadow-sm";
                        Some (if outgoing then "bg-slate-900 text-white" else "bg-white text-black") ]) ]
            [ Elem "p" [Str "className" "text-sm leading-relaxed"] [Text (message msg)];
              Elem "div"
                [ Str "className"
                    (clsx [ Some "mt-2 flex items-center justify-between text-xs md:text-[11px]";
                            Some (if outgoing then "text-white/70" else "text-black/50") ]) ]
                (Elem "span" [] [Text time]
                 :: when (opt_str_truthy (msg_status msg))
                      (Elem "span" [] [Text (default "" (msg_status msg))])) ] ]).


(** Lines 178-289: what the panel renders. *)
Definition ConversationPanel (swr : MessagesSwr) (st : PanelState) (lead : Lead) (onClose : E)
    : result exn (node E) :=
  let messages := panel_messages (msg_data swr) in
  let failed := default false (exn_truthy <$> msg_error swr) in
  rows ← result_mapM message_row messages;
  Ok (Elem "div" [Str "className" "fixed inset-0 z-50 flex items-stretch justify-center bg-black/40 px-0 py-0 backdrop-blur-sm md:items-center md:px-4 md:py-6"]
        [ Elem "div" [Str "className" "flex h-full w-full max-w-3xl flex-col bg-white shadow-xl md:h-[90vh] md:rounded-2xl"]
            [ Elem "div" [Str "className" "flex items-start justify-between border-b border-slate-200 px-4 py-3 sm:px-6 sm:py-4"]
                [ Elem "div" []
                    [ Elem "p" [Str "className" "text-xs font-semibold uppercase tracking-[0.3rem] text-black/60"] [Text (display_id lead)];
                      Elem "h2" [Str "className" "mt-1 text-lg font-semibold text-black sm:text-xl"]
                        [Text (if str_truthy (title lead) then title lead else "Untitled property")];
                      Elem "p" [Str "className" "mt-1 text-sm text-black/70"]
                        [ Text (lister_name lead); Text " · ";
                          Text (default "No phone" (lister_phone lead)) ] ];
                  Elem "button"
                    [ Str "type" "button"; Handler "onClick" onClose;
                      Str "className" "rounded-full border border-slate-200 px-4 py-2 text-sm font-medium text-black transition-colors hover:border-slate-300 hover:text-black/70" ]
                    [Text "Close"] ];
              Elem "div" [Str "className" "flex-1 space-y-3 overflow-y-auto bg-slate-50 px-3 py-4 sm:px-4 sm:py-6"]
                (when failed
                   (InlineNotice (Some notice_error) None
                      (text_child "We couldn’t load this conversation."))
                 ++ when ((length messages =? 0)%nat && negb failed)
                      (InlineNotice (Some notice_info) None
                         (text_child "No messages yet. Start the conversation below."))
                 ++ rows
                 ++ when (msg_isValidating swr && (0 <? length messages)%nat)
                      (Elem "p" [Str "className" "text-center text-xs text-black/50"] [Text "Updating…"]));
              Elem "div" [Str "className" "border-t border-slate-200 px-4 py-3 sm:px-6 sm:py-4"]
                (when (str_truthy (default "" (sendError st)))
                   (Elem "div" [Str "className" "mb-3"]
                      [InlineNotice (Some notice_error) None (text_child (default "" (sendError st)))])
                 ++ [ Elem "div" [Str "className" "space-y-3"]
                        [ Elem "textarea"
                            [ Str "value" (draft st); ValueHandler "onChange" onDraft;
                              Str "placeholder" "Type your reply…"; Num "rows" 3;
                              Str "className" "w-full rounded-xl border border-slate-300 px-4 py-3 text-sm text-black focus:border-slate-500 focus:outline-none focus:ring-2 focus:ring-slate-200" ] [];
                          Elem "div" [Str "className" "flex flex-col gap-3 sm:flex-row sm:items-center sm:justify-between"]
                            [ Elem "p" [Str "className" "text-xs text-black/50"]
                                [Text "Replies are sent via your approved WhatsApp template session."];
                              Elem "button"
                                [ Str "type" "button"; Handler "onClick" onSend;
                                  Flag "disabled" (send_disabled st);
                                  Str "className" "w-full rounded-full bg-slate-900 px-5 py-2 text-sm font-medium text-white transition-colors hover:bg-slate-800 disabled:cursor-not-allowed disabled:opacity-60 sm:w-auto" ]
                                [Text "Send reply"] ] ] ]) ] ]).


(** The time of the message can be shown. *)
Definition timed (msg : ConversationMessage) : Prop :=
  timestamp msg = "" \/ is_Some (parseISO (timestamp msg)).

End Panel.

(** What an event of the panel on its own does to it, the close button
    apart: the page takes the panel away. *)
Definition panel_event (e : PanelEvent) (s : PanelSys) : PanelSys :=
  match e with
  | DraftChanged text => update_panel (setDraft text (panel s)) (panel_tasks s) [] s
  | SendClicked =>
      update_panel (setSendError None (panel s)) (panel_tasks s ++ [Replying])
        [CallReply (lead_id s) (trim (draft (panel s)))] s
  | CloseClicked => s
  end.

(** ** Facts *)

Section PanelFacts.
Context {host : Host} {E : Type}.
Variable now : Z.
Variable onDraft : string -> E.
Variable onSend : E.

Local Notation "'row'" := (message_row (E := E) now).
Local Notation "'view'" := (ConversationPanel now onDraft onSend).

Lemma message_row_inert msg tree : row msg = Ok tree -> inert tree.
Proof.
  unfold message_row; intros (time & _ & [= <-])%result_bind_ok.
  destruct (opt_str_truthy (msg_status msg)); repeat split.
Qed.

Lemma message_rows_inert msgs rows : result_mapM row msgs = Ok rows -> Forall inert rows.
Proof.
  intros Hrows%result_mapM_Forall2.
  induction Hrows as [|msg tree msgs rows Hrow%message_row_inert _ IH]; constructor; assumption.
Qed.

Lemma message_row_is_ok msg : is_ok (row msg) = true <-> timed msg.
Proof.
  unfold message_row, timed; cbv zeta.
  rewrite <- formatMessageTimestamp_is_ok with (now := now).
  destruct (formatMessageTimestamp now (InString (timestamp msg))); cbn; tauto.
Qed.

(** The handlers of a render: the close button, the send button unless
    it is disabled, and the draft. *)
Lemma ConversationPanel_handlers swr st lead onClose tree :
  view swr st lead onClose = Ok tree ->
  clicks tree = (onClose :: if send_disabled st then [] else [onSend])
  /\ changes tree = [onDraft] /\ submits tree = [] /\ picks tree = [].
Proof.
  unfold ConversationPanel.
  intros (rows & (Hc & Hch & Hs & Hp)%message_rows_inert%inert_all & [= <-])%result_bind_ok.
  forget_styles; tree_handlers.
  rewrite Hc, Hch, Hs, Hp, !InlineNotice_text_clicks, !InlineNotice_text_changes,
    !InlineNotice_text_submits, !InlineNotice_text_picks.
  generalize (send_disabled st) (default false (exn_truthy <$> msg_error swr))
    (length (panel_messages (msg_data swr))) (msg_isValidating swr)
    (str_truthy (default "" (sendError st))).
  intros disabled failed count validating errored; cbn.
  destruct disabled, failed, count, validating, errored; repeat split.
Qed.

(** What a render offers: the close button, the send button when the
    trimmed draft is not empty, and the draft. *)
Lemma ConversationPanel_raises swr st lead onClose tree e :
  view swr st lead onClose = Ok tree ->
  offered tree e
  <-> e = onClose \/ (send_disabled st = false /\ e = onSend) \/ exists text, e = onDraft text.
Proof.
  intros (Hc & Hch & Hs & Hp)%ConversationPanel_handlers.
  rewrite (offered_lists _ _ _ _ _ _ Hc Hs Hp Hch).
  destruct (send_disabled st); cbn [In app]; split; intros Hcase;
    repeat (destruct_or?; destruct_and?; try match goal with H : ex _ |- _ => destruct H end);
    subst; try done.
  all: disj.
Qed.

(** The panel renders when the time of every message can be shown, and
    only then. *)
Lemma ConversationPanel_is_ok swr st lead onClose :
  is_ok (view swr st lead onClose) = true <-> Forall timed (panel_messages (msg_data swr)).
Proof.
  unfold ConversationPanel; cbv zeta.
  rewrite <- (Forall_iff _ _ _ message_row_is_ok), <- result_mapM_is_ok.
  destruct (result_mapM _ _); cbn; tauto.
Qed.

End PanelFacts.

Section PanelAlone.
Context {host : Host}.
Variable now : Z.

Local Notation "'view'" := (ConversationPanel now DraftChanged SendClicked).

(** The panel lets the operator type and close at any time, and send
    exactly when the trimmed draft is not empty. *)
Theorem ConversationPanel_offers swr st lead tree e :
  view swr st lead CloseClicked = Ok tree ->
  offered tree e
  <-> (exists text, e = DraftChanged text) \/ e = CloseClicked
      \/ (e = SendClicked /\ send_disabled st = false).
Proof.
  intros Hrender; etransitivity; [eapply ConversationPanel_raises, Hrender|].
  split; intros Hcase; repeat (destruct_or?; destruct_and?); eauto.
Qed.

(** What the panel offers, the close button apart, is a step of the
    panel in time. *)
Theorem offered_is_pstep swr s lead tree e :
  view swr (panel s) lead CloseClicked = Ok tree -> offered tree e -> e <> CloseClicked ->
  pstep s (panel_event e s).
Proof.
  intros Hrender He Hne; eapply ConversationPanel_raises in He; [|exact Hrender].
  destruct He as [->|[[Hsend ->]|[text ->]]];
    [contradiction | apply pstep_send, Hsend | apply pstep_type].
Qed.

End PanelAlone.

(** ** Examples on the reference host *)

Definition sample_messages : list ConversationMessage := [
  {| msg_id := Some "m1"; direction := outbound; message := "Buna ziua";
     message_type := "template"; timestamp := "2024-03-15T08:05:00Z";
     msg_status := Some "delivered" |};
  {| msg_id := None; direction := inbound; message := "Da, este disponibil";
     message_type := "text"; timestamp := "2024-03-15T08:10:00Z"; msg_status := None |}
].

Definition polled (msgs : list ConversationMessage) : MessagesSwr :=
  {| msg_data := Some {| messages := msgs |}; msg_error := None; msg_isValidating := false |}.

Definition sample_panel (swr : MessagesSwr) (text : string) : result exn (node PanelEvent) :=
  ConversationPanel (host := host_bucharest) sample_today DraftChanged SendClicked swr
    {| draft := text; sendError := None |} (sample_lead "p1" "2024-03-01" ∅) CloseClicked.

Example ConversationPanel_examples :
  (clicks <$> sample_panel (polled sample_messages) "") = Ok [CloseClicked] /\
  (clicks <$> sample_panel (polled sample_messages) "  ") = Ok [CloseClicked] /\
  (clicks <$> sample_panel (polled sample_messages) " ok ") = Ok [CloseClicked; SendClicked] /\
  (text_content <$> sample_panel (polled sample_messages) "")
  = Ok "p1Untitled property · No phoneCloseBuna ziua10:05deliveredDa, este disponibil10:10Replies are sent via your approved WhatsApp template session.Send reply" /\
  (text_content <$> sample_panel (polled []) "")
  = Ok "p1Untitled property · No phoneCloseNo messages yet. Start the conversation below.Replies are sent via your approved WhatsApp template session.Send reply" /\
  sample_panel
    (polled [{| msg_id := None; direction := inbound; message := "?"; message_type := "text";
                timestamp := "yesterday"; msg_status := None |}]) ""
  = Throw (RangeError "Invalid time value").
Proof. vm_compute; repeat split; reflexivity. Qed.

(** ** Witnesses *)

Lemma ConversationPanel_offers_witness :
  exists tree, sample_panel (polled sample_messages) " ok " = Ok tree
    /\ (offered tree SendClicked
        <-> (exists text, SendClicked = DraftChanged text) \/ SendClicked = CloseClicked
            \/ (SendClicked = SendClicked
                /\ send_disabled {| draft := " ok "; sendError := None |} = false)).
Proof.
  destruct (sample_panel (polled sample_messages) " ok ") as [tree|e] eqn:Hrender;
    [|vm_compute in Hrender; discriminate].
  exists tree; split; [reflexivity|].
  exact (ConversationPanel_offers (host := host_bucharest) sample_today (polled sample_messages)
           {| draft := " ok "; sendError := None |} (sample_lead "p1" "2024-03-01" ∅) tree
           SendClicked Hrender).
Defined.
