(* ===== verification/FilterView.v ===== *)
(** * FilterView: what the filter panel renders

    The element that [LeadFiltersPanel] returns, lines 91-341 of
    [src/frontend/src/components/LeadFilters.tsx], field by field.  The
    state, the handlers and the form in time are in [FilterPanel].

    The tree is written over any type of events: [edits] is the event of
    an input that changes, [applies] that of the form submitted, [resets]
    that of the reset button.  With [FormEvent] for these it is the form
    on its own; a page gives them events of its own.

    A select raises its handler on the values of its options; the select
    of the rooms has the six of [ROOMS_OPTIONS], so that the text its
    handler casts to a room filter is one of the six ([rooms_of_string]
    reads any other text as [rooms_all]).  The form is submitted by its
    submit button when the browser finds every input valid: the inputs
    of the budget have the type [number] and a [min] of 0. *)

From Stdlib Require Import QArith ZArith Lia Ascii.
From stdpp Require Import base tactics option list strings gmap relations.
From S2P Require Import Prelude JsNumber JsString JsValue Collections RefHost Leads Filters Facets.
From S2P Require Import View FilterPanel.
Close Scope Q_scope.
Open Scope string_scope.

(** ** The tree *)

(** The events of the form on its own. *)
Inductive FormEvent : Type :=
| FormEdit (e : Edit)
| FormApply
| FormReset.

(** The text of an option of the rooms select, read back. *)
Definition rooms_of_string (text : string) : RoomsFilter :=
  if String.eqb text "1" then rooms_1
  else if String.eqb text "2" then rooms_2
  else if String.eqb text "3" then rooms_3
  else if String.eqb text "4" then rooms_4
  else if String.eqb text "5+" then rooms_5_plus
  else rooms_all.

(** [value={n ?? ""}] *)
Definition number_value {E : Type} (n : option number) : prop E :=
  match n with
  | Some n => Number "value" n
  | None => Str "value" ""
  end.

Section Form.
Context {host : Host} {E : Type}.
Variable edits : Edit -> E.
Variable applies : E.
Variable resets : E.

(** Lines 100-120: the check boxes of the property types. *)
Definition types_field (st : FiltersForm) : node E :=
  Elem "fieldset" []
    [ Elem "legend" [Str "className" "text-sm font-semibold text-black"] [Text "Tip proprietate"];
      Elem "div" [Str "className" "mt-3 grid gap-2"]
        (map (fun option =>
                Elem "label"
                  [ Str "key" (NumberToString (option_value option)); Str "className" "flex items-center gap-2 text-sm text-black/70" ]
                  [ Elem "input"
                      [ Str "type" "checkbox"; Str "className" "h-4 w-4 rounded border-slate-300";
                        Flag "checked"
                          (includes_number (propertyTypes (filters_draft st)) (option_value option));
                        Handler "onChange" (edits (EditType option)) ] [];
                    Text (option_label option) ])
           PROPERTY_TYPE_OPTIONS) ].

(** Lines 144-148 and 175-179: the options of a select. *)
Definition select_options (prefix : string) (options : list OptionItem) : list (node E) :=
  map (fun option =>
         Elem "option"
           [ Str "key" (NumberToString (option_value option));
             Str "value" (NumberToString (option_value option)) ]
           [Text (formatOptionLabel option prefix)]) options.

(** Lines 132-149 and 163-180: a select of identifiers, with a first
    option for none. *)
Definition option_select (selected : option number) (onChange : string -> E)
    (className none prefix : string) (options : list OptionItem) : node E :=
  Elem "select"
    [ number_value selected; ValueHandler "onChange" onChange; Str "className" className ]
    (Elem "option" [Str "value" ""] [Text none] :: select_options prefix options).

(** Lines 122-151: the search box and the select of the regions. *)
Definition region_field (leads : list Lead) (st : FiltersForm) : node E :=
  Elem "fieldset" []
    [ Elem "legend" [Str "className" "text-sm font-semibold text-black"] [Text "Județ"];
      Elem "div" [Str "className" "mt-3 space-y-2"]
        [ Elem "input"
            [ Str "type" "text"; Str "value" (regionQuery st);
              ValueHandler "onChange" (fun text => edits (EditRegionQuery text));
              Str "placeholder" "Caută județ"; Str "className" "w-full rounded-lg border border-slate-300 px-3 py-2 text-sm focus:border-slate-500 focus:outline-none focus:ring-2 focus:ring-slate-200" ] [];
          option_select (regionId (filters_draft st)) (fun text => edits (EditRegion text))
            "w-full rounded-lg border border-slate-300 px-3 py-2 text-sm text-black/70 focus:border-slate-500 focus:outline-none focus:ring-2 focus:ring-slate-200" "Toată Țara" "Județ" (filteredRegions leads st) ] ].

(** Lines 153-182: the search box and the select of the zones. *)
Definition zone_field (leads : list Lead) (st : FiltersForm) : node E :=
  Elem "fieldset" []
    [ Elem "legend" [Str "className" "text-sm font-semibold text-black"] [Text "Zonă"];
      Elem "div" [Str "className" "mt-3 space-y-2"]
        [ Elem "input"
            [ Str "type" "text"; Str "value" (zoneQuery st);
              ValueHandler "onChange" (fun text => edits (EditZoneQuery text));
              Str "placeholder" "Caută zonă"; Str "className" "w-full rounded-lg border border-slate-300 px-3 py-2 text-sm focus:border-slate-500 focus:outline-none focus:ring-2 focus:ring-slate-200" ] [];
          option_select (zoneId (filters_draft st)) (fun text => edits (EditZone text))
            "w-full rounded-lg border border-slate-300 px-3 py-2 text-sm text-black/70 focus:border-slate-500 focus:outline-none focus:ring-2 focus:ring-slate-200" "Niciuna selectată" "Zonă" (filteredZones leads st) ] ].

(** Lines 184-208: the two check boxes of the transaction. *)
Definition transaction_field (st : FiltersForm) : node E :=
  Elem "fieldset" []
    [ Elem "legend" [Str "className" "text-sm font-semibold text-black"] [Text "Tip tranzacție"];
      Elem "div" [Str "className" "mt-3 grid gap-2"]
        [ Elem "label" [Str "className" "flex items-center gap-2 text-sm text-black/70"]
            [ Elem "input"
                [ Str "type" "checkbox"; Str "className" "h-4 w-4 rounded border-slate-300";
                  Flag "checked" (sale (transaction (filters_draft st)));
                  Handler "onChange" (edits (EditTransaction key_sale)) ] [];
              Text "Cumpărare" ];
          Elem "label" [Str "className" "flex items-center gap-2 text-sm text-black/70"]
            [ Elem "input"
                [ Str "type" "checkbox"; Str "className" "h-4 w-4 rounded border-slate-300";
                  Flag "checked" (rent (transaction (filters_draft st)));
                  Handler "onChange" (edits (EditTransaction key_rent)) ] [];
              Text "Închiriere" ] ] ].

(** Lines 210-230: the select of the rooms. *)
Definition rooms_field (st : FiltersForm) : node E :=
  Elem "fieldset" []
    [ Elem "legend" [Str "className" "text-sm font-semibold text-black"] [Text "Camere"];
      Elem "div" [Str "className" "mt-3"]
        [ Elem "select"
            [ Str "value" (rooms_string (rooms (filters_draft st)));
              ValueHandler "onChange" (fun text => edits (EditRooms (rooms_of_string text)));
              Str "className" "w-full rounded-lg border border-slate-300 px-3 py-2 text-sm text-black/70 focus:border-slate-500 focus:outline-none focus:ring-2 focus:ring-slate-200" ]
            (map (fun option =>
                    Elem "option"
                      [ Str "key" (rooms_string option.1); Str "value" (rooms_string option.1) ]
                      [Text option.2]) ROOMS_OPTIONS) ] ].

(** Lines 232-280: the two bounds of the budget. *)
Definition budget_field (st : FiltersForm) : node E :=
  Elem "fieldset" []
    [ Elem "legend" [Str "className" "text-sm font-semibold text-black"] [Text "Buget maxim"];
      Elem "div" [Str "className" "mt-3 grid grid-cols-2 gap-3"]
        [ Elem "div" []
            [ Elem "label" [Str "className" "mb-1 block text-xs font-medium text-black/60"] [Text "Min"];
              Elem "input"
                [ Str "type" "number"; Num "min" 0; Str "placeholder" "Min";
                  number_value (minBudget (filters_draft st));
                  ValueHandler "onChange" (fun text => edits (EditMinBudget text));
                  Str "className" "w-full rounded-lg border border-slate-300 px-3 py-2 text-sm focus:border-slate-500 focus:outline-none focus:ring-2 focus:ring-slate-200" ] [] ];
          Elem "div" []
            [ Elem "label" [Str "className" "mb-1 block text-xs font-medium text-black/60"] [Text "Max"];
              Elem "input"
                [ Str "type" "number"; Num "min" 0; Str "placeholder" "Max";
                  number_value (maxBudget (filters_draft st));
                  ValueHandler "onChange" (fun text => edits (EditMaxBudget text));
                  Str "className" "w-full rounded-lg border border-slate-300 px-3 py-2 text-sm focus:border-slate-500 focus:outline-none focus:ring-2 focus:ring-slate-200" ] [] ] ] ].

(** Lines 282-322: the two bounds of the date. *)
Definition date_field (st : FiltersForm) : node E :=
  Elem "fieldset" []
    [ Elem "legend" [Str "className" "text-sm font-semibold text-black"] [Text "Data adăugării"];
      Elem "div" [Str "className" "mt-3 grid grid-cols-2 gap-3"]
        [ Elem "div" []
            [ Elem "label" [Str "className" "mb-1 block text-xs font-medium text-black/60"] [Text "De la"];
              Elem "input"
                [ Str "type" "date"; Str "value" (default "" (dateFrom (filters_draft st)));
                  ValueHandler "onChange" (fun text => edits (EditDateFrom text));
                  Str "className" "w-full rounded-lg border border-slate-300 px-3 py-2 text-sm focus:border-slate-500 focus:outline-none focus:ring-2 focus:ring-slate-200" ] [] ];
          Elem "div" []
            [ Elem "label" [Str "className" "mb-1 block text-xs font-medium text-black/60"] [Text "Până la"];
              Elem "input"
                [ Str "type" "date"; Str "value" (default "" (dateTo (filters_draft st)));
                  ValueHandler "onChange" (fun text => edits (EditDateTo text));
                  Str "className" "w-full rounded-lg border border-slate-300 px-3 py-2 text-sm focus:border-slate-500 focus:outline-none focus:ring-2 focus:ring-slate-200" ] [] ] ] ].

(** Lines 325-339: the two buttons. *)
Definition form_buttons : node E :=
  Elem "div" [Str "className" "mt-6 flex flex-wrap items-center justify-end gap-3"]
    [ Elem "button" [Str "type" "button"; Handler "onClick" resets; Str "className" "rounded-full border border-slate-300 px-5 py-2 text-sm font-medium text-black transition-colors hover:border-slate-400 hover:text-black/70"] [Text "Reset"];
      Elem "button" [Str "type" "submit"; Str "className" "rounded-full bg-slate-900 px-5 py-2 text-sm font-medium text-white transition-colors hover:bg-slate-800"] [Text "Caută"] ].

(** Lines 91-341: what the panel renders. *)
Definition LeadFiltersPanel (leads : list Lead) (st : FiltersForm) : node E :=
  Elem "form" [Handler "onSubmit" applies; Str "className" "mb-6 rounded-2xl border border-slate-200 bg-white px-4 py-5 shadow-sm sm:px-6"]
    [ Elem "div" [Str "className" "grid gap-5 md:grid-cols-2 lg:grid-cols-3"]
        [ types_field st; region_field leads st; zone_field leads st; transaction_field st;
          rooms_field st; budget_field st; date_field st ];
      form_buttons ].


End Form.

(** The budget that the browser lets through: no bound, a bound that is
    not a finite number (the input shows nothing), or a whole number that
    is not negative. *)
Definition budget_valid (bound : option number) : bool :=
  match bound with
  | Some n => in_steps (Some 0%Z) n
  | None => true
  end.

Definition budgets_valid (st : FiltersForm) : bool :=
  budget_valid (minBudget (filters_draft st)) && budget_valid (maxBudget (filters_draft st)).

(** An option of a select of identifiers: none, or one of its list. *)
Definition option_text `{host : Host} (options : list OptionItem) (text : string) : Prop :=
  text = "" \/ exists option, In option options /\ text = NumberToString (option_value option).

(** What the form lets the operator do to an input: tick a box of the
    catalogue, pick an option of a select, type in the other inputs. *)
Definition edit_in_view `{host : Host} (leads : list Lead) (st : FiltersForm) (e : Edit) : Prop :=
  match e with
  | EditType option => In option PROPERTY_TYPE_OPTIONS
  | EditRegion text => option_text (filteredRegions leads st) text
  | EditZone text => option_text (filteredZones leads st) text
  | _ => True
  end.

(** What an event of the form on its own does to the form under its
    page. *)
Definition form_event `{host : Host} (e : FormEvent) (st : FiltersForm)
    (appliedFilters : LeadFilters)
    : FormSys :=
  match e with
  | FormEdit e => {| applied := appliedFilters; form := Some (edit e st) |}
  | FormApply => after_handler (handleApply (fun filters _ => filters) (st, appliedFilters))
  | FormReset =>
      after_handler (handleReset (fun _ => DEFAULT_LEAD_FILTERS) (st, appliedFilters))
  end.

(** ** Facts *)

Lemma rooms_of_string_string r : rooms_of_string (rooms_string r) = r.
Proof. destruct r; reflexivity. Qed.

Section FormFacts.
Context {host : Host} {E : Type}.
Variable edits : Edit -> E.
Variable applies : E.
Variable resets : E.

Local Notation "'form_view'" := (LeadFiltersPanel edits applies resets).

Lemma select_options_hold prefix options :
  Forall (fun n => holds n [] [] [] false true) (select_options (E := E) prefix options)
  /\ option_values (select_options (E := E) prefix options)
     = map (fun option => NumberToString (option_value option)) options.
Proof.
  unfold select_options; split.
  - apply Forall_map, Forall_true; intros option; repeat split.
  - induction options as [|option options IH]; [reflexivity|].
    cbn [map]; rewrite <- IH; reflexivity.
Qed.

Lemma types_field_holds st :
  holds (types_field edits st) []
    (map (fun option _ => edits (EditType option)) PROPERTY_TYPE_OPTIONS) [] false true.
Proof. repeat split. Qed.

Lemma transaction_field_holds st :
  holds (transaction_field edits st) []
    [fun _ => edits (EditTransaction key_sale); fun _ => edits (EditTransaction key_rent)]
    [] false true.
Proof. repeat split. Qed.

Lemma rooms_field_holds st :
  holds (rooms_field edits st) [] []
    (map (fun option => edits (EditRooms option.1)) ROOMS_OPTIONS) false true.
Proof. repeat split. Qed.

Lemma budget_field_holds st :
  holds (budget_field edits st) []
    [fun text => edits (EditMinBudget text); fun text => edits (EditMaxBudget text)]
    [] false (budgets_valid st).
Proof.
  unfold budget_field, budgets_valid, budget_valid.
  destruct (minBudget (filters_draft st)) as [low|], (maxBudget (filters_draft st)) as [high|];
    repeat split; unfold all_valid; cbn; rewrite ?andb_true_r; reflexivity.
Qed.

Lemma date_field_holds st :
  holds (date_field edits st) []
    [fun text => edits (EditDateFrom text); fun text => edits (EditDateTo text)]
    [] false true.
Proof. repeat split. Qed.

Lemma form_buttons_hold : holds (form_buttons resets) [resets] [] [] true true.
Proof. repeat split. Qed.

Lemma option_select_holds selected (onChange : string -> E) className none prefix options :
  holds (option_select selected onChange className none prefix options) [] []
    (map onChange ("" :: map (fun option => NumberToString (option_value option)) options))
    false true.
Proof.
  destruct (select_options_hold prefix options) as [(Hc & Hch & Hp & Hs & Hb & Hv)%holds_nothing Hvalues].
  unfold option_select, holds; rewrite has_submit_Elem, all_valid_Elem.
  destruct selected; cbn [clicks changes picks submits flat_map existsb forallb];
    rewrite option_values_cons, Hc, Hch, Hp, Hs, Hb, Hv, Hvalues; cbn;
    rewrite ?app_nil_r; repeat split.
Qed.

Local Ltac use_select :=
  match goal with
  | |- context [clicks (option_select ?selected ?onChange ?className ?none ?prefix ?options)] =>
      use_part (option_select_holds selected onChange className none prefix options)
  end.

Lemma region_field_holds leads st :
  holds (region_field edits leads st) [] [fun text => edits (EditRegionQuery text)]
    (map (fun text => edits (EditRegion text))
       ("" :: map (fun option => NumberToString (option_value option)) (filteredRegions leads st)))
    false true.
Proof.
  unfold region_field; open_parts; use_select; cbn; rewrite ?app_nil_r; repeat split.
Qed.

Lemma zone_field_holds leads st :
  holds (zone_field edits leads st) [] [fun text => edits (EditZoneQuery text)]
    (map (fun text => edits (EditZone text))
       ("" :: map (fun option => NumberToString (option_value option)) (filteredZones leads st)))
    false true.
Proof.
  unfold zone_field; open_parts; use_select; cbn; rewrite ?app_nil_r; repeat split.
Qed.

(** The handlers of a render: the reset button; the inputs in the order
    of the form; the options of the three selects; and the submission,
    when the two bounds of the budget are valid. *)
Lemma LeadFiltersPanel_handlers leads st :
  clicks (form_view leads st) = [resets]
  /\ changes (form_view leads st)
     = (map (fun option _ => edits (EditType option)) PROPERTY_TYPE_OPTIONS
        ++ [ fun text => edits (EditRegionQuery text); fun text => edits (EditZoneQuery text);
             fun _ => edits (EditTransaction key_sale); fun _ => edits (EditTransaction key_rent);
             fun text => edits (EditMinBudget text); fun text => edits (EditMaxBudget text);
             fun text => edits (EditDateFrom text); fun text => edits (EditDateTo text) ])%list
  /\ picks (form_view leads st)
     = (map (fun text => edits (EditRegion text))
          ("" :: map (fun option => NumberToString (option_value option))
                   (filteredRegions leads st))
        ++ map (fun text => edits (EditZone text))
             ("" :: map (fun option => NumberToString (option_value option))
                      (filteredZones leads st))
        ++ map (fun option => edits (EditRooms option.1)) ROOMS_OPTIONS)%list
  /\ submits (form_view leads st) = if budgets_valid st then [applies] else [].
Proof.
  unfold LeadFiltersPanel; rewrite submits_Elem, has_submit_Elem, all_valid_Elem.
  cbn [clicks changes picks flat_map existsb forallb].
  rewrite has_submit_Elem, all_valid_Elem, submits_Elem.
  cbn [clicks changes picks flat_map existsb forallb].
  use_part (types_field_holds st); use_part (region_field_holds leads st);
    use_part (zone_field_holds leads st); use_part (transaction_field_holds st);
    use_part (rooms_field_holds st); use_part (budget_field_holds st);
    use_part (date_field_holds st); use_part form_buttons_hold.
  cbn; rewrite ?app_nil_r; destruct (budgets_valid st); repeat split.
Qed.

Lemma In_option_texts (options : list OptionItem) text :
  In text ("" :: map (fun option => NumberToString (option_value option)) options)
  <-> option_text options text.
Proof.
  unfold option_text; cbn [In]; rewrite in_map_iff; split.
  - intros [<-|(option & <- & Hin)]; eauto.
  - intros [->|(option & Hin & ->)]; eauto.
Qed.

Lemma rooms_option value : exists label, In (value, label) ROOMS_OPTIONS.
Proof. destruct value; eexists; cbn; eauto 10. Qed.

(** An input of the form that takes a text, and one that takes none. *)
Local Ltac typed edit text :=
  right; exists (fun text => edits (edit text)), text;
  split; [apply in_app_iff; right; cbn; tauto | reflexivity].

Local Ltac ticked e :=
  right; exists (fun _ => edits e), "";
  split; [apply in_app_iff; right; cbn; tauto | reflexivity].

Local Ltac listed leads st :=
  destruct (LeadFiltersPanel_handlers leads st) as (Hc & Hch & Hp & Hs);
  rewrite (offered_lists _ _ _ _ _ _ Hc Hs Hp Hch), !in_app_iff, !in_map_iff;
  setoid_rewrite In_option_texts.

Lemma offered_in_view leads st e :
  edit_in_view leads st e -> offered (form_view leads st) (edits e).
Proof.
  listed leads st.
  destruct e as [option|text|text|text|text|[]|value|text|text|text|text];
    cbn [edit_in_view]; intros Hin.
  - right; exists (fun _ => edits (EditType option)), "".
    split; [apply in_app_iff; left; apply in_map_iff; eauto | reflexivity].
  - typed EditRegionQuery text.
  - left; do 2 right; left; eauto.
  - typed EditZoneQuery text.
  - left; do 3 right; left; eauto.
  - ticked (EditTransaction key_sale).
  - ticked (EditTransaction key_rent).
  - destruct (rooms_option value) as [label Hlabel].
    left; do 4 right; exists (value, label); split; [reflexivity | exact Hlabel].
  - typed EditMinBudget text.
  - typed EditMaxBudget text.
  - typed EditDateFrom text.
  - typed EditDateTo text.
Qed.

Lemma offered_cases leads st e :
  offered (form_view leads st) e ->
  (exists edit, edit_in_view leads st edit /\ e = edits edit)
  \/ (budgets_valid st = true /\ e = applies) \/ e = resets.
Proof.
  listed leads st; setoid_rewrite in_app_iff; setoid_rewrite in_map_iff.
  destruct (budgets_valid st); cbn [In]; intros Hcase;
    repeat (destruct_or?; destruct_and?; try match goal with H : ex _ |- _ => destruct H end);
    simplify_eq; try done; try (right; disj).
  all: left; eexists; (split; [|reflexivity]); cbn; unfold option_text; eauto.
Qed.

(** What the form raises: an edit that its inputs can make, the
    submission when the two bounds of the budget are valid, the reset. *)
Lemma LeadFiltersPanel_raises leads st e :
  offered (form_view leads st) e
  <-> (exists edit, edit_in_view leads st edit /\ e = edits edit)
      \/ (budgets_valid st = true /\ e = applies) \/ e = resets.
Proof.
  split; [apply offered_cases|intros [(edit & Hin & ->)|Hcase]; [apply offered_in_view, Hin|]].
  destruct (LeadFiltersPanel_handlers leads st) as (Hc & Hch & Hp & Hs).
  rewrite (offered_lists _ _ _ _ _ _ Hc Hs Hp Hch), !in_app_iff.
  destruct Hcase as [[-> ->]| ->]; cbn; auto.
Qed.

End FormFacts.

Section FormAlone.
Context {host : Host}.

Local Notation "'form_view'" := (LeadFiltersPanel FormEdit FormApply FormReset).

(** C31.  The form lets the operator reset at any time, submit when the two
    bounds of the budget are valid, tick the boxes of the catalogue, pick
    among the options of the selects, and type in the other inputs. *)
Theorem LeadFiltersPanel_offers leads st e :
  offered (form_view leads st) e
  <-> match e with
      | FormEdit e => edit_in_view leads st e
      | FormApply => budgets_valid st = true
      | FormReset => True
      end.
Proof.
  rewrite LeadFiltersPanel_raises; destruct e as [e| |]; split; intros Hcase;
    repeat (destruct_or?; destruct_and?; try match goal with H : ex _ |- _ => destruct H end);
    simplify_eq; eauto.
Qed.

(** What the form offers is a step of the form under its page. *)
Theorem offered_is_form_step leads st appliedFilters e :
  offered (form_view leads st) e ->
  form_step {| applied := appliedFilters; form := Some st |} (form_event e st appliedFilters).
Proof.
  intros [(edit & Hin & ->)|[[_ ->]| ->]]%LeadFiltersPanel_raises.
  - apply (form_edit {| applied := appliedFilters; form := Some st |} st edit); [reflexivity|].
    destruct edit; try exact I; exact Hin.
  - apply (form_apply {| applied := appliedFilters; form := Some st |} st); reflexivity.
  - apply (form_reset {| applied := appliedFilters; form := Some st |} st); reflexivity.
Qed.

End FormAlone.

(** ** Examples on the reference host *)

Definition sample_form_view (st : FiltersForm) : node FormEvent :=
  LeadFiltersPanel (host := host_bucharest) FormEdit FormApply FormReset facet_leads st.

(** A draft with a budget of 1500.5 at least. *)
Definition fractional_budget : FiltersForm :=
  edit (host := host_bucharest) (EditMinBudget "1500.5") initial_form.

Example LeadFiltersPanel_examples :
  picks (sample_form_view initial_form)
  = map FormEdit
      [ EditRegion ""; EditRegion "3"; EditRegion "10"; EditRegion "7";
        EditZone "";
        EditRooms rooms_all; EditRooms rooms_1; EditRooms rooms_2; EditRooms rooms_3;
        EditRooms rooms_4; EditRooms rooms_5_plus ] /\
  clicks (sample_form_view initial_form) = [FormReset] /\
  submits (sample_form_view initial_form) = [FormApply] /\
  length (changes (sample_form_view initial_form)) = 16%nat /\
  minBudget (filters_draft fractional_budget) = Some (Fin (3001 # 2)) /\
  submits (sample_form_view fractional_budget) = [] /\
  submits (sample_form_view (edit (host := host_bucharest) (EditMaxBudget "-1") initial_form))
  = [] /\
  submits (sample_form_view (edit (host := host_bucharest) (EditMaxBudget "90000") initial_form))
  = [FormApply].
Proof. vm_compute; repeat split; reflexivity. Qed.

(** ** Witnesses *)

Lemma offered_is_form_step_witness :
  form_step (host := host_bucharest)
    {| applied := DEFAULT_LEAD_FILTERS; form := Some initial_form |}
    (form_event (host := host_bucharest) (FormEdit (EditRegion "10")) initial_form
       DEFAULT_LEAD_FILTERS).
Proof.
  apply (offered_is_form_step (host := host_bucharest) facet_leads initial_form
           DEFAULT_LEAD_FILTERS (FormEdit (EditRegion "10"))).
  apply LeadFiltersPanel_raises; left; eexists; split; [|reflexivity]; right.
  exists {| option_value := of_Z 10; option_label := "Cluj" |}; split; [|reflexivity].
  vm_compute; tauto.
Defined.
