(* ===== verification/ChatsPage.v ===== *)
(** * ChatsPage: the page of the conversation list

    [ChatsPage] of [src/frontend/src/pages/chats.tsx]: its state (lines
    83-87), the snapshot hook (89-96), the effect that leaves for the
    login page on a 401 (98-102), and what it renders (123-262), with
    [getInitials] (41-51).  The three lists it derives are in [Chats].

    The page renders inside [PageShell].  The two panels are components
    it is given ([filters_panel], [conversation_panel]): functions from
    their props to a tree, with the callbacks among the props.  They have
    a state of their own, which the page does not see, so that the page
    may be given other functions at every render; [Panels] is what it
    needs of them: that what they raise is a callback they were given or
    an event of their own controls.  [ChatsApp] gives the page the panels
    of [FilterView] and [ConversationView].

    A render can throw: the time of a row is formatted by
    [formatMessageTimestamp], the message of the error goes into the
    notice as a child, which React refuses when it is an object, and a
    panel can throw.

    [ChatsEvent] is what the handlers of the tree raise; [chats_update]
    is what each does to the state of the page.  [chats_step] is the page
    in time: the user acts through the tree, and the hook returns new
    snapshots.  The refresh that a panel asks for ([onRefreshLeads],
    lines 255-257) leaves the state as it is; what it fetches is a later
    snapshot. *)

From Stdlib Require Import QArith ZArith Lia Ascii.
From stdpp Require Import base tactics option list strings gmap pretty relations.
From S2P Require Import Prelude JsNumber JsString JsValue Collections ArraySort.
From S2P Require Import Calendar RefHost Json Leads Filters Dates Chats View Middleware Login Shell.
From S2P Require Import FilterPanel.
Close Scope Q_scope.
Open Scope string_scope.

(** ** State *)

(** Lines 83-87. *)
Record ChatsState : Type := {
  chat_activeLead : option Lead;
  chat_appliedFilters : LeadFilters;
  searchTerm : string;
  chat_showFilters : bool;
}.

Definition initial_chats : ChatsState :=
  {| chat_activeLead := None; chat_appliedFilters := DEFAULT_LEAD_FILTERS;
     searchTerm := ""; chat_showFilters := false |}.

(** What the hook of lines 89-96 returns. *)
Record ChatsSwr : Type := {
  chat_data : option LeadsResponse;
  chat_error : option exn;
  chat_isLoading : bool;
}.

(** [(error as Error).message]: the message of an error, the property of
    that name of a thrown object, else [undefined]. *)
Definition exn_message (e : exn) : value :=
  match e with
  | RangeError m | TypeError m | SyntaxError m | ApiError m _ _ => VStr m
  | Thrown (VObj fields) => get_prop fields "message"
  | Thrown _ => VUndefined
  end.

(** Lines 98-102: where the effect sends the router, if anywhere. *)
Definition chats_auth_effect (w : ChatsSwr) : option string :=
  match chat_error w with
  | Some e => if exn_truthy e && is_unauthorized e then Some "/login" else None
  | None => None
  end.

(** What the user does to the page. *)
Inductive ChatsEvent : Type :=
| SearchChanged (text : string)
| FiltersToggled
| SearchCleared
| LeadOpened (lead : Lead)
| FiltersApplied (filters : LeadFilters)
| FiltersReset
| PanelClosed
| LeadsRefreshed
| LoggedOut
| FiltersEdited (e : Edit)
| DraftTyped (text : string)
| ReplySent.

(** The handlers of lines 139, 146, 157, 158, 167, 208 and 254: each sets
    one piece of the state.  The refresh, the log-out and the events of
    the controls of a panel leave it as it is. *)
Definition chats_update (e : ChatsEvent) (st : ChatsState) : ChatsState :=
  match e with
  | SearchChanged text =>
      {| chat_activeLead := chat_activeLead st; chat_appliedFilters := chat_appliedFilters st;
         searchTerm := text; chat_showFilters := chat_showFilters st |}
  | FiltersToggled =>
      {| chat_activeLead := chat_activeLead st; chat_appliedFilters := chat_appliedFilters st;
         searchTerm := searchTerm st; chat_showFilters := negb (chat_showFilters st) |}
  | SearchCleared =>
      {| chat_activeLead := chat_activeLead st; chat_appliedFilters := chat_appliedFilters st;
         searchTerm := ""; chat_showFilters := chat_showFilters st |}
  | LeadOpened lead =>
      {| chat_activeLead := Some lead; chat_appliedFilters := chat_appliedFilters st;
         searchTerm := searchTerm st; chat_showFilters := chat_showFilters st |}
  | FiltersApplied filters =>
      {| chat_activeLead := chat_activeLead st; chat_appliedFilters := filters;
         searchTerm := searchTerm st; chat_showFilters := chat_showFilters st |}
  | FiltersReset =>
      {| chat_activeLead := chat_activeLead st; chat_appliedFilters := DEFAULT_LEAD_FILTERS;
         searchTerm := searchTerm st; chat_showFilters := chat_showFilters st |}
  | PanelClosed =>
      {| chat_activeLead := None; chat_appliedFilters := chat_appliedFilters st;
         searchTerm := searchTerm st; chat_showFilters := chat_showFilters st |}
  | LeadsRefreshed | LoggedOut | FiltersEdited _ | DraftTyped _ | ReplySent => st
  end.

(** [lead.lister_name || lead.title || lead.display_id] *)
Definition lead_name (lead : Lead) : string :=
  if str_truthy (lister_name lead) then lister_name lead
  else if str_truthy (title lead) then title lead
  else display_id lead.

(** [word[0]] in a sum of strings: the first code unit, or the text of
    [undefined]. *)
Definition first_unit (word : string) : string :=
  if str_truthy word then utf16_take 1 word else "undefined".

(** What React refuses as a child. *)
Definition invalid_child : exn := Thrown (VStr "Objects are not valid as a React child").

(** The panels as the page sees them: from the props to a tree.  The
    filters panel is given the leads, the filters in force, [onApply] and
    [onReset]; the conversation panel the lead, [onClose] and
    [onRefreshLeads]. *)
Definition FiltersComponent : Type :=
  list Lead -> LeadFilters -> (LeadFilters -> ChatsEvent) -> ChatsEvent ->
  result exn (node ChatsEvent).

Definition ConversationComponent : Type :=
  Lead -> ChatsEvent -> ChatsEvent -> result exn (node ChatsEvent).

Section WithHost.
Context {host : Host}.

(** A value as the children of an element: a string or a number is a
    text, an array its items in turn, a boolean, [null] and [undefined]
    nothing; an object is refused. *)
Fixpoint child_nodes {E : Type} (v : value) : result exn (list (node E)) :=
  match v with
  | VUndefined | VNull | VBool _ => Ok []
  | VNum n => Ok [Text (NumberToString n)]
  | VStr s => Ok (if str_truthy s then [Text s] else [])
  | VArr items => nodes ← result_mapM child_nodes items; Ok (concat nodes)
  | VObj _ => Throw invalid_child
  end.

(** A value as a [ReactNode] prop. *)
Definition react_child {E : Type} (v : value) : result exn (option (list (node E))) :=
  if ToBoolean v then nodes ← child_nodes v; Ok (Some nodes) else Ok None.

(** Lines 41-51. *)
Definition getInitials (lead : Lead) : string :=
  let source := if str_truthy (lead_name lead) then lead_name lead else "" in
  let words := split_ws (trim source) in
  if (length words =? 0)%nat then "L"
  else if (length words =? 1)%nat then toUpperCase (utf16_take 2 (nth 0 words ""))
  else toUpperCase (first_unit (nth 0 words "") +:+ first_unit (nth 1 words "")).

(** ** What the page renders *)

Section Rendering.
Variable now : Z.
Variable filters_panel : FiltersComponent.
Variable conversation_panel : ConversationComponent.

(** Lines 198-246: the row of a lead. *)
Definition lead_row (activeLead : option Lead) (lead : Lead) : result exn (node ChatsEvent) :=
  let isActive :=
    match activeLead with
    | Some active => String.eqb (property_id lead) (property_id active)
    | None => false
    end in
  let timestamp := getActivityTimestamp lead in
  readableTime ← (if opt_str_truthy timestamp
                  then formatMessageTimestamp now (InString (default "" timestamp))
                  else Ok "");
  Ok (Elem "button"
        [ Str "key" (property_id lead); Str "type" "button";
          Handler "onClick" (LeadOpened lead);
          Str "className"
            (clsx [ Some "flex w-full gap-4 px-4 py-4 text-left transition-colors sm:px-5";
                    Some (if isActive then "bg-slate-100"
                          else "hover:bg-slate-50 focus:bg-slate-100") ]) ]
        ([ Elem "div" [Str "className" "flex h-12 w-12 flex-shrink-0 items-center justify-center rounded-full bg-slate-900 text-sm font-semibold uppercase tracking-wide text-white"]
             [Text (getInitials lead)];
           Elem "div" [Str "className" "flex flex-1 flex-col overflow-hidden"]
             [ Elem "div" [Str "className" "flex flex-col gap-1 sm:flex-row sm:items-center sm:justify-between"]
                 (Elem "div" [Str "className" "min-w-0"]
                    [ Elem "p" [Str "className" "truncate text-sm font-semibold text-black sm:text-base"]
                        [Text (lead_name lead)];
                      Elem "p" [Str "className" "truncate text-xs text-black/50"]
                        [Text (default "No phone" (lister_phone lead))] ]
                  :: when (str_truthy readableTime)
                       (Elem "span" [Str "className" "text-xs font-medium text-black/40"] [Text readableTime]));
               Elem "p" [Str "className" "mt-2 truncate text-sm text-black/70"] [Text (getPreviewText lead)] ] ]
         ++ when (num_truthy (default (of_Z 0) (unread_count lead)))
              (Elem "span" [Str "className" "inline-flex h-6 min-w-[1.5rem] items-center justify-center rounded-full bg-slate-900 px-2 text-xs font-semibold text-white"]
                 [Text (NumberToString (default (of_Z 0) (unread_count lead)))]))).


(** Lines 179-188: the notice of an error, once the loading is over. *)
Definition error_notice (w : ChatsSwr) : result exn (list (node ChatsEvent)) :=
  match chat_error w with
  | Some e =>
      if exn_truthy e && negb (chat_isLoading w) then
        description ← react_child
          (if nullish (exn_message e) then VStr "Please refresh or sign in again."
           else exn_message e);
        Ok [InlineNotice (Some notice_error) (Some "We couldn’t load your chats.")
              description]
      else Ok []
  | None => Ok []
  end.


(** Lines 153-160: the panel of the filters, when it is shown. *)
Definition shown_filters (w : ChatsSwr) (st : ChatsState) : result exn (list (node ChatsEvent)) :=
  if chat_showFilters st then
    panel ← filters_panel (default [] (response_leads <$> chat_data w))
               (chat_appliedFilters st) FiltersApplied FiltersReset;
    Ok [panel]
  else Ok [].

(** Lines 251-259: the panel of the conversation, when a lead is open. *)
Definition shown_conversation (st : ChatsState) : result exn (list (node ChatsEvent)) :=
  match chat_activeLead st with
  | Some lead => panel ← conversation_panel lead PanelClosed LeadsRefreshed; Ok [panel]
  | None => Ok []
  end.


(** Lines 123-262: the element of the page, around the rows of the
    leads, the panels and the notice of an error. *)
Definition chats_tree (w : ChatsSwr) (st : ChatsState)
    (rows filters notice conversation : list (node ChatsEvent)) : node ChatsEvent :=
  let leads := chats_view (response_leads <$> chat_data w) (chat_appliedFilters st) (searchTerm st) in
  let hasLeads := (0 <? length leads)%nat in
  let resultsCount := length leads in
  let failed := default false (exn_truthy <$> chat_error w) in
  Elem "Fragment" []
        [ Elem "Head" [] [Elem "title" [] [Text "Chats · CRMREBS"]];
          PageShell LoggedOut "/chats" "Chats"
            (Some "Stay on top of every conversation with sellers.") None
            (Elem "div" [Str "className" "space-y-5"]
               ([ Elem "div" [Str "className" "flex flex-col gap-3 sm:flex-row sm:items-center sm:justify-between"]
                    [ Elem "div" [Str "className" "relative flex-1 sm:max-w-xs"]
                        [ Elem "input"
                            [ Str "type" "search"; Str "value" (searchTerm st);
                              ValueHandler "onChange" SearchChanged;
                              Str "placeholder" "Search chats";
                              Str "className" "w-full rounded-full border border-slate-200 bg-white px-4 py-2 text-sm text-black placeholder:text-black/40 focus:border-slate-400 focus:outline-none focus:ring-2 focus:ring-slate-200" ] [] ];
                      Elem "button"
                        [ Str "type" "button"; Handler "onClick" FiltersToggled;
                          Str "className" "inline-flex items-center justify-center rounded-full border border-slate-200 px-5 py-2 text-sm font-medium text-black transition-colors hover:border-slate-300 hover:text-black/70" ]
                        [Text (if chat_showFilters st then "Hide filters" else "Show filters")] ] ]
                ++ filters
                ++ [ Elem "div" [Str "className" "flex flex-wrap items-center justify-between gap-2 text-sm font-medium text-black"]
                       (Elem "span" [] [Text "Rezultate: "; Text (pretty resultsCount)]
                        :: when (str_truthy (searchTerm st))
                             (Elem "button"
                                [ Str "type" "button"; Handler "onClick" SearchCleared;
                                  Str "className" "text-sm font-medium text-slate-500 underline-offset-4 hover:text-slate-700" ]
                                [Text "Clear search"])) ]
                ++ when (chat_isLoading w)
                     (InlineNotice (Some notice_info) None (text_child "Loading conversations…"))
                ++ notice
                ++ when (negb (chat_isLoading w) && negb failed && negb hasLeads)
                     (Elem "div" [Str "className" "rounded-2xl border border-dashed border-slate-200 bg-slate-50 px-6 py-10 text-center text-slate-500"]
                        [Text "No conversations yet. Messages will appear here as they come in."])
                ++ when hasLeads
                     (Elem "div" [Str "className" "divide-y divide-slate-100 overflow-hidden rounded-2xl border border-slate-200 bg-white shadow-sm"] rows))
             :: conversation) ].

(** Lines 81-262: what the page renders. *)
Definition ChatsPage (w : ChatsSwr) (st : ChatsState) : result exn (node ChatsEvent) :=
  rows ← result_mapM (lead_row (chat_activeLead st))
            (chats_view (response_leads <$> chat_data w) (chat_appliedFilters st)
               (searchTerm st));
  filters ← shown_filters w st;
  notice ← error_notice w;
  conversation ← shown_conversation st;
  Ok (chats_tree w st rows filters notice conversation).


(** The time of the last activity of the lead can be shown. *)
Definition readable (lead : Lead) : Prop :=
  match getActivityTimestamp lead with
  | Some ts => ts = "" \/ is_Some (parseISO ts)
  | None => True
  end.

End Rendering.

End WithHost.

(** ** The page in time *)

Record ChatsSys : Type := {
  chats_page : ChatsState;
  chats_swr : ChatsSwr;
  chats_route : option string;
}.

Definition initial_chats_sys : ChatsSys :=
  {| chats_page := initial_chats;
     chats_swr := {| chat_data := None; chat_error := None; chat_isLoading := true |};
     chats_route := None |}.

(** The leads on display. *)
Definition displayed `{host : Host} (sys : ChatsSys) : list Lead :=
  chats_view (response_leads <$> chat_data (chats_swr sys))
    (chat_appliedFilters (chats_page sys)) (searchTerm (chats_page sys)).

(** What the two panels promise their page: what they raise is a
    callback they were given, or an event of their own controls. *)
Record Panels (filters_panel : FiltersComponent) (conversation_panel : ConversationComponent)
    : Prop := {
  filters_panel_raises leads filters onApply onReset tree e :
    filters_panel leads filters onApply onReset = Ok tree -> offered tree e ->
    (exists given, e = onApply given) \/ e = onReset \/ exists edit, e = FiltersEdited edit;
  conversation_panel_raises lead onClose onRefreshLeads tree e :
    conversation_panel lead onClose onRefreshLeads = Ok tree -> offered tree e ->
    e = onClose \/ e = onRefreshLeads \/ (exists text, e = DraftTyped text) \/ e = ReplySent;
}.

(** Lines 79-83 of the frame: logging out replaces the route. *)
Definition route_after (e : ChatsEvent) (route : option string) : option string :=
  match e with
  | LoggedOut => Some "/login"
  | _ => route
  end.

Section Steps.
Context `{host : Host}.
Variable now : Z.

Inductive chats_step : ChatsSys -> ChatsSys -> Prop :=
(** the user acts through what the page renders, with the panels as they
    are at this render *)
| chats_event sys filters_panel conversation_panel tree e :
    Panels filters_panel conversation_panel ->
    ChatsPage now filters_panel conversation_panel (chats_swr sys) (chats_page sys) = Ok tree ->
    offered tree e ->
    chats_step sys {| chats_page := chats_update e (chats_page sys); chats_swr := chats_swr sys;
                      chats_route := route_after e (chats_route sys) |}
(** the hook returns a new snapshot state; the effect runs *)
| chats_snapshot sys new :
    chats_step sys {| chats_page := chats_page sys; chats_swr := new;
                      chats_route := match chats_auth_effect new with
                                     | Some r => Some r
                                     | None => chats_route sys
                                     end |}.

Definition chats_reachable (sys : ChatsSys) : Prop := rtc chats_step initial_chats_sys sys.

End Steps.

(** ** Facts *)

Section ChatsFacts.
Context `{host : Host}.
Variable now : Z.
Variable filters_panel : FiltersComponent.
Variable conversation_panel : ConversationComponent.

Local Notation "'page'" := (ChatsPage now filters_panel conversation_panel).
Local Notation "'filters_shown'" := (shown_filters filters_panel).
Local Notation "'conversation_shown'" := (shown_conversation conversation_panel).

(** *** The initials *)

(** The list of words is never empty: the branch of [getInitials] that
    returns ["L"] is never taken. *)
Lemma getInitials_words lead :
  let words := split_ws (trim (lead_name lead)) in
  getInitials lead
  = toUpperCase (if (length words =? 1)%nat then utf16_take 2 (nth 0 words "")
                 else first_unit (nth 0 words "") +:+ first_unit (nth 1 words "")).
Proof.
  unfold getInitials.
  replace (if str_truthy (lead_name lead) then lead_name lead else "") with (lead_name lead)
    by (destruct (lead_name lead); reflexivity).
  cbv zeta; pose proof (split_ws_nonempty (trim (lead_name lead))) as Hne.
  destruct (split_ws (trim (lead_name lead))) as [|word [|word' words]];
    [contradiction|reflexivity|reflexivity].
Qed.

(** A lead with no name, no title and no identifier has the upper case
    of the empty text for initials. *)
Lemma getInitials_nameless lead :
  lead_name lead = "" -> getInitials lead = toUpperCase "".
Proof. intros Hname; rewrite getInitials_words, Hname; reflexivity. Qed.

(** *** What a render offers *)

Lemma child_nodes_inert {E} v (nodes : list (node E)) :
  child_nodes v = Ok nodes -> Forall inert nodes.
Proof.
  revert nodes; induction v as [| |b|n|s|items IH|fields IH] using value_ind_nested;
    intros nodes; cbn [child_nodes].
  1-5: intros [= <-]; try destruct (str_truthy s); repeat first [apply inert_Text|constructor].
  2: discriminate.
  intros (lists & Hlists%result_mapM_Forall2 & [= <-])%result_bind_ok.
  apply Forall_concat; induction Hlists as [|x y xs ys Hxy _ IHl]; [constructor|].
  apply Forall_cons_1 in IH as [Hx Hxs]; constructor; [apply Hx, Hxy | apply IHl, Hxs].
Qed.

Lemma react_child_inert {E} v (description : option (list (node E))) :
  react_child v = Ok description -> Forall inert (default [] description).
Proof.
  unfold react_child; destruct (ToBoolean v); [|intros [= <-]; constructor].
  intros (nodes & Hn%child_nodes_inert & [= <-])%result_bind_ok; exact Hn.
Qed.

Lemma lead_row_offers activeLead lead tree :
  lead_row now activeLead lead = Ok tree ->
  clicks tree = [LeadOpened lead] /\ changes tree = [] /\ submits tree = [] /\ picks tree = [].
Proof.
  unfold lead_row; intros (readableTime & _ & [= <-])%result_bind_ok.
  destruct (str_truthy readableTime), (num_truthy (default (of_Z 0) (unread_count lead)));
    repeat split.
Qed.

Lemma rows_offer activeLead leads rows :
  result_mapM (lead_row now activeLead) leads = Ok rows ->
  flat_map clicks rows = map LeadOpened leads
  /\ flat_map changes rows = [] /\ flat_map submits rows = [] /\ flat_map picks rows = [].
Proof.
  intros Hrows%result_mapM_Forall2.
  induction Hrows as [|lead tree leads rows (Hc & Hch & Hs & Hp)%lead_row_offers _
                        (IHc & IHch & IHs & IHp)]; [repeat split|].
  cbn [flat_map map]; rewrite Hc, Hch, Hs, Hp, IHc, IHch, IHs, IHp; repeat split.
Qed.

Lemma error_notice_inert w notice : error_notice w = Ok notice -> Forall inert notice.
Proof.
  unfold error_notice; destruct (chat_error w) as [e|]; [|intros [= <-]; constructor].
  destruct (_ && _); [|intros [= <-]; constructor].
  intros (description & Hd%react_child_inert & [= <-])%result_bind_ok.
  repeat constructor; apply InlineNotice_inert, Hd.
Qed.

(** The handlers of the element of the page, around rows that open their
    leads and a notice that offers nothing. *)
Lemma chats_tree_handlers w st rows filters notice conversation :
  flat_map clicks rows
  = map LeadOpened (chats_view (response_leads <$> chat_data w) (chat_appliedFilters st)
                      (searchTerm st))
  /\ flat_map changes rows = [] /\ flat_map submits rows = [] /\ flat_map picks rows = [] ->
  Forall inert notice ->
  let tree := chats_tree w st rows filters notice conversation in
  clicks tree
  = ([LoggedOut; FiltersToggled] ++ flat_map clicks filters
     ++ (if str_truthy (searchTerm st) then [SearchCleared] else [])
     ++ map LeadOpened (chats_view (response_leads <$> chat_data w)
                          (chat_appliedFilters st) (searchTerm st))
     ++ flat_map clicks conversation)%list
  /\ changes tree = ([SearchChanged] ++ flat_map changes filters
                     ++ flat_map changes conversation)%list
  /\ submits tree = (flat_map submits filters ++ flat_map submits conversation)%list
  /\ picks tree = (flat_map picks filters ++ flat_map picks conversation)%list.
Proof.
  intros (Hc & Hch & Hs & Hp) (Nc & Nch & Ns & Np)%inert_all; unfold chats_tree; cbv zeta.
  forget_styles; cbn [clicks changes submits picks flat_map].
  rewrite PageShell_clicks, PageShell_changes, PageShell_submits, PageShell_picks.
  tree_handlers.
  rewrite Hc, Hch, Hs, Hp, Nc, Nch, Ns, Np, InlineNotice_text_clicks, InlineNotice_text_changes,
    InlineNotice_text_submits, InlineNotice_text_picks.
  generalize (chats_view (response_leads <$> chat_data w) (chat_appliedFilters st)
                (searchTerm st)); intros leads.
  generalize (default false (exn_truthy <$> chat_error w)); intros failed.
  destruct leads as [|lead leads], (str_truthy (searchTerm st)), (chat_isLoading w), failed;
    cbn; rewrite ?app_nil_r, <- ?app_assoc; repeat split.
Qed.

(** The parts of a render that returns. *)
Lemma ChatsPage_parts w st tree :
  page w st = Ok tree ->
  exists rows filters notice conversation,
    result_mapM (lead_row now (chat_activeLead st))
      (chats_view (response_leads <$> chat_data w) (chat_appliedFilters st) (searchTerm st))
    = Ok rows
    /\ filters_shown w st = Ok filters /\ error_notice w = Ok notice
    /\ conversation_shown st = Ok conversation
    /\ tree = chats_tree w st rows filters notice conversation.
Proof.
  unfold ChatsPage.
  intros (rows & Hrows & (filters & Hfilters & (notice & Hnotice
          & (conversation & Hconversation & [= <-])%result_bind_ok)%result_bind_ok
          )%result_bind_ok)%result_bind_ok.
  exists rows, filters, notice, conversation; repeat split; assumption.
Qed.

(** The events among the handlers of a render. *)
Lemma handlers_offer (fc cc fs cs fp cp : list ChatsEvent)
    (fch cch : list (string -> ChatsEvent)) (leads : list Lead) (searching : bool) e :
  In e (([LoggedOut; FiltersToggled] ++ fc ++ (if searching then [SearchCleared] else [])
         ++ map LeadOpened leads ++ cc) ++ (fs ++ cs) ++ fp ++ cp)%list
  \/ (exists f v, In f ([SearchChanged] ++ fch ++ cch)%list /\ e = f v)
  <-> e = LoggedOut \/ e = FiltersToggled \/ (exists text, e = SearchChanged text)
      \/ (searching = true /\ e = SearchCleared)
      \/ (exists lead, In lead leads /\ e = LeadOpened lead)
      \/ (In e fc \/ In e fs \/ In e fp \/ exists f v, In f fch /\ e = f v)
      \/ (In e cc \/ In e cs \/ In e cp \/ exists f v, In f cch /\ e = f v).
Proof.
  rewrite !in_app_iff, in_map_iff; repeat setoid_rewrite in_app_iff; cbn [In].
  destruct searching; cbn [In]; split; intros Hcase;
    repeat (destruct_or?; destruct_and?; try match goal with H : ex _ |- _ => destruct H end);
    subst; try done.
  all: disj.
Qed.

(** What the element of the page offers: the events of the page, and
    what the panels in it offer. *)
Lemma chats_tree_offers w st rows filters notice conversation e :
  flat_map clicks rows
  = map LeadOpened (chats_view (response_leads <$> chat_data w) (chat_appliedFilters st)
                      (searchTerm st))
  /\ flat_map changes rows = [] /\ flat_map submits rows = [] /\ flat_map picks rows = [] ->
  Forall inert notice ->
  offered (chats_tree w st rows filters notice conversation) e
  <-> e = LoggedOut \/ e = FiltersToggled \/ (exists text, e = SearchChanged text)
      \/ (str_truthy (searchTerm st) = true /\ e = SearchCleared)
      \/ (exists lead, In lead (chats_view (response_leads <$> chat_data w)
                                 (chat_appliedFilters st) (searchTerm st))
                       /\ e = LeadOpened lead)
      \/ Exists (fun panel => offered panel e) (filters ++ conversation).
Proof.
  intros Hrows Hnotice.
  destruct (chats_tree_handlers w st rows filters notice conversation Hrows Hnotice)
    as (Hc & Hch & Hs & Hp).
  rewrite (offered_lists _ _ _ _ _ _ Hc Hs Hp Hch), Exists_app, !offered_among.
  apply handlers_offer.
Qed.

(** What a render of the page offers: the log-out, the search box,
    the switch of the filters, the clearing of a search that is not
    empty, the opening of each lead on display, and what the panels on
    display offer. *)
Theorem ChatsPage_offers w st tree e :
  page w st = Ok tree ->
  exists filters conversation,
    filters_shown w st = Ok filters /\ conversation_shown st = Ok conversation
    /\ (offered tree e
        <-> e = LoggedOut \/ e = FiltersToggled \/ (exists text, e = SearchChanged text)
            \/ (str_truthy (searchTerm st) = true /\ e = SearchCleared)
            \/ (exists lead, In lead (chats_view (response_leads <$> chat_data w)
                                       (chat_appliedFilters st) (searchTerm st))
                             /\ e = LeadOpened lead)
            \/ Exists (fun panel => offered panel e) (filters ++ conversation)).
Proof.
  intros (rows & filters & notice & conversation & Hrows%rows_offer & Hfilters
          & Hnotice%error_notice_inert & Hconversation & ->)%ChatsPage_parts.
  exists filters, conversation; split_and!; [assumption..|].
  apply chats_tree_offers; assumption.
Qed.

End ChatsFacts.

Section ChatsSafety.
Context `{host : Host}.
Variable now : Z.

Local Notation "'step'" := (chats_step now).
Local Notation "'reachable'" := (chats_reachable now).

(** *** When a render throws *)

Lemma lead_row_is_ok activeLead lead :
  is_ok (lead_row now activeLead lead) = true <-> readable lead.
Proof.
  unfold lead_row, readable; destruct (getActivityTimestamp lead) as [ts|]; cbn [opt_str_truthy];
    [|split; reflexivity].
  change (default "" (Some ts)) with ts; destruct (str_truthy ts) eqn:Hts.
  - rewrite <- formatMessageTimestamp_is_ok with (now := now).
    destruct (formatMessageTimestamp now (InString ts)); cbn; tauto.
  - destruct ts; [|discriminate]; split; [left|]; reflexivity.
Qed.

(** The notice of an error that is an [Error] renders. *)
Lemma error_notice_message w e m :
  chat_error w = Some e -> exn_message e = VStr m -> is_ok (error_notice w) = true.
Proof.
  unfold error_notice, react_child; intros -> ->; cbn [nullish ToBoolean child_nodes].
  destruct (_ && _), (str_truthy m); reflexivity.
Qed.

(** The page renders when the time of every lead on display can be
    shown and the panels on display and the notice of the error render,
    and only then. *)
Theorem ChatsPage_is_ok filters_panel conversation_panel w st :
  is_ok (ChatsPage now filters_panel conversation_panel w st) = true
  <-> Forall readable (chats_view (response_leads <$> chat_data w)
                        (chat_appliedFilters st) (searchTerm st))
      /\ is_ok (shown_filters filters_panel w st) = true
      /\ is_ok (error_notice w) = true
      /\ is_ok (shown_conversation conversation_panel st) = true.
Proof.
  unfold ChatsPage.
  rewrite <- (Forall_iff _ _ _ (lead_row_is_ok (chat_activeLead st))), <- result_mapM_is_ok.
  destruct (result_mapM _ _), (shown_filters _ _ _), (error_notice w), (shown_conversation _ _);
    cbn; intuition discriminate.
Qed.

(** One lead on display whose time does not parse, and the page throws. *)
Theorem ChatsPage_throws filters_panel conversation_panel w st lead ts :
  In lead (chats_view (response_leads <$> chat_data w) (chat_appliedFilters st) (searchTerm st)) ->
  getActivityTimestamp lead = Some ts -> ts <> "" -> parseISO ts = None ->
  is_ok (ChatsPage now filters_panel conversation_panel w st) = false.
Proof.
  intros Hin Hts Hne Hparse; unfold ChatsPage.
  destruct (result_mapM _ _) as [rows|e] eqn:Hrows; [exfalso|reflexivity].
  assert (Hok : is_ok (result_mapM (lead_row now (chat_activeLead st))
                         (chats_view (response_leads <$> chat_data w)
                            (chat_appliedFilters st) (searchTerm st))) = true)
    by (rewrite Hrows; reflexivity).
  rewrite result_mapM_is_ok, List.Forall_forall in Hok.
  apply Hok, lead_row_is_ok in Hin; unfold readable in Hin.
  rewrite Hts, Hparse in Hin; destruct Hin as [?|[? ?]]; [contradiction|discriminate].
Qed.

(** *** The effect *)

Lemma chats_auth_effect_iff w target :
  chats_auth_effect w = Some target
  <-> target = "/login" /\ exists e, chat_error w = Some e /\ is_unauthorized e = true.
Proof.
  unfold chats_auth_effect; destruct (chat_error w) as [e|];
    [|split; [discriminate|intros (_ & e & [=] & _)]].
  destruct (exn_truthy e && is_unauthorized e) eqn:Hb.
  - apply andb_prop in Hb as [_ Hu]; split; [intros [= <-]|intros [-> _]]; eauto.
  - split; [discriminate|intros (_ & e' & [= <-] & Hu)].
    destruct e as [| | | |[]]; cbn in *; congruence.
Qed.

(** *** The page in time *)

(** What the panels on display raise, when they keep their contract. *)
Lemma shown_panels_raise filters_panel conversation_panel w st filters conversation e :
  Panels filters_panel conversation_panel ->
  shown_filters filters_panel w st = Ok filters ->
  shown_conversation conversation_panel st = Ok conversation ->
  Exists (fun panel => offered panel e) (filters ++ conversation) ->
  (chat_showFilters st = true
   /\ ((exists given, e = FiltersApplied given) \/ e = FiltersReset))
  \/ (is_Some (chat_activeLead st) /\ (e = PanelClosed \/ e = LeadsRefreshed))
  \/ (exists edit, e = FiltersEdited edit) \/ (exists text, e = DraftTyped text)
  \/ e = ReplySent.
Proof.
  intros [Hfilters Hconversation]; unfold shown_filters, shown_conversation.
  rewrite Exists_app; intros Hf Hc [He|He].
  - destruct (chat_showFilters st); [|simplify_eq; inversion He].
    apply result_bind_ok in Hf as (panel & Hpanel & [= <-]).
    apply Exists_cons in He as [He|[]%Exists_nil].
    destruct (Hfilters _ _ _ _ _ _ Hpanel He) as [?|[?|?]]; eauto 8.
  - destruct (chat_activeLead st) as [active|]; [|simplify_eq; inversion He].
    apply result_bind_ok in Hc as (panel & Hpanel & [= <-]).
    apply Exists_cons in He as [He|[]%Exists_nil].
    destruct (Hconversation _ _ _ _ _ Hpanel He) as [?|[?|[?|?]]]; eauto 8.
Qed.

(** What a step does to the state of the page: nothing, or what one of
    its events does, offered as the page allows. *)
Lemma chats_step_cases sys sys' :
  step sys sys' ->
  chats_page sys' = chats_page sys
  \/ exists e, chats_page sys' = chats_update e (chats_page sys)
      /\ match e with
         | SearchCleared => str_truthy (searchTerm (chats_page sys)) = true
         | LeadOpened lead => In lead (displayed sys)
         | FiltersApplied _ | FiltersReset => chat_showFilters (chats_page sys) = true
         | PanelClosed | LeadsRefreshed => is_Some (chat_activeLead (chats_page sys))
         | _ => True
         end.
Proof.
  intros [sys0 filters_panel conversation_panel tree e Hpanels Hrender Hoffered|sys0 new];
    [right; exists e; split; [reflexivity|]|left; reflexivity].
  apply ChatsPage_parts in Hrender
    as (rows & filters & notice & conversation & Hrows%rows_offer & Hf
        & Hnotice%error_notice_inert & Hc & ->).
  apply (chats_tree_offers _ _ _ _ _ _ _ Hrows Hnotice) in Hoffered
    as [->|[->|[[text ->]|[[Hs ->]|[(lead & Hin & ->)|Hp]]]]]; try done.
  destruct (shown_panels_raise _ _ _ _ _ _ _ Hpanels Hf Hc Hp)
    as [[Hshow [[given ->]| ->]]|[[Hactive [->| ->]]|[[edit ->]|[[text ->]| ->]]]]; done.
Qed.

(** C30.  A conversation is opened from the list on display and in no other
    way: a step of the page, whatever the panels in its tree raise
    within their contract and whatever the hook returns, leaves the lead
    of the open conversation as it was, closes the conversation, or
    opens a lead of the list of that moment. *)
Theorem opened_from_display sys sys' lead :
  step sys sys' -> chat_activeLead (chats_page sys') = Some lead ->
  chat_activeLead (chats_page sys) = Some lead \/ In lead (displayed sys).
Proof.
  intros [->|(e & -> & He)]%chats_step_cases; [left; assumption|].
  destruct e; cbn; intros Hactive; try discriminate; try (left; exact Hactive).
  injection Hactive as <-; right; exact He.
Qed.

(** The filters change through the panel of the filters, when it is open. *)
Theorem filters_change_through_panel sys sys' :
  step sys sys' -> chat_showFilters (chats_page sys) = false ->
  chat_appliedFilters (chats_page sys') = chat_appliedFilters (chats_page sys).
Proof.
  intros [->|(e & -> & He)]%chats_step_cases Hclosed; [reflexivity|].
  destruct e; try reflexivity; congruence.
Qed.

(** The page sends the router nowhere but to the login page. *)
Lemma chats_route_login sys target :
  reachable sys -> chats_route sys = Some target -> target = "/login".
Proof.
  unfold chats_reachable; revert sys; apply (rtc_ind_r (fun sys => _ -> _)); [discriminate|].
  intros sys sys' _ [sys0 filters_panel conversation_panel tree e _ _ _|sys0 new] IH; cbn;
    [destruct e; try exact IH; intros [= <-]; reflexivity|].
  destruct (chats_auth_effect new) as [r|] eqn:Hr; [|exact IH].
  apply chats_auth_effect_iff in Hr as [-> _]; intros [= <-]; reflexivity.
Qed.

End ChatsSafety.

(** ** Examples on the reference host *)

(** Panels with a button for each callback. *)
Definition plain_filters_panel : FiltersComponent :=
  fun leads appliedFilters onApply onReset =>
    Ok (Elem "div" []
          [ Elem "button" [Str "type" "button"; Handler "onClick" (onApply appliedFilters)]
              [Text "Apply"];
            Elem "button" [Str "type" "button"; Handler "onClick" onReset] [Text "Reset"] ]).

Definition plain_conversation_panel : ConversationComponent :=
  fun lead onClose onRefreshLeads =>
    Ok (Elem "div" []
          [Elem "button" [Str "type" "button"; Handler "onClick" onClose] [Text "Close"]]).

Lemma plain_panels : Panels plain_filters_panel plain_conversation_panel.
Proof.
  split; intros * [= <-]; unfold offered; cbn.
  - intros [[<-|[<-|[]]]|[[]|[[]|(f & v & [] & _)]]]; eauto.
  - intros [[<-|[]]|[[]|[[]|(f & v & [] & _)]]]; eauto.
Qed.

Definition plain_page : ChatsSwr -> ChatsState -> result exn (node ChatsEvent) :=
  ChatsPage (host := host_bucharest) sample_today plain_filters_panel plain_conversation_panel.

Definition with_leads (leads : list Lead) : ChatsSwr :=
  {| chat_data := Some {| response_leads := leads |}; chat_error := None;
     chat_isLoading := false |}.

(** The leads of [chat_leads] whose dates parse. *)
Definition dated_leads : list Lead := List.filter (fun lead => negb (String.eqb (property_id lead) "c")) chat_leads.

Example getInitials_examples :
  map (getInitials (host := host_bucharest)) chat_leads = ["AP"; "BO"; "CA"; "DP"] /\
  getInitials (host := host_bucharest) (chat_lead "" "" "" None []) = "" /\
  getInitials (host := host_bucharest) (chat_lead "x7" "" "" None []) = "X7" /\
  getInitials (host := host_bucharest) (chat_lead "a" "  ana   maria  pop " "" None []) = "AM".
Proof. vm_compute; repeat split; reflexivity. Qed.

Example ChatsPage_examples :
  (clicks <$> plain_page (with_leads dated_leads) initial_chats)
  = Ok (LoggedOut :: FiltersToggled
        :: map LeadOpened [chat_lead "b" "Bogdan" "2024-01-01" (Some "2024-03-10T09:00:00Z") [];
                           chat_lead "d" "Dan Popa" "2024-02-01" None
                             [{| date := Some "2024-03-05T12:00:00Z"; success := true;
                                 note := Some "sent" |}];
                           chat_lead "a" "Ana Pop" "2024-03-01" None []]) /\
  plain_page (with_leads chat_leads) initial_chats = Throw (RangeError "Invalid time value") /\
  (text_content <$> plain_page {| chat_data := None; chat_error := Some (ApiError "Unauthorized" 401 VNull);
                                   chat_isLoading := false |} initial_chats)
  = Ok "Chats · CRMREBSCRMREBSChatsStay on top of every conversation with sellers.QueueChatsLog outShow filtersRezultate: 0We couldn’t load your chats.Unauthorized" /\
  plain_page {| chat_data := None;
                chat_error := Some (Thrown (VObj {[ "message" := VObj ∅ ]}));
                chat_isLoading := false |} initial_chats
  = Throw invalid_child.
Proof. vm_compute; repeat split; reflexivity. Qed.

Definition lead_a : Lead := chat_lead "a" "Ana Pop" "2024-03-01" None [].

(** The lead [a] as the server has it later, with a message unread. *)
Definition lead_a_later : Lead := {|
  property_id := "a"; display_id := "a"; title := ""; date_added := "2024-03-01";
  lister_name := "Ana Pop"; lister_phone := None; status := REACHED_OUT;
  outreach_history := []; crm_raw := None;
  last_message_excerpt := Some "Buna ziua"; last_message_at := Some "2024-03-15T08:05:00Z";
  unread_count := Some (of_Z 1);
|}.

Definition chats_loaded : ChatsSys :=
  {| chats_page := initial_chats; chats_swr := with_leads dated_leads; chats_route := None |}.

Definition chats_opened (w : ChatsSwr) : ChatsSys :=
  {| chats_page := chats_update (LeadOpened lead_a) initial_chats; chats_swr := w;
     chats_route := None |}.

Local Notation "'plain_step'" := (chats_step (host := host_bucharest) sample_today).

Lemma ChatsPage_offers_witness :
  exists tree filters conversation,
    plain_page (with_leads dated_leads) initial_chats = Ok tree
    /\ shown_filters plain_filters_panel (with_leads dated_leads) initial_chats = Ok filters
    /\ shown_conversation plain_conversation_panel initial_chats = Ok conversation
    /\ (offered tree (LeadOpened lead_a)
        <-> LeadOpened lead_a = LoggedOut \/ LeadOpened lead_a = FiltersToggled
            \/ (exists text, LeadOpened lead_a = SearchChanged text)
            \/ (str_truthy "" = true /\ LeadOpened lead_a = SearchCleared)
            \/ (exists lead, In lead (chats_view (host := host_bucharest) (Some dated_leads)
                                        DEFAULT_LEAD_FILTERS "")
                             /\ LeadOpened lead_a = LeadOpened lead)
            \/ Exists (fun panel => offered panel (LeadOpened lead_a))
                 (filters ++ conversation)).
Proof.
  destruct (plain_page (with_leads dated_leads) initial_chats) as [tree|e] eqn:Hrender;
    [|vm_compute in Hrender; discriminate].
  destruct (ChatsPage_offers (host := host_bucharest) sample_today plain_filters_panel
              plain_conversation_panel (with_leads dated_leads) initial_chats tree
              (LeadOpened lead_a) Hrender) as (filters & conversation & Hf & Hc & Hoffers).
  exists tree, filters, conversation; split_and!; [reflexivity | exact Hf | exact Hc | exact Hoffers].
Defined.

Lemma ChatsPage_throws_witness :
  is_ok (plain_page (with_leads chat_leads) initial_chats) = false.
Proof.
  apply (ChatsPage_throws (host := host_bucharest) sample_today plain_filters_panel
           plain_conversation_panel (with_leads chat_leads) initial_chats
           (chat_lead "c" "Carmen" "someday" None []) "someday");
    [vm_compute; tauto | reflexivity | discriminate | reflexivity].
Defined.

Lemma lead_a_offered tree :
  plain_page (with_leads dated_leads) initial_chats = Ok tree -> offered tree (LeadOpened lead_a).
Proof.
  unfold plain_page.
  intros (rows & filters & notice & conversation & Hrows%rows_offer & _
          & Hnotice%error_notice_inert & _ & ->)%ChatsPage_parts.
  apply (chats_tree_offers _ _ _ _ _ _ _ Hrows Hnotice).
  do 4 right; left; exists lead_a; split; [vm_compute; tauto | reflexivity].
Qed.

Lemma lead_a_opens : plain_step chats_loaded (chats_opened (with_leads dated_leads)).
Proof.
  destruct (plain_page (with_leads dated_leads) initial_chats) as [tree|e] eqn:Hrender;
    [|vm_compute in Hrender; discriminate].
  exact (chats_event _ chats_loaded _ _ tree (LeadOpened lead_a) plain_panels Hrender
           (lead_a_offered tree Hrender)).
Qed.

Lemma chats_opened_reachable leads :
  chats_reachable (host := host_bucharest) sample_today (chats_opened (with_leads leads)).
Proof.
  unfold chats_reachable; eapply rtc_l; [exact (chats_snapshot _ _ (with_leads dated_leads))|].
  eapply rtc_l; [exact lead_a_opens|].
  apply rtc_once; exact (chats_snapshot _ _ (with_leads leads)).
Qed.

(** The conversation stays open on the lead as it was when it was
    opened: a later snapshot has the lead with its new message, and the
    panel does not. *)
Example active_lead_is_a_copy :
  exists sys lead,
    chats_reachable (host := host_bucharest) sample_today sys
    /\ chat_activeLead (chats_page sys) = Some lead_a
    /\ In lead (displayed (host := host_bucharest) sys)
    /\ property_id lead = property_id lead_a /\ unread_count lead <> unread_count lead_a.
Proof.
  exists (chats_opened (with_leads [lead_a_later])), lead_a_later.
  split_and!; [apply chats_opened_reachable | reflexivity | vm_compute; tauto
              | reflexivity | discriminate].
Qed.

Lemma opened_from_display_witness :
  chat_activeLead (chats_page chats_loaded) = Some lead_a
  \/ In lead_a (displayed (host := host_bucharest) chats_loaded).
Proof.
  exact (opened_from_display (host := host_bucharest) sample_today chats_loaded
           (chats_opened (with_leads dated_leads)) lead_a lead_a_opens eq_refl).
Defined.

Lemma filters_change_through_panel_witness :
  chat_appliedFilters (chats_page (chats_opened (with_leads dated_leads)))
  = chat_appliedFilters (chats_page chats_loaded).
Proof.
  exact (filters_change_through_panel (host := host_bucharest) sample_today chats_loaded
           (chats_opened (with_leads dated_leads)) lead_a_opens eq_refl).
Defined.
