(* ===== verification/ChatsApp.v ===== *)
(** * ChatsApp: the page of the conversation list with its two panels

    [ChatsPage] takes its panels as parameters.  Here it is given the
    two components of the repository: [LeadFiltersPanel] of
    [src/frontend/src/components/LeadFilters.tsx] with the state of
    [FilterPanel] and the tree of [FilterView], and [ConversationPanel] of
    [src/frontend/src/pages/login.tsx] with the state of [Conversation]
    and the tree of [ConversationView].

    [AppState] is the state of the three components and of the two
    hooks.  A component has a state while it is in the tree: the form
    while the filters are shown (chats.tsx, lines 153-160), the panel
    while a lead is open (lines 251-259).  The panel has no key: when the
    open lead changes it stays mounted and keeps its state.

    [app_step] is the assembled page in time.  An event comes through
    the tree that [app_view] renders; [app_after] runs the handler in the
    component that owns it, mounts and unmounts, and runs the effects of
    the render that follows.  An event that sets the state of the page
    renders the page, and with it the panel, which is given a new
    [onRefreshLeads]; an event of a control of a panel renders that panel
    alone.  The hooks return new snapshots, and the requests of the panel
    settle ([psettle]).  The requests of a panel that was taken away are
    dropped. *)

From Stdlib Require Import ZArith List Lia.
From stdpp Require Import base tactics option list strings relations.
From S2P Require Import Prelude JsNumber JsString JsValue RefHost Leads Filters Dates Chats View.
From S2P Require Import Conversation FilterPanel ConversationView FilterView ChatsPage.
Open Scope string_scope.

(** ** State *)

Record AppState : Type := {
  app_sys : ChatsSys;
  app_form : option FiltersForm;
  app_panel : option PanelSys;
  app_messages : MessagesSwr;
}.

Definition initial_app : AppState :=
  {| app_sys := initial_chats_sys; app_form := None; app_panel := None;
     app_messages := no_messages |}.

(** The panel shows another lead: its props change, its state stays. *)
Definition with_lead (propertyId : string) (s : PanelSys) : PanelSys :=
  {| panel := panel s; lead_id := propertyId; refresh_identity := refresh_identity s;
     effect_deps := effect_deps s; panel_tasks := panel_tasks s;
     panel_calls := panel_calls s |}.

(** The events whose handler sets the state of the page (chats.tsx,
    lines 139, 146, 157, 158, 167, 208 and 254). *)
Definition renders_page (e : ChatsEvent) : bool :=
  match e with
  | SearchChanged _ | FiltersToggled | SearchCleared | LeadOpened _ | FiltersApplied _
  | FiltersReset | PanelClosed => true
  | LeadsRefreshed | LoggedOut | FiltersEdited _ | DraftTyped _ | ReplySent => false
  end.

(** What the event of a control of the panel does to the panel
    (login.tsx, lines 267 and 278). *)
Definition panel_handle (e : ChatsEvent) (s : PanelSys) : PanelSys :=
  match e with
  | DraftTyped text => panel_event (DraftChanged text) s
  | ReplySent => panel_event SendClicked s
  | _ => s
  end.

(** The panel after an event that leaves the page in [st]: taken away
    when no lead is open, mounted when there was none, else given the
    open lead; rendered when the page is. *)
Definition panel_commit (e : ChatsEvent) (st : ChatsState) (s : option PanelSys)
    : option PanelSys :=
  match chat_activeLead st with
  | Some lead =>
      let shown := match s with
                   | Some s => with_lead (property_id lead) (panel_handle e s)
                   | None => mounted (property_id lead)
                   end in
      Some (if renders_page e then rendered shown else shown)
  | None => None
  end.

Section App.
Context `{host : Host}.
Variable now : Z.

(** ** The components *)

(** [LeadFiltersPanel] in the state [st] (LeadFilters.tsx, lines 30-35
    and 80-96): submitting the form hands the draft to [onApply]. *)
Definition filters_component (st : FiltersForm) : FiltersComponent :=
  fun leads appliedFilters onApply onReset =>
    Ok (LeadFiltersPanel FiltersEdited (onApply (filters_draft st)) onReset leads st).

(** [ConversationPanel] in the state [st], with what its hook returns
    (login.tsx, lines 123-139). *)
Definition conversation_component (swr : MessagesSwr) (st : PanelState) : ConversationComponent :=
  fun lead onClose onRefreshLeads => ConversationPanel now DraftTyped ReplySent swr st lead onClose.

(** What the assembled page renders. *)
Definition app_view (app : AppState) : result exn (node ChatsEvent) :=
  ChatsPage now (filters_component (default initial_form (app_form app)))
    (conversation_component (app_messages app)
       (default initial_panel (panel <$> app_panel app)))
    (chats_swr (app_sys app)) (chats_page (app_sys app)).

(** ** The handlers *)

(** What the event of a control of the form does to the form
    (LeadFilters.tsx, lines 84-89 and the [onChange] of the inputs). *)
Definition form_handle (e : ChatsEvent) (st : FiltersForm) : FiltersForm :=
  match e with
  | FiltersEdited e => edit e st
  | FiltersReset => (handleReset (fun parent : unit => parent) (st, tt)).1
  | _ => st
  end.

(** The form after an event that leaves the page in [st]: taken away
    when the filters are hidden, mounted when there was none; the effect
    of lines 43-45 runs at the mount and when the filters in force were
    set. *)
Definition form_commit (e : ChatsEvent) (st : ChatsState) (form : option FiltersForm)
    : option FiltersForm :=
  if chat_showFilters st then
    Some match form with
         | Some form =>
             match e with
             | FiltersApplied _ | FiltersReset =>
                 draft_effect (chat_appliedFilters st) (form_handle e form)
             | _ => form_handle e form
             end
         | None => draft_effect (chat_appliedFilters st) initial_form
         end
  else None.

(** The page after the event [e].  The hook of the panel is keyed by the
    lead: after another lead is opened it returns [messages], what it
    holds for that lead. *)
Definition app_after (e : ChatsEvent) (messages : MessagesSwr) (app : AppState) : AppState :=
  let st := chats_update e (chats_page (app_sys app)) in
  {| app_sys := {| chats_page := st; chats_swr := chats_swr (app_sys app);
                   chats_route := route_after e (chats_route (app_sys app)) |};
     app_form := form_commit e st (app_form app);
     app_panel := panel_commit e st (app_panel app);
     app_messages := match e with
                     | LeadOpened _ => messages
                     | _ => app_messages app
                     end |}.

(** ** The page in time *)

Inductive app_step : AppState -> AppState -> Prop :=
(** the user acts through what the page renders *)
| app_event app tree e messages :
    app_view app = Ok tree -> offered tree e ->
    app_step app (app_after e messages app)
(** the hook of the page returns a new snapshot state: the page renders,
    its effect runs *)
| app_snapshot app new :
    app_step app
      {| app_sys := {| chats_page := chats_page (app_sys app); chats_swr := new;
                       chats_route := match chats_auth_effect new with
                                      | Some r => Some r
                                      | None => chats_route (app_sys app)
                                      end |};
         app_form := app_form app; app_panel := rendered <$> app_panel app;
         app_messages := app_messages app |}
(** the hook of the panel returns a new state: the panel renders *)
| app_polled app new :
    app_step app {| app_sys := app_sys app; app_form := app_form app;
                    app_panel := app_panel app; app_messages := new |}
(** a request of the panel settles *)
| app_settled app s s' :
    app_panel app = Some s -> psettle s s' ->
    app_step app {| app_sys := app_sys app; app_form := app_form app;
                    app_panel := Some s'; app_messages := app_messages app |}.

Definition app_reachable (app : AppState) : Prop := rtc app_step initial_app app.

(** ** What the panels raise *)

(** What the form in the page raises. *)
Definition form_raises (leads : list Lead) (form : FiltersForm) (e : ChatsEvent) : Prop :=
  (exists edit, edit_in_view leads form edit /\ e = FiltersEdited edit)
  \/ (budgets_valid form = true /\ e = FiltersApplied (filters_draft form))
  \/ e = FiltersReset.

(** What the panel in the page raises. *)
Definition panel_raises (st : PanelState) (e : ChatsEvent) : Prop :=
  e = PanelClosed \/ (send_disabled st = false /\ e = ReplySent)
  \/ exists text, e = DraftTyped text.

(** ** What holds of every state *)

(** The form under its page, as [FilterPanel] sees it. *)
Definition form_of (app : AppState) : FormSys :=
  {| applied := chat_appliedFilters (chats_page (app_sys app)); form := app_form app |}.

(** A component has a state exactly while it is in the tree, and the
    panel is that of the open lead. *)
Definition mounts (app : AppState) : Prop :=
  (app_form app = None <-> chat_showFilters (chats_page (app_sys app)) = false)
  /\ match chat_activeLead (chats_page (app_sys app)), app_panel app with
     | Some lead, Some s => lead_id s = property_id lead
     | None, None => True
     | _, _ => False
     end.

(** Marking read was requested once for every render of the panel by
    the page, and the effect last ran at the last of them. *)
Definition panel_marks (s : PanelSys) : Prop :=
  mark_read_calls (panel_calls s) = refresh_identity s
  /\ forall deps, effect_deps s = Some deps -> deps.2 = refresh_identity s.

End App.

(** ** Facts *)

Section AppFacts.
Context `{host : Host}.
Variable now : Z.

Local Notation "'view'" := (app_view now).
Local Notation "'step'" := (app_step now).
Local Notation "'reachable'" := (app_reachable now).

(** *** The components keep the contract of the page *)

Lemma app_panels form swr st :
  Panels (filters_component form) (conversation_component now swr st).
Proof.
  split.
  - intros leads filters onApply onReset tree e [= <-].
    intros [(edit & _ & ->)|[[_ ->]| ->]]%LeadFiltersPanel_raises; eauto.
  - intros lead onClose onRefreshLeads tree e Hrender He.
    eapply ConversationPanel_raises in He; [|exact Hrender].
    destruct He as [->|[[_ ->]|[text ->]]]; eauto.
Qed.

(** *** What the assembled page offers *)

Lemma shown_filters_offer form w st filters e :
  shown_filters (filters_component form) w st = Ok filters ->
  Exists (fun panel => offered panel e) filters
  <-> chat_showFilters st = true
      /\ form_raises (default [] (response_leads <$> chat_data w)) form e.
Proof.
  unfold shown_filters, filters_component, form_raises.
  destruct (chat_showFilters st); cbn; intros [= <-].
  - rewrite Exists_cons, Exists_nil, LeadFiltersPanel_raises; tauto.
  - rewrite Exists_nil; intuition discriminate.
Qed.

Lemma shown_conversation_offers swr panel st conversation e :
  shown_conversation (conversation_component now swr panel) st = Ok conversation ->
  Exists (fun panel => offered panel e) conversation
  <-> is_Some (chat_activeLead st) /\ panel_raises panel e.
Proof.
  unfold shown_conversation, conversation_component, panel_raises.
  destruct (chat_activeLead st) as [lead|]; cbn.
  - intros (tree & Hrender & [= <-])%result_bind_ok.
    rewrite Exists_cons, Exists_nil, (ConversationPanel_raises _ _ _ _ _ _ _ _ e Hrender).
    split; [intros [Hcase|[]]; split; [eauto | exact Hcase] | intros [_ Hcase]; left; exact Hcase].
  - intros [= <-]; rewrite Exists_nil; split; [intros [] | intros [[lead [=]] _]].
Qed.

(** What the page offers with its panels in place: its own events, those
    of the form while the filters are shown, those of the panel while a
    lead is open. *)
Theorem app_view_offers app tree e :
  view app = Ok tree ->
  offered tree e
  <-> e = LoggedOut \/ e = FiltersToggled \/ (exists text, e = SearchChanged text)
      \/ (str_truthy (searchTerm (chats_page (app_sys app))) = true /\ e = SearchCleared)
      \/ (exists lead, In lead (displayed (app_sys app)) /\ e = LeadOpened lead)
      \/ (chat_showFilters (chats_page (app_sys app)) = true
          /\ form_raises (default [] (response_leads <$> chat_data (chats_swr (app_sys app))))
               (default initial_form (app_form app)) e)
      \/ (is_Some (chat_activeLead (chats_page (app_sys app)))
          /\ panel_raises (default initial_panel (panel <$> app_panel app)) e).
Proof.
  intros (rows & filters & notice & conversation & Hrows%rows_offer & Hfilters
          & Hnotice%error_notice_inert & Hconversation & ->)%ChatsPage_parts.
  rewrite (chats_tree_offers _ _ _ _ _ _ _ Hrows Hnotice), Exists_app,
    (shown_filters_offer _ _ _ _ _ Hfilters),
    (shown_conversation_offers _ _ _ _ _ Hconversation).
  unfold displayed; tauto.
Qed.

(** *** The assembled page is the page *)

(** A step of the assembled page is a step of the page with panels that
    keep its contract, or leaves the page as it is. *)
Lemma app_step_page app app' :
  step app app' -> chats_step now (app_sys app) (app_sys app') \/ app_sys app' = app_sys app.
Proof.
  intros [app0 tree e messages Hrender He|app0 new|app0 new|app0 s s' _ _]; cbn;
    [left|left|right; reflexivity..].
  - exact (chats_event now _ _ _ tree e (app_panels _ _ _) Hrender He).
  - apply chats_snapshot.
Qed.

(** The assembled page refines the page with panels that keep its
    contract: its steps are steps of that page or leave the page as it
    is, so that every state it reaches is a state that page reaches. *)
Theorem app_refines_page app : reachable app -> chats_reachable now (app_sys app).
Proof.
  unfold app_reachable, chats_reachable; revert app; apply rtc_ind_r; [apply rtc_refl|].
  intros app app' _ [Hstep| ->]%app_step_page IH; [eapply rtc_r; eassumption | exact IH].
Qed.

(** *** Mounting *)

Lemma form_commit_None e st form : form_commit e st form = None <-> chat_showFilters st = false.
Proof. unfold form_commit; destruct (chat_showFilters st); split; congruence. Qed.

Lemma lead_id_rendered s : lead_id (rendered s) = lead_id s.
Proof. unfold rendered, run_mark_read; cbn; destruct (decide _); reflexivity. Qed.

Lemma lead_id_psettle s s' : psettle s s' -> lead_id s' = lead_id s.
Proof. intros []; destruct_all (result exn unit); reflexivity. Qed.

Lemma panel_commit_lead e st s :
  match chat_activeLead st, panel_commit e st s with
  | Some lead, Some s' => lead_id s' = property_id lead
  | None, None => True
  | _, _ => False
  end.
Proof.
  unfold panel_commit; destruct (chat_activeLead st) as [lead|]; [|exact I].
  destruct (renders_page e), s; rewrite ?lead_id_rendered; reflexivity.
Qed.

Lemma app_step_mounts app app' : mounts app -> step app app' -> mounts app'.
Proof.
  intros Hmounts Hstep;
    destruct Hstep as [app tree e messages _ _|app new|app new|app s s' Hs Hsettle];
    destruct Hmounts as [Hform Hpanel]; split; cbn; try assumption.
  - apply form_commit_None.
  - apply panel_commit_lead.
  - destruct (chat_activeLead _), (app_panel app); cbn; rewrite ?lead_id_rendered; assumption.
  - rewrite Hs in Hpanel; destruct (chat_activeLead _); [|contradiction].
    rewrite (lead_id_psettle _ _ Hsettle); exact Hpanel.
Qed.

Lemma app_mounts app : reachable app -> mounts app.
Proof.
  unfold app_reachable; revert app; apply rtc_ind_r; [repeat split|].
  intros app app' _ Hstep IH; exact (app_step_mounts _ _ IH Hstep).
Qed.

(** *** The form in the page is the form of [FilterPanel] *)

Lemma edit_in_view_offered leads st e : edit_in_view leads st e -> edit_offered e.
Proof. destruct e; cbn; auto. Qed.

(** An event that is not of the form nor the switch leaves the form and
    the filters in force. *)
Lemma form_commit_keeps e st form :
  (form = None <-> chat_showFilters st = false) ->
  match e with
  | FiltersEdited _ | FiltersApplied _ | FiltersReset | FiltersToggled => False
  | _ => True
  end ->
  {| applied := chat_appliedFilters (chats_update e st);
     form := form_commit e (chats_update e st) form |}
  = {| applied := chat_appliedFilters st; form := form |}.
Proof.
  intros Hform He; unfold form_commit.
  destruct e; try contradiction; cbn;
    (destruct (chat_showFilters st), form as [form|]; try reflexivity;
       exfalso; intuition discriminate).
Qed.

(** A step of the assembled page is, for the form, a step of the form
    under its page, or nothing. *)
Theorem app_refines_form app app' :
  mounts app -> step app app' ->
  form_of app' = form_of app \/ form_step (form_of app) (form_of app').
Proof.
  intros Hmounts Hstep; destruct Hstep as [app tree e messages Hrender He|app new|app new|app s s' _ _];
    [|left; reflexivity..].
  destruct Hmounts as [Hform _]; apply (app_view_offers _ _ _ Hrender) in He.
  unfold form_of, app_after; cbn [app_sys app_form chats_page].
  destruct He as [->|[->|[[text ->]|[[_ ->]|[(lead & _ & ->)|[[Hshow Hraise]|[_ Hraise]]]]]]].
  all: try (destruct Hraise as [->|[[_ ->]|[text ->]]]).
  all: try (left; apply form_commit_keeps; [exact Hform | exact I]).
  all: right; unfold form_commit.
  all: assert (Hshown : chat_showFilters (chats_page (app_sys app))
                        = match app_form app with Some _ => true | None => false end)
         by (destruct (chat_showFilters _), (app_form app); intuition congruence).
  all: destruct (app_form app) as [form|]; [|try congruence].
  3: destruct Hraise as [(edit & Hedit%edit_in_view_offered & ->)|[[_ ->]| ->]].
  all: cbn; rewrite Hshown; cbn.
  - apply (form_unmount {| applied := _; form := Some form |}).
  - apply (form_mount {| applied := _; form := None |}); reflexivity.
  - apply (form_edit {| applied := _; form := Some form |} form edit); [reflexivity | exact Hedit].
  - apply (form_apply {| applied := _; form := Some form |} form); reflexivity.
  - apply (form_reset {| applied := _; form := Some form |} form); reflexivity.
Qed.

(** C11.  In every state of the assembled page a component has a state
    exactly while it is in the tree, the panel is that of the open lead,
    and the property types of the filters in force, and of the draft of
    the form, hold no value twice and only values of the catalogue. *)
Theorem app_filters_ok app : reachable app -> mounts app /\ form_ok (form_of app).
Proof.
  unfold app_reachable; revert app; apply rtc_ind_r.
  - split; [repeat split | split; [apply types_ok_default | discriminate]].
  - intros app app' _ Hstep [Hmounts Hok]; split; [exact (app_step_mounts _ _ Hmounts Hstep)|].
    destruct (app_refines_form _ _ Hmounts Hstep) as [-> |Hform];
      [exact Hok | exact (form_step_ok _ _ Hok Hform)].
Qed.

(** *** The panel in the page *)

Lemma with_lead_same s : with_lead (lead_id s) s = s.
Proof. destruct s; reflexivity. Qed.

Lemma panel_marks_rendered s : panel_marks s -> panel_marks (rendered s).
Proof.
  intros [Hcalls Hdeps]; unfold rendered, run_mark_read, panel_marks;
    cbn [panel_calls refresh_identity effect_deps lead_id].
  destruct (decide _) as [Heq|_]; [apply Hdeps in Heq; cbn in Heq; lia|].
  cbn [panel_calls refresh_identity effect_deps]; split; [|intros deps [= <-]; reflexivity].
  rewrite mark_read_calls_app, Hcalls; cbn; lia.
Qed.

Lemma panel_marks_update p ts cs s :
  mark_read_calls cs = 0%nat -> panel_marks s -> panel_marks (update_panel p ts cs s).
Proof.
  intros Hcs [Hcalls Hdeps]; split; cbn [update_panel panel_calls refresh_identity effect_deps];
    [|exact Hdeps].
  rewrite mark_read_calls_app, Hcs, Hcalls; lia.
Qed.

Lemma panel_marks_psettle s s' : psettle s s' -> panel_marks s -> panel_marks s'.
Proof.
  intros [] Hmarks; destruct_all (result exn unit); apply panel_marks_update; auto.
Qed.

Lemma panel_marks_handle e s : panel_marks s -> panel_marks (panel_handle e s).
Proof. destruct e; cbn; auto; apply panel_marks_update; reflexivity. Qed.

Lemma panel_marks_commit e st s s' :
  (forall s0, s = Some s0 -> panel_marks s0) -> panel_commit e st s = Some s' -> panel_marks s'.
Proof.
  unfold panel_commit; destruct (chat_activeLead st) as [lead|]; [|discriminate].
  intros Hmarks [= <-].
  assert (panel_marks match s with
                      | Some s => with_lead (property_id lead) (panel_handle e s)
                      | None => mounted (property_id lead)
                      end) as Hshown.
  { destruct s as [s|]; [exact (panel_marks_handle e s (Hmarks s eq_refl))|].
    split; [reflexivity | discriminate]. }
  destruct (renders_page e); [apply panel_marks_rendered|]; exact Hshown.
Qed.

(** While a lead is open, marking its conversation read is requested
    once for every render of the page, whichever lead is open. *)
Theorem app_marks_every_render app s :
  reachable app -> app_panel app = Some s -> panel_marks s.
Proof.
  unfold app_reachable; intros Hreach; revert s; revert app Hreach.
  apply (rtc_ind_r (fun app => forall s, app_panel app = Some s -> panel_marks s));
    [discriminate|].
  intros app app' _ [app0 tree e messages _ _|app0 new|app0 new|app0 s0 s' Hs Hsettle] IH s; cbn.
  - apply panel_marks_commit, IH.
  - destruct (app_panel app0) as [s0|]; intros [= <-]; apply panel_marks_rendered, IH; reflexivity.
  - apply IH.
  - intros [= <-]; exact (panel_marks_psettle _ _ Hsettle (IH _ Hs)).
Qed.

(** While the open lead stays, a step of the assembled page is for the
    panel a path of [pstep]. *)
Theorem app_refines_panel app app' s s' :
  step app app' -> app_panel app = Some s -> app_panel app' = Some s' ->
  lead_id s' = lead_id s -> rtc pstep s s'.
Proof.
  intros [app0 tree e messages Hrender He|app0 new|app0 new|app0 s0 s1 Hs Hsettle] Hpanel; cbn.
  - unfold panel_commit; destruct (chat_activeLead _) as [lead|]; [|discriminate].
    rewrite Hpanel; intros [= <-] Hlead.
    assert (property_id lead = lead_id (panel_handle e s)) as ->.
    { destruct (renders_page e); rewrite ?lead_id_rendered in Hlead; cbn in Hlead;
        rewrite Hlead; destruct e; reflexivity. }
    rewrite with_lead_same.
    transitivity (panel_handle e s);
      [|destruct (renders_page e); [apply rtc_once, pstep_render | apply rtc_refl]].
    apply (app_view_offers _ _ _ Hrender) in He; rewrite Hpanel in He; cbn in He.
    destruct e; try apply rtc_refl; apply rtc_once; [apply pstep_type|apply pstep_send].
    destruct He as [He|[He|[[? He]|[[_ He]|[(? & _ & He)|[[_ [(? & _ & He)|[[_ He]|He]]]
                   |[_ [He|[[Hsend _]|[? He]]]]]]]]]]; try discriminate He; exact Hsend.
  - rewrite Hpanel; intros [= <-] _; apply rtc_once, pstep_render.
  - rewrite Hpanel; intros [= <-] _; apply rtc_refl.
  - rewrite Hpanel in Hs; injection Hs as <-; intros [= <-] _; apply rtc_once, pstep_settle, Hsettle.
Qed.

(** *** When the assembled page renders *)

(** C28.  The page renders when the time of every lead on display can be
    shown, the notice of the error renders, and the time of every message
    of the open conversation can be shown, and only then: the form always
    renders, and a message whose time cannot be shown takes the whole page
    with it. *)
Theorem app_view_is_ok app :
  is_ok (view app) = true
  <-> Forall readable (displayed (app_sys app))
      /\ is_ok (error_notice (chats_swr (app_sys app))) = true
      /\ (is_Some (chat_activeLead (chats_page (app_sys app))) ->
          Forall timed (panel_messages (msg_data (app_messages app)))).
Proof.
  unfold app_view; rewrite ChatsPage_is_ok; unfold displayed, shown_filters, shown_conversation.
  destruct (chat_showFilters _), (chat_activeLead _) as [lead|]; cbn;
    rewrite ?is_Some_alt; try tauto.
  all: unfold conversation_component.
  all: rewrite <- (ConversationPanel_is_ok now DraftTyped ReplySent (app_messages app)
                     (default initial_panel (panel <$> app_panel app)) lead PanelClosed).
  all: destruct (ConversationPanel _ _ _ _ _ _ _); cbn; tauto.
Qed.

(** *** Opening another lead *)

(** C12.  A lead on display can be opened while the panel is open on another:
    the panel stays, with its draft and its error, and is now the panel
    of the lead just opened. *)
Theorem open_lead_keeps_draft app s lead messages :
  reachable app -> is_ok (view app) = true -> In lead (displayed (app_sys app)) ->
  app_panel app = Some s ->
  step app (app_after (LeadOpened lead) messages app)
  /\ exists s', app_panel (app_after (LeadOpened lead) messages app) = Some s'
       /\ panel s' = panel s /\ lead_id s' = property_id lead
       /\ panel_calls s' = (panel_calls s ++ [CallMarkRead (property_id lead)])%list.
Proof.
  intros Hreach Hok Hin Hs.
  destruct (view app) as [tree|] eqn:Hrender; [clear Hok|discriminate Hok].
  split.
  - apply (app_event now app tree _ messages Hrender), (app_view_offers _ _ _ Hrender); eauto 10.
  - destruct (app_marks_every_render app s Hreach Hs) as [_ Hdeps].
    cbn; rewrite Hs; eexists; split; [reflexivity|].
    unfold rendered, run_mark_read; cbn.
    destruct (decide _) as [Heq|_]; [apply Hdeps in Heq; cbn in Heq; lia|].
    repeat split.
Qed.

(** An event that the page offers is a step. *)
Lemma app_acts app e messages :
  is_ok (view app) = true ->
  (forall tree, view app = Ok tree -> offered tree e) ->
  step app (app_after e messages app).
Proof.
  destruct (view app) as [tree|] eqn:Hrender; [intros _ He|discriminate].
  exact (app_event now app tree e messages Hrender (He tree eq_refl)).
Qed.

End AppFacts.

(** ** Examples on the reference host *)

Definition lead_b : Lead := chat_lead "b" "Bogdan" "2024-01-01" (Some "2024-03-10T09:00:00Z") [].

(** The leads have arrived. *)
Definition app_loaded : AppState :=
  {| app_sys := chats_loaded; app_form := None; app_panel := None; app_messages := no_messages |}.

(** The operator opens [a] and types a reply, *)
Definition app_typed : AppState :=
  app_after (host := host_bucharest) (DraftTyped "hello") no_messages
    (app_after (host := host_bucharest) (LeadOpened lead_a) no_messages app_loaded).

(** opens [b] from the list, *)
Definition app_switched : AppState :=
  app_after (host := host_bucharest) (LeadOpened lead_b) no_messages app_typed.

(** and sends. *)
Definition app_sent : AppState :=
  app_after (host := host_bucharest) ReplySent no_messages app_switched.

(** The filters are shown and a type is ticked. *)
Definition app_filtering : AppState :=
  app_after (host := host_bucharest) (FiltersEdited (EditType (type_option 3 "Teren")))
    no_messages (app_after (host := host_bucharest) FiltersToggled no_messages app_loaded).

Local Notation "'step0'" := (app_step (host := host_bucharest) sample_today).
Local Notation "'reachable0'" := (app_reachable (host := host_bucharest) sample_today).
Local Notation "'view0'" := (app_view (host := host_bucharest) sample_today).

(** An event of a concrete page: the page renders, and offers it. *)
Local Ltac acts :=
  apply app_acts; [vm_compute; reflexivity|];
  intros tree Hrender; apply (app_view_offers _ _ _ _ Hrender).

Lemma app_loaded_reachable : reachable0 app_loaded.
Proof. apply rtc_once, (app_snapshot _ initial_app (with_leads dated_leads)). Qed.

Lemma app_typed_reachable : reachable0 app_typed.
Proof.
  eapply rtc_r; [eapply rtc_r; [exact app_loaded_reachable|]|]; acts.
  - do 4 right; left; exists lead_a; split; [vm_compute; tauto | reflexivity].
  - do 6 right; split; [eexists; reflexivity | do 2 right; eexists; reflexivity].
Qed.

Lemma lead_b_opens : step0 app_typed app_switched.
Proof.
  acts; do 4 right; left; exists lead_b; split; [vm_compute; tauto | reflexivity].
Qed.

Lemma app_filtering_reachable : reachable0 app_filtering.
Proof.
  eapply rtc_r; [eapply rtc_r; [exact app_loaded_reachable|]|]; acts.
  - right; left; reflexivity.
  - do 5 right; left; split; [reflexivity|].
    left; eexists; split; [|reflexivity]; vm_compute; tauto.
Qed.

(** A reply typed under one lead is sent to another: the panel has no
    key, so that it keeps its draft when the open lead changes, and the
    list stays in the tree under the panel. *)
Example reply_reaches_other_lead :
  reachable0 app_sent
  /\ (panel_calls <$> app_panel app_sent)
     = Some [CallMarkRead "a"; CallMarkRead "b"; CallReply "b" "hello"].
Proof.
  split; [|vm_compute; reflexivity].
  eapply rtc_r; [eapply rtc_r; [exact app_typed_reachable | exact lead_b_opens]|]; acts.
  do 6 right; split; [eexists; reflexivity | right; left; split; reflexivity].
Qed.

(** One message whose time does not parse, and the page is gone; the
    form shows what was ticked. *)
Example app_view_examples :
  view0 {| app_sys := app_sys app_typed; app_form := None; app_panel := app_panel app_typed;
           app_messages :=
             polled [{| msg_id := None; direction := inbound; message := "?";
                        message_type := "text"; timestamp := "yesterday";
                        msg_status := None |}] |}
  = Throw (RangeError "Invalid time value") /\
  (propertyTypes <$> (filters_draft <$> app_form app_filtering)) = Some [of_Z 3] /\
  (submits <$> view0 app_filtering)
  = Ok [FiltersApplied (with_propertyTypes [of_Z 3] DEFAULT_LEAD_FILTERS)] /\
  (clicks <$> view0 app_switched)
  = Ok ([LoggedOut; FiltersToggled] ++ map LeadOpened [lead_b;
          chat_lead "d" "Dan Popa" "2024-02-01" None
            [{| date := Some "2024-03-05T12:00:00Z"; success := true; note := Some "sent" |}];
          lead_a] ++ [PanelClosed; ReplySent])%list.
Proof. vm_compute; repeat split; reflexivity. Qed.

(** ** Witnesses *)

Lemma app_view_offers_witness :
  exists tree, view0 app_switched = Ok tree /\ offered tree ReplySent.
Proof.
  destruct (view0 app_switched) as [tree|e] eqn:Hrender; [|vm_compute in Hrender; discriminate].
  exists tree; split; [reflexivity|].
  apply (app_view_offers (host := host_bucharest) sample_today app_switched tree ReplySent Hrender).
  do 6 right; split; [eexists; reflexivity | right; left; split; reflexivity].
Defined.

Lemma app_refines_page_witness :
  chats_reachable (host := host_bucharest) sample_today (app_sys app_typed).
Proof.
  exact (app_refines_page (host := host_bucharest) sample_today app_typed
           app_typed_reachable).
Defined.

Lemma app_filters_ok_witness : mounts app_filtering /\ form_ok (form_of app_filtering).
Proof.
  exact (app_filters_ok (host := host_bucharest) sample_today app_filtering
           app_filtering_reachable).
Defined.

Lemma open_lead_keeps_draft_witness :
  step0 app_typed app_switched
  /\ exists s, app_panel app_switched = Some s
       /\ panel s = {| draft := "hello"; sendError := None |} /\ lead_id s = "b"
       /\ panel_calls s = [CallMarkRead "a"; CallMarkRead "b"].
Proof.
  refine (open_lead_keeps_draft (host := host_bucharest) sample_today app_typed _ lead_b
            no_messages app_typed_reachable _ _ eq_refl);
    [vm_compute; reflexivity | vm_compute; tauto].
Defined.
