(* ===== verification/DashboardView.v ===== *)
(** * DashboardView: what the page of the queue renders

    The element that [DashboardPage] returns, lines 272-520 of
    [src/frontend/src/lib/dates.ts]: the actions of the frame, the switch
    of the filters with the form, the banner and the notices, and the
    groups of [groupedLeads] with a card for each lead.  The state, the
    handlers and the page in time are in [Dashboard].

    The form of the filters and the panel of the conversation are the
    components of [FilterView] and [ConversationView], rendered in their own
    states, which are arguments of the page here.  The page renders inside
    [PageShell], at the route of the first item of the navigation.

    A render can throw: [groupedLeads] does when a date of a lead has no
    day label, a card when the time a lead was added or the time of its
    last message cannot be formatted, the notice when the message of the
    error is an object, the panel when the time of a message cannot be
    formatted.

    [DashEvent] is what the handlers of the tree raise, and [queue_after]
    what each does to the page of [Dashboard]: the guards of
    [Dashboard.step] are what the tree offers. *)

From Stdlib Require Import QArith ZArith Lia Ascii.
From stdpp Require Import base tactics option list strings gmap pretty relations.
From S2P Require Import Prelude JsNumber JsString JsValue Collections ArraySort.
From S2P Require Import Calendar RefHost Json Leads Filters Dates Grouping Chats View Shell.
From S2P Require Import Dashboard Conversation FilterPanel ConversationView FilterView ChatsPage.
Close Scope Q_scope.
Open Scope string_scope.

(** ** Events *)

(** What the user does to the page: the handlers of lines 276, 284, 293,
    318, 330, 331, 393, 430, 474, 485 and 512, the log-out of the frame,
    and the controls of the form and of the panel. *)
Inductive DashEvent : Type :=
| LogOut
| BulkSend
| CancelSelection
| SelectMultiple
| ToggleFilters
| ApplyFilters (filters : LeadFilters)
| ResetFilters
| EditFilters (e : Edit)
| ToggleSelect (propertyId : string)
| CopyPhone (lead : Lead)
| SingleSend (propertyId : string)
| OpenConversation (lead : Lead)
| CloseConversation
| TypeDraft (text : string)
| SendReply.

(** The tone of a banner as a tone of [InlineNotice] (line 339). *)
Definition notice_tone (t : Tone) : NoticeTone :=
  match t with
  | tone_info => notice_info
  | tone_success => notice_success
  | tone_error => notice_error
  end.

Section Rendering.
Context {host : Host}.
Variable now : Z.

(** ** The tree *)

(** Lines 272-299: the actions of the frame. *)
Definition queue_actions (swr : Swr) (st : PageState) : list (node DashEvent) :=
  if multiSelectMode st then
    [ Elem "button"
        [ Str "type" "button"; Handler "onClick" BulkSend;
          Flag "disabled" (bulk_disabled st);
          Str "className" "rounded-full bg-black px-5 py-2 text-sm font-medium text-white transition-colors hover:bg-black/90 disabled:cursor-not-allowed disabled:opacity-60" ]
        [ Text "Send WhatsApp to Selected ("; Text (pretty (length (selectedIds st)));
          Text ")" ];
      Elem "button"
        [ Str "type" "button"; Handler "onClick" CancelSelection;
          Str "className" "rounded-full border border-black/20 px-5 py-2 text-sm font-medium text-black transition-colors hover:border-black/40 hover:bg-black/5" ]
        [Text "Cancel selection"] ]
  else
    [ Elem "button"
        [ Str "type" "button"; Handler "onClick" SelectMultiple;
          Flag "disabled" (negb (hasLeads swr st));
          Str "className" "rounded-full border border-black/20 px-5 py-2 text-sm font-medium text-black transition-colors hover:border-black/40 hover:bg-black/5 disabled:cursor-not-allowed disabled:opacity-60" ]
        [Text "Select multiple"] ].


(** Lines 397-468: what the card says of its lead. *)
Definition card_details (st : PageState) (lead : Lead) (added sentAt : string)
    : node DashEvent :=
  Elem "div" []
    [ Elem "p" [Str "className" "text-xs font-medium uppercase tracking-[0.3rem] text-slate-400"]
        [Text (display_id lead)];
      Elem "h2" [Str "className" "mt-2 text-lg font-semibold text-slate-900"]
        [Text (if str_truthy (title lead) then title lead else "Untitled property")];
      Elem "dl" [Str "className" "mt-4 grid gap-3 text-sm text-slate-600 md:grid-cols-2"]
        ([ Elem "div" []
             [ Elem "dt" [Str "className" "font-medium text-black"] [Text "Added"];
               Elem "dd" [Str "className" "text-black/70"] [Text added] ];
           Elem "div" []
             [ Elem "dt" [Str "className" "font-medium text-black"] [Text "Seller"];
               Elem "dd" [Str "className" "text-black/70"] [Text (lister_name lead)] ];
           Elem "div" []
             [ Elem "dt" [Str "className" "font-medium text-black"] [Text "Phone"];
               Elem "dd" [Str "className" "flex items-center gap-2 text-black/70"]
                 (Text (default "Unavailable" (lister_phone lead))
                  :: when (opt_str_truthy (lister_phone lead))
                       (Elem "button"
                          [ Str "type" "button"; Handler "onClick" (CopyPhone lead);
                            Str "className" "text-xs font-medium text-slate-500 underline-offset-4 hover:text-slate-700" ]
                          [Text (if bool_decide (copiedId st = Some (property_id lead))
                                 then "Copied" else "Copy")])) ];
           Elem "div" []
             [ Elem "dt" [Str "className" "font-medium text-black"] [Text "Status"];
               Elem "dd" []
                 [ Elem "span" [Str "className" "rounded-full bg-black px-3 py-1 text-xs font-semibold uppercase tracking-wide text-white"]
                     [Text (status_string (status lead))] ] ] ]
         ++ when (opt_str_truthy (last_message_excerpt lead))
              (Elem "div" [Str "className" "md:col-span-2"]
                 [ Elem "dt" [Str "className" "font-medium text-black"] [Text "Last message"];
                   Elem "dd" [Str "className" "text-black/70"]
                     (Text (default "" (last_message_excerpt lead))
                      :: when (opt_str_truthy (last_message_at lead))
                           (Elem "span" [Str "className" "ml-2 text-xs text-black/40"]
                              [Text sentAt])) ])) ].


(** Lines 470-500: the buttons of the card. *)
Definition card_buttons (st : PageState) (lead : Lead) : node DashEvent :=
  let isSending := set_has (property_id lead) (pendingIds st) in
  Elem "div" [Str "className" "flex flex-col gap-3 self-stretch sm:flex-row sm:flex-wrap sm:items-center md:w-48 md:flex-col md:items-end"]
    (when (negb (multiSelectMode st))
       (Elem "button"
          [ Str "type" "button"; Handler "onClick" (SingleSend (property_id lead));
            Flag "disabled" (single_disabled lead st);
            Str "className" "w-full rounded-full bg-black px-5 py-2 text-sm font-medium text-white transition-colors hover:bg-black/90 disabled:cursor-not-allowed disabled:opacity-60 sm:w-auto md:w-full" ]
          [Text (if isSending then "Sendingâ€¦" else "Send WhatsApp")])
     ++ [ Elem "button"
            [ Str "type" "button"; Handler "onClick" (OpenConversation lead);
              Str "className" "w-full rounded-full border border-black/20 px-5 py-2 text-sm font-medium text-black transition-colors hover:border-black/40 hover:bg-black/5 sm:w-auto md:w-full" ]
            [Text "Open conversation"] ]
     ++ when (num_truthy (default (of_Z 0) (unread_count lead)))
          (Elem "span" [Str "className" "rounded-full bg-black px-3 py-1 text-xs font-semibold uppercase tracking-wide text-white"]
             [ Text (NumberToString (default (of_Z 0) (unread_count lead)));
               Text " new" ])
     ++ [ Elem "p" [Str "className" "text-xs text-slate-400 sm:text-left md:text-right"]
            [Text (if multiSelectMode st then "Tap to include in the batch."
                   else "Sends the approved WhatsApp template instantly.")] ]).


(** Lines 378-503: the card of a lead. *)
Definition lead_card (st : PageState) (lead : Lead) : result exn (node DashEvent) :=
  let isSelected := set_has (property_id lead) (selectedIds st) in
  added ← formatFullDateTime (InString (date_added lead));
  sentAt ← (if opt_str_truthy (last_message_excerpt lead)
               && opt_str_truthy (last_message_at lead)
            then formatMessageTimestamp now (InString (default "" (last_message_at lead)))
            else Ok "");
  Ok (Elem "article"
        [ Str "key" (property_id lead);
          Str "className" "rounded-2xl border border-slate-200 bg-white p-5 shadow-sm transition-shadow hover:shadow-md" ]
        [ Elem "div" [Str "className" "flex flex-col gap-4 md:flex-row md:items-start md:justify-between"]
            [ Elem "div" [Str "className" "flex flex-1 items-start gap-4"]
                (when (multiSelectMode st)
                   (Elem "input"
                      [ Str "type" "checkbox";
                        Str "aria-label" ("Select lead " +:+ display_id lead);
                        Flag "checked" isSelected;
                        ValueHandler "onChange" (fun _ => ToggleSelect (property_id lead));
                        Str "className" "h-5 w-5 rounded border-slate-300 text-slate-900 focus:ring-slate-200" ] [])
                 ++ [card_details st lead added sentAt]);
              card_buttons st lead ] ]).


(** Lines 368-507: the section of a group. *)
Definition group_section (st : PageState) (group : LeadGroup) : result exn (node DashEvent) :=
  cards ← result_mapM (lead_card st) (Leads.leads group);
  Ok (Elem "section" [Str "key" (Leads.label group)]
        [ Elem "div" [Str "className" "flex items-center gap-2"]
            [ Elem "div" [Str "className" "h-px flex-1 bg-slate-200"] [];
              Elem "span" [Str "className" "text-xs font-semibold uppercase tracking-[0.3rem] text-slate-400"]
                [Text (toUpperCase (Leads.label group))];
              Elem "div" [Str "className" "h-px flex-1 bg-slate-200"] [] ];
          Elem "div" [Str "className" "mt-6 space-y-4"] cards ]).


(** Lines 350-359: the notice of an error, once the loading is over. *)
Definition queue_notice (swr : Swr) : result exn (list (node DashEvent)) :=
  match swr_error swr with
  | Some e =>
      if exn_truthy e && negb (isLoading swr) then
        description ← react_child
          (if nullish (exn_message e) then VStr "Please refresh or sign in again." else exn_message e);
        Ok [InlineNotice (Some notice_error) (Some "We couldnâ€™t load the queue.") description]
      else Ok []
  | None => Ok []
  end.


(** Lines 325-334: the form of the filters, when it is shown and the
    leads have arrived. *)
Definition shown_form (swr : Swr) (st : PageState) (form : FiltersForm)
    : list (node DashEvent) :=
  match data swr with
  | Some response =>
      when (showFilters st)
        (Elem "div" [Str "className" "mb-6"]
           [ LeadFiltersPanel EditFilters (ApplyFilters (filters_draft form)) ResetFilters
               (response_leads response) form ])
  | None => []
  end.

(** Lines 337-341: the banner. *)
Definition shown_banner (st : PageState) : list (node DashEvent) :=
  match banner st with
  | Some b =>
      [ Elem "div" [Str "className" "mb-6"]
          [InlineNotice (Some (notice_tone (tone b))) None (text_child (banner_message b))] ]
  | None => []
  end.

(** Lines 509-517: the panel of the conversation, when a lead is open. *)
Definition shown_panel (messages : MessagesSwr) (panel : PanelState) (st : PageState)
    : result exn (list (node DashEvent)) :=
  match activeLead st with
  | Some lead =>
      tree ← ConversationPanel now TypeDraft SendReply messages panel lead CloseConversation;
      Ok [tree]
  | None => Ok []
  end.


(** Lines 301-520: the element of the page, around the sections of the
    groups, the form, the notice of an error and the panel. *)
Definition queue_tree (swr : Swr) (st : PageState)
    (filters sections notice conversation : list (node DashEvent)) : node DashEvent :=
  let failed := default false (exn_truthy <$> swr_error swr) in
  Elem "Fragment" []
    [ Elem "Head" [] [Elem "title" [] [Text "Lead Queue Â· CRMREBS"]];
      PageShell LogOut "/" "Lead Queue"
        (Some "Review the newest properties and reach out instantly.")
        (if hasLeads swr st then Some (queue_actions swr st) else None)
        ([ Elem "div" [Str "className" "mb-4 flex items-center justify-between"]
             [ Elem "div" [Str "className" "text-sm font-medium text-black"]
                 [Text "Rezultate: "; Text (pretty (length (filteredLeads swr st)))];
               Elem "button"
                 [ Str "type" "button"; Handler "onClick" ToggleFilters;
                   Str "className" "rounded-full border border-black/20 px-4 py-2 text-sm font-medium text-black transition-colors hover:border-black/40 hover:bg-black/5" ]
                 [Text (if showFilters st then "Hide filters" else "Show filters")] ] ]
         ++ filters
         ++ shown_banner st
         ++ when (isLoading swr)
              (InlineNotice (Some notice_info) None (text_child "Checking for new leadsâ€¦"))
         ++ notice
         ++ when (negb (isLoading swr) && negb failed && negb (hasLeads swr st))
              (Elem "div" [Str "className" "rounded-2xl border border-dashed border-slate-200 bg-slate-50 px-6 py-10 text-center text-slate-500"]
                 [Text "Queue is empty! ðŸŽ‰"])
         ++ [Elem "div" [Str "className" "space-y-10"] sections]
         ++ conversation) ].

(** Lines 104-521: what the page renders, with the form and the panel in
    their states. *)
Definition DashboardPage (swr : Swr) (st : PageState) (form : FiltersForm)
    (messages : MessagesSwr) (panel : PanelState) : result exn (node DashEvent) :=
  groups ← groupedLeads now swr st;
  sections ← result_mapM (group_section st) groups;
  notice ← queue_notice swr;
  conversation ← shown_panel messages panel st;
  Ok (queue_tree swr st (shown_form swr st form) sections notice conversation).


(** The card of the lead can be written: the date it was added is empty
    or parses, and so does the time of its last message when the card
    shows one. *)
Definition presentable (lead : Lead) : Prop :=
  datable (date_added lead)
  /\ (opt_str_truthy (last_message_excerpt lead) = true ->
      forall ts, last_message_at lead = Some ts -> ts = "" \/ is_Some (parseISO ts)).

End Rendering.

(** ** The handlers *)

(** What each event does to the page in time: the handler up to its
    first [await], with the effects of the render that follows where they
    can change the state. *)
Definition queue_after `{host : Host} (e : DashEvent) (s : Sys) : Sys :=
  match e with
  | LogOut =>
      {| page := page s; swr := swr s; tasks := tasks s; calls := calls s;
         route := Some "/login" |}
  | BulkSend =>
      match bulk_start (page s) with
      | Some (id :: rest, p) =>
          with_tasks p (tasks s ++ [BulkSending id rest 0 0]) [CallSend id] s
      | _ => s
      end
  | CancelSelection => with_page (clearSelection (page s)) s
  | SelectMultiple => with_page (setMultiSelectMode true (page s)) s
  | ToggleFilters => with_page (setShowFilters negb (page s)) s
  | ApplyFilters filters =>
      with_page (run_effects (swr s) (swr s) (setAppliedFilters filters (page s))) s
  | ResetFilters =>
      with_page (run_effects (swr s) (swr s) (setAppliedFilters DEFAULT_LEAD_FILTERS (page s))) s
  | ToggleSelect propertyId => with_page (toggleSelect propertyId (page s)) s
  | CopyPhone lead => with_page (handleCopy lead (page s)) s
  | SingleSend propertyId =>
      with_tasks (single_start propertyId (page s)) (tasks s ++ [SingleSending propertyId])
        [CallSend propertyId] s
  | OpenConversation lead =>
      with_page (active_effect (filteredLeads (swr s) (page s))
                   (setActiveLead (Some lead) (page s))) s
  | CloseConversation => with_page (setActiveLead None (page s)) s
  | EditFilters _ | TypeDraft _ | SendReply => s
  end.

(** What the card of a lead offers. *)
Definition card_offers (st : PageState) (lead : Lead) (e : DashEvent) : Prop :=
  (multiSelectMode st = true /\ e = ToggleSelect (property_id lead))
  \/ (opt_str_truthy (lister_phone lead) = true /\ e = CopyPhone lead)
  \/ (multiSelectMode st = false /\ single_disabled lead st = false
      /\ e = SingleSend (property_id lead))
  \/ e = OpenConversation lead.

(** What the actions of the frame offer. *)
Definition actions_offer (st : PageState) (e : DashEvent) : Prop :=
  (multiSelectMode st = true /\ bulk_disabled st = false /\ e = BulkSend)
  \/ (multiSelectMode st = true /\ e = CancelSelection)
  \/ (multiSelectMode st = false /\ e = SelectMultiple).

(** What the form of the filters raises in the page. *)
Definition form_offers `{host : Host} (leads : list Lead) (form : FiltersForm) (e : DashEvent)
    : Prop :=
  (exists edit, edit_in_view leads form edit /\ e = EditFilters edit)
  \/ (budgets_valid form = true /\ e = ApplyFilters (filters_draft form))
  \/ e = ResetFilters.

(** What the panel of the conversation raises in the page. *)
Definition panel_offers (panel : PanelState) (e : DashEvent) : Prop :=
  e = CloseConversation \/ (send_disabled panel = false /\ e = SendReply)
  \/ exists text, e = TypeDraft text.

(** ** Facts *)

Section QueueFacts.
Context {host : Host}.
Variable now : Z.

(** *** What a render offers *)

Lemma card_details_offer st lead added sentAt e :
  offered (card_details st lead added sentAt) e
  <-> opt_str_truthy (lister_phone lead) = true /\ e = CopyPhone lead.
Proof.
  unfold card_details; forget_styles.
  generalize (opt_str_truthy (lister_phone lead)) (opt_str_truthy (last_message_excerpt lead))
    (opt_str_truthy (last_message_at lead)); intros phone excerpt sent.
  offered_by_lists e; destruct phone, excerpt, sent; cbn; cases_iff.
Qed.

Lemma card_buttons_offer st lead e :
  offered (card_buttons st lead) e
  <-> (multiSelectMode st = false /\ single_disabled lead st = false
       /\ e = SingleSend (property_id lead))
      \/ e = OpenConversation lead.
Proof.
  unfold card_buttons; cbv zeta; forget_styles.
  generalize (single_disabled lead st) (num_truthy (default (of_Z 0) (unread_count lead)));
    intros disabled unread.
  offered_by_lists e; destruct (multiSelectMode st), disabled, unread; cbn; cases_iff.
Qed.

Lemma lead_card_offers st lead tree e :
  lead_card now st lead = Ok tree -> offered tree e <-> card_offers st lead e.
Proof.
  unfold lead_card; cbv zeta.
  intros (added & _ & (sentAt & _ & [= <-])%result_bind_ok)%result_bind_ok.
  forget_styles; offers; rewrite card_details_offer, card_buttons_offer.
  unfold raises, card_offers; cbn; cases_iff.
Qed.

(** The cards of a list of leads offer what the card of each offers. *)
Lemma cards_offer st leads cards e :
  result_mapM (lead_card now st) leads = Ok cards ->
  Exists (fun card => offered card e) cards
  <-> exists lead, In lead leads /\ card_offers st lead e.
Proof.
  intros Hcards%result_mapM_Forall2.
  induction Hcards as [|lead card leads cards Hcard _ IH].
  - rewrite Exists_nil; split; [intros [] | intros (lead & [] & _)].
  - rewrite Exists_cons, IH, (lead_card_offers _ _ _ _ Hcard); cbn [In]; naive_solver.
Qed.

Lemma group_section_offers st group tree e :
  group_section now st group = Ok tree ->
  offered tree e <-> exists lead, In lead (Leads.leads group) /\ card_offers st lead e.
Proof.
  unfold group_section; intros (cards & Hcards & [= <-])%result_bind_ok.
  forget_styles; offers; rewrite (cards_offer _ _ _ _ Hcards); tauto.
Qed.

Lemma sections_offer st groups sections e :
  result_mapM (group_section now st) groups = Ok sections ->
  Exists (fun section => offered section e) sections
  <-> exists lead, In lead (concat (map Leads.leads groups)) /\ card_offers st lead e.
Proof.
  intros Hsections%result_mapM_Forall2.
  induction Hsections as [|group section groups sections Hsection _ IH]; cbn [map concat].
  - rewrite Exists_nil; split; [intros [] | intros (lead & [] & _)].
  - rewrite Exists_cons, IH, (group_section_offers _ _ _ _ Hsection).
    setoid_rewrite in_app_iff; naive_solver.
Qed.

Lemma queue_actions_offer swr st e :
  hasLeads swr st = true ->
  Exists (fun n => offered n e) (queue_actions swr st) <-> actions_offer st e.
Proof.
  intros Hleads; unfold queue_actions, actions_offer; rewrite Hleads; forget_styles.
  generalize (bulk_disabled st); intros disabled.
  destruct (multiSelectMode st), disabled; offers; unfold raises; cbn; cases_iff.
Qed.

Lemma shown_form_offers swr st form e :
  Exists (fun n => offered n e) (shown_form swr st form)
  <-> showFilters st = true
      /\ exists response, data swr = Some response
           /\ form_offers (response_leads response) form e.
Proof.
  unfold shown_form, form_offers; destruct (data swr) as [response|];
    [|rewrite Exists_nil; naive_solver].
  offers; rewrite LeadFiltersPanel_raises; naive_solver.
Qed.

Lemma Exists_inert {E} (ns : list (node E)) e :
  Forall inert ns -> Exists (fun n => offered n e) ns <-> False.
Proof.
  intros Hns; rewrite Exists_exists; split; [|intros []].
  intros (n & Hn & He); rewrite Forall_forall in Hns.
  exact (inert_offers_nothing n e (Hns n Hn) He).
Qed.

Lemma shown_banner_inert st : Forall inert (shown_banner st).
Proof.
  unfold shown_banner; destruct (banner st) as [b|]; constructor; [|constructor].
  apply inert_Elem; try reflexivity; constructor; [apply InlineNotice_text_inert|constructor].
Qed.

Lemma queue_notice_inert swr notice : queue_notice swr = Ok notice -> Forall inert notice.
Proof.
  unfold queue_notice; destruct (swr_error swr) as [e|]; [|intros [= <-]; constructor].
  destruct (_ && _); [|intros [= <-]; constructor].
  intros (description & Hd%react_child_inert & [= <-])%result_bind_ok.
  repeat constructor; apply InlineNotice_inert, Hd.
Qed.

Lemma shown_panel_offers messages panel st conversation e :
  shown_panel now messages panel st = Ok conversation ->
  Exists (fun n => offered n e) conversation
  <-> is_Some (activeLead st) /\ panel_offers panel e.
Proof.
  unfold shown_panel, panel_offers; destruct (activeLead st) as [lead|].
  - intros (tree & Hrender & [= <-])%result_bind_ok.
    rewrite Exists_cons, Exists_nil, (ConversationPanel_raises _ _ _ _ _ _ _ _ e Hrender).
    split; [intros [Hcase|[]]; split; [eauto | exact Hcase] | intros [_ Hcase]; left; exact Hcase].
  - intros [= <-]; rewrite Exists_nil; split; [intros [] | intros [[lead [=]] _]].
Qed.

(** What the element of the page offers, around its parts. *)
Lemma queue_tree_offers swr st filters sections notice conversation e :
  Forall inert notice ->
  offered (queue_tree swr st filters sections notice conversation) e
  <-> e = LogOut \/ e = ToggleFilters
      \/ (hasLeads swr st = true /\ actions_offer st e)
      \/ Exists (fun n => offered n e) filters
      \/ Exists (fun n => offered n e) sections
      \/ Exists (fun n => offered n e) conversation.
Proof.
  intros Hnotice; unfold queue_tree; cbv zeta; forget_styles.
  offers; rewrite PageShell_offers; offers.
  rewrite (Exists_inert _ _ Hnotice), (Exists_inert _ _ (shown_banner_inert st)),
    (offered_inert _ _ (InlineNotice_text_inert _ _ _)).
  destruct (hasLeads swr st) eqn:Hleads; cbn [default];
    rewrite ?(queue_actions_offer _ _ _ Hleads), ?Exists_nil; unfold raises; cbn; cases_iff.
Qed.

(** The parts of a render that returns. *)
Lemma DashboardPage_parts swr st form messages panel tree :
  DashboardPage now swr st form messages panel = Ok tree ->
  exists groups sections notice conversation,
    groupedLeads now swr st = Ok groups
    /\ result_mapM (group_section now st) groups = Ok sections
    /\ queue_notice swr = Ok notice
    /\ shown_panel now messages panel st = Ok conversation
    /\ tree = queue_tree swr st (shown_form swr st form) sections notice conversation.
Proof.
  unfold DashboardPage.
  intros (groups & Hgroups & (sections & Hsections & (notice & Hnotice
          & (conversation & Hconversation & [= <-])%result_bind_ok)%result_bind_ok
          )%result_bind_ok)%result_bind_ok.
  exists groups, sections, notice, conversation; repeat split; assumption.
Qed.

(** The leads of the groups are the leads that pass the filters. *)
Lemma grouped_leads_In swr st groups lead :
  groupedLeads now swr st = Ok groups ->
  In lead (concat (map Leads.leads groups)) <-> In lead (filteredLeads swr st).
Proof.
  intros (Hperm & _)%(group_by_partition now date_added).
  split; apply Permutation_in; [exact Hperm | symmetry; exact Hperm].
Qed.

(** What a render of the queue offers: the log-out, the switch of
    the filters, the actions of the frame when a lead passes the filters,
    the form of the filters when it is shown and the leads have arrived,
    the card of each lead that passes the filters, and the panel of the
    conversation while a lead is open. *)
Theorem DashboardPage_offers swr st form messages panel tree e :
  DashboardPage now swr st form messages panel = Ok tree ->
  offered tree e
  <-> e = LogOut \/ e = ToggleFilters
      \/ (hasLeads swr st = true /\ actions_offer st e)
      \/ (showFilters st = true
          /\ exists response, data swr = Some response
               /\ form_offers (response_leads response) form e)
      \/ (exists lead, In lead (filteredLeads swr st) /\ card_offers st lead e)
      \/ (is_Some (activeLead st) /\ panel_offers panel e).
Proof.
  intros (groups & sections & notice & conversation & Hgroups & Hsections
          & Hnotice%queue_notice_inert & Hconversation & ->)%DashboardPage_parts.
  rewrite (queue_tree_offers _ _ _ _ _ _ _ Hnotice), shown_form_offers,
    (sections_offer _ _ _ _ Hsections), (shown_panel_offers _ _ _ _ _ Hconversation).
  setoid_rewrite (grouped_leads_In _ _ _ _ Hgroups); reflexivity.
Qed.

(** *** The tree and the page in time *)

Lemma bulk_enabled_start st :
  bulk_disabled st = false ->
  exists id rest p, bulk_start st = Some (id :: rest, p).
Proof.
  unfold bulk_disabled, bulk_start; destruct (selectedIds st) as [|id rest]; [discriminate|].
  intros _; eexists _, _, _; reflexivity.
Qed.

(** C13.  What the tree of the queue offers is a step of the page in time,
    or an event of a control of the form or of the panel, which leaves the
    page as it is: the guards of the transitions are those of the tree. *)
Theorem queue_offered_is_step s form messages panel tree e :
  DashboardPage now (swr s) (page s) form messages panel = Ok tree -> offered tree e ->
  step s (queue_after e s) \/ queue_after e s = s.
Proof.
  intros Hrender He; apply (DashboardPage_offers _ _ _ _ _ _ _ Hrender) in He.
  destruct He as [->|[->|[[Hleads Haction]|[(Hshown & response & Hdata & Hform)
                 |[(lead & Hin & Hcard)|[_ Hpanel]]]]]].
  - left; apply step_logout.
  - left; apply step_show_filters.
  - left; destruct Haction as [(Hmulti & Hbulk & ->)|[[Hmulti ->]|[Hmulti ->]]].
    + destruct (bulk_enabled_start _ Hbulk) as (id & rest & p & Hstart).
      cbn; rewrite Hstart; apply step_bulk_click; assumption.
    + apply step_clear; assumption.
    + apply step_multi; assumption.
  - destruct Hform as [(edit & _ & ->)|[[_ ->]| ->]]; [right; reflexivity|left..];
      apply step_filters; rewrite ?Hdata; eauto.
  - left; destruct Hcard as [[Hmulti ->]|[[_ ->]|[(Hmulti & Hsend & ->)| ->]]].
    + apply step_toggle; assumption.
    + apply step_copy; assumption.
    + apply step_single_click; assumption.
    + apply step_open; assumption.
  - destruct Hpanel as [->|[[_ ->]|[text ->]]]; [left; apply step_close|right; reflexivity..].
Qed.

(** *** When a render throws *)

Lemma lead_card_is_ok st lead : is_ok (lead_card now st lead) = true <-> presentable lead.
Proof.
  unfold lead_card, presentable, datable; cbv zeta; rewrite is_ok_bind.
  setoid_rewrite is_ok_bind; rewrite <- formatFullDateTime_is_ok.
  destruct (formatFullDateTime _) as [added|]; cbn [is_ok];
    [|split; [intros (? & [=] & _) | intros [[=] _]]].
  destruct (opt_str_truthy (last_message_excerpt lead)); cbn [andb]; [|naive_solver].
  destruct (last_message_at lead) as [ts|]; [|naive_solver].
  change (default "" (Some ts)) with ts; cbn [opt_str_truthy].
  destruct (str_truthy ts) eqn:Hts; [|destruct ts; [naive_solver|discriminate]].
  pose proof (formatMessageTimestamp_is_ok now ts) as Htime.
  destruct (formatMessageTimestamp now (InString ts)); cbn [is_ok] in Htime; naive_solver.
Qed.

Lemma sections_is_ok st groups :
  is_ok (result_mapM (group_section now st) groups) = true
  <-> Forall presentable (concat (map Leads.leads groups)).
Proof.
  rewrite result_mapM_is_ok, Forall_concat, Forall_map; apply Forall_iff; intros group.
  unfold group_section; rewrite is_ok_bind.
  rewrite <- (Forall_iff _ _ _ (lead_card_is_ok st)), <- result_mapM_is_ok.
  destruct (result_mapM _ _); cbn [is_ok]; naive_solver.
Qed.

Lemma shown_panel_is_ok messages panel st :
  is_ok (shown_panel now messages panel st) = true
  <-> (is_Some (activeLead st) -> Forall timed (panel_messages (msg_data messages))).
Proof.
  unfold shown_panel; destruct (activeLead st) as [lead|];
    [|split; [intros _ [? [=]] | reflexivity]].
  rewrite <- (ConversationPanel_is_ok now TypeDraft SendReply messages panel lead
                CloseConversation).
  destruct (ConversationPanel _ _ _ _ _ _ _); cbn [is_ok mbind]; split; eauto; discriminate.
Qed.

(** C29.  The queue renders when the card of every lead that passes the
    filters can be written, the notice of the error renders, and the time
    of every message of the open conversation can be shown, and only
    then: one lead or one message with a time that does not parse takes
    the whole page with it. *)
Theorem DashboardPage_is_ok swr st form messages panel :
  is_ok (DashboardPage now swr st form messages panel) = true
  <-> Forall presentable (filteredLeads swr st)
      /\ is_ok (queue_notice swr) = true
      /\ (is_Some (activeLead st) -> Forall timed (panel_messages (msg_data messages))).
Proof.
  rewrite <- shown_panel_is_ok with (panel := panel).
  pose proof (group_by_is_ok now date_added (filteredLeads swr st)) as Hdates.
  unfold DashboardPage.
  destruct (groupedLeads now swr st) as [groups|err] eqn:Hgroups; cbn [mbind result_bind].
  - pose proof (sections_is_ok st groups) as Hcards; rewrite List.Forall_forall in Hcards.
    setoid_rewrite (grouped_leads_In _ _ _ _ Hgroups) in Hcards.
    rewrite <- List.Forall_forall in Hcards.
    destruct (result_mapM _ groups), (queue_notice swr), (shown_panel _ _ _ _); cbn in *;
      intuition discriminate.
  - split; [discriminate|intros [Hleads _]].
    change (group_by now date_added (filteredLeads swr st)) with (groupedLeads now swr st)
      in Hdates.
    rewrite Hgroups in Hdates; apply Hdates.
    eapply Forall_impl; [exact Hleads | intros lead [Hd _]; exact Hd].
Qed.

End QueueFacts.

(** ** Examples on the reference host *)

Definition queue_view : Swr -> PageState -> FiltersForm -> MessagesSwr -> PanelState ->
    result exn (node DashEvent) :=
  DashboardPage (host := host_bucharest) sample_today.

(** A lead with a message whose time does not parse. *)
Definition stale_lead : Lead := {|
  property_id := "p2"; display_id := "p2"; title := "Flat"; date_added := "2024-03-02";
  lister_name := "Ana"; lister_phone := None; status := REACHED_OUT;
  outreach_history := []; crm_raw := None;
  last_message_excerpt := Some "Buna ziua"; last_message_at := Some "yesterday";
  unread_count := Some (of_Z 2);
|}.

Definition arrived (leads : list Lead) : Swr :=
  {| data := Some {| response_leads := leads |}; swr_error := None;
     isLoading := false; isValidating := false |}.

Definition queue_idle : Sys := sys_idle (loaded false) [] [] [].

Example DashboardPage_examples :
  (clicks <$> queue_view (loaded false) initial_page initial_form no_messages initial_panel)
  = Ok [SelectMultiple; LogOut; ToggleFilters; CopyPhone (phone_lead "p1"); SingleSend "p1";
        OpenConversation (phone_lead "p1")] /\
  (clicks <$> queue_view (loaded false) (setMultiSelectMode true initial_page) initial_form
                no_messages initial_panel)
  = Ok [CancelSelection; LogOut; ToggleFilters; CopyPhone (phone_lead "p1");
        OpenConversation (phone_lead "p1")] /\
  (clicks <$> queue_view (loaded false) (setPendingIds (fun _ => ["p1"]) initial_page)
                initial_form no_messages initial_panel)
  = Ok [SelectMultiple; LogOut; ToggleFilters; CopyPhone (phone_lead "p1");
        OpenConversation (phone_lead "p1")] /\
  (clicks <$> queue_view initial_swr initial_page initial_form no_messages initial_panel)
  = Ok [LogOut; ToggleFilters] /\
  queue_view (arrived [stale_lead]) initial_page initial_form no_messages initial_panel
  = Throw (RangeError "Invalid time value").
Proof. vm_compute; repeat split; reflexivity. Qed.

(** The texts of the page are those of the source, sign for sign. *)
Example DashboardPage_texts :
  (text_content <$> queue_view (loaded false) initial_page initial_form no_messages
                      initial_panel)
  = Ok "Lead Queue Â· CRMREBSCRMREBSLead QueueReview the newest properties and reach out instantly.QueueChatsSelect multipleLog outRezultate: 1Show filtersTODAYp1Untitled propertyAdded15 Mar 2024 • 10:00SellerPhone0712345678CopyStatusLEADSend WhatsAppOpen conversationSends the approved WhatsApp template instantly." /\
  (text_content <$> queue_view initial_swr initial_page initial_form no_messages initial_panel)
  = Ok "Lead Queue Â· CRMREBSCRMREBSLead QueueReview the newest properties and reach out instantly.QueueChatsLog outRezultate: 0Show filtersChecking for new leadsâ€¦".
Proof. vm_compute; repeat split; reflexivity. Qed.

(** ** Witnesses *)

Lemma queue_offered_is_step_witness :
  step (host := host_bucharest) queue_idle
    (queue_after (host := host_bucharest) (SingleSend "p1") queue_idle)
  \/ queue_after (host := host_bucharest) (SingleSend "p1") queue_idle = queue_idle.
Proof.
  destruct (queue_view (loaded false) initial_page initial_form no_messages initial_panel)
    as [tree|] eqn:Hrender; [|vm_compute in Hrender; discriminate].
  apply (queue_offered_is_step (host := host_bucharest) sample_today queue_idle initial_form
           no_messages initial_panel tree (SingleSend "p1") Hrender).
  apply (DashboardPage_offers _ _ _ _ _ _ _ _ Hrender); do 4 right; left.
  exists (phone_lead "p1"); split; [vm_compute; tauto|].
  right; right; left; repeat split.
Defined.
