(* ===== verification/Polling.v ===== *)
(** * Polling: the snapshot hook as the specification describes it

    The pages keep no copy of the leads of their own: they call the hook
    of the SWR library with a key, a fetcher and two options (lines
    116-123 of [src/frontend/src/lib/dates.ts], 89-96 of
    [src/frontend/src/pages/chats.tsx], 133-139 of
    [src/frontend/src/pages/login.tsx]).  The options are translated from
    these lines.  The hook itself is not code of the repository; [Hook]
    and its transitions are written from sections 4.4, 4.6 and 5 of the
    specification:

    - a refresh is attempted at every interval, when the page regains the
      focus, and when a caller asks for one; a trigger that finds a
      request in flight is absorbed, not queued;
    - a refresh that the conversation asks for after a reply is issued at
      once, so that two requests can be in flight; a result is kept only
      when it was issued after the result on display;
    - a success replaces the snapshot wholesale; a failure sets the error
      and keeps the snapshot.

    The code calls [mutate()] of the library in the same way in the
    dashboard (line 241 of [dates.ts]) and in the panel (line 167 of
    [login.tsx]); that the first is absorbed while a request is in
    flight and the second is issued at once is what sections 5 and 4.6
    of the specification say of the two, and [refreshes] and
    [message_refreshes] are written from them.

    [swr_of] is what the page of [Dashboard] reads of the hook, and
    [polled_step] the page with such a hook under it: its snapshots are
    those the hook produces, and a [mutate] of a handler is a trigger.
    [panel_polled_step] is the conversation panel of [Conversation] over
    the hook of its messages in the same way.  Time is not modelled: that
    an interval has elapsed is an event. *)

From Stdlib Require Import ZArith List Lia String.
From stdpp Require Import base tactics option list relations strings.
From S2P Require Import Prelude JsValue RefHost Leads Chats Dashboard Conversation ConversationView.

(** ** The options of the three hooks *)

Record SwrOptions : Type := {
  opt_refreshInterval : Z;
  opt_revalidateOnFocus : option bool;
}.

(** [dates.ts], lines 119-122. *)
Definition queue_options : SwrOptions :=
  {| opt_refreshInterval := refreshIntervalMs; opt_revalidateOnFocus := Some true |}.

(** [chats.tsx], lines 92-95. *)
Definition chats_options : SwrOptions :=
  {| opt_refreshInterval := chats_refreshIntervalMs; opt_revalidateOnFocus := Some true |}.

(** [login.tsx], lines 136-138. *)
Definition messages_options : SwrOptions :=
  {| opt_refreshInterval := 5000; opt_revalidateOnFocus := None |}.

(** ** The hook *)

Inductive Trigger : Type := Interval | Focus | Refresh.

Section Hook.
Context {A : Type}.

(** The snapshot and the error on display, the number of requests issued,
    the issue number of the result on display (0 for none), and the issue
    numbers of the requests in flight. *)
Record Hook : Type := {
  snapshot : option A;
  lastError : option exn;
  issued : nat;
  landed : nat;
  flying : list nat;
}.

(** At mount the first request is in flight. *)
Definition mounted_hook : Hook :=
  {| snapshot := None; lastError := None; issued := 1; landed := 0; flying := [1%nat] |}.

Definition isRefreshing (h : Hook) : bool :=
  match flying h with [] => false | _ => true end.

(** What the caller sees of the results. *)
Definition display (h : Hook) : option A * option exn := (snapshot h, lastError h).

(** [forced]: a refresh that a caller asks for is issued even while a
    request is in flight, as the conversation does after a reply. *)
Variable forced : bool.
Variable options : SwrOptions.

(** Whether a trigger issues a request. *)
Definition honoured (t : Trigger) (h : Hook) : bool :=
  match t with
  | Interval => negb (isRefreshing h)
  | Focus => default true (opt_revalidateOnFocus options) && negb (isRefreshing h)
  | Refresh => forced || negb (isRefreshing h)
  end.

Definition trigger (t : Trigger) (h : Hook) : Hook :=
  if honoured t h then
    {| snapshot := snapshot h; lastError := lastError h; issued := S (issued h);
       landed := landed h; flying := (flying h ++ [S (issued h)])%list |}
  else h.

(** The request [id] settles with [r]: its result is put on display
    unless a result issued later is there already. *)
Definition settle (id : nat) (r : result exn A) (h : Hook) : Hook :=
  let rest := List.filter (fun id' => negb (Nat.eqb id' id)) (flying h) in
  if (landed h <? id)%nat then
    {| snapshot := match r with Ok a => Some a | Throw _ => snapshot h end;
       lastError := match r with Ok _ => None | Throw e => Some e end;
       issued := issued h; landed := id; flying := rest |}
  else
    {| snapshot := snapshot h; lastError := lastError h; issued := issued h;
       landed := landed h; flying := rest |}.

Inductive hook_step : Hook -> Hook -> Prop :=
| hook_trigger h t : hook_step h (trigger t h)
| hook_settle h id r : In id (flying h) -> hook_step h (settle id r h).

Definition hook_reachable (h : Hook) : Prop := rtc hook_step mounted_hook h.

(** The requests in flight were issued, each once, in the order of their
    numbers, and so was the result on display. *)
Definition hook_ok (h : Hook) : Prop :=
  (landed h <= issued h)%nat
  /\ Forall (fun id => 0 < id <= issued h)%nat (flying h)
  /\ List.NoDup (flying h).

End Hook.

Arguments Hook A : clear implicits.

(** ** The dashboard over its hook *)

(** What the page reads of the hook (lines 116-123 of [dates.ts]):
    [isLoading] is a request in flight while there is no snapshot yet. *)
Definition swr_of (h : Hook LeadsResponse) : Swr := {|
  data := snapshot h;
  swr_error := lastError h;
  isLoading := isRefreshing h && negb (bool_decide (is_Some (snapshot h)));
  isValidating := isRefreshing h;
|}.

(** The messages hook of the conversation (lines 133-139 of [login.tsx])
    is refreshed by its caller after a reply, whatever is in flight. *)
Definition messages_trigger {A} : Trigger -> Hook A -> Hook A := trigger true messages_options.

Record Polled : Type := {
  sys : Sys;
  hook : Hook LeadsResponse;
}.

Definition mounted_page : Polled := {| sys := initial_sys; hook := mounted_hook |}.

(** The calls of a handler that reach the hook: each [mutate] is a
    trigger, absorbed while a request is in flight (section 5 of the
    specification, ordering guarantee 1). *)
Definition refreshes (cs : list Call) (h : Hook LeadsResponse) : Hook LeadsResponse :=
  fold_left (fun h c => match c with
                        | CallMutate => trigger false queue_options Refresh h
                        | _ => h
                        end) cs h.

Section Polled.
Context {host : Host}.

(** The page renders with what the hook returns. *)
Definition renders (h : Hook LeadsResponse) (s : Sys) : Sys := {|
  page := run_effects (swr s) (swr_of h) (page s); swr := swr_of h; tasks := tasks s;
  calls := calls s;
  route := match auth_effect (swr_of h) with Some r => Some r | None => route s end |}.

(** The hook moves and the page renders, or the page moves, its new calls
    reach the hook, and the page renders. *)
Inductive polled_step : Polled -> Polled -> Prop :=
| polled_hook p h' :
    hook_step false queue_options (hook p) h' ->
    polled_step p {| sys := renders h' (sys p); hook := h' |}
| polled_page p s' :
    step (sys p) s' -> swr s' = swr (sys p) ->
    polled_step p {| sys := renders (refreshes (drop (length (calls (sys p))) (calls s')) (hook p)) s';
                     hook := refreshes (drop (length (calls (sys p))) (calls s')) (hook p) |}.

Definition polled_reachable (p : Polled) : Prop := rtc polled_step mounted_page p.

End Polled.

(** ** The conversation over its hook *)

(** What the panel reads of the hook (lines 133-139 of [login.tsx]). *)
Definition messages_swr_of (h : Hook MessagesResponse) : MessagesSwr := {|
  msg_data := snapshot h;
  msg_error := lastError h;
  msg_isValidating := isRefreshing h;
|}.

Record PolledPanel : Type := {
  panel_sys : PanelSys;
  messages_hook : Hook MessagesResponse;
}.

Definition mounted_panel (propertyId : string) : PolledPanel :=
  {| panel_sys := mounted propertyId; messages_hook := mounted_hook |}.

(** The calls of the panel that reach the hook: the [mutate] of line
    167, issued at once (section 4.6 of the specification). *)
Definition message_refreshes (cs : list PanelCall) (h : Hook MessagesResponse)
    : Hook MessagesResponse :=
  fold_left (fun h c => match c with
                        | CallMessages => messages_trigger Refresh h
                        | _ => h
                        end) cs h.

(** The hook moves and the panel renders again, its effect finding its
    dependencies as they were; or the panel moves and its new calls reach
    the hook. *)
Inductive panel_polled_step : PolledPanel -> PolledPanel -> Prop :=
| panel_polled_hook p h' :
    hook_step true messages_options (messages_hook p) h' ->
    panel_polled_step p {| panel_sys := panel_sys p; messages_hook := h' |}
| panel_polled_panel p s' :
    pstep (panel_sys p) s' ->
    panel_polled_step p
      {| panel_sys := s';
         messages_hook := message_refreshes
                            (drop (length (panel_calls (panel_sys p))) (panel_calls s'))
                            (messages_hook p) |}.

Definition panel_polled_reachable (propertyId : string) (p : PolledPanel) : Prop :=
  rtc panel_polled_step (mounted_panel propertyId) p.

(** ** What the hook guarantees *)

Section HookFacts.
Context {A : Type}.
Variable forced : bool.
Variable options : SwrOptions.
Implicit Types (h : Hook A) (t : Trigger) (r : result exn A).


Lemma trigger_cases t h :
  (honoured forced options t h = false /\ trigger forced options t h = h)
  \/ (honoured forced options t h = true
      /\ trigger forced options t h = {| snapshot := snapshot h; lastError := lastError h;
                          issued := S (issued h); landed := landed h;
                          flying := (flying h ++ [S (issued h)])%list |}).
Proof. unfold trigger; destruct (honoured _ _ _ _); auto. Qed.

Lemma trigger_display t h : display (trigger forced options t h) = display h /\ landed (trigger forced options t h) = landed h.
Proof. destruct (trigger_cases t h) as [[_ ->]|[_ ->]]; auto. Qed.

Lemma flying_settle id r h :
  flying (settle id r h) = List.filter (fun id' => negb (Nat.eqb id' id)) (flying h).
Proof. unfold settle; destruct (_ <? _)%nat; reflexivity. Qed.

Lemma issued_settle id r h : issued (settle id r h) = issued h.
Proof. unfold settle; destruct (_ <? _)%nat; reflexivity. Qed.

(** A request settles once: it is no longer in flight afterwards. *)
Lemma settle_removes id r h : ~ In id (flying (settle id r h)).
Proof.
  rewrite flying_settle, filter_In, negb_true_iff, Nat.eqb_neq; tauto.
Qed.

(** A result that was issued before the one on display is discarded. *)
Lemma settle_stale id r h :
  (id <= landed h)%nat ->
  display (settle id r h) = display h /\ landed (settle id r h) = landed h.
Proof.
  intros Hle; unfold settle.
  rewrite (proj2 (Nat.ltb_ge _ _) Hle); auto.
Qed.

(** A result that was issued after it is put on display: a success
    replaces the snapshot and clears the error, a failure keeps the
    snapshot and sets the error. *)
Lemma settle_fresh id r h :
  (landed h < id)%nat ->
  landed (settle id r h) = id
  /\ display (settle id r h)
     = match r with Ok a => (Some a, None) | Throw e => (snapshot h, Some e) end.
Proof.
  intros Hlt; unfold settle.
  rewrite (proj2 (Nat.ltb_lt _ _) Hlt); destruct r; auto.
Qed.

Lemma landed_monotone h h' : hook_step forced options h h' -> (landed h <= landed h')%nat.
Proof.
  intros [h0 t|h0 id r _].
  - rewrite (proj2 (trigger_display t h0)); lia.
  - destruct (Nat.lt_ge_cases (landed h0) id) as [Hlt|Hle].
    + rewrite (proj1 (settle_fresh id r h0 Hlt)); lia.
    + rewrite (proj2 (settle_stale id r h0 Hle)); lia.
Qed.

Lemma hook_step_ok h h' : hook_ok h -> hook_step forced options h h' -> hook_ok h'.
Proof.
  intros Hok Hstep; destruct Hstep as [h0 t|h0 id r Hin];
    destruct Hok as (Hland & Hfly & Hnodup).
  - destruct (trigger_cases t h0) as [[_ ->]|[_ ->]]; [by repeat split|].
    repeat split; cbn; [lia | |].
    + apply Forall_app; split; [|constructor; [lia|constructor]].
      eapply Forall_impl; [exact Hfly|]; cbn; lia.
    + apply NoDup_ListNoDup, NoDup_app; repeat split;
        [by apply NoDup_ListNoDup | | apply NoDup_singleton].
      intros id Hid ->%list_elem_of_singleton.
      rewrite Forall_forall in Hfly; apply Hfly in Hid; lia.
  - assert (Hid : (0 < id <= issued h0)%nat)
      by (rewrite List.Forall_forall in Hfly; auto).
    repeat split; rewrite ?flying_settle, ?issued_settle.
    + destruct (Nat.lt_ge_cases (landed h0) id) as [Hlt|Hle].
      * rewrite (proj1 (settle_fresh id r h0 Hlt)); lia.
      * rewrite (proj2 (settle_stale id r h0 Hle)); lia.
    + rewrite List.Forall_forall in *; intros x [Hx _]%filter_In; auto.
    + by apply List.NoDup_filter.
Qed.

Lemma hook_reachable_ok h : hook_reachable forced options h -> hook_ok h.
Proof.
  unfold hook_reachable; revert h; apply rtc_ind_r; [|eauto using hook_step_ok].
  repeat split; cbn; [lia | constructor; [lia|constructor] | repeat constructor; cbn; tauto].
Qed.

(** Whatever is in flight can settle: the hook comes to rest. *)
Lemma hook_can_rest h : exists h', rtc (hook_step forced options) h h' /\ flying h' = [].
Proof.
  remember (length (flying h)) as n eqn:Hn; revert h Hn.
  induction n as [n IH] using lt_wf_ind; intros h ->.
  destruct (flying h) as [|id rest] eqn:Hfly; [by exists h|].
  destruct (IH (length (flying (settle id (Throw (TypeError "Failed to fetch"%string)) h)))) with
    (h := settle id (Throw (TypeError "Failed to fetch"%string)) h) as (h' & Hpath & Hrest); [|reflexivity|].
  - rewrite flying_settle, Hfly; cbn; rewrite Nat.eqb_refl; cbn.
    pose proof (List.filter_length_le (fun id' => negb (id' =? id)%nat) rest); lia.
  - exists h'; split; [|exact Hrest].
    eapply rtc_l; [|exact Hpath]. apply hook_settle; rewrite Hfly; by left.
Qed.

End HookFacts.

(** ** Triggers collapse, stale results are discarded *)

Section Collapsing.
Context {A : Type}.
Variable options : SwrOptions.
Implicit Types (h : Hook A) (t : Trigger) (r : result exn A).

(** A trigger that finds a request in flight issues none. *)
Lemma trigger_absorbed t h : isRefreshing h = true -> trigger false options t h = h.
Proof.
  intros Hbusy; unfold trigger, honoured; rewrite Hbusy.
  destruct t; cbn; rewrite ?andb_false_r; reflexivity.
Qed.

Lemma honoured_idle t h : honoured false options t h = true -> isRefreshing h = false.
Proof. destruct t; cbn; destruct (isRefreshing h); rewrite ?andb_false_r; done. Qed.

Lemma collapse_step h h' :
  (length (flying h) <= 1)%nat -> hook_step false options h h' -> (length (flying h') <= 1)%nat.
Proof.
  intros Hlen Hstep; destruct Hstep as [h t|h id r _].
  - destruct (isRefreshing h) eqn:Hbusy; [by rewrite trigger_absorbed|].
    unfold isRefreshing in Hbusy; destruct (flying h) eqn:Hfly; [|done].
    destruct (trigger_cases false options t h) as [[_ ->]|[_ ->]]; cbn; rewrite Hfly; cbn; lia.
  - rewrite flying_settle.
    pose proof (List.filter_length_le (fun id' => negb (id' =? id)%nat) (flying h)); lia.
Qed.

(** However the triggers arrive, at most one request is in flight. *)
Lemma one_request_in_flight h : hook_reachable false options h -> (length (flying h) <= 1)%nat.
Proof.
  unfold hook_reachable; revert h; apply rtc_ind_r; [cbn; lia|].
  intros h h' _ Hstep IH; exact (collapse_step _ _ IH Hstep).
Qed.

(** A burst of triggers with no result in between issues one request at
    most. *)
Lemma burst_issues_once (ts : list Trigger) h :
  (issued (foldr (trigger false options) h ts) <= S (issued h))%nat
  /\ (issued h < issued (foldr (trigger false options) h ts) ->
      isRefreshing (foldr (trigger false options) h ts) = true)%nat.
Proof.
  induction ts as [|t ts [IHle IHbusy]]; cbn; [split; lia|].
  destruct (trigger_cases false options t (foldr (trigger false options) h ts))
    as [[_ ->]|[Hon ->]]; [by split|cbn].
  apply honoured_idle in Hon as Hidle.
  split; [|intros _; unfold isRefreshing; cbn; by destruct (flying _)].
  destruct (Nat.lt_ge_cases (issued h) (issued (foldr (trigger false options) h ts)));
    [rewrite IHbusy in Hidle by done; done | lia].
Qed.

End Collapsing.

Section Guard.
Context {A : Type}.
Variable forced : bool.
Variable options : SwrOptions.
Implicit Types (h : Hook A) (r : result exn A).

(** Two requests in flight, the later one settles first: the result of
    the earlier one changes nothing of what is on display. *)
Lemma stale_result_discarded a b ra rb h :
  (a < b)%nat -> (landed h < b)%nat ->
  display (settle a ra (settle b rb h)) = display (settle b rb h).
Proof.
  intros Hab Hb; apply settle_stale.
  rewrite (proj1 (settle_fresh b rb h Hb)); lia.
Qed.

(** In their order of issue, both are put on display. *)
Lemma results_in_order a b ra b' h :
  (landed h < a)%nat -> (a < b)%nat ->
  display (settle b (Ok b') (settle a ra h)) = (Some b', None).
Proof.
  intros Ha Hab.
  refine (proj2 (settle_fresh b (Ok b') _ _)).
  rewrite (proj1 (settle_fresh a ra h Ha)); lia.
Qed.

End Guard.

(** ** The dashboard over its hook: what is proved *)

Section Retained.
Context {A : Type}.
Variable forced : bool.
Variable options : SwrOptions.

(** Once there is a snapshot there is one for good: a failure keeps it. *)
Lemma snapshot_retained (h h' : Hook A) :
  hook_step forced options h h' -> is_Some (snapshot h) -> is_Some (snapshot h').
Proof.
  intros [h0 t|h0 id r _] Hsome.
  - destruct (trigger_cases forced options t h0) as [[_ ->]|[_ ->]]; exact Hsome.
  - unfold settle; destruct (_ <? _)%nat, r; cbn; eauto.
Qed.

End Retained.

Section PolledFacts.
Context {host : Host}.
Implicit Types (p : Polled) (h : Hook LeadsResponse) (s : Sys).

Lemma renders_is_step h s : step s (renders h s).
Proof. exact (step_snapshot s (swr_of h)). Qed.

Lemma refreshes_path cs h : rtc (hook_step false queue_options) h (refreshes cs h).
Proof.
  revert h; induction cs as [|c cs IH]; intros h; cbn; [reflexivity|].
  destruct c; try apply IH.
  eapply rtc_l; [apply hook_trigger | apply IH].
Qed.

(** A step of the page over its hook is a path of the page of
    [Dashboard]: what holds of every state of that page holds here. *)
Lemma polled_step_path p p' : polled_step p p' -> rtc step (sys p) (sys p').
Proof.
  intros [p0 h' _|p0 s' Hstep _]; cbn.
  - apply rtc_once, renders_is_step.
  - eapply rtc_l; [exact Hstep | apply rtc_once, renders_is_step].
Qed.

Lemma polled_reachable_page p : polled_reachable p -> reachable (sys p).
Proof.
  unfold polled_reachable, reachable; revert p; apply rtc_ind_r; [reflexivity|].
  intros p p' _ Hstep IH; etrans; [exact IH | exact (polled_step_path _ _ Hstep)].
Qed.

Lemma polled_hook_reachable p :
  polled_reachable p -> hook_reachable false queue_options (hook p).
Proof.
  unfold polled_reachable, hook_reachable; revert p; apply rtc_ind_r; [reflexivity|].
  intros p p' _ [p0 h' Hstep|p0 s' _ _] IH; cbn.
  - eapply rtc_r; eassumption.
  - etrans; [exact IH | apply refreshes_path].
Qed.

(** The page always shows what its hook holds. *)
Lemma polled_shows_hook p : polled_reachable p -> swr (sys p) = swr_of (hook p).
Proof.
  unfold polled_reachable; revert p; apply rtc_ind_r; [reflexivity|].
  by intros p p' _ [] _.
Qed.

End PolledFacts.

Section Claims.
Context {host : Host}.

(** C16.  The dashboard over a hook that behaves as the specification says
    is the dashboard of [Dashboard]: every state it reaches is a state of
    that page, the page shows what the hook holds, and the hook has one
    request in flight at most, whatever the polls, the focus and the
    handlers ask for. *)
Theorem polled_over_hook p :
  polled_reachable p ->
  reachable (sys p) /\ swr (sys p) = swr_of (hook p) /\ (length (flying (hook p)) <= 1)%nat.
Proof.
  intros Hreach; split; [|split].
  - exact (polled_reachable_page p Hreach).
  - exact (polled_shows_hook p Hreach).
  - exact (one_request_in_flight _ _ (polled_hook_reachable p Hreach)).
Qed.

(** Refresh de-duplication: the triggers that arrive before a result
    does (the interval of [dates.ts], the focus, the [mutate] of a
    handler) issue one request at most. *)
Theorem refresh_deduplicated (ts : list Trigger) (h : Hook LeadsResponse) :
  (issued (foldr (trigger false queue_options) h ts) <= S (issued h))%nat.
Proof. exact (proj1 (burst_issues_once queue_options ts h)). Qed.

(** C17.  The stale-result guard of the conversation: a poll is in flight
    when a reply refreshes the messages; the refresh is issued at once,
    and when its result arrives before that of the poll, the result of the
    poll is discarded. *)
Theorem reply_refresh_wins {A} (h : Hook A) poll (fresh : A) (stale : result exn A) :
  hook_ok h -> In poll (flying h) ->
  let h1 := messages_trigger Refresh h in
  flying h1 = (flying h ++ [S (issued h)])%list
  /\ display (settle poll stale (settle (S (issued h)) (Ok fresh) h1)) = (Some fresh, None).
Proof.
  intros (Hland & Hfly & _) Hpoll; split; [reflexivity|].
  rewrite List.Forall_forall in Hfly; apply Hfly in Hpoll.
  rewrite stale_result_discarded by (cbn; lia).
  refine (proj2 (settle_fresh _ (Ok fresh) _ _)); cbn; lia.
Qed.

End Claims.

(** ** Examples *)

Section PolledTraces.
Context {host : Host}.

Definition one_lead : result exn LeadsResponse :=
  Ok {| response_leads := [phone_lead "p1"] |}.

(** The first response arrives, the operator sends to [p1], the interval
    elapses and the poll ends while the send is in flight. *)
Definition polled_unpending : Polled := {|
  sys := sys_idle (loaded false) [] [SingleSending "p1"] [CallSend "p1"];
  hook := {| snapshot := Some {| response_leads := [phone_lead "p1"] |}; lastError := None;
             issued := 2; landed := 2; flying := [] |} |}.

Lemma polled_unpending_reachable : polled_reachable polled_unpending.
Proof.
  unfold polled_reachable.
  eapply rtc_l; [refine (polled_hook mounted_page _ (hook_settle _ _ _ 1%nat one_lead _));
                 left; reflexivity|].
  eapply rtc_l; [refine (polled_page _ _ (step_single_click _ (phone_lead "p1") _ _ _) eq_refl);
                 [reflexivity | left; reflexivity | reflexivity]|].
  eapply rtc_l; [exact (polled_hook _ _ (hook_trigger _ _ _ Interval))|].
  eapply rtc_l; [refine (polled_hook _ _ (hook_settle _ _ _ 2%nat one_lead _));
                 left; reflexivity|].
  reflexivity.
Qed.

(** The send to [p1] can be started again while the first is in flight,
    with no more than a poll of the interval in between. *)
Example polled_reentrant_send :
  exists p, polled_reachable p /\ tasks (sys p) = [SingleSending "p1"; SingleSending "p1"].
Proof.
  eexists; split; [eapply rtc_r; [exact polled_unpending_reachable|]|].
  - refine (polled_page _ _ (step_single_click _ (phone_lead "p1") _ _ _) eq_refl);
      [reflexivity | left; reflexivity | reflexivity].
  - reflexivity.
Qed.

End PolledTraces.

Lemma polled_over_hook_witness :
  reachable (host := host_bucharest) (sys polled_unpending)
  /\ swr (sys polled_unpending) = swr_of (hook polled_unpending)
  /\ (length (flying (hook polled_unpending)) <= 1)%nat.
Proof.
  exact (polled_over_hook (host := host_bucharest) polled_unpending
           (polled_unpending_reachable (host := host_bucharest))).
Defined.

(** A reply sent while the poll of the mount is in flight: the refresh is
    the second request, and its result stays on display. *)
Lemma reply_refresh_wins_witness :
  let h1 := messages_trigger Refresh (mounted_hook (A := list nat)) in
  flying h1 = [1; 2]%nat
  /\ display (settle 1 (Ok [7]%nat) (settle 2 (Ok [7; 8]%nat) h1)) = (Some [7; 8]%nat, None).
Proof.
  apply (reply_refresh_wins mounted_hook 1%nat [7; 8]%nat (Ok [7]%nat)).
  - repeat split; cbn; [lia | constructor; [lia|constructor] | repeat constructor; cbn; tauto].
  - left; reflexivity.
Defined.

(** The intervals are those of the specification: 15 s for the queue,
    30 s for the chats, 5 s for the messages. *)
Example intervals :
  opt_refreshInterval queue_options = 15000%Z
  /\ opt_refreshInterval chats_options = 30000%Z
  /\ opt_refreshInterval messages_options = 5000%Z.
Proof. repeat split. Qed.

(** ** The conversation over its hook: what is proved *)

Lemma message_refreshes_path cs h :
  rtc (hook_step true messages_options) h (message_refreshes cs h).
Proof.
  revert h; induction cs as [|c cs IH]; intros h; cbn; [reflexivity|].
  destruct c; try apply IH.
  eapply rtc_l; [exact (hook_trigger _ _ _ Refresh) | apply IH].
Qed.

(** The panel over its hook is the panel of [Conversation], and its hook
    a hook of the specification. *)
Lemma panel_polled_refines propertyId p :
  panel_polled_reachable propertyId p ->
  panel_reachable propertyId (panel_sys p)
  /\ hook_reachable true messages_options (messages_hook p).
Proof.
  unfold panel_polled_reachable, panel_reachable, hook_reachable; revert p.
  apply rtc_ind_r; [split; reflexivity|].
  intros p p' _ [p0 h' Hstep|p0 s' Hstep] [IHp IHh]; cbn; split;
    [exact IHp | eapply rtc_r; eassumption | eapply rtc_r; eassumption |].
  etrans; [exact IHh | apply message_refreshes_path].
Qed.

(** A reply sent and accepted while the poll of the mount is in flight:
    the refresh of line 167 is a second request. *)
Example reply_during_poll :
  exists p, panel_polled_reachable "a" p
            /\ panel_calls (panel_sys p) = [CallMarkRead "a"; CallReply "a" "hello"; CallMessages]
            /\ flying (messages_hook p) = [1; 2]%nat.
Proof.
  eexists; split; [unfold panel_polled_reachable|].
  - eapply rtc_l; [exact (panel_polled_panel _ _ (pstep_render _))|].
    eapply rtc_l; [exact (panel_polled_panel _ _ (pstep_type _ "hello"))|].
    eapply rtc_l; [refine (panel_polled_panel _ _ (pstep_send _ _)); reflexivity|].
    apply rtc_once, panel_polled_panel, pstep_settle.
    refine (psettle_replied _ [MarkingRead "a"] [] (Ok tt) _); reflexivity.
  - split; reflexivity.
Qed.
