(* ===== verification/Session.v ===== *)
(** * Session: the browser between the login page, the guard and the pages

    The parts of the console that decide which page the operator sees
    are in four places: the guard of [src/frontend/middleware.ts] behind
    its matcher ([Routes.guard]); the effect of the login page that
    leaves for the dashboard when the script sees a token
    ([Login.token_effect], lines 13-21 of
    [src/frontend/src/pages/login.tsx]) and its [handleSubmit] (lines
    23-38); the effect of the dashboard and of the chats page that leaves
    for the login page on a response 401 ([Dashboard.auth_effect], lines
    125-129 of [src/frontend/src/lib/dates.ts], and
    [ChatsPage.chats_auth_effect], lines 98-102 of
    [src/frontend/src/pages/chats.tsx]); and the log-out button of
    [src/unnamed/part_002] ([Shell.handleLogout], lines 79-83).  This
    file runs them on one browser: [navigate] asks for a path and
    follows the redirections of the guard, [session_after] is what each
    event does, and [session_step] the session in time.

    What is not code of the repository is the browser.  A navigation of
    the router is a request that passes the guard, as a navigation of
    the address bar is.  [document_cookie] is the text a script reads:
    the cookies that are not HttpOnly, joined by a semicolon and a
    space.  The backend sets the token cookie when it accepts a login
    ([set_token], from the table of endpoints of the specification);
    whether it sets it HttpOnly is a parameter of that event.  Within a
    navigation the clock does not move; [Middleware] has the chain of
    redirections over a clock that does.  [navigate_from] takes three
    requests as fuel and [navigate_landing] shows that two are enough. *)

From Stdlib Require Import ZArith List Lia String Ascii.
From stdpp Require Import base tactics option list strings gmap relations.
From S2P Require Import Prelude JsValue JsString RefHost Leads Middleware Routes Login Shell.
From S2P Require Import Dashboard ChatsPage.

Local Open Scope string_scope.

(** ** The text of [document.cookie] *)

(** [parts.join("; ")] *)
Fixpoint join_cookies (parts : list string) : string :=
  match parts with
  | [] => ""
  | [part] => part
  | part :: rest => part +:+ "; " +:+ join_cookies rest
  end.

Definition cookie_text (entry : string * Cookie) : string :=
  entry.1 +:+ "=" +:+ cookie_value entry.2.

(** What a script reads: the cookies that are not HttpOnly. *)
Definition visible (jar : gmap string Cookie) : list (string * Cookie) :=
  List.filter (fun entry => negb (http_only entry.2)) (map_to_list jar).

Definition document_cookie (browser : Browser) : string :=
  join_cookies (List.map cookie_text (visible (jar browser))).

(** A name or a value that a jar accepts holds no semicolon, and a name
    no equals sign. *)
Definition no_char (c : ascii) (s : string) : Prop := ~ In c (list_ascii_of_string s).

Definition jar_ok (jar : gmap string Cookie) : Prop :=
  forall name cookie, jar !! name = Some cookie ->
    no_char ";" name /\ no_char "=" name /\ no_char ";" (cookie_value cookie).

(** ** Navigation *)

Section WithHost.
Context `{host : Host} `{decoder : Decoder}.

(** The browser asks for [path] and follows the redirections, dropping
    the cookies a response deletes. *)
Fixpoint navigate_from (fuel : nat) (now : Z) (path : string) (browser : Browser)
    : option Browser :=
  match fuel with
  | O => None
  | S fuel =>
      match guard now (request_for path browser) with
      | Next => Some {| jar := jar browser; location := path |}
      | Redirect url deleted =>
          navigate_from fuel now url
            {| jar := foldr delete (jar browser) deleted; location := location browser |}
      end
  end.

Definition navigate (now : Z) (path : string) (browser : Browser) : option Browser :=
  navigate_from 3 now path browser.

(** Where a navigation ends: at the path when the guard serves it, at
    the target of the redirection otherwise. *)
Definition landing (now : Z) (path : string) (browser : Browser) : Browser :=
  match guard now (request_for path browser) with
  | Next => {| jar := jar browser; location := path |}
  | Redirect url deleted => {| jar := foldr delete (jar browser) deleted; location := url |}
  end.

(** ** The session *)

Record Session : Type := {
  browser : Browser;
  clock : Z;
}.

Inductive SessionEvent : Type :=
| Visit (path : string)
| LoginEffect
| LoginAccepted (token : string) (httpOnly : bool)
| Failed (error : exn)
| LogoutClicked
| Later (now : Z).

(** The pages of the navigation ([NAV_ITEMS]): each holds a snapshot hook
    and, in its frame, the log-out button. *)
Definition console_page (path : string) : bool :=
  existsb (fun item => String.eqb path (href item)) NAV_ITEMS.

(** Where the effect of the page in the browser sends the router when a
    request of its hook fails with [error] (lines 125-129 of [dates.ts],
    98-102 of [chats.tsx]). *)
Definition page_effect (path : string) (error : exn) : option string :=
  if String.eqb path "/" then
    auth_effect {| data := None; swr_error := Some error;
                   isLoading := false; isValidating := false |}
  else if String.eqb path "/chats" then
    chats_auth_effect {| chat_data := None; chat_error := Some error; chat_isLoading := false |}
  else None.

(** The response to a login that the backend accepts sets the cookie. *)
Definition set_token (token : string) (httpOnly : bool) (browser : Browser) : Browser :=
  {| jar := <[AUTH_COOKIE := {| cookie_value := token; http_only := httpOnly |}]> (jar browser);
     location := location browser |}.

Definition arrive (now : Z) (arrived : option Browser) : option Session :=
  (fun browser => {| browser := browser; clock := now |}) <$> arrived.

(** What an event does, [None] when the page in the browser does not
    raise it. *)
Definition session_after (e : SessionEvent) (s : Session) : option Session :=
  let b := browser s in
  let now := clock s in
  match e with
  | Visit path => arrive now (navigate now path b)
  | LoginEffect =>
      if String.eqb (location b) "/login" then
        match token_effect (document_cookie b) with
        | Some path => arrive now (navigate now path b)
        | None => None
        end
      else None
  | LoginAccepted token httpOnly =>
      if String.eqb (location b) "/login"
      then arrive now (navigate now "/" (set_token token httpOnly b))
      else None
  | Failed error =>
      if console_page (location b) then
        match page_effect (location b) error with
        | Some path => arrive now (navigate now path b)
        | None => Some s
        end
      else None
  | LogoutClicked =>
      if console_page (location b) then arrive now (navigate now "/login" (handleLogout b))
      else None
  | Later now' =>
      if (now <=? now')%Z then Some {| browser := b; clock := now' |} else None
  end.

Inductive session_step : Session -> Session -> Prop :=
| session_event s e s' : session_after e s = Some s' -> session_step s s'.

(** A browser without cookies opens the login page. *)
Definition fresh (now : Z) : Session :=
  {| browser := {| jar := ∅; location := "/login" |}; clock := now |}.

Definition session_reachable (now : Z) (s : Session) : Prop := rtc session_step (fresh now) s.

(** The token the guard reads in the jar. *)
Definition token_of_jar (browser : Browser) : option string :=
  cookie_value <$> jar browser !! AUTH_COOKIE.

(** The page in the browser is one the guard lets through unread, the
    login page, or a page served to a token that is not empty and that
    had not expired at some moment of the session. *)
Definition session_ok (s : Session) : Prop :=
  let path := location (browser s) in
  matcher path = false \/ bypassed path = true \/ path = "/login"
  \/ exists token t, token_of_jar (browser s) = Some token /\ token <> ""
                     /\ (t <= clock s)%Z /\ isJwtExpired t token = false.

End WithHost.

(** ** Navigation settles *)

Section NavigationFacts.
Context `{host : Host} `{decoder : Decoder}.
Implicit Types (b : Browser) (s : Session).

Lemma request_for_follow path url deleted b l :
  request_for url {| jar := foldr delete (jar b) deleted; location := l |}
  = follow (request_for path b) (Redirect url deleted).
Proof.
  unfold request_for, follow; cbn; f_equal.
  induction deleted as [|name deleted IH]; cbn; [reflexivity|].
  rewrite fmap_delete, IH; reflexivity.
Qed.

(** At one instant the guard redirects once at most, to the login page or
    to the dashboard. *)
Lemma guard_redirect_once now request url deleted :
  guard now request = Redirect url deleted ->
  guard now (follow request (Redirect url deleted)) = Next.
Proof.
  unfold guard; destruct (matcher (pathname request)); [|discriminate]; intros Hredirect.
  pose proof (middleware_redirect_once now request url deleted Hredirect) as Hnext.
  apply middleware_redirect_inv in Hredirect as [[-> _]|(-> & _)]; exact Hnext.
Qed.

(** The fuel is enough, and a navigation ends where [landing] says. *)
Lemma navigate_landing now path b : navigate now path b = Some (landing now path b).
Proof.
  unfold navigate, landing; cbn [navigate_from].
  destruct (guard now (request_for path b)) as [|url deleted] eqn:Hguard; [reflexivity|].
  rewrite (request_for_follow path), (guard_redirect_once _ _ _ _ Hguard); reflexivity.
Qed.

Lemma navigate_total now path b : is_Some (navigate now path b).
Proof. rewrite navigate_landing; eauto. Qed.

(** It ends on a page that the guard serves to the jar it ends with. *)
Lemma landing_served now path b : guard now (request_of (landing now path b)) = Next.
Proof.
  unfold landing, request_of.
  destruct (guard now (request_for path b)) as [|url deleted] eqn:Hguard; cbn [location].
  - exact Hguard.
  - rewrite (request_for_follow path); exact (guard_redirect_once _ _ _ _ Hguard).
Qed.

(** A page that is served is one the guard lets through unread, the login
    page, or a page served to a token that has not expired. *)
Lemma served_token now b :
  guard now (request_of b) = Next ->
  matcher (location b) = false \/ bypassed (location b) = true \/ location b = "/login"
  \/ exists token, token_of_jar b = Some token /\ token <> "" /\ isJwtExpired now token = false.
Proof.
  unfold guard, request_of; cbn [pathname request_for].
  destruct (matcher (location b)); [|auto].
  destruct (bypassed (location b)) eqn:Hby; [auto|].
  destruct (String.eqb_spec (location b) "/login") as [Hlogin|Hpage]; [auto|].
  intros Hnext; do 3 right.
  apply middleware_Next_iff in Hnext as (token & Hjar & Hne & Hlive); [|assumption..].
  exists token; unfold token_of_jar; cbn in Hjar; rewrite lookup_fmap in Hjar; auto.
Qed.

End NavigationFacts.

(** ** The session *)

Section SessionFacts.
Context `{host : Host} `{decoder : Decoder}.
Implicit Types (b : Browser) (s : Session).

Lemma arrive_navigate now path b :
  arrive now (navigate now path b) = Some {| browser := landing now path b; clock := now |}.
Proof. rewrite navigate_landing; reflexivity. Qed.

(** An event is a navigation or the passing of time. *)
Lemma session_after_cases e s s' :
  session_after e s = Some s' ->
  (exists path b, s' = {| browser := landing (clock s) path b; clock := clock s |})
  \/ (exists now, (clock s <= now)%Z /\ s' = {| browser := browser s; clock := now |}).
Proof.
  destruct e as [path| |token httpOnly|error| |now]; cbn [session_after].
  - rewrite arrive_navigate; intros [= <-]; eauto.
  - destruct (String.eqb _ _); [|discriminate].
    destruct (token_effect _); [|discriminate].
    rewrite arrive_navigate; intros [= <-]; eauto.
  - destruct (String.eqb _ _); [|discriminate].
    rewrite arrive_navigate; intros [= <-]; eauto.
  - destruct (console_page _); [|discriminate].
    destruct (page_effect _ _); [rewrite arrive_navigate|]; intros [= <-]; eauto.
    right; exists (clock s); split; [lia | by destruct s].
  - destruct (console_page _); [|discriminate].
    rewrite arrive_navigate; intros [= <-]; eauto.
  - destruct (Z.leb_spec (clock s) now); [|discriminate].
    intros [= <-]; eauto.
Qed.

Lemma session_step_ok s s' : session_ok s -> session_step s s' -> session_ok s'.
Proof.
  intros Hok Hstep; destruct Hstep as [s e s' Hafter].
  apply session_after_cases in Hafter as [(path & b & ->)|(now & Hnow & ->)];
    unfold session_ok in *; cbn [browser clock].
  - destruct (served_token (clock s) _ (landing_served (clock s) path b))
      as [H|[H|[H|(token & Htoken & Hne & Hlive)]]]; auto.
    do 3 right; exists token, (clock s); split_and!; auto; lia.
  - destruct Hok as [H|[H|[H|(token & t & Htoken & Hne & Ht & Hlive)]]]; auto.
    do 3 right; exists token, t; split_and!; auto; lia.
Qed.

(** With a token that has not expired the guard serves every path but
    the login page, from which it sends the browser to the dashboard. *)
Lemma landing_live now path b token :
  token_of_jar b = Some token -> token <> "" -> isJwtExpired now token = false ->
  landing now path b
  = {| jar := jar b; location := if String.eqb path "/login" then "/" else path |}.
Proof.
  unfold token_of_jar; intros Hjar Hne%String.eqb_neq Hlive.
  unfold landing; rewrite guard_unfold; cbn [pathname cookies request_for].
  rewrite lookup_fmap, Hjar; cbn; unfold str_truthy; rewrite Hne, Hlive; cbn.
  destruct (String.eqb_spec path "/login") as [->|_]; [reflexivity|].
  by destruct (_ || _).
Qed.

(** Without a token the guard serves the login page, and sends the
    browser there from every path it reads the cookie for. *)
Lemma landing_signed_out now path b :
  token_of_jar b = None ->
  landing now path b
  = {| jar := jar b;
       location := if negb (matcher path) || PUBLIC_FILE_test path then path else "/login" |}.
Proof.
  unfold token_of_jar; intros Hjar.
  unfold landing; rewrite guard_unfold; cbn [pathname cookies request_for].
  rewrite lookup_fmap, Hjar; cbn.
  destruct (_ || _); [reflexivity|].
  by destruct (String.eqb_spec path "/login") as [->|_].
Qed.

End SessionFacts.

(** ** What the session guarantees, and what it does not *)

Section SessionTheorems.
Context `{host : Host} `{decoder : Decoder}.
Implicit Types (b : Browser) (s : Session).

(** In every state of a session that starts on the login page without
    cookies, the page in the browser is one the guard does not read the
    cookie for, the login page, or a page served to a token that was not
    empty and had not expired when it was served. *)
Theorem session_guarded now s : session_reachable now s -> session_ok s.
Proof.
  unfold session_reachable; revert s; apply rtc_ind_r; [right; right; left; reflexivity|].
  intros s s' _ Hstep IH; exact (session_step_ok s s' IH Hstep).
Qed.

(** On a console page an error with the status 401 sends the router
    to the login page, and no other error sends it anywhere. *)
Lemma page_effect_unauthorized path error :
  console_page path = true -> exn_truthy error = true ->
  page_effect path error = if is_unauthorized error then Some "/login" else None.
Proof.
  unfold console_page, page_effect, auth_effect, chats_auth_effect; cbn.
  intros Hpage ->; destruct (String.eqb path "/"); [reflexivity|].
  destruct (String.eqb path "/chats"); [reflexivity | discriminate Hpage].
Qed.

(** C24.  A response 401 does not bring the operator to the login page while
    the token of the jar has not expired by its own claim: the effect of
    the page replaces the route by the login page, the guard finds a
    token it takes for valid and sends the browser to the dashboard, and
    the session is where it was, ready for the next 401. *)
Theorem unauthorized_bounces s token error :
  console_page (location (browser s)) = true ->
  exn_truthy error = true -> is_unauthorized error = true ->
  token_of_jar (browser s) = Some token -> token <> "" ->
  isJwtExpired (clock s) token = false ->
  session_after (Failed error) s
  = Some {| browser := {| jar := jar (browser s); location := "/" |}; clock := clock s |}.
Proof.
  intros Hpage Herror H401 Htoken Hne Hlive; cbn [session_after].
  rewrite Hpage, (page_effect_unauthorized _ _ Hpage Herror), H401, arrive_navigate.
  rewrite (landing_live _ _ _ token Htoken Hne Hlive); reflexivity.
Qed.

(** Logging out with a token cookie that scripts can write: the cookie
    is gone and the browser is on the login page. *)
Theorem logout_signs_out s :
  console_page (location (browser s)) = true ->
  default false (http_only <$> jar (browser s) !! AUTH_COOKIE) = false ->
  session_after LogoutClicked s
  = Some {| browser := {| jar := delete AUTH_COOKIE (jar (browser s)); location := "/login" |};
            clock := clock s |}.
Proof.
  intros Hpage Hscript; cbn [session_after]; rewrite Hpage, arrive_navigate.
  replace (handleLogout (browser s))
    with {| jar := delete AUTH_COOKIE (jar (browser s)); location := "/login" |}
    by (unfold handleLogout; rewrite assign_LOGOUT_COOKIE, Hscript; reflexivity).
  rewrite landing_signed_out; [reflexivity|].
  unfold token_of_jar; cbn [jar]; rewrite lookup_delete_eq; reflexivity.
Qed.

(** With a token cookie that is HttpOnly and has not expired, no event of
    the console brings the browser to the login page: not logging out,
    not a 401, not asking for the page. *)
Theorem http_only_session_sticks s token e s' :
  jar (browser s) !! AUTH_COOKIE = Some {| cookie_value := token; http_only := true |} ->
  token <> "" -> isJwtExpired (clock s) token = false ->
  match e with LoginAccepted _ _ | Later _ => False | _ => True end ->
  location (browser s) <> "/login" ->
  session_after e s = Some s' ->
  jar (browser s') = jar (browser s) /\ location (browser s') <> "/login".
Proof.
  intros Hjar Hne Hlive He Hhere.
  assert (Hland : forall path b, jar b = jar (browser s) ->
    jar (landing (clock s) path b) = jar (browser s)
    /\ location (landing (clock s) path b) <> "/login").
  { intros path b Hb; rewrite (landing_live _ _ _ token); [|unfold token_of_jar|..]; cbn;
      rewrite ?Hb, ?Hjar; try done.
    split; [reflexivity|]; destruct (String.eqb_spec path "/login"); [discriminate|assumption]. }
  assert (Hout : jar (handleLogout (browser s)) = jar (browser s))
    by (unfold handleLogout; cbn [jar]; rewrite assign_LOGOUT_COOKIE, Hjar; reflexivity).
  destruct e as [path| |? ?|error| |?]; try destruct He; cbn [session_after];
    repeat (destruct (String.eqb _ _) || destruct (console_page _)
            || destruct (token_effect _) || destruct (page_effect _ _));
    try discriminate; rewrite ?arrive_navigate; intros [= <-]; cbn [browser];
    try (apply Hland; done); done.
Qed.

End SessionTheorems.

(** ** The text of [document.cookie], split again *)

Lemma append_String a s t : String a s +:+ t = String a (s +:+ t).
Proof. reflexivity. Qed.

Lemma append_nil_l s : "" +:+ s = s.
Proof. reflexivity. Qed.

Lemma no_char_String c a s : no_char c (String a s) <-> a <> c /\ no_char c s.
Proof. unfold no_char; cbn; intuition. Qed.

Lemma no_char_append c s t : no_char c s -> no_char c t -> no_char c (s +:+ t).
Proof.
  induction s as [|a s IH]; [intros _ Ht; exact Ht|].
  rewrite append_String, !no_char_String.
  intros [Ha Hs] Ht; auto.
Qed.

Lemma split_cookies_other c r :
  c <> ";"%char ->
  split_cookies (String c r)
  = match split_cookies r with [] => [String c ""] | h :: t => String c h :: t end.
Proof.
  intros Hc; destruct c as [[] [] [] [] [] [] [] []]; try reflexivity.
  destruct Hc; reflexivity.
Qed.

(** A part without a semicolon comes back as it went in. *)
Lemma split_cookies_separator part rest :
  no_char ";" part ->
  split_cookies (part +:+ "; " +:+ rest) = part :: split_cookies rest.
Proof.
  induction part as [|c part IH]; [reflexivity|]; rewrite append_String.
  intros [Hc Hpart]%no_char_String; rewrite (split_cookies_other _ _ Hc), (IH Hpart).
  reflexivity.
Qed.

Lemma split_cookies_part part : no_char ";" part -> split_cookies part = [part].
Proof.
  induction part as [|c part IH]; [reflexivity|].
  intros [Hc Hpart]%no_char_String; rewrite (split_cookies_other _ _ Hc), (IH Hpart).
  reflexivity.
Qed.

(** Splitting what was joined gives the parts back, when there is a part
    and no part holds a semicolon. *)
Lemma split_join_cookies parts :
  parts <> [] -> Forall (no_char ";") parts -> split_cookies (join_cookies parts) = parts.
Proof.
  induction parts as [|part [|next parts] IH]; [done|..]; intros _ Hparts.
  - apply split_cookies_part, (Forall_inv Hparts).
  - change (join_cookies (part :: next :: parts))
      with (part +:+ "; " +:+ join_cookies (next :: parts)).
    rewrite split_cookies_separator, IH;
      [reflexivity | discriminate | exact (Forall_inv_tail Hparts) | exact (Forall_inv Hparts)].
Qed.

(** A name without an equals sign starts with [p=] exactly when it is [p]. *)
Lemma prefix_name p name rest :
  no_char "=" p -> no_char "=" name ->
  String.prefix (p +:+ "=") (name +:+ "=" +:+ rest) = true <-> name = p.
Proof.
  revert name; induction p as [|a p IH]; intros [|c name];
    rewrite ?no_char_String, ?append_String, ?append_nil_l; intros Hp Hname;
    cbn [String.prefix];
    repeat match goal with |- context [ascii_dec ?x ?y] => destruct (ascii_dec x y) end;
    subst; try tauto; try (split; congruence); [by destruct rest|].
  specialize (IH name); change ("=" +:+ rest) with (String "=" rest) in IH.
  rewrite IH by tauto; split; congruence.
Qed.

Section CookieText.
Implicit Types (b : Browser).

Lemma visible_In b name cookie :
  In (name, cookie) (visible (jar b))
  <-> jar b !! name = Some cookie /\ http_only cookie = false.
Proof.
  unfold visible; rewrite filter_In, <- list_elem_of_In, elem_of_map_to_list; cbn.
  rewrite negb_true_iff; reflexivity.
Qed.

Lemma cookie_text_ok b entry :
  jar_ok (jar b) -> In entry (visible (jar b)) -> no_char ";" (cookie_text entry).
Proof.
  destruct entry as [name cookie]; intros Hok [Hjar _]%visible_In.
  destruct (Hok name cookie Hjar) as (Hname & _ & Hvalue).
  apply no_char_append; [exact Hname|]; apply (no_char_append _ "="); [|exact Hvalue].
  unfold no_char; cbn; intros [[=]|[]].
Qed.

(** The effect of the login page leaves for the dashboard exactly when
    the jar holds a token cookie that scripts can read, whatever its
    value: an empty one counts, an HttpOnly one does not. *)
Theorem login_effect_iff b :
  jar_ok (jar b) ->
  token_effect (document_cookie b) = Some "/"
  <-> exists cookie, jar b !! AUTH_COOKIE = Some cookie /\ http_only cookie = false.
Proof.
  intros Hok; rewrite token_effect_Some; unfold document_cookie.
  destruct (visible (jar b)) as [|entry entries] eqn:Hvisible.
  - split; [intros (part & [<-|[]] & Hpart); discriminate Hpart|].
    intros (cookie & Hin%visible_In); rewrite Hvisible in Hin; destruct Hin.
  - rewrite split_join_cookies;
      [|discriminate|apply List.Forall_forall; intros part (e & <- & He)%in_map_iff;
                     rewrite <- Hvisible in He; exact (cookie_text_ok b e Hok He)].
    rewrite <- Hvisible; clear Hvisible; split.
    + intros (part & ([name cookie] & <- & Hin)%in_map_iff & Hpart).
      pose proof Hin as [Hjar Hscript]%visible_In.
      unfold startsWith, cookie_text in Hpart; cbn [fst snd] in Hpart.
      apply (prefix_name "crmrebs_token" name) in Hpart;
        [subst name; eauto | unfold no_char; cbn; intuition discriminate
        | apply (Hok _ _ Hjar)].
    + intros (cookie & Hjar & Hscript); exists (cookie_text (AUTH_COOKIE, cookie)).
      split; [apply in_map, visible_In; auto|].
      apply (prefix_name "crmrebs_token"); [| |reflexivity];
        unfold no_char; cbn; intuition discriminate.
Qed.

End CookieText.

(** ** Examples *)

Section SessionExamples.
Existing Instance sample_decoder.

Definition session_at (path : string) (token : string) (httpOnly : bool) : Session := {|
  browser := {| jar := {[AUTH_COOKIE := {| cookie_value := token; http_only := httpOnly |}]};
                location := path |};
  clock := guard_now |}.

Let after := session_after (host := host_bucharest) (decoder := sample_decoder).

(** The answer of the backend to a token it does not accept. *)
Definition unauthorized : exn := ApiError "Unauthorized" 401 VUndefined.

(** The operator logs in, the backend answers a request with 401, the
    operator logs out. *)
Example session_examples :
  after (LoginAccepted live_token false) (fresh guard_now)
  = Some (session_at "/" live_token false)
  /\ after (Failed unauthorized) (session_at "/chats" live_token false)
     = Some (session_at "/" live_token false)
  /\ after LogoutClicked (session_at "/" live_token false) = Some (fresh guard_now)
  /\ after LogoutClicked (session_at "/" live_token true) = Some (session_at "/" live_token true)
  /\ after (Visit "/chats") (fresh guard_now) = Some (fresh guard_now)
  /\ after (Visit "/chats") (session_at "/" stale_token false) = Some (fresh guard_now).
Proof. vm_compute; repeat split; reflexivity. Qed.

(** A token cookie with an empty value: the effect of the login page
    leaves for the dashboard, the guard sends the browser back, and the
    effect is there to run again. *)
Example empty_token_loops :
  after LoginEffect (session_at "/login" "" false) = Some (session_at "/login" "" false).
Proof. vm_compute; reflexivity. Qed.

Lemma session_logged_in :
  session_reachable (host := host_bucharest) guard_now (session_at "/" live_token false).
Proof.
  apply rtc_once, (session_event _ (LoginAccepted live_token false)); vm_compute; reflexivity.
Qed.

End SessionExamples.

Lemma unauthorized_bounces_witness :
  session_after (host := host_bucharest) (decoder := sample_decoder) (Failed unauthorized)
    (session_at "/chats" live_token false)
  = Some (session_at "/" live_token false).
Proof.
  apply (unauthorized_bounces (host := host_bucharest) (decoder := sample_decoder)
           (session_at "/chats" live_token false) live_token unauthorized);
    [reflexivity | reflexivity | reflexivity | reflexivity | discriminate
    | vm_compute; reflexivity].
Defined.
